(** * Countries catalogue: filtering, lookup and search-input pipeline

    A shallow embedding of the logic of [js/index.js], [js/details.js] and
    [js/common.js]: the text normaliser [normalize], the filter callback of
    [updateGrid], the two variants of [findCountryByName], the search-box
    sanitiser and the fetch / render flow of [updateGrid]; then the first
    load of the grid, the region dropdown, the link of a grid card with
    [getQueryParameter], the two listeners of the detail page and the theme
    toggle.

    JavaScript strings are sequences of UTF-16 code units, so a string is a
    [list N] of code units.  The built-ins the source calls
    ([String.prototype.normalize], [replace], [toLowerCase], [startsWith],
    [trim], [Array.prototype.filter], [Array.prototype.find],
    [encodeURIComponent], [URLSearchParams], [classList], [localStorage]) are
    written out over that representation, driven by the tables of the
    Unicode Character Database (version 14.0.0). *)

From Stdlib Require Import String Ascii List Arith NArith Bool Lia.
Import ListNotations.
Local Open Scope N_scope.

(** ** Strings as UTF-16 code units *)

Definition jsstring := list N.

(** An ASCII literal of the source, as code units. *)
Fixpoint str (s : string) : jsstring :=
  match s with
  | EmptyString => []
  | String a rest => N_of_ascii a :: str rest
  end.

(** [a === b] on two strings: same length and same code units. *)
Fixpoint strict_eq (a b : jsstring) : bool :=
  match a, b with
  | [], [] => true
  | x :: a', y :: b' => (x =? y) && strict_eq a' b'
  | _, _ => false
  end.

(** [s.startsWith(p)], compared code unit by code unit. *)
Fixpoint startsWith (s p : jsstring) {struct p} : bool :=
  match p with
  | [] => true
  | y :: p' =>
      match s with
      | [] => false
      | x :: s' => (x =? y) && startsWith s' p'
      end
  end.

Module Utf16.

Definition is_code_unit (u : N) : bool := u <? 0x10000.
Definition is_high_surrogate (u : N) : bool := (0xD800 <=? u) && (u <=? 0xDBFF).
Definition is_low_surrogate (u : N) : bool := (0xDC00 <=? u) && (u <=? 0xDFFF).
Definition is_surrogate (u : N) : bool := (0xD800 <=? u) && (u <=? 0xDFFF).

Definition pair_code_point (hi lo : N) : N :=
  0x10000 + (hi - 0xD800) * 0x400 + (lo - 0xDC00).

(** The code points of a string: a high surrogate followed by a low one is
    one supplementary code point, any other unit (an unpaired surrogate
    included) is a code point by itself. *)
Fixpoint code_points (s : jsstring) : list N :=
  match s with
  | [] => []
  | u :: rest =>
      match rest with
      | [] => [u]
      | lo :: rest' =>
          if is_high_surrogate u && is_low_surrogate lo
          then pair_code_point u lo :: code_points rest'
          else u :: code_points rest
      end
  end.

Definition code_units (c : N) : jsstring :=
  if c <? 0x10000 then [c]
  else [0xD800 + (c - 0x10000) / 0x400; 0xDC00 + (c - 0x10000) mod 0x400].

Definition from_code_points (l : list N) : jsstring := flat_map code_units l.

(** A string of 16-bit units in which every surrogate is paired. *)
Definition well_formed (s : jsstring) : bool :=
  forallb is_code_unit s && forallb (fun c => negb (is_surrogate c)) (code_points s).

End Utf16.

(** ** Unicode Character Database 14.0.0

    [canonical_decomposition]: the full canonical decomposition of every code
    point that has one, Hangul syllables apart (they are decomposed by
    arithmetic).  [combining_class]: the ranges of code points whose
    Canonical_Combining_Class is not 0.  [lowercase_mapping]: the full
    lowercase mapping of every code point that changes.  [case_ignorable] and
    [cased]: the ranges of the two properties the Final_Sigma rule reads. *)

Module UCD.

Definition canonical_decomposition : list (N * list N) := [
  (0x00C0, [0x0041; 0x0300]); (0x00C1, [0x0041; 0x0301]); (0x00C2, [0x0041; 0x0302]); (0x00C3, [0x0041; 0x0303]);
  (0x00C4, [0x0041; 0x0308]); (0x00C5, [0x0041; 0x030A]); (0x00C7, [0x0043; 0x0327]); (0x00C8, [0x0045; 0x0300]);
  (0x00C9, [0x0045; 0x0301]); (0x00CA, [0x0045; 0x0302]); (0x00CB, [0x0045; 0x0308]); (0x00CC, [0x0049; 0x0300]);
  (0x00CD, [0x0049; 0x0301]); (0x00CE, [0x0049; 0x0302]); (0x00CF, [0x0049; 0x0308]); (0x00D1, [0x004E; 0x0303]);
  (0x00D2, [0x004F; 0x0300]); (0x00D3, [0x004F; 0x0301]); (0x00D4, [0x004F; 0x0302]); (0x00D5, [0x004F; 0x0303]);
  (0x00D6, [0x004F; 0x0308]); (0x00D9, [0x0055; 0x0300]); (0x00DA, [0x0055; 0x0301]); (0x00DB, [0x0055; 0x0302]);
  (0x00DC, [0x0055; 0x0308]); (0x00DD, [0x0059; 0x0301]); (0x00E0, [0x0061; 0x0300]); (0x00E1, [0x0061; 0x0301]);
  (0x00E2, [0x0061; 0x0302]); (0x00E3, [0x0061; 0x0303]); (0x00E4, [0x0061; 0x0308]); (0x00E5, [0x0061; 0x030A]);
  (0x00E7, [0x0063; 0x0327]); (0x00E8, [0x0065; 0x0300]); (0x00E9, [0x0065; 0x0301]); (0x00EA, [0x0065; 0x0302]);
  (0x00EB, [0x0065; 0x0308]); (0x00EC, [0x0069; 0x0300]); (0x00ED, [0x0069; 0x0301]); (0x00EE, [0x0069; 0x0302]);
  (0x00EF, [0x0069; 0x0308]); (0x00F1, [0x006E; 0x0303]); (0x00F2, [0x006F; 0x0300]); (0x00F3, [0x006F; 0x0301]);
  (0x00F4, [0x006F; 0x0302]); (0x00F5, [0x006F; 0x0303]); (0x00F6, [0x006F; 0x0308]); (0x00F9, [0x0075; 0x0300]);
  (0x00FA, [0x0075; 0x0301]); (0x00FB, [0x0075; 0x0302]); (0x00FC, [0x0075; 0x0308]); (0x00FD, [0x0079; 0x0301]);
  (0x00FF, [0x0079; 0x0308]); (0x0100, [0x0041; 0x0304]); (0x0101, [0x0061; 0x0304]); (0x0102, [0x0041; 0x0306]);
  (0x0103, [0x0061; 0x0306]); (0x0104, [0x0041; 0x0328]); (0x0105, [0x0061; 0x0328]); (0x0106, [0x0043; 0x0301]);
  (0x0107, [0x0063; 0x0301]); (0x0108, [0x0043; 0x0302]); (0x0109, [0x0063; 0x0302]); (0x010A, [0x0043; 0x0307]);
  (0x010B, [0x0063; 0x0307]); (0x010C, [0x0043; 0x030C]); (0x010D, [0x0063; 0x030C]); (0x010E, [0x0044; 0x030C]);
  (0x010F, [0x0064; 0x030C]); (0x0112, [0x0045; 0x0304]); (0x0113, [0x0065; 0x0304]); (0x0114, [0x0045; 0x0306]);
  (0x0115, [0x0065; 0x0306]); (0x0116, [0x0045; 0x0307]); (0x0117, [0x0065; 0x0307]); (0x0118, [0x0045; 0x0328]);
  (0x0119, [0x0065; 0x0328]); (0x011A, [0x0045; 0x030C]); (0x011B, [0x0065; 0x030C]); (0x011C, [0x0047; 0x0302]);
  (0x011D, [0x0067; 0x0302]); (0x011E, [0x0047; 0x0306]); (0x011F, [0x0067; 0x0306]); (0x0120, [0x0047; 0x0307]);
  (0x0121, [0x0067; 0x0307]); (0x0122, [0x0047; 0x0327]); (0x0123, [0x0067; 0x0327]); (0x0124, [0x0048; 0x0302]);
  (0x0125, [0x0068; 0x0302]); (0x0128, [0x0049; 0x0303]); (0x0129, [0x0069; 0x0303]); (0x012A, [0x0049; 0x0304]);
  (0x012B, [0x0069; 0x0304]); (0x012C, [0x0049; 0x0306]); (0x012D, [0x0069; 0x0306]); (0x012E, [0x0049; 0x0328]);
  (0x012F, [0x0069; 0x0328]); (0x0130, [0x0049; 0x0307]); (0x0134, [0x004A; 0x0302]); (0x0135, [0x006A; 0x0302]);
  (0x0136, [0x004B; 0x0327]); (0x0137, [0x006B; 0x0327]); (0x0139, [0x004C; 0x0301]); (0x013A, [0x006C; 0x0301]);
  (0x013B, [0x004C; 0x0327]); (0x013C, [0x006C; 0x0327]); (0x013D, [0x004C; 0x030C]); (0x013E, [0x006C; 0x030C]);
  (0x0143, [0x004E; 0x0301]); (0x0144, [0x006E; 0x0301]); (0x0145, [0x004E; 0x0327]); (0x0146, [0x006E; 0x0327]);
  (0x0147, [0x004E; 0x030C]); (0x0148, [0x006E; 0x030C]); (0x014C, [0x004F; 0x0304]); (0x014D, [0x006F; 0x0304]);
  (0x014E, [0x004F; 0x0306]); (0x014F, [0x006F; 0x0306]); (0x0150, [0x004F; 0x030B]); (0x0151, [0x006F; 0x030B]);
  (0x0154, [0x0052; 0x0301]); (0x0155, [0x0072; 0x0301]); (0x0156, [0x0052; 0x0327]); (0x0157, [0x0072; 0x0327]);
  (0x0158, [0x0052; 0x030C]); (0x0159, [0x0072; 0x030C]); (0x015A, [0x0053; 0x0301]); (0x015B, [0x0073; 0x0301]);
  (0x015C, [0x0053; 0x0302]); (0x015D, [0x0073; 0x0302]); (0x015E, [0x0053; 0x0327]); (0x015F, [0x0073; 0x0327]);
  (0x0160, [0x0053; 0x030C]); (0x0161, [0x0073; 0x030C]); (0x0162, [0x0054; 0x0327]); (0x0163, [0x0074; 0x0327]);
  (0x0164, [0x0054; 0x030C]); (0x0165, [0x0074; 0x030C]); (0x0168, [0x0055; 0x0303]); (0x0169, [0x0075; 0x0303]);
  (0x016A, [0x0055; 0x0304]); (0x016B, [0x0075; 0x0304]); (0x016C, [0x0055; 0x0306]); (0x016D, [0x0075; 0x0306]);
  (0x016E, [0x0055; 0x030A]); (0x016F, [0x0075; 0x030A]); (0x0170, [0x0055; 0x030B]); (0x0171, [0x0075; 0x030B]);
  (0x0172, [0x0055; 0x0328]); (0x0173, [0x0075; 0x0328]); (0x0174, [0x0057; 0x0302]); (0x0175, [0x0077; 0x0302]);
  (0x0176, [0x0059; 0x0302]); (0x0177, [0x0079; 0x0302]); (0x0178, [0x0059; 0x0308]); (0x0179, [0x005A; 0x0301]);
  (0x017A, [0x007A; 0x0301]); (0x017B, [0x005A; 0x0307]); (0x017C, [0x007A; 0x0307]); (0x017D, [0x005A; 0x030C]);
  (0x017E, [0x007A; 0x030C]); (0x01A0, [0x004F; 0x031B]); (0x01A1, [0x006F; 0x031B]); (0x01AF, [0x0055; 0x031B]);
  (0x01B0, [0x0075; 0x031B]); (0x01CD, [0x0041; 0x030C]); (0x01CE, [0x0061; 0x030C]); (0x01CF, [0x0049; 0x030C]);
  (0x01D0, [0x0069; 0x030C]); (0x01D1, [0x004F; 0x030C]); (0x01D2, [0x006F; 0x030C]); (0x01D3, [0x0055; 0x030C]);
  (0x01D4, [0x0075; 0x030C]); (0x01D5, [0x0055; 0x0308; 0x0304]); (0x01D6, [0x0075; 0x0308; 0x0304]); (0x01D7, [0x0055; 0x0308; 0x0301]);
  (0x01D8, [0x0075; 0x0308; 0x0301]); (0x01D9, [0x0055; 0x0308; 0x030C]); (0x01DA, [0x0075; 0x0308; 0x030C]); (0x01DB, [0x0055; 0x0308; 0x0300]);
  (0x01DC, [0x0075; 0x0308; 0x0300]); (0x01DE, [0x0041; 0x0308; 0x0304]); (0x01DF, [0x0061; 0x0308; 0x0304]); (0x01E0, [0x0041; 0x0307; 0x0304]);
  (0x01E1, [0x0061; 0x0307; 0x0304]); (0x01E2, [0x00C6; 0x0304]); (0x01E3, [0x00E6; 0x0304]); (0x01E6, [0x0047; 0x030C]);
  (0x01E7, [0x0067; 0x030C]); (0x01E8, [0x004B; 0x030C]); (0x01E9, [0x006B; 0x030C]); (0x01EA, [0x004F; 0x0328]);
  (0x01EB, [0x006F; 0x0328]); (0x01EC, [0x004F; 0x0328; 0x0304]); (0x01ED, [0x006F; 0x0328; 0x0304]); (0x01EE, [0x01B7; 0x030C]);
  (0x01EF, [0x0292; 0x030C]); (0x01F0, [0x006A; 0x030C]); (0x01F4, [0x0047; 0x0301]); (0x01F5, [0x0067; 0x0301]);
  (0x01F8, [0x004E; 0x0300]); (0x01F9, [0x006E; 0x0300]); (0x01FA, [0x0041; 0x030A; 0x0301]); (0x01FB, [0x0061; 0x030A; 0x0301]);
  (0x01FC, [0x00C6; 0x0301]); (0x01FD, [0x00E6; 0x0301]); (0x01FE, [0x00D8; 0x0301]); (0x01FF, [0x00F8; 0x0301]);
  (0x0200, [0x0041; 0x030F]); (0x0201, [0x0061; 0x030F]); (0x0202, [0x0041; 0x0311]); (0x0203, [0x0061; 0x0311]);
  (0x0204, [0x0045; 0x030F]); (0x0205, [0x0065; 0x030F]); (0x0206, [0x0045; 0x0311]); (0x0207, [0x0065; 0x0311]);
  (0x0208, [0x0049; 0x030F]); (0x0209, [0x0069; 0x030F]); (0x020A, [0x0049; 0x0311]); (0x020B, [0x0069; 0x0311]);
  (0x020C, [0x004F; 0x030F]); (0x020D, [0x006F; 0x030F]); (0x020E, [0x004F; 0x0311]); (0x020F, [0x006F; 0x0311]);
  (0x0210, [0x0052; 0x030F]); (0x0211, [0x0072; 0x030F]); (0x0212, [0x0052; 0x0311]); (0x0213, [0x0072; 0x0311]);
  (0x0214, [0x0055; 0x030F]); (0x0215, [0x0075; 0x030F]); (0x0216, [0x0055; 0x0311]); (0x0217, [0x0075; 0x0311]);
  (0x0218, [0x0053; 0x0326]); (0x0219, [0x0073; 0x0326]); (0x021A, [0x0054; 0x0326]); (0x021B, [0x0074; 0x0326]);
  (0x021E, [0x0048; 0x030C]); (0x021F, [0x0068; 0x030C]); (0x0226, [0x0041; 0x0307]); (0x0227, [0x0061; 0x0307]);
  (0x0228, [0x0045; 0x0327]); (0x0229, [0x0065; 0x0327]); (0x022A, [0x004F; 0x0308; 0x0304]); (0x022B, [0x006F; 0x0308; 0x0304]);
  (0x022C, [0x004F; 0x0303; 0x0304]); (0x022D, [0x006F; 0x0303; 0x0304]); (0x022E, [0x004F; 0x0307]); (0x022F, [0x006F; 0x0307]);
  (0x0230, [0x004F; 0x0307; 0x0304]); (0x0231, [0x006F; 0x0307; 0x0304]); (0x0232, [0x0059; 0x0304]); (0x0233, [0x0079; 0x0304]);
  (0x0340, [0x0300]); (0x0341, [0x0301]); (0x0343, [0x0313]); (0x0344, [0x0308; 0x0301]);
  (0x0374, [0x02B9]); (0x037E, [0x003B]); (0x0385, [0x00A8; 0x0301]); (0x0386, [0x0391; 0x0301]);
  (0x0387, [0x00B7]); (0x0388, [0x0395; 0x0301]); (0x0389, [0x0397; 0x0301]); (0x038A, [0x0399; 0x0301]);
  (0x038C, [0x039F; 0x0301]); (0x038E, [0x03A5; 0x0301]); (0x038F, [0x03A9; 0x0301]); (0x0390, [0x03B9; 0x0308; 0x0301]);
  (0x03AA, [0x0399; 0x0308]); (0x03AB, [0x03A5; 0x0308]); (0x03AC, [0x03B1; 0x0301]); (0x03AD, [0x03B5; 0x0301]);
  (0x03AE, [0x03B7; 0x0301]); (0x03AF, [0x03B9; 0x0301]); (0x03B0, [0x03C5; 0x0308; 0x0301]); (0x03CA, [0x03B9; 0x0308]);
  (0x03CB, [0x03C5; 0x0308]); (0x03CC, [0x03BF; 0x0301]); (0x03CD, [0x03C5; 0x0301]); (0x03CE, [0x03C9; 0x0301]);
  (0x03D3, [0x03D2; 0x0301]); (0x03D4, [0x03D2; 0x0308]); (0x0400, [0x0415; 0x0300]); (0x0401, [0x0415; 0x0308]);
  (0x0403, [0x0413; 0x0301]); (0x0407, [0x0406; 0x0308]); (0x040C, [0x041A; 0x0301]); (0x040D, [0x0418; 0x0300]);
  (0x040E, [0x0423; 0x0306]); (0x0419, [0x0418; 0x0306]); (0x0439, [0x0438; 0x0306]); (0x0450, [0x0435; 0x0300]);
  (0x0451, [0x0435; 0x0308]); (0x0453, [0x0433; 0x0301]); (0x0457, [0x0456; 0x0308]); (0x045C, [0x043A; 0x0301]);
  (0x045D, [0x0438; 0x0300]); (0x045E, [0x0443; 0x0306]); (0x0476, [0x0474; 0x030F]); (0x0477, [0x0475; 0x030F]);
  (0x04C1, [0x0416; 0x0306]); (0x04C2, [0x0436; 0x0306]); (0x04D0, [0x0410; 0x0306]); (0x04D1, [0x0430; 0x0306]);
  (0x04D2, [0x0410; 0x0308]); (0x04D3, [0x0430; 0x0308]); (0x04D6, [0x0415; 0x0306]); (0x04D7, [0x0435; 0x0306]);
  (0x04DA, [0x04D8; 0x0308]); (0x04DB, [0x04D9; 0x0308]); (0x04DC, [0x0416; 0x0308]); (0x04DD, [0x0436; 0x0308]);
  (0x04DE, [0x0417; 0x0308]); (0x04DF, [0x0437; 0x0308]); (0x04E2, [0x0418; 0x0304]); (0x04E3, [0x0438; 0x0304]);
  (0x04E4, [0x0418; 0x0308]); (0x04E5, [0x0438; 0x0308]); (0x04E6, [0x041E; 0x0308]); (0x04E7, [0x043E; 0x0308]);
  (0x04EA, [0x04E8; 0x0308]); (0x04EB, [0x04E9; 0x0308]); (0x04EC, [0x042D; 0x0308]); (0x04ED, [0x044D; 0x0308]);
  (0x04EE, [0x0423; 0x0304]); (0x04EF, [0x0443; 0x0304]); (0x04F0, [0x0423; 0x0308]); (0x04F1, [0x0443; 0x0308]);
  (0x04F2, [0x0423; 0x030B]); (0x04F3, [0x0443; 0x030B]); (0x04F4, [0x0427; 0x0308]); (0x04F5, [0x0447; 0x0308]);
  (0x04F8, [0x042B; 0x0308]); (0x04F9, [0x044B; 0x0308]); (0x0622, [0x0627; 0x0653]); (0x0623, [0x0627; 0x0654]);
  (0x0624, [0x0648; 0x0654]); (0x0625, [0x0627; 0x0655]); (0x0626, [0x064A; 0x0654]); (0x06C0, [0x06D5; 0x0654]);
  (0x06C2, [0x06C1; 0x0654]); (0x06D3, [0x06D2; 0x0654]); (0x0929, [0x0928; 0x093C]); (0x0931, [0x0930; 0x093C]);
  (0x0934, [0x0933; 0x093C]); (0x0958, [0x0915; 0x093C]); (0x0959, [0x0916; 0x093C]); (0x095A, [0x0917; 0x093C]);
  (0x095B, [0x091C; 0x093C]); (0x095C, [0x0921; 0x093C]); (0x095D, [0x0922; 0x093C]); (0x095E, [0x092B; 0x093C]);
  (0x095F, [0x092F; 0x093C]); (0x09CB, [0x09C7; 0x09BE]); (0x09CC, [0x09C7; 0x09D7]); (0x09DC, [0x09A1; 0x09BC]);
  (0x09DD, [0x09A2; 0x09BC]); (0x09DF, [0x09AF; 0x09BC]); (0x0A33, [0x0A32; 0x0A3C]); (0x0A36, [0x0A38; 0x0A3C]);
  (0x0A59, [0x0A16; 0x0A3C]); (0x0A5A, [0x0A17; 0x0A3C]); (0x0A5B, [0x0A1C; 0x0A3C]); (0x0A5E, [0x0A2B; 0x0A3C]);
  (0x0B48, [0x0B47; 0x0B56]); (0x0B4B, [0x0B47; 0x0B3E]); (0x0B4C, [0x0B47; 0x0B57]); (0x0B5C, [0x0B21; 0x0B3C]);
  (0x0B5D, [0x0B22; 0x0B3C]); (0x0B94, [0x0B92; 0x0BD7]); (0x0BCA, [0x0BC6; 0x0BBE]); (0x0BCB, [0x0BC7; 0x0BBE]);
  (0x0BCC, [0x0BC6; 0x0BD7]); (0x0C48, [0x0C46; 0x0C56]); (0x0CC0, [0x0CBF; 0x0CD5]); (0x0CC7, [0x0CC6; 0x0CD5]);
  (0x0CC8, [0x0CC6; 0x0CD6]); (0x0CCA, [0x0CC6; 0x0CC2]); (0x0CCB, [0x0CC6; 0x0CC2; 0x0CD5]); (0x0D4A, [0x0D46; 0x0D3E]);
  (0x0D4B, [0x0D47; 0x0D3E]); (0x0D4C, [0x0D46; 0x0D57]); (0x0DDA, [0x0DD9; 0x0DCA]); (0x0DDC, [0x0DD9; 0x0DCF]);
  (0x0DDD, [0x0DD9; 0x0DCF; 0x0DCA]); (0x0DDE, [0x0DD9; 0x0DDF]); (0x0F43, [0x0F42; 0x0FB7]); (0x0F4D, [0x0F4C; 0x0FB7]);
  (0x0F52, [0x0F51; 0x0FB7]); (0x0F57, [0x0F56; 0x0FB7]); (0x0F5C, [0x0F5B; 0x0FB7]); (0x0F69, [0x0F40; 0x0FB5]);
  (0x0F73, [0x0F71; 0x0F72]); (0x0F75, [0x0F71; 0x0F74]); (0x0F76, [0x0FB2; 0x0F80]); (0x0F78, [0x0FB3; 0x0F80]);
  (0x0F81, [0x0F71; 0x0F80]); (0x0F93, [0x0F92; 0x0FB7]); (0x0F9D, [0x0F9C; 0x0FB7]); (0x0FA2, [0x0FA1; 0x0FB7]);
  (0x0FA7, [0x0FA6; 0x0FB7]); (0x0FAC, [0x0FAB; 0x0FB7]); (0x0FB9, [0x0F90; 0x0FB5]); (0x1026, [0x1025; 0x102E]);
  (0x1B06, [0x1B05; 0x1B35]); (0x1B08, [0x1B07; 0x1B35]); (0x1B0A, [0x1B09; 0x1B35]); (0x1B0C, [0x1B0B; 0x1B35]);
  (0x1B0E, [0x1B0D; 0x1B35]); (0x1B12, [0x1B11; 0x1B35]); (0x1B3B, [0x1B3A; 0x1B35]); (0x1B3D, [0x1B3C; 0x1B35]);
  (0x1B40, [0x1B3E; 0x1B35]); (0x1B41, [0x1B3F; 0x1B35]); (0x1B43, [0x1B42; 0x1B35]); (0x1E00, [0x0041; 0x0325]);
  (0x1E01, [0x0061; 0x0325]); (0x1E02, [0x0042; 0x0307]); (0x1E03, [0x0062; 0x0307]); (0x1E04, [0x0042; 0x0323]);
  (0x1E05, [0x0062; 0x0323]); (0x1E06, [0x0042; 0x0331]); (0x1E07, [0x0062; 0x0331]); (0x1E08, [0x0043; 0x0327; 0x0301]);
  (0x1E09, [0x0063; 0x0327; 0x0301]); (0x1E0A, [0x0044; 0x0307]); (0x1E0B, [0x0064; 0x0307]); (0x1E0C, [0x0044; 0x0323]);
  (0x1E0D, [0x0064; 0x0323]); (0x1E0E, [0x0044; 0x0331]); (0x1E0F, [0x0064; 0x0331]); (0x1E10, [0x0044; 0x0327]);
  (0x1E11, [0x0064; 0x0327]); (0x1E12, [0x0044; 0x032D]); (0x1E13, [0x0064; 0x032D]); (0x1E14, [0x0045; 0x0304; 0x0300]);
  (0x1E15, [0x0065; 0x0304; 0x0300]); (0x1E16, [0x0045; 0x0304; 0x0301]); (0x1E17, [0x0065; 0x0304; 0x0301]); (0x1E18, [0x0045; 0x032D]);
  (0x1E19, [0x0065; 0x032D]); (0x1E1A, [0x0045; 0x0330]); (0x1E1B, [0x0065; 0x0330]); (0x1E1C, [0x0045; 0x0327; 0x0306]);
  (0x1E1D, [0x0065; 0x0327; 0x0306]); (0x1E1E, [0x0046; 0x0307]); (0x1E1F, [0x0066; 0x0307]); (0x1E20, [0x0047; 0x0304]);
  (0x1E21, [0x0067; 0x0304]); (0x1E22, [0x0048; 0x0307]); (0x1E23, [0x0068; 0x0307]); (0x1E24, [0x0048; 0x0323]);
  (0x1E25, [0x0068; 0x0323]); (0x1E26, [0x0048; 0x0308]); (0x1E27, [0x0068; 0x0308]); (0x1E28, [0x0048; 0x0327]);
  (0x1E29, [0x0068; 0x0327]); (0x1E2A, [0x0048; 0x032E]); (0x1E2B, [0x0068; 0x032E]); (0x1E2C, [0x0049; 0x0330]);
  (0x1E2D, [0x0069; 0x0330]); (0x1E2E, [0x0049; 0x0308; 0x0301]); (0x1E2F, [0x0069; 0x0308; 0x0301]); (0x1E30, [0x004B; 0x0301]);
  (0x1E31, [0x006B; 0x0301]); (0x1E32, [0x004B; 0x0323]); (0x1E33, [0x006B; 0x0323]); (0x1E34, [0x004B; 0x0331]);
  (0x1E35, [0x006B; 0x0331]); (0x1E36, [0x004C; 0x0323]); (0x1E37, [0x006C; 0x0323]); (0x1E38, [0x004C; 0x0323; 0x0304]);
  (0x1E39, [0x006C; 0x0323; 0x0304]); (0x1E3A, [0x004C; 0x0331]); (0x1E3B, [0x006C; 0x0331]); (0x1E3C, [0x004C; 0x032D]);
  (0x1E3D, [0x006C; 0x032D]); (0x1E3E, [0x004D; 0x0301]); (0x1E3F, [0x006D; 0x0301]); (0x1E40, [0x004D; 0x0307]);
  (0x1E41, [0x006D; 0x0307]); (0x1E42, [0x004D; 0x0323]); (0x1E43, [0x006D; 0x0323]); (0x1E44, [0x004E; 0x0307]);
  (0x1E45, [0x006E; 0x0307]); (0x1E46, [0x004E; 0x0323]); (0x1E47, [0x006E; 0x0323]); (0x1E48, [0x004E; 0x0331]);
  (0x1E49, [0x006E; 0x0331]); (0x1E4A, [0x004E; 0x032D]); (0x1E4B, [0x006E; 0x032D]); (0x1E4C, [0x004F; 0x0303; 0x0301]);
  (0x1E4D, [0x006F; 0x0303; 0x0301]); (0x1E4E, [0x004F; 0x0303; 0x0308]); (0x1E4F, [0x006F; 0x0303; 0x0308]); (0x1E50, [0x004F; 0x0304; 0x0300]);
  (0x1E51, [0x006F; 0x0304; 0x0300]); (0x1E52, [0x004F; 0x0304; 0x0301]); (0x1E53, [0x006F; 0x0304; 0x0301]); (0x1E54, [0x0050; 0x0301]);
  (0x1E55, [0x0070; 0x0301]); (0x1E56, [0x0050; 0x0307]); (0x1E57, [0x0070; 0x0307]); (0x1E58, [0x0052; 0x0307]);
  (0x1E59, [0x0072; 0x0307]); (0x1E5A, [0x0052; 0x0323]); (0x1E5B, [0x0072; 0x0323]); (0x1E5C, [0x0052; 0x0323; 0x0304]);
  (0x1E5D, [0x0072; 0x0323; 0x0304]); (0x1E5E, [0x0052; 0x0331]); (0x1E5F, [0x0072; 0x0331]); (0x1E60, [0x0053; 0x0307]);
  (0x1E61, [0x0073; 0x0307]); (0x1E62, [0x0053; 0x0323]); (0x1E63, [0x0073; 0x0323]); (0x1E64, [0x0053; 0x0301; 0x0307]);
  (0x1E65, [0x0073; 0x0301; 0x0307]); (0x1E66, [0x0053; 0x030C; 0x0307]); (0x1E67, [0x0073; 0x030C; 0x0307]); (0x1E68, [0x0053; 0x0323; 0x0307]);
  (0x1E69, [0x0073; 0x0323; 0x0307]); (0x1E6A, [0x0054; 0x0307]); (0x1E6B, [0x0074; 0x0307]); (0x1E6C, [0x0054; 0x0323]);
  (0x1E6D, [0x0074; 0x0323]); (0x1E6E, [0x0054; 0x0331]); (0x1E6F, [0x0074; 0x0331]); (0x1E70, [0x0054; 0x032D]);
  (0x1E71, [0x0074; 0x032D]); (0x1E72, [0x0055; 0x0324]); (0x1E73, [0x0075; 0x0324]); (0x1E74, [0x0055; 0x0330]);
  (0x1E75, [0x0075; 0x0330]); (0x1E76, [0x0055; 0x032D]); (0x1E77, [0x0075; 0x032D]); (0x1E78, [0x0055; 0x0303; 0x0301]);
  (0x1E79, [0x0075; 0x0303; 0x0301]); (0x1E7A, [0x0055; 0x0304; 0x0308]); (0x1E7B, [0x0075; 0x0304; 0x0308]); (0x1E7C, [0x0056; 0x0303]);
  (0x1E7D, [0x0076; 0x0303]); (0x1E7E, [0x0056; 0x0323]); (0x1E7F, [0x0076; 0x0323]); (0x1E80, [0x0057; 0x0300]);
  (0x1E81, [0x0077; 0x0300]); (0x1E82, [0x0057; 0x0301]); (0x1E83, [0x0077; 0x0301]); (0x1E84, [0x0057; 0x0308]);
  (0x1E85, [0x0077; 0x0308]); (0x1E86, [0x0057; 0x0307]); (0x1E87, [0x0077; 0x0307]); (0x1E88, [0x0057; 0x0323]);
  (0x1E89, [0x0077; 0x0323]); (0x1E8A, [0x0058; 0x0307]); (0x1E8B, [0x0078; 0x0307]); (0x1E8C, [0x0058; 0x0308]);
  (0x1E8D, [0x0078; 0x0308]); (0x1E8E, [0x0059; 0x0307]); (0x1E8F, [0x0079; 0x0307]); (0x1E90, [0x005A; 0x0302]);
  (0x1E91, [0x007A; 0x0302]); (0x1E92, [0x005A; 0x0323]); (0x1E93, [0x007A; 0x0323]); (0x1E94, [0x005A; 0x0331]);
  (0x1E95, [0x007A; 0x0331]); (0x1E96, [0x0068; 0x0331]); (0x1E97, [0x0074; 0x0308]); (0x1E98, [0x0077; 0x030A]);
  (0x1E99, [0x0079; 0x030A]); (0x1E9B, [0x017F; 0x0307]); (0x1EA0, [0x0041; 0x0323]); (0x1EA1, [0x0061; 0x0323]);
  (0x1EA2, [0x0041; 0x0309]); (0x1EA3, [0x0061; 0x0309]); (0x1EA4, [0x0041; 0x0302; 0x0301]); (0x1EA5, [0x0061; 0x0302; 0x0301]);
  (0x1EA6, [0x0041; 0x0302; 0x0300]); (0x1EA7, [0x0061; 0x0302; 0x0300]); (0x1EA8, [0x0041; 0x0302; 0x0309]); (0x1EA9, [0x0061; 0x0302; 0x0309]);
  (0x1EAA, [0x0041; 0x0302; 0x0303]); (0x1EAB, [0x0061; 0x0302; 0x0303]); (0x1EAC, [0x0041; 0x0323; 0x0302]); (0x1EAD, [0x0061; 0x0323; 0x0302]);
  (0x1EAE, [0x0041; 0x0306; 0x0301]); (0x1EAF, [0x0061; 0x0306; 0x0301]); (0x1EB0, [0x0041; 0x0306; 0x0300]); (0x1EB1, [0x0061; 0x0306; 0x0300]);
  (0x1EB2, [0x0041; 0x0306; 0x0309]); (0x1EB3, [0x0061; 0x0306; 0x0309]); (0x1EB4, [0x0041; 0x0306; 0x0303]); (0x1EB5, [0x0061; 0x0306; 0x0303]);
  (0x1EB6, [0x0041; 0x0323; 0x0306]); (0x1EB7, [0x0061; 0x0323; 0x0306]); (0x1EB8, [0x0045; 0x0323]); (0x1EB9, [0x0065; 0x0323]);
  (0x1EBA, [0x0045; 0x0309]); (0x1EBB, [0x0065; 0x0309]); (0x1EBC, [0x0045; 0x0303]); (0x1EBD, [0x0065; 0x0303]);
  (0x1EBE, [0x0045; 0x0302; 0x0301]); (0x1EBF, [0x0065; 0x0302; 0x0301]); (0x1EC0, [0x0045; 0x0302; 0x0300]); (0x1EC1, [0x0065; 0x0302; 0x0300]);
  (0x1EC2, [0x0045; 0x0302; 0x0309]); (0x1EC3, [0x0065; 0x0302; 0x0309]); (0x1EC4, [0x0045; 0x0302; 0x0303]); (0x1EC5, [0x0065; 0x0302; 0x0303]);
  (0x1EC6, [0x0045; 0x0323; 0x0302]); (0x1EC7, [0x0065; 0x0323; 0x0302]); (0x1EC8, [0x0049; 0x0309]); (0x1EC9, [0x0069; 0x0309]);
  (0x1ECA, [0x0049; 0x0323]); (0x1ECB, [0x0069; 0x0323]); (0x1ECC, [0x004F; 0x0323]); (0x1ECD, [0x006F; 0x0323]);
  (0x1ECE, [0x004F; 0x0309]); (0x1ECF, [0x006F; 0x0309]); (0x1ED0, [0x004F; 0x0302; 0x0301]); (0x1ED1, [0x006F; 0x0302; 0x0301]);
  (0x1ED2, [0x004F; 0x0302; 0x0300]); (0x1ED3, [0x006F; 0x0302; 0x0300]); (0x1ED4, [0x004F; 0x0302; 0x0309]); (0x1ED5, [0x006F; 0x0302; 0x0309]);
  (0x1ED6, [0x004F; 0x0302; 0x0303]); (0x1ED7, [0x006F; 0x0302; 0x0303]); (0x1ED8, [0x004F; 0x0323; 0x0302]); (0x1ED9, [0x006F; 0x0323; 0x0302]);
  (0x1EDA, [0x004F; 0x031B; 0x0301]); (0x1EDB, [0x006F; 0x031B; 0x0301]); (0x1EDC, [0x004F; 0x031B; 0x0300]); (0x1EDD, [0x006F; 0x031B; 0x0300]);
  (0x1EDE, [0x004F; 0x031B; 0x0309]); (0x1EDF, [0x006F; 0x031B; 0x0309]); (0x1EE0, [0x004F; 0x031B; 0x0303]); (0x1EE1, [0x006F; 0x031B; 0x0303]);
  (0x1EE2, [0x004F; 0x031B; 0x0323]); (0x1EE3, [0x006F; 0x031B; 0x0323]); (0x1EE4, [0x0055; 0x0323]); (0x1EE5, [0x0075; 0x0323]);
  (0x1EE6, [0x0055; 0x0309]); (0x1EE7, [0x0075; 0x0309]); (0x1EE8, [0x0055; 0x031B; 0x0301]); (0x1EE9, [0x0075; 0x031B; 0x0301]);
  (0x1EEA, [0x0055; 0x031B; 0x0300]); (0x1EEB, [0x0075; 0x031B; 0x0300]); (0x1EEC, [0x0055; 0x031B; 0x0309]); (0x1EED, [0x0075; 0x031B; 0x0309]);
  (0x1EEE, [0x0055; 0x031B; 0x0303]); (0x1EEF, [0x0075; 0x031B; 0x0303]); (0x1EF0, [0x0055; 0x031B; 0x0323]); (0x1EF1, [0x0075; 0x031B; 0x0323]);
  (0x1EF2, [0x0059; 0x0300]); (0x1EF3, [0x0079; 0x0300]); (0x1EF4, [0x0059; 0x0323]); (0x1EF5, [0x0079; 0x0323]);
  (0x1EF6, [0x0059; 0x0309]); (0x1EF7, [0x0079; 0x0309]); (0x1EF8, [0x0059; 0x0303]); (0x1EF9, [0x0079; 0x0303]);
  (0x1F00, [0x03B1; 0x0313]); (0x1F01, [0x03B1; 0x0314]); (0x1F02, [0x03B1; 0x0313; 0x0300]); (0x1F03, [0x03B1; 0x0314; 0x0300]);
  (0x1F04, [0x03B1; 0x0313; 0x0301]); (0x1F05, [0x03B1; 0x0314; 0x0301]); (0x1F06, [0x03B1; 0x0313; 0x0342]); (0x1F07, [0x03B1; 0x0314; 0x0342]);
  (0x1F08, [0x0391; 0x0313]); (0x1F09, [0x0391; 0x0314]); (0x1F0A, [0x0391; 0x0313; 0x0300]); (0x1F0B, [0x0391; 0x0314; 0x0300]);
  (0x1F0C, [0x0391; 0x0313; 0x0301]); (0x1F0D, [0x0391; 0x0314; 0x0301]); (0x1F0E, [0x0391; 0x0313; 0x0342]); (0x1F0F, [0x0391; 0x0314; 0x0342]);
  (0x1F10, [0x03B5; 0x0313]); (0x1F11, [0x03B5; 0x0314]); (0x1F12, [0x03B5; 0x0313; 0x0300]); (0x1F13, [0x03B5; 0x0314; 0x0300]);
  (0x1F14, [0x03B5; 0x0313; 0x0301]); (0x1F15, [0x03B5; 0x0314; 0x0301]); (0x1F18, [0x0395; 0x0313]); (0x1F19, [0x0395; 0x0314]);
  (0x1F1A, [0x0395; 0x0313; 0x0300]); (0x1F1B, [0x0395; 0x0314; 0x0300]); (0x1F1C, [0x0395; 0x0313; 0x0301]); (0x1F1D, [0x0395; 0x0314; 0x0301]);
  (0x1F20, [0x03B7; 0x0313]); (0x1F21, [0x03B7; 0x0314]); (0x1F22, [0x03B7; 0x0313; 0x0300]); (0x1F23, [0x03B7; 0x0314; 0x0300]);
  (0x1F24, [0x03B7; 0x0313; 0x0301]); (0x1F25, [0x03B7; 0x0314; 0x0301]); (0x1F26, [0x03B7; 0x0313; 0x0342]); (0x1F27, [0x03B7; 0x0314; 0x0342]);
  (0x1F28, [0x0397; 0x0313]); (0x1F29, [0x0397; 0x0314]); (0x1F2A, [0x0397; 0x0313; 0x0300]); (0x1F2B, [0x0397; 0x0314; 0x0300]);
  (0x1F2C, [0x0397; 0x0313; 0x0301]); (0x1F2D, [0x0397; 0x0314; 0x0301]); (0x1F2E, [0x0397; 0x0313; 0x0342]); (0x1F2F, [0x0397; 0x0314; 0x0342]);
  (0x1F30, [0x03B9; 0x0313]); (0x1F31, [0x03B9; 0x0314]); (0x1F32, [0x03B9; 0x0313; 0x0300]); (0x1F33, [0x03B9; 0x0314; 0x0300]);
  (0x1F34, [0x03B9; 0x0313; 0x0301]); (0x1F35, [0x03B9; 0x0314; 0x0301]); (0x1F36, [0x03B9; 0x0313; 0x0342]); (0x1F37, [0x03B9; 0x0314; 0x0342]);
  (0x1F38, [0x0399; 0x0313]); (0x1F39, [0x0399; 0x0314]); (0x1F3A, [0x0399; 0x0313; 0x0300]); (0x1F3B, [0x0399; 0x0314; 0x0300]);
  (0x1F3C, [0x0399; 0x0313; 0x0301]); (0x1F3D, [0x0399; 0x0314; 0x0301]); (0x1F3E, [0x0399; 0x0313; 0x0342]); (0x1F3F, [0x0399; 0x0314; 0x0342]);
  (0x1F40, [0x03BF; 0x0313]); (0x1F41, [0x03BF; 0x0314]); (0x1F42, [0x03BF; 0x0313; 0x0300]); (0x1F43, [0x03BF; 0x0314; 0x0300]);
  (0x1F44, [0x03BF; 0x0313; 0x0301]); (0x1F45, [0x03BF; 0x0314; 0x0301]); (0x1F48, [0x039F; 0x0313]); (0x1F49, [0x039F; 0x0314]);
  (0x1F4A, [0x039F; 0x0313; 0x0300]); (0x1F4B, [0x039F; 0x0314; 0x0300]); (0x1F4C, [0x039F; 0x0313; 0x0301]); (0x1F4D, [0x039F; 0x0314; 0x0301]);
  (0x1F50, [0x03C5; 0x0313]); (0x1F51, [0x03C5; 0x0314]); (0x1F52, [0x03C5; 0x0313; 0x0300]); (0x1F53, [0x03C5; 0x0314; 0x0300]);
  (0x1F54, [0x03C5; 0x0313; 0x0301]); (0x1F55, [0x03C5; 0x0314; 0x0301]); (0x1F56, [0x03C5; 0x0313; 0x0342]); (0x1F57, [0x03C5; 0x0314; 0x0342]);
  (0x1F59, [0x03A5; 0x0314]); (0x1F5B, [0x03A5; 0x0314; 0x0300]); (0x1F5D, [0x03A5; 0x0314; 0x0301]); (0x1F5F, [0x03A5; 0x0314; 0x0342]);
  (0x1F60, [0x03C9; 0x0313]); (0x1F61, [0x03C9; 0x0314]); (0x1F62, [0x03C9; 0x0313; 0x0300]); (0x1F63, [0x03C9; 0x0314; 0x0300]);
  (0x1F64, [0x03C9; 0x0313; 0x0301]); (0x1F65, [0x03C9; 0x0314; 0x0301]); (0x1F66, [0x03C9; 0x0313; 0x0342]); (0x1F67, [0x03C9; 0x0314; 0x0342]);
  (0x1F68, [0x03A9; 0x0313]); (0x1F69, [0x03A9; 0x0314]); (0x1F6A, [0x03A9; 0x0313; 0x0300]); (0x1F6B, [0x03A9; 0x0314; 0x0300]);
  (0x1F6C, [0x03A9; 0x0313; 0x0301]); (0x1F6D, [0x03A9; 0x0314; 0x0301]); (0x1F6E, [0x03A9; 0x0313; 0x0342]); (0x1F6F, [0x03A9; 0x0314; 0x0342]);
  (0x1F70, [0x03B1; 0x0300]); (0x1F71, [0x03B1; 0x0301]); (0x1F72, [0x03B5; 0x0300]); (0x1F73, [0x03B5; 0x0301]);
  (0x1F74, [0x03B7; 0x0300]); (0x1F75, [0x03B7; 0x0301]); (0x1F76, [0x03B9; 0x0300]); (0x1F77, [0x03B9; 0x0301]);
  (0x1F78, [0x03BF; 0x0300]); (0x1F79, [0x03BF; 0x0301]); (0x1F7A, [0x03C5; 0x0300]); (0x1F7B, [0x03C5; 0x0301]);
  (0x1F7C, [0x03C9; 0x0300]); (0x1F7D, [0x03C9; 0x0301]); (0x1F80, [0x03B1; 0x0313; 0x0345]); (0x1F81, [0x03B1; 0x0314; 0x0345]);
  (0x1F82, [0x03B1; 0x0313; 0x0300; 0x0345]); (0x1F83, [0x03B1; 0x0314; 0x0300; 0x0345]); (0x1F84, [0x03B1; 0x0313; 0x0301; 0x0345]); (0x1F85, [0x03B1; 0x0314; 0x0301; 0x0345]);
  (0x1F86, [0x03B1; 0x0313; 0x0342; 0x0345]); (0x1F87, [0x03B1; 0x0314; 0x0342; 0x0345]); (0x1F88, [0x0391; 0x0313; 0x0345]); (0x1F89, [0x0391; 0x0314; 0x0345]);
  (0x1F8A, [0x0391; 0x0313; 0x0300; 0x0345]); (0x1F8B, [0x0391; 0x0314; 0x0300; 0x0345]); (0x1F8C, [0x0391; 0x0313; 0x0301; 0x0345]); (0x1F8D, [0x0391; 0x0314; 0x0301; 0x0345]);
  (0x1F8E, [0x0391; 0x0313; 0x0342; 0x0345]); (0x1F8F, [0x0391; 0x0314; 0x0342; 0x0345]); (0x1F90, [0x03B7; 0x0313; 0x0345]); (0x1F91, [0x03B7; 0x0314; 0x0345]);
  (0x1F92, [0x03B7; 0x0313; 0x0300; 0x0345]); (0x1F93, [0x03B7; 0x0314; 0x0300; 0x0345]); (0x1F94, [0x03B7; 0x0313; 0x0301; 0x0345]); (0x1F95, [0x03B7; 0x0314; 0x0301; 0x0345]);
  (0x1F96, [0x03B7; 0x0313; 0x0342; 0x0345]); (0x1F97, [0x03B7; 0x0314; 0x0342; 0x0345]); (0x1F98, [0x0397; 0x0313; 0x0345]); (0x1F99, [0x0397; 0x0314; 0x0345]);
  (0x1F9A, [0x0397; 0x0313; 0x0300; 0x0345]); (0x1F9B, [0x0397; 0x0314; 0x0300; 0x0345]); (0x1F9C, [0x0397; 0x0313; 0x0301; 0x0345]); (0x1F9D, [0x0397; 0x0314; 0x0301; 0x0345]);
  (0x1F9E, [0x0397; 0x0313; 0x0342; 0x0345]); (0x1F9F, [0x0397; 0x0314; 0x0342; 0x0345]); (0x1FA0, [0x03C9; 0x0313; 0x0345]); (0x1FA1, [0x03C9; 0x0314; 0x0345]);
  (0x1FA2, [0x03C9; 0x0313; 0x0300; 0x0345]); (0x1FA3, [0x03C9; 0x0314; 0x0300; 0x0345]); (0x1FA4, [0x03C9; 0x0313; 0x0301; 0x0345]); (0x1FA5, [0x03C9; 0x0314; 0x0301; 0x0345]);
  (0x1FA6, [0x03C9; 0x0313; 0x0342; 0x0345]); (0x1FA7, [0x03C9; 0x0314; 0x0342; 0x0345]); (0x1FA8, [0x03A9; 0x0313; 0x0345]); (0x1FA9, [0x03A9; 0x0314; 0x0345]);
  (0x1FAA, [0x03A9; 0x0313; 0x0300; 0x0345]); (0x1FAB, [0x03A9; 0x0314; 0x0300; 0x0345]); (0x1FAC, [0x03A9; 0x0313; 0x0301; 0x0345]); (0x1FAD, [0x03A9; 0x0314; 0x0301; 0x0345]);
  (0x1FAE, [0x03A9; 0x0313; 0x0342; 0x0345]); (0x1FAF, [0x03A9; 0x0314; 0x0342; 0x0345]); (0x1FB0, [0x03B1; 0x0306]); (0x1FB1, [0x03B1; 0x0304]);
  (0x1FB2, [0x03B1; 0x0300; 0x0345]); (0x1FB3, [0x03B1; 0x0345]); (0x1FB4, [0x03B1; 0x0301; 0x0345]); (0x1FB6, [0x03B1; 0x0342]);
  (0x1FB7, [0x03B1; 0x0342; 0x0345]); (0x1FB8, [0x0391; 0x0306]); (0x1FB9, [0x0391; 0x0304]); (0x1FBA, [0x0391; 0x0300]);
  (0x1FBB, [0x0391; 0x0301]); (0x1FBC, [0x0391; 0x0345]); (0x1FBE, [0x03B9]); (0x1FC1, [0x00A8; 0x0342]);
  (0x1FC2, [0x03B7; 0x0300; 0x0345]); (0x1FC3, [0x03B7; 0x0345]); (0x1FC4, [0x03B7; 0x0301; 0x0345]); (0x1FC6, [0x03B7; 0x0342]);
  (0x1FC7, [0x03B7; 0x0342; 0x0345]); (0x1FC8, [0x0395; 0x0300]); (0x1FC9, [0x0395; 0x0301]); (0x1FCA, [0x0397; 0x0300]);
  (0x1FCB, [0x0397; 0x0301]); (0x1FCC, [0x0397; 0x0345]); (0x1FCD, [0x1FBF; 0x0300]); (0x1FCE, [0x1FBF; 0x0301]);
  (0x1FCF, [0x1FBF; 0x0342]); (0x1FD0, [0x03B9; 0x0306]); (0x1FD1, [0x03B9; 0x0304]); (0x1FD2, [0x03B9; 0x0308; 0x0300]);
  (0x1FD3, [0x03B9; 0x0308; 0x0301]); (0x1FD6, [0x03B9; 0x0342]); (0x1FD7, [0x03B9; 0x0308; 0x0342]); (0x1FD8, [0x0399; 0x0306]);
  (0x1FD9, [0x0399; 0x0304]); (0x1FDA, [0x0399; 0x0300]); (0x1FDB, [0x0399; 0x0301]); (0x1FDD, [0x1FFE; 0x0300]);
  (0x1FDE, [0x1FFE; 0x0301]); (0x1FDF, [0x1FFE; 0x0342]); (0x1FE0, [0x03C5; 0x0306]); (0x1FE1, [0x03C5; 0x0304]);
  (0x1FE2, [0x03C5; 0x0308; 0x0300]); (0x1FE3, [0x03C5; 0x0308; 0x0301]); (0x1FE4, [0x03C1; 0x0313]); (0x1FE5, [0x03C1; 0x0314]);
  (0x1FE6, [0x03C5; 0x0342]); (0x1FE7, [0x03C5; 0x0308; 0x0342]); (0x1FE8, [0x03A5; 0x0306]); (0x1FE9, [0x03A5; 0x0304]);
  (0x1FEA, [0x03A5; 0x0300]); (0x1FEB, [0x03A5; 0x0301]); (0x1FEC, [0x03A1; 0x0314]); (0x1FED, [0x00A8; 0x0300]);
  (0x1FEE, [0x00A8; 0x0301]); (0x1FEF, [0x0060]); (0x1FF2, [0x03C9; 0x0300; 0x0345]); (0x1FF3, [0x03C9; 0x0345]);
  (0x1FF4, [0x03C9; 0x0301; 0x0345]); (0x1FF6, [0x03C9; 0x0342]); (0x1FF7, [0x03C9; 0x0342; 0x0345]); (0x1FF8, [0x039F; 0x0300]);
  (0x1FF9, [0x039F; 0x0301]); (0x1FFA, [0x03A9; 0x0300]); (0x1FFB, [0x03A9; 0x0301]); (0x1FFC, [0x03A9; 0x0345]);
  (0x1FFD, [0x00B4]); (0x2000, [0x2002]); (0x2001, [0x2003]); (0x2126, [0x03A9]);
  (0x212A, [0x004B]); (0x212B, [0x0041; 0x030A]); (0x219A, [0x2190; 0x0338]); (0x219B, [0x2192; 0x0338]);
  (0x21AE, [0x2194; 0x0338]); (0x21CD, [0x21D0; 0x0338]); (0x21CE, [0x21D4; 0x0338]); (0x21CF, [0x21D2; 0x0338]);
  (0x2204, [0x2203; 0x0338]); (0x2209, [0x2208; 0x0338]); (0x220C, [0x220B; 0x0338]); (0x2224, [0x2223; 0x0338]);
  (0x2226, [0x2225; 0x0338]); (0x2241, [0x223C; 0x0338]); (0x2244, [0x2243; 0x0338]); (0x2247, [0x2245; 0x0338]);
  (0x2249, [0x2248; 0x0338]); (0x2260, [0x003D; 0x0338]); (0x2262, [0x2261; 0x0338]); (0x226D, [0x224D; 0x0338]);
  (0x226E, [0x003C; 0x0338]); (0x226F, [0x003E; 0x0338]); (0x2270, [0x2264; 0x0338]); (0x2271, [0x2265; 0x0338]);
  (0x2274, [0x2272; 0x0338]); (0x2275, [0x2273; 0x0338]); (0x2278, [0x2276; 0x0338]); (0x2279, [0x2277; 0x0338]);
  (0x2280, [0x227A; 0x0338]); (0x2281, [0x227B; 0x0338]); (0x2284, [0x2282; 0x0338]); (0x2285, [0x2283; 0x0338]);
  (0x2288, [0x2286; 0x0338]); (0x2289, [0x2287; 0x0338]); (0x22AC, [0x22A2; 0x0338]); (0x22AD, [0x22A8; 0x0338]);
  (0x22AE, [0x22A9; 0x0338]); (0x22AF, [0x22AB; 0x0338]); (0x22E0, [0x227C; 0x0338]); (0x22E1, [0x227D; 0x0338]);
  (0x22E2, [0x2291; 0x0338]); (0x22E3, [0x2292; 0x0338]); (0x22EA, [0x22B2; 0x0338]); (0x22EB, [0x22B3; 0x0338]);
  (0x22EC, [0x22B4; 0x0338]); (0x22ED, [0x22B5; 0x0338]); (0x2329, [0x3008]); (0x232A, [0x3009]);
  (0x2ADC, [0x2ADD; 0x0338]); (0x304C, [0x304B; 0x3099]); (0x304E, [0x304D; 0x3099]); (0x3050, [0x304F; 0x3099]);
  (0x3052, [0x3051; 0x3099]); (0x3054, [0x3053; 0x3099]); (0x3056, [0x3055; 0x3099]); (0x3058, [0x3057; 0x3099]);
  (0x305A, [0x3059; 0x3099]); (0x305C, [0x305B; 0x3099]); (0x305E, [0x305D; 0x3099]); (0x3060, [0x305F; 0x3099]);
  (0x3062, [0x3061; 0x3099]); (0x3065, [0x3064; 0x3099]); (0x3067, [0x3066; 0x3099]); (0x3069, [0x3068; 0x3099]);
  (0x3070, [0x306F; 0x3099]); (0x3071, [0x306F; 0x309A]); (0x3073, [0x3072; 0x3099]); (0x3074, [0x3072; 0x309A]);
  (0x3076, [0x3075; 0x3099]); (0x3077, [0x3075; 0x309A]); (0x3079, [0x3078; 0x3099]); (0x307A, [0x3078; 0x309A]);
  (0x307C, [0x307B; 0x3099]); (0x307D, [0x307B; 0x309A]); (0x3094, [0x3046; 0x3099]); (0x309E, [0x309D; 0x3099]);
  (0x30AC, [0x30AB; 0x3099]); (0x30AE, [0x30AD; 0x3099]); (0x30B0, [0x30AF; 0x3099]); (0x30B2, [0x30B1; 0x3099]);
  (0x30B4, [0x30B3; 0x3099]); (0x30B6, [0x30B5; 0x3099]); (0x30B8, [0x30B7; 0x3099]); (0x30BA, [0x30B9; 0x3099]);
  (0x30BC, [0x30BB; 0x3099]); (0x30BE, [0x30BD; 0x3099]); (0x30C0, [0x30BF; 0x3099]); (0x30C2, [0x30C1; 0x3099]);
  (0x30C5, [0x30C4; 0x3099]); (0x30C7, [0x30C6; 0x3099]); (0x30C9, [0x30C8; 0x3099]); (0x30D0, [0x30CF; 0x3099]);
  (0x30D1, [0x30CF; 0x309A]); (0x30D3, [0x30D2; 0x3099]); (0x30D4, [0x30D2; 0x309A]); (0x30D6, [0x30D5; 0x3099]);
  (0x30D7, [0x30D5; 0x309A]); (0x30D9, [0x30D8; 0x3099]); (0x30DA, [0x30D8; 0x309A]); (0x30DC, [0x30DB; 0x3099]);
  (0x30DD, [0x30DB; 0x309A]); (0x30F4, [0x30A6; 0x3099]); (0x30F7, [0x30EF; 0x3099]); (0x30F8, [0x30F0; 0x3099]);
  (0x30F9, [0x30F1; 0x3099]); (0x30FA, [0x30F2; 0x3099]); (0x30FE, [0x30FD; 0x3099]); (0xF900, [0x8C48]);
  (0xF901, [0x66F4]); (0xF902, [0x8ECA]); (0xF903, [0x8CC8]); (0xF904, [0x6ED1]);
  (0xF905, [0x4E32]); (0xF906, [0x53E5]); (0xF907, [0x9F9C]); (0xF908, [0x9F9C]);
  (0xF909, [0x5951]); (0xF90A, [0x91D1]); (0xF90B, [0x5587]); (0xF90C, [0x5948]);
  (0xF90D, [0x61F6]); (0xF90E, [0x7669]); (0xF90F, [0x7F85]); (0xF910, [0x863F]);
  (0xF911, [0x87BA]); (0xF912, [0x88F8]); (0xF913, [0x908F]); (0xF914, [0x6A02]);
  (0xF915, [0x6D1B]); (0xF916, [0x70D9]); (0xF917, [0x73DE]); (0xF918, [0x843D]);
  (0xF919, [0x916A]); (0xF91A, [0x99F1]); (0xF91B, [0x4E82]); (0xF91C, [0x5375]);
  (0xF91D, [0x6B04]); (0xF91E, [0x721B]); (0xF91F, [0x862D]); (0xF920, [0x9E1E]);
  (0xF921, [0x5D50]); (0xF922, [0x6FEB]); (0xF923, [0x85CD]); (0xF924, [0x8964]);
  (0xF925, [0x62C9]); (0xF926, [0x81D8]); (0xF927, [0x881F]); (0xF928, [0x5ECA]);
  (0xF929, [0x6717]); (0xF92A, [0x6D6A]); (0xF92B, [0x72FC]); (0xF92C, [0x90CE]);
  (0xF92D, [0x4F86]); (0xF92E, [0x51B7]); (0xF92F, [0x52DE]); (0xF930, [0x64C4]);
  (0xF931, [0x6AD3]); (0xF932, [0x7210]); (0xF933, [0x76E7]); (0xF934, [0x8001]);
  (0xF935, [0x8606]); (0xF936, [0x865C]); (0xF937, [0x8DEF]); (0xF938, [0x9732]);
  (0xF939, [0x9B6F]); (0xF93A, [0x9DFA]); (0xF93B, [0x788C]); (0xF93C, [0x797F]);
  (0xF93D, [0x7DA0]); (0xF93E, [0x83C9]); (0xF93F, [0x9304]); (0xF940, [0x9E7F]);
  (0xF941, [0x8AD6]); (0xF942, [0x58DF]); (0xF943, [0x5F04]); (0xF944, [0x7C60]);
  (0xF945, [0x807E]); (0xF946, [0x7262]); (0xF947, [0x78CA]); (0xF948, [0x8CC2]);
  (0xF949, [0x96F7]); (0xF94A, [0x58D8]); (0xF94B, [0x5C62]); (0xF94C, [0x6A13]);
  (0xF94D, [0x6DDA]); (0xF94E, [0x6F0F]); (0xF94F, [0x7D2F]); (0xF950, [0x7E37]);
  (0xF951, [0x964B]); (0xF952, [0x52D2]); (0xF953, [0x808B]); (0xF954, [0x51DC]);
  (0xF955, [0x51CC]); (0xF956, [0x7A1C]); (0xF957, [0x7DBE]); (0xF958, [0x83F1]);
  (0xF959, [0x9675]); (0xF95A, [0x8B80]); (0xF95B, [0x62CF]); (0xF95C, [0x6A02]);
  (0xF95D, [0x8AFE]); (0xF95E, [0x4E39]); (0xF95F, [0x5BE7]); (0xF960, [0x6012]);
  (0xF961, [0x7387]); (0xF962, [0x7570]); (0xF963, [0x5317]); (0xF964, [0x78FB]);
  (0xF965, [0x4FBF]); (0xF966, [0x5FA9]); (0xF967, [0x4E0D]); (0xF968, [0x6CCC]);
  (0xF969, [0x6578]); (0xF96A, [0x7D22]); (0xF96B, [0x53C3]); (0xF96C, [0x585E]);
  (0xF96D, [0x7701]); (0xF96E, [0x8449]); (0xF96F, [0x8AAA]); (0xF970, [0x6BBA]);
  (0xF971, [0x8FB0]); (0xF972, [0x6C88]); (0xF973, [0x62FE]); (0xF974, [0x82E5]);
  (0xF975, [0x63A0]); (0xF976, [0x7565]); (0xF977, [0x4EAE]); (0xF978, [0x5169]);
  (0xF979, [0x51C9]); (0xF97A, [0x6881]); (0xF97B, [0x7CE7]); (0xF97C, [0x826F]);
  (0xF97D, [0x8AD2]); (0xF97E, [0x91CF]); (0xF97F, [0x52F5]); (0xF980, [0x5442]);
  (0xF981, [0x5973]); (0xF982, [0x5EEC]); (0xF983, [0x65C5]); (0xF984, [0x6FFE]);
  (0xF985, [0x792A]); (0xF986, [0x95AD]); (0xF987, [0x9A6A]); (0xF988, [0x9E97]);
  (0xF989, [0x9ECE]); (0xF98A, [0x529B]); (0xF98B, [0x66C6]); (0xF98C, [0x6B77]);
  (0xF98D, [0x8F62]); (0xF98E, [0x5E74]); (0xF98F, [0x6190]); (0xF990, [0x6200]);
  (0xF991, [0x649A]); (0xF992, [0x6F23]); (0xF993, [0x7149]); (0xF994, [0x7489]);
  (0xF995, [0x79CA]); (0xF996, [0x7DF4]); (0xF997, [0x806F]); (0xF998, [0x8F26]);
  (0xF999, [0x84EE]); (0xF99A, [0x9023]); (0xF99B, [0x934A]); (0xF99C, [0x5217]);
  (0xF99D, [0x52A3]); (0xF99E, [0x54BD]); (0xF99F, [0x70C8]); (0xF9A0, [0x88C2]);
  (0xF9A1, [0x8AAA]); (0xF9A2, [0x5EC9]); (0xF9A3, [0x5FF5]); (0xF9A4, [0x637B]);
  (0xF9A5, [0x6BAE]); (0xF9A6, [0x7C3E]); (0xF9A7, [0x7375]); (0xF9A8, [0x4EE4]);
  (0xF9A9, [0x56F9]); (0xF9AA, [0x5BE7]); (0xF9AB, [0x5DBA]); (0xF9AC, [0x601C]);
  (0xF9AD, [0x73B2]); (0xF9AE, [0x7469]); (0xF9AF, [0x7F9A]); (0xF9B0, [0x8046]);
  (0xF9B1, [0x9234]); (0xF9B2, [0x96F6]); (0xF9B3, [0x9748]); (0xF9B4, [0x9818]);
  (0xF9B5, [0x4F8B]); (0xF9B6, [0x79AE]); (0xF9B7, [0x91B4]); (0xF9B8, [0x96B8]);
  (0xF9B9, [0x60E1]); (0xF9BA, [0x4E86]); (0xF9BB, [0x50DA]); (0xF9BC, [0x5BEE]);
  (0xF9BD, [0x5C3F]); (0xF9BE, [0x6599]); (0xF9BF, [0x6A02]); (0xF9C0, [0x71CE]);
  (0xF9C1, [0x7642]); (0xF9C2, [0x84FC]); (0xF9C3, [0x907C]); (0xF9C4, [0x9F8D]);
  (0xF9C5, [0x6688]); (0xF9C6, [0x962E]); (0xF9C7, [0x5289]); (0xF9C8, [0x677B]);
  (0xF9C9, [0x67F3]); (0xF9CA, [0x6D41]); (0xF9CB, [0x6E9C]); (0xF9CC, [0x7409]);
  (0xF9CD, [0x7559]); (0xF9CE, [0x786B]); (0xF9CF, [0x7D10]); (0xF9D0, [0x985E]);
  (0xF9D1, [0x516D]); (0xF9D2, [0x622E]); (0xF9D3, [0x9678]); (0xF9D4, [0x502B]);
  (0xF9D5, [0x5D19]); (0xF9D6, [0x6DEA]); (0xF9D7, [0x8F2A]); (0xF9D8, [0x5F8B]);
  (0xF9D9, [0x6144]); (0xF9DA, [0x6817]); (0xF9DB, [0x7387]); (0xF9DC, [0x9686]);
  (0xF9DD, [0x5229]); (0xF9DE, [0x540F]); (0xF9DF, [0x5C65]); (0xF9E0, [0x6613]);
  (0xF9E1, [0x674E]); (0xF9E2, [0x68A8]); (0xF9E3, [0x6CE5]); (0xF9E4, [0x7406]);
  (0xF9E5, [0x75E2]); (0xF9E6, [0x7F79]); (0xF9E7, [0x88CF]); (0xF9E8, [0x88E1]);
  (0xF9E9, [0x91CC]); (0xF9EA, [0x96E2]); (0xF9EB, [0x533F]); (0xF9EC, [0x6EBA]);
  (0xF9ED, [0x541D]); (0xF9EE, [0x71D0]); (0xF9EF, [0x7498]); (0xF9F0, [0x85FA]);
  (0xF9F1, [0x96A3]); (0xF9F2, [0x9C57]); (0xF9F3, [0x9E9F]); (0xF9F4, [0x6797]);
  (0xF9F5, [0x6DCB]); (0xF9F6, [0x81E8]); (0xF9F7, [0x7ACB]); (0xF9F8, [0x7B20]);
  (0xF9F9, [0x7C92]); (0xF9FA, [0x72C0]); (0xF9FB, [0x7099]); (0xF9FC, [0x8B58]);
  (0xF9FD, [0x4EC0]); (0xF9FE, [0x8336]); (0xF9FF, [0x523A]); (0xFA00, [0x5207]);
  (0xFA01, [0x5EA6]); (0xFA02, [0x62D3]); (0xFA03, [0x7CD6]); (0xFA04, [0x5B85]);
  (0xFA05, [0x6D1E]); (0xFA06, [0x66B4]); (0xFA07, [0x8F3B]); (0xFA08, [0x884C]);
  (0xFA09, [0x964D]); (0xFA0A, [0x898B]); (0xFA0B, [0x5ED3]); (0xFA0C, [0x5140]);
  (0xFA0D, [0x55C0]); (0xFA10, [0x585A]); (0xFA12, [0x6674]); (0xFA15, [0x51DE]);
  (0xFA16, [0x732A]); (0xFA17, [0x76CA]); (0xFA18, [0x793C]); (0xFA19, [0x795E]);
  (0xFA1A, [0x7965]); (0xFA1B, [0x798F]); (0xFA1C, [0x9756]); (0xFA1D, [0x7CBE]);
  (0xFA1E, [0x7FBD]); (0xFA20, [0x8612]); (0xFA22, [0x8AF8]); (0xFA25, [0x9038]);
  (0xFA26, [0x90FD]); (0xFA2A, [0x98EF]); (0xFA2B, [0x98FC]); (0xFA2C, [0x9928]);
  (0xFA2D, [0x9DB4]); (0xFA2E, [0x90DE]); (0xFA2F, [0x96B7]); (0xFA30, [0x4FAE]);
  (0xFA31, [0x50E7]); (0xFA32, [0x514D]); (0xFA33, [0x52C9]); (0xFA34, [0x52E4]);
  (0xFA35, [0x5351]); (0xFA36, [0x559D]); (0xFA37, [0x5606]); (0xFA38, [0x5668]);
  (0xFA39, [0x5840]); (0xFA3A, [0x58A8]); (0xFA3B, [0x5C64]); (0xFA3C, [0x5C6E]);
  (0xFA3D, [0x6094]); (0xFA3E, [0x6168]); (0xFA3F, [0x618E]); (0xFA40, [0x61F2]);
  (0xFA41, [0x654F]); (0xFA42, [0x65E2]); (0xFA43, [0x6691]); (0xFA44, [0x6885]);
  (0xFA45, [0x6D77]); (0xFA46, [0x6E1A]); (0xFA47, [0x6F22]); (0xFA48, [0x716E]);
  (0xFA49, [0x722B]); (0xFA4A, [0x7422]); (0xFA4B, [0x7891]); (0xFA4C, [0x793E]);
  (0xFA4D, [0x7949]); (0xFA4E, [0x7948]); (0xFA4F, [0x7950]); (0xFA50, [0x7956]);
  (0xFA51, [0x795D]); (0xFA52, [0x798D]); (0xFA53, [0x798E]); (0xFA54, [0x7A40]);
  (0xFA55, [0x7A81]); (0xFA56, [0x7BC0]); (0xFA57, [0x7DF4]); (0xFA58, [0x7E09]);
  (0xFA59, [0x7E41]); (0xFA5A, [0x7F72]); (0xFA5B, [0x8005]); (0xFA5C, [0x81ED]);
  (0xFA5D, [0x8279]); (0xFA5E, [0x8279]); (0xFA5F, [0x8457]); (0xFA60, [0x8910]);
  (0xFA61, [0x8996]); (0xFA62, [0x8B01]); (0xFA63, [0x8B39]); (0xFA64, [0x8CD3]);
  (0xFA65, [0x8D08]); (0xFA66, [0x8FB6]); (0xFA67, [0x9038]); (0xFA68, [0x96E3]);
  (0xFA69, [0x97FF]); (0xFA6A, [0x983B]); (0xFA6B, [0x6075]); (0xFA6C, [0x242EE]);
  (0xFA6D, [0x8218]); (0xFA70, [0x4E26]); (0xFA71, [0x51B5]); (0xFA72, [0x5168]);
  (0xFA73, [0x4F80]); (0xFA74, [0x5145]); (0xFA75, [0x5180]); (0xFA76, [0x52C7]);
  (0xFA77, [0x52FA]); (0xFA78, [0x559D]); (0xFA79, [0x5555]); (0xFA7A, [0x5599]);
  (0xFA7B, [0x55E2]); (0xFA7C, [0x585A]); (0xFA7D, [0x58B3]); (0xFA7E, [0x5944]);
  (0xFA7F, [0x5954]); (0xFA80, [0x5A62]); (0xFA81, [0x5B28]); (0xFA82, [0x5ED2]);
  (0xFA83, [0x5ED9]); (0xFA84, [0x5F69]); (0xFA85, [0x5FAD]); (0xFA86, [0x60D8]);
  (0xFA87, [0x614E]); (0xFA88, [0x6108]); (0xFA89, [0x618E]); (0xFA8A, [0x6160]);
  (0xFA8B, [0x61F2]); (0xFA8C, [0x6234]); (0xFA8D, [0x63C4]); (0xFA8E, [0x641C]);
  (0xFA8F, [0x6452]); (0xFA90, [0x6556]); (0xFA91, [0x6674]); (0xFA92, [0x6717]);
  (0xFA93, [0x671B]); (0xFA94, [0x6756]); (0xFA95, [0x6B79]); (0xFA96, [0x6BBA]);
  (0xFA97, [0x6D41]); (0xFA98, [0x6EDB]); (0xFA99, [0x6ECB]); (0xFA9A, [0x6F22]);
  (0xFA9B, [0x701E]); (0xFA9C, [0x716E]); (0xFA9D, [0x77A7]); (0xFA9E, [0x7235]);
  (0xFA9F, [0x72AF]); (0xFAA0, [0x732A]); (0xFAA1, [0x7471]); (0xFAA2, [0x7506]);
  (0xFAA3, [0x753B]); (0xFAA4, [0x761D]); (0xFAA5, [0x761F]); (0xFAA6, [0x76CA]);
  (0xFAA7, [0x76DB]); (0xFAA8, [0x76F4]); (0xFAA9, [0x774A]); (0xFAAA, [0x7740]);
  (0xFAAB, [0x78CC]); (0xFAAC, [0x7AB1]); (0xFAAD, [0x7BC0]); (0xFAAE, [0x7C7B]);
  (0xFAAF, [0x7D5B]); (0xFAB0, [0x7DF4]); (0xFAB1, [0x7F3E]); (0xFAB2, [0x8005]);
  (0xFAB3, [0x8352]); (0xFAB4, [0x83EF]); (0xFAB5, [0x8779]); (0xFAB6, [0x8941]);
  (0xFAB7, [0x8986]); (0xFAB8, [0x8996]); (0xFAB9, [0x8ABF]); (0xFABA, [0x8AF8]);
  (0xFABB, [0x8ACB]); (0xFABC, [0x8B01]); (0xFABD, [0x8AFE]); (0xFABE, [0x8AED]);
  (0xFABF, [0x8B39]); (0xFAC0, [0x8B8A]); (0xFAC1, [0x8D08]); (0xFAC2, [0x8F38]);
  (0xFAC3, [0x9072]); (0xFAC4, [0x9199]); (0xFAC5, [0x9276]); (0xFAC6, [0x967C]);
  (0xFAC7, [0x96E3]); (0xFAC8, [0x9756]); (0xFAC9, [0x97DB]); (0xFACA, [0x97FF]);
  (0xFACB, [0x980B]); (0xFACC, [0x983B]); (0xFACD, [0x9B12]); (0xFACE, [0x9F9C]);
  (0xFACF, [0x2284A]); (0xFAD0, [0x22844]); (0xFAD1, [0x233D5]); (0xFAD2, [0x3B9D]);
  (0xFAD3, [0x4018]); (0xFAD4, [0x4039]); (0xFAD5, [0x25249]); (0xFAD6, [0x25CD0]);
  (0xFAD7, [0x27ED3]); (0xFAD8, [0x9F43]); (0xFAD9, [0x9F8E]); (0xFB1D, [0x05D9; 0x05B4]);
  (0xFB1F, [0x05F2; 0x05B7]); (0xFB2A, [0x05E9; 0x05C1]); (0xFB2B, [0x05E9; 0x05C2]); (0xFB2C, [0x05E9; 0x05BC; 0x05C1]);
  (0xFB2D, [0x05E9; 0x05BC; 0x05C2]); (0xFB2E, [0x05D0; 0x05B7]); (0xFB2F, [0x05D0; 0x05B8]); (0xFB30, [0x05D0; 0x05BC]);
  (0xFB31, [0x05D1; 0x05BC]); (0xFB32, [0x05D2; 0x05BC]); (0xFB33, [0x05D3; 0x05BC]); (0xFB34, [0x05D4; 0x05BC]);
  (0xFB35, [0x05D5; 0x05BC]); (0xFB36, [0x05D6; 0x05BC]); (0xFB38, [0x05D8; 0x05BC]); (0xFB39, [0x05D9; 0x05BC]);
  (0xFB3A, [0x05DA; 0x05BC]); (0xFB3B, [0x05DB; 0x05BC]); (0xFB3C, [0x05DC; 0x05BC]); (0xFB3E, [0x05DE; 0x05BC]);
  (0xFB40, [0x05E0; 0x05BC]); (0xFB41, [0x05E1; 0x05BC]); (0xFB43, [0x05E3; 0x05BC]); (0xFB44, [0x05E4; 0x05BC]);
  (0xFB46, [0x05E6; 0x05BC]); (0xFB47, [0x05E7; 0x05BC]); (0xFB48, [0x05E8; 0x05BC]); (0xFB49, [0x05E9; 0x05BC]);
  (0xFB4A, [0x05EA; 0x05BC]); (0xFB4B, [0x05D5; 0x05B9]); (0xFB4C, [0x05D1; 0x05BF]); (0xFB4D, [0x05DB; 0x05BF]);
  (0xFB4E, [0x05E4; 0x05BF]); (0x1109A, [0x11099; 0x110BA]); (0x1109C, [0x1109B; 0x110BA]); (0x110AB, [0x110A5; 0x110BA]);
  (0x1112E, [0x11131; 0x11127]); (0x1112F, [0x11132; 0x11127]); (0x1134B, [0x11347; 0x1133E]); (0x1134C, [0x11347; 0x11357]);
  (0x114BB, [0x114B9; 0x114BA]); (0x114BC, [0x114B9; 0x114B0]); (0x114BE, [0x114B9; 0x114BD]); (0x115BA, [0x115B8; 0x115AF]);
  (0x115BB, [0x115B9; 0x115AF]); (0x11938, [0x11935; 0x11930]); (0x1D15E, [0x1D157; 0x1D165]); (0x1D15F, [0x1D158; 0x1D165]);
  (0x1D160, [0x1D158; 0x1D165; 0x1D16E]); (0x1D161, [0x1D158; 0x1D165; 0x1D16F]); (0x1D162, [0x1D158; 0x1D165; 0x1D170]); (0x1D163, [0x1D158; 0x1D165; 0x1D171]);
  (0x1D164, [0x1D158; 0x1D165; 0x1D172]); (0x1D1BB, [0x1D1B9; 0x1D165]); (0x1D1BC, [0x1D1BA; 0x1D165]); (0x1D1BD, [0x1D1B9; 0x1D165; 0x1D16E]);
  (0x1D1BE, [0x1D1BA; 0x1D165; 0x1D16E]); (0x1D1BF, [0x1D1B9; 0x1D165; 0x1D16F]); (0x1D1C0, [0x1D1BA; 0x1D165; 0x1D16F]); (0x2F800, [0x4E3D]);
  (0x2F801, [0x4E38]); (0x2F802, [0x4E41]); (0x2F803, [0x20122]); (0x2F804, [0x4F60]);
  (0x2F805, [0x4FAE]); (0x2F806, [0x4FBB]); (0x2F807, [0x5002]); (0x2F808, [0x507A]);
  (0x2F809, [0x5099]); (0x2F80A, [0x50E7]); (0x2F80B, [0x50CF]); (0x2F80C, [0x349E]);
  (0x2F80D, [0x2063A]); (0x2F80E, [0x514D]); (0x2F80F, [0x5154]); (0x2F810, [0x5164]);
  (0x2F811, [0x5177]); (0x2F812, [0x2051C]); (0x2F813, [0x34B9]); (0x2F814, [0x5167]);
  (0x2F815, [0x518D]); (0x2F816, [0x2054B]); (0x2F817, [0x5197]); (0x2F818, [0x51A4]);
  (0x2F819, [0x4ECC]); (0x2F81A, [0x51AC]); (0x2F81B, [0x51B5]); (0x2F81C, [0x291DF]);
  (0x2F81D, [0x51F5]); (0x2F81E, [0x5203]); (0x2F81F, [0x34DF]); (0x2F820, [0x523B]);
  (0x2F821, [0x5246]); (0x2F822, [0x5272]); (0x2F823, [0x5277]); (0x2F824, [0x3515]);
  (0x2F825, [0x52C7]); (0x2F826, [0x52C9]); (0x2F827, [0x52E4]); (0x2F828, [0x52FA]);
  (0x2F829, [0x5305]); (0x2F82A, [0x5306]); (0x2F82B, [0x5317]); (0x2F82C, [0x5349]);
  (0x2F82D, [0x5351]); (0x2F82E, [0x535A]); (0x2F82F, [0x5373]); (0x2F830, [0x537D]);
  (0x2F831, [0x537F]); (0x2F832, [0x537F]); (0x2F833, [0x537F]); (0x2F834, [0x20A2C]);
  (0x2F835, [0x7070]); (0x2F836, [0x53CA]); (0x2F837, [0x53DF]); (0x2F838, [0x20B63]);
  (0x2F839, [0x53EB]); (0x2F83A, [0x53F1]); (0x2F83B, [0x5406]); (0x2F83C, [0x549E]);
  (0x2F83D, [0x5438]); (0x2F83E, [0x5448]); (0x2F83F, [0x5468]); (0x2F840, [0x54A2]);
  (0x2F841, [0x54F6]); (0x2F842, [0x5510]); (0x2F843, [0x5553]); (0x2F844, [0x5563]);
  (0x2F845, [0x5584]); (0x2F846, [0x5584]); (0x2F847, [0x5599]); (0x2F848, [0x55AB]);
  (0x2F849, [0x55B3]); (0x2F84A, [0x55C2]); (0x2F84B, [0x5716]); (0x2F84C, [0x5606]);
  (0x2F84D, [0x5717]); (0x2F84E, [0x5651]); (0x2F84F, [0x5674]); (0x2F850, [0x5207]);
  (0x2F851, [0x58EE]); (0x2F852, [0x57CE]); (0x2F853, [0x57F4]); (0x2F854, [0x580D]);
  (0x2F855, [0x578B]); (0x2F856, [0x5832]); (0x2F857, [0x5831]); (0x2F858, [0x58AC]);
  (0x2F859, [0x214E4]); (0x2F85A, [0x58F2]); (0x2F85B, [0x58F7]); (0x2F85C, [0x5906]);
  (0x2F85D, [0x591A]); (0x2F85E, [0x5922]); (0x2F85F, [0x5962]); (0x2F860, [0x216A8]);
  (0x2F861, [0x216EA]); (0x2F862, [0x59EC]); (0x2F863, [0x5A1B]); (0x2F864, [0x5A27]);
  (0x2F865, [0x59D8]); (0x2F866, [0x5A66]); (0x2F867, [0x36EE]); (0x2F868, [0x36FC]);
  (0x2F869, [0x5B08]); (0x2F86A, [0x5B3E]); (0x2F86B, [0x5B3E]); (0x2F86C, [0x219C8]);
  (0x2F86D, [0x5BC3]); (0x2F86E, [0x5BD8]); (0x2F86F, [0x5BE7]); (0x2F870, [0x5BF3]);
  (0x2F871, [0x21B18]); (0x2F872, [0x5BFF]); (0x2F873, [0x5C06]); (0x2F874, [0x5F53]);
  (0x2F875, [0x5C22]); (0x2F876, [0x3781]); (0x2F877, [0x5C60]); (0x2F878, [0x5C6E]);
  (0x2F879, [0x5CC0]); (0x2F87A, [0x5C8D]); (0x2F87B, [0x21DE4]); (0x2F87C, [0x5D43]);
  (0x2F87D, [0x21DE6]); (0x2F87E, [0x5D6E]); (0x2F87F, [0x5D6B]); (0x2F880, [0x5D7C]);
  (0x2F881, [0x5DE1]); (0x2F882, [0x5DE2]); (0x2F883, [0x382F]); (0x2F884, [0x5DFD]);
  (0x2F885, [0x5E28]); (0x2F886, [0x5E3D]); (0x2F887, [0x5E69]); (0x2F888, [0x3862]);
  (0x2F889, [0x22183]); (0x2F88A, [0x387C]); (0x2F88B, [0x5EB0]); (0x2F88C, [0x5EB3]);
  (0x2F88D, [0x5EB6]); (0x2F88E, [0x5ECA]); (0x2F88F, [0x2A392]); (0x2F890, [0x5EFE]);
  (0x2F891, [0x22331]); (0x2F892, [0x22331]); (0x2F893, [0x8201]); (0x2F894, [0x5F22]);
  (0x2F895, [0x5F22]); (0x2F896, [0x38C7]); (0x2F897, [0x232B8]); (0x2F898, [0x261DA]);
  (0x2F899, [0x5F62]); (0x2F89A, [0x5F6B]); (0x2F89B, [0x38E3]); (0x2F89C, [0x5F9A]);
  (0x2F89D, [0x5FCD]); (0x2F89E, [0x5FD7]); (0x2F89F, [0x5FF9]); (0x2F8A0, [0x6081]);
  (0x2F8A1, [0x393A]); (0x2F8A2, [0x391C]); (0x2F8A3, [0x6094]); (0x2F8A4, [0x226D4]);
  (0x2F8A5, [0x60C7]); (0x2F8A6, [0x6148]); (0x2F8A7, [0x614C]); (0x2F8A8, [0x614E]);
  (0x2F8A9, [0x614C]); (0x2F8AA, [0x617A]); (0x2F8AB, [0x618E]); (0x2F8AC, [0x61B2]);
  (0x2F8AD, [0x61A4]); (0x2F8AE, [0x61AF]); (0x2F8AF, [0x61DE]); (0x2F8B0, [0x61F2]);
  (0x2F8B1, [0x61F6]); (0x2F8B2, [0x6210]); (0x2F8B3, [0x621B]); (0x2F8B4, [0x625D]);
  (0x2F8B5, [0x62B1]); (0x2F8B6, [0x62D4]); (0x2F8B7, [0x6350]); (0x2F8B8, [0x22B0C]);
  (0x2F8B9, [0x633D]); (0x2F8BA, [0x62FC]); (0x2F8BB, [0x6368]); (0x2F8BC, [0x6383]);
  (0x2F8BD, [0x63E4]); (0x2F8BE, [0x22BF1]); (0x2F8BF, [0x6422]); (0x2F8C0, [0x63C5]);
  (0x2F8C1, [0x63A9]); (0x2F8C2, [0x3A2E]); (0x2F8C3, [0x6469]); (0x2F8C4, [0x647E]);
  (0x2F8C5, [0x649D]); (0x2F8C6, [0x6477]); (0x2F8C7, [0x3A6C]); (0x2F8C8, [0x654F]);
  (0x2F8C9, [0x656C]); (0x2F8CA, [0x2300A]); (0x2F8CB, [0x65E3]); (0x2F8CC, [0x66F8]);
  (0x2F8CD, [0x6649]); (0x2F8CE, [0x3B19]); (0x2F8CF, [0x6691]); (0x2F8D0, [0x3B08]);
  (0x2F8D1, [0x3AE4]); (0x2F8D2, [0x5192]); (0x2F8D3, [0x5195]); (0x2F8D4, [0x6700]);
  (0x2F8D5, [0x669C]); (0x2F8D6, [0x80AD]); (0x2F8D7, [0x43D9]); (0x2F8D8, [0x6717]);
  (0x2F8D9, [0x671B]); (0x2F8DA, [0x6721]); (0x2F8DB, [0x675E]); (0x2F8DC, [0x6753]);
  (0x2F8DD, [0x233C3]); (0x2F8DE, [0x3B49]); (0x2F8DF, [0x67FA]); (0x2F8E0, [0x6785]);
  (0x2F8E1, [0x6852]); (0x2F8E2, [0x6885]); (0x2F8E3, [0x2346D]); (0x2F8E4, [0x688E]);
  (0x2F8E5, [0x681F]); (0x2F8E6, [0x6914]); (0x2F8E7, [0x3B9D]); (0x2F8E8, [0x6942]);
  (0x2F8E9, [0x69A3]); (0x2F8EA, [0x69EA]); (0x2F8EB, [0x6AA8]); (0x2F8EC, [0x236A3]);
  (0x2F8ED, [0x6ADB]); (0x2F8EE, [0x3C18]); (0x2F8EF, [0x6B21]); (0x2F8F0, [0x238A7]);
  (0x2F8F1, [0x6B54]); (0x2F8F2, [0x3C4E]); (0x2F8F3, [0x6B72]); (0x2F8F4, [0x6B9F]);
  (0x2F8F5, [0x6BBA]); (0x2F8F6, [0x6BBB]); (0x2F8F7, [0x23A8D]); (0x2F8F8, [0x21D0B]);
  (0x2F8F9, [0x23AFA]); (0x2F8FA, [0x6C4E]); (0x2F8FB, [0x23CBC]); (0x2F8FC, [0x6CBF]);
  (0x2F8FD, [0x6CCD]); (0x2F8FE, [0x6C67]); (0x2F8FF, [0x6D16]); (0x2F900, [0x6D3E]);
  (0x2F901, [0x6D77]); (0x2F902, [0x6D41]); (0x2F903, [0x6D69]); (0x2F904, [0x6D78]);
  (0x2F905, [0x6D85]); (0x2F906, [0x23D1E]); (0x2F907, [0x6D34]); (0x2F908, [0x6E2F]);
  (0x2F909, [0x6E6E]); (0x2F90A, [0x3D33]); (0x2F90B, [0x6ECB]); (0x2F90C, [0x6EC7]);
  (0x2F90D, [0x23ED1]); (0x2F90E, [0x6DF9]); (0x2F90F, [0x6F6E]); (0x2F910, [0x23F5E]);
  (0x2F911, [0x23F8E]); (0x2F912, [0x6FC6]); (0x2F913, [0x7039]); (0x2F914, [0x701E]);
  (0x2F915, [0x701B]); (0x2F916, [0x3D96]); (0x2F917, [0x704A]); (0x2F918, [0x707D]);
  (0x2F919, [0x7077]); (0x2F91A, [0x70AD]); (0x2F91B, [0x20525]); (0x2F91C, [0x7145]);
  (0x2F91D, [0x24263]); (0x2F91E, [0x719C]); (0x2F91F, [0x243AB]); (0x2F920, [0x7228]);
  (0x2F921, [0x7235]); (0x2F922, [0x7250]); (0x2F923, [0x24608]); (0x2F924, [0x7280]);
  (0x2F925, [0x7295]); (0x2F926, [0x24735]); (0x2F927, [0x24814]); (0x2F928, [0x737A]);
  (0x2F929, [0x738B]); (0x2F92A, [0x3EAC]); (0x2F92B, [0x73A5]); (0x2F92C, [0x3EB8]);
  (0x2F92D, [0x3EB8]); (0x2F92E, [0x7447]); (0x2F92F, [0x745C]); (0x2F930, [0x7471]);
  (0x2F931, [0x7485]); (0x2F932, [0x74CA]); (0x2F933, [0x3F1B]); (0x2F934, [0x7524]);
  (0x2F935, [0x24C36]); (0x2F936, [0x753E]); (0x2F937, [0x24C92]); (0x2F938, [0x7570]);
  (0x2F939, [0x2219F]); (0x2F93A, [0x7610]); (0x2F93B, [0x24FA1]); (0x2F93C, [0x24FB8]);
  (0x2F93D, [0x25044]); (0x2F93E, [0x3FFC]); (0x2F93F, [0x4008]); (0x2F940, [0x76F4]);
  (0x2F941, [0x250F3]); (0x2F942, [0x250F2]); (0x2F943, [0x25119]); (0x2F944, [0x25133]);
  (0x2F945, [0x771E]); (0x2F946, [0x771F]); (0x2F947, [0x771F]); (0x2F948, [0x774A]);
  (0x2F949, [0x4039]); (0x2F94A, [0x778B]); (0x2F94B, [0x4046]); (0x2F94C, [0x4096]);
  (0x2F94D, [0x2541D]); (0x2F94E, [0x784E]); (0x2F94F, [0x788C]); (0x2F950, [0x78CC]);
  (0x2F951, [0x40E3]); (0x2F952, [0x25626]); (0x2F953, [0x7956]); (0x2F954, [0x2569A]);
  (0x2F955, [0x256C5]); (0x2F956, [0x798F]); (0x2F957, [0x79EB]); (0x2F958, [0x412F]);
  (0x2F959, [0x7A40]); (0x2F95A, [0x7A4A]); (0x2F95B, [0x7A4F]); (0x2F95C, [0x2597C]);
  (0x2F95D, [0x25AA7]); (0x2F95E, [0x25AA7]); (0x2F95F, [0x7AEE]); (0x2F960, [0x4202]);
  (0x2F961, [0x25BAB]); (0x2F962, [0x7BC6]); (0x2F963, [0x7BC9]); (0x2F964, [0x4227]);
  (0x2F965, [0x25C80]); (0x2F966, [0x7CD2]); (0x2F967, [0x42A0]); (0x2F968, [0x7CE8]);
  (0x2F969, [0x7CE3]); (0x2F96A, [0x7D00]); (0x2F96B, [0x25F86]); (0x2F96C, [0x7D63]);
  (0x2F96D, [0x4301]); (0x2F96E, [0x7DC7]); (0x2F96F, [0x7E02]); (0x2F970, [0x7E45]);
  (0x2F971, [0x4334]); (0x2F972, [0x26228]); (0x2F973, [0x26247]); (0x2F974, [0x4359]);
  (0x2F975, [0x262D9]); (0x2F976, [0x7F7A]); (0x2F977, [0x2633E]); (0x2F978, [0x7F95]);
  (0x2F979, [0x7FFA]); (0x2F97A, [0x8005]); (0x2F97B, [0x264DA]); (0x2F97C, [0x26523]);
  (0x2F97D, [0x8060]); (0x2F97E, [0x265A8]); (0x2F97F, [0x8070]); (0x2F980, [0x2335F]);
  (0x2F981, [0x43D5]); (0x2F982, [0x80B2]); (0x2F983, [0x8103]); (0x2F984, [0x440B]);
  (0x2F985, [0x813E]); (0x2F986, [0x5AB5]); (0x2F987, [0x267A7]); (0x2F988, [0x267B5]);
  (0x2F989, [0x23393]); (0x2F98A, [0x2339C]); (0x2F98B, [0x8201]); (0x2F98C, [0x8204]);
  (0x2F98D, [0x8F9E]); (0x2F98E, [0x446B]); (0x2F98F, [0x8291]); (0x2F990, [0x828B]);
  (0x2F991, [0x829D]); (0x2F992, [0x52B3]); (0x2F993, [0x82B1]); (0x2F994, [0x82B3]);
  (0x2F995, [0x82BD]); (0x2F996, [0x82E6]); (0x2F997, [0x26B3C]); (0x2F998, [0x82E5]);
  (0x2F999, [0x831D]); (0x2F99A, [0x8363]); (0x2F99B, [0x83AD]); (0x2F99C, [0x8323]);
  (0x2F99D, [0x83BD]); (0x2F99E, [0x83E7]); (0x2F99F, [0x8457]); (0x2F9A0, [0x8353]);
  (0x2F9A1, [0x83CA]); (0x2F9A2, [0x83CC]); (0x2F9A3, [0x83DC]); (0x2F9A4, [0x26C36]);
  (0x2F9A5, [0x26D6B]); (0x2F9A6, [0x26CD5]); (0x2F9A7, [0x452B]); (0x2F9A8, [0x84F1]);
  (0x2F9A9, [0x84F3]); (0x2F9AA, [0x8516]); (0x2F9AB, [0x273CA]); (0x2F9AC, [0x8564]);
  (0x2F9AD, [0x26F2C]); (0x2F9AE, [0x455D]); (0x2F9AF, [0x4561]); (0x2F9B0, [0x26FB1]);
  (0x2F9B1, [0x270D2]); (0x2F9B2, [0x456B]); (0x2F9B3, [0x8650]); (0x2F9B4, [0x865C]);
  (0x2F9B5, [0x8667]); (0x2F9B6, [0x8669]); (0x2F9B7, [0x86A9]); (0x2F9B8, [0x8688]);
  (0x2F9B9, [0x870E]); (0x2F9BA, [0x86E2]); (0x2F9BB, [0x8779]); (0x2F9BC, [0x8728]);
  (0x2F9BD, [0x876B]); (0x2F9BE, [0x8786]); (0x2F9BF, [0x45D7]); (0x2F9C0, [0x87E1]);
  (0x2F9C1, [0x8801]); (0x2F9C2, [0x45F9]); (0x2F9C3, [0x8860]); (0x2F9C4, [0x8863]);
  (0x2F9C5, [0x27667]); (0x2F9C6, [0x88D7]); (0x2F9C7, [0x88DE]); (0x2F9C8, [0x4635]);
  (0x2F9C9, [0x88FA]); (0x2F9CA, [0x34BB]); (0x2F9CB, [0x278AE]); (0x2F9CC, [0x27966]);
  (0x2F9CD, [0x46BE]); (0x2F9CE, [0x46C7]); (0x2F9CF, [0x8AA0]); (0x2F9D0, [0x8AED]);
  (0x2F9D1, [0x8B8A]); (0x2F9D2, [0x8C55]); (0x2F9D3, [0x27CA8]); (0x2F9D4, [0x8CAB]);
  (0x2F9D5, [0x8CC1]); (0x2F9D6, [0x8D1B]); (0x2F9D7, [0x8D77]); (0x2F9D8, [0x27F2F]);
  (0x2F9D9, [0x20804]); (0x2F9DA, [0x8DCB]); (0x2F9DB, [0x8DBC]); (0x2F9DC, [0x8DF0]);
  (0x2F9DD, [0x208DE]); (0x2F9DE, [0x8ED4]); (0x2F9DF, [0x8F38]); (0x2F9E0, [0x285D2]);
  (0x2F9E1, [0x285ED]); (0x2F9E2, [0x9094]); (0x2F9E3, [0x90F1]); (0x2F9E4, [0x9111]);
  (0x2F9E5, [0x2872E]); (0x2F9E6, [0x911B]); (0x2F9E7, [0x9238]); (0x2F9E8, [0x92D7]);
  (0x2F9E9, [0x92D8]); (0x2F9EA, [0x927C]); (0x2F9EB, [0x93F9]); (0x2F9EC, [0x9415]);
  (0x2F9ED, [0x28BFA]); (0x2F9EE, [0x958B]); (0x2F9EF, [0x4995]); (0x2F9F0, [0x95B7]);
  (0x2F9F1, [0x28D77]); (0x2F9F2, [0x49E6]); (0x2F9F3, [0x96C3]); (0x2F9F4, [0x5DB2]);
  (0x2F9F5, [0x9723]); (0x2F9F6, [0x29145]); (0x2F9F7, [0x2921A]); (0x2F9F8, [0x4A6E]);
  (0x2F9F9, [0x4A76]); (0x2F9FA, [0x97E0]); (0x2F9FB, [0x2940A]); (0x2F9FC, [0x4AB2]);
  (0x2F9FD, [0x29496]); (0x2F9FE, [0x980B]); (0x2F9FF, [0x980B]); (0x2FA00, [0x9829]);
  (0x2FA01, [0x295B6]); (0x2FA02, [0x98E2]); (0x2FA03, [0x4B33]); (0x2FA04, [0x9929]);
  (0x2FA05, [0x99A7]); (0x2FA06, [0x99C2]); (0x2FA07, [0x99FE]); (0x2FA08, [0x4BCE]);
  (0x2FA09, [0x29B30]); (0x2FA0A, [0x9B12]); (0x2FA0B, [0x9C40]); (0x2FA0C, [0x9CFD]);
  (0x2FA0D, [0x4CCE]); (0x2FA0E, [0x4CED]); (0x2FA0F, [0x9D67]); (0x2FA10, [0x2A0CE]);
  (0x2FA11, [0x4CF8]); (0x2FA12, [0x2A105]); (0x2FA13, [0x2A20E]); (0x2FA14, [0x2A291]);
  (0x2FA15, [0x9EBB]); (0x2FA16, [0x4D56]); (0x2FA17, [0x9EF9]); (0x2FA18, [0x9EFE]);
  (0x2FA19, [0x9F05]); (0x2FA1A, [0x9F0F]); (0x2FA1B, [0x9F16]); (0x2FA1C, [0x9F3B]);
  (0x2FA1D, [0x2A600])
].

Definition combining_class : list (N * N * N) := [
  (0x0300, 0x0314, 230); (0x0315, 0x0315, 232); (0x0316, 0x0319, 220); (0x031A, 0x031A, 232); (0x031B, 0x031B, 216);
  (0x031C, 0x0320, 220); (0x0321, 0x0322, 202); (0x0323, 0x0326, 220); (0x0327, 0x0328, 202); (0x0329, 0x0333, 220);
  (0x0334, 0x0338, 1); (0x0339, 0x033C, 220); (0x033D, 0x0344, 230); (0x0345, 0x0345, 240); (0x0346, 0x0346, 230);
  (0x0347, 0x0349, 220); (0x034A, 0x034C, 230); (0x034D, 0x034E, 220); (0x0350, 0x0352, 230); (0x0353, 0x0356, 220);
  (0x0357, 0x0357, 230); (0x0358, 0x0358, 232); (0x0359, 0x035A, 220); (0x035B, 0x035B, 230); (0x035C, 0x035C, 233);
  (0x035D, 0x035E, 234); (0x035F, 0x035F, 233); (0x0360, 0x0361, 234); (0x0362, 0x0362, 233); (0x0363, 0x036F, 230);
  (0x0483, 0x0487, 230); (0x0591, 0x0591, 220); (0x0592, 0x0595, 230); (0x0596, 0x0596, 220); (0x0597, 0x0599, 230);
  (0x059A, 0x059A, 222); (0x059B, 0x059B, 220); (0x059C, 0x05A1, 230); (0x05A2, 0x05A7, 220); (0x05A8, 0x05A9, 230);
  (0x05AA, 0x05AA, 220); (0x05AB, 0x05AC, 230); (0x05AD, 0x05AD, 222); (0x05AE, 0x05AE, 228); (0x05AF, 0x05AF, 230);
  (0x05B0, 0x05B0, 10); (0x05B1, 0x05B1, 11); (0x05B2, 0x05B2, 12); (0x05B3, 0x05B3, 13); (0x05B4, 0x05B4, 14);
  (0x05B5, 0x05B5, 15); (0x05B6, 0x05B6, 16); (0x05B7, 0x05B7, 17); (0x05B8, 0x05B8, 18); (0x05B9, 0x05BA, 19);
  (0x05BB, 0x05BB, 20); (0x05BC, 0x05BC, 21); (0x05BD, 0x05BD, 22); (0x05BF, 0x05BF, 23); (0x05C1, 0x05C1, 24);
  (0x05C2, 0x05C2, 25); (0x05C4, 0x05C4, 230); (0x05C5, 0x05C5, 220); (0x05C7, 0x05C7, 18); (0x0610, 0x0617, 230);
  (0x0618, 0x0618, 30); (0x0619, 0x0619, 31); (0x061A, 0x061A, 32); (0x064B, 0x064B, 27); (0x064C, 0x064C, 28);
  (0x064D, 0x064D, 29); (0x064E, 0x064E, 30); (0x064F, 0x064F, 31); (0x0650, 0x0650, 32); (0x0651, 0x0651, 33);
  (0x0652, 0x0652, 34); (0x0653, 0x0654, 230); (0x0655, 0x0656, 220); (0x0657, 0x065B, 230); (0x065C, 0x065C, 220);
  (0x065D, 0x065E, 230); (0x065F, 0x065F, 220); (0x0670, 0x0670, 35); (0x06D6, 0x06DC, 230); (0x06DF, 0x06E2, 230);
  (0x06E3, 0x06E3, 220); (0x06E4, 0x06E4, 230); (0x06E7, 0x06E8, 230); (0x06EA, 0x06EA, 220); (0x06EB, 0x06EC, 230);
  (0x06ED, 0x06ED, 220); (0x0711, 0x0711, 36); (0x0730, 0x0730, 230); (0x0731, 0x0731, 220); (0x0732, 0x0733, 230);
  (0x0734, 0x0734, 220); (0x0735, 0x0736, 230); (0x0737, 0x0739, 220); (0x073A, 0x073A, 230); (0x073B, 0x073C, 220);
  (0x073D, 0x073D, 230); (0x073E, 0x073E, 220); (0x073F, 0x0741, 230); (0x0742, 0x0742, 220); (0x0743, 0x0743, 230);
  (0x0744, 0x0744, 220); (0x0745, 0x0745, 230); (0x0746, 0x0746, 220); (0x0747, 0x0747, 230); (0x0748, 0x0748, 220);
  (0x0749, 0x074A, 230); (0x07EB, 0x07F1, 230); (0x07F2, 0x07F2, 220); (0x07F3, 0x07F3, 230); (0x07FD, 0x07FD, 220);
  (0x0816, 0x0819, 230); (0x081B, 0x0823, 230); (0x0825, 0x0827, 230); (0x0829, 0x082D, 230); (0x0859, 0x085B, 220);
  (0x0898, 0x0898, 230); (0x0899, 0x089B, 220); (0x089C, 0x089F, 230); (0x08CA, 0x08CE, 230); (0x08CF, 0x08D3, 220);
  (0x08D4, 0x08E1, 230); (0x08E3, 0x08E3, 220); (0x08E4, 0x08E5, 230); (0x08E6, 0x08E6, 220); (0x08E7, 0x08E8, 230);
  (0x08E9, 0x08E9, 220); (0x08EA, 0x08EC, 230); (0x08ED, 0x08EF, 220); (0x08F0, 0x08F0, 27); (0x08F1, 0x08F1, 28);
  (0x08F2, 0x08F2, 29); (0x08F3, 0x08F5, 230); (0x08F6, 0x08F6, 220); (0x08F7, 0x08F8, 230); (0x08F9, 0x08FA, 220);
  (0x08FB, 0x08FF, 230); (0x093C, 0x093C, 7); (0x094D, 0x094D, 9); (0x0951, 0x0951, 230); (0x0952, 0x0952, 220);
  (0x0953, 0x0954, 230); (0x09BC, 0x09BC, 7); (0x09CD, 0x09CD, 9); (0x09FE, 0x09FE, 230); (0x0A3C, 0x0A3C, 7);
  (0x0A4D, 0x0A4D, 9); (0x0ABC, 0x0ABC, 7); (0x0ACD, 0x0ACD, 9); (0x0B3C, 0x0B3C, 7); (0x0B4D, 0x0B4D, 9);
  (0x0BCD, 0x0BCD, 9); (0x0C3C, 0x0C3C, 7); (0x0C4D, 0x0C4D, 9); (0x0C55, 0x0C55, 84); (0x0C56, 0x0C56, 91);
  (0x0CBC, 0x0CBC, 7); (0x0CCD, 0x0CCD, 9); (0x0D3B, 0x0D3C, 9); (0x0D4D, 0x0D4D, 9); (0x0DCA, 0x0DCA, 9);
  (0x0E38, 0x0E39, 103); (0x0E3A, 0x0E3A, 9); (0x0E48, 0x0E4B, 107); (0x0EB8, 0x0EB9, 118); (0x0EBA, 0x0EBA, 9);
  (0x0EC8, 0x0ECB, 122); (0x0F18, 0x0F19, 220); (0x0F35, 0x0F35, 220); (0x0F37, 0x0F37, 220); (0x0F39, 0x0F39, 216);
  (0x0F71, 0x0F71, 129); (0x0F72, 0x0F72, 130); (0x0F74, 0x0F74, 132); (0x0F7A, 0x0F7D, 130); (0x0F80, 0x0F80, 130);
  (0x0F82, 0x0F83, 230); (0x0F84, 0x0F84, 9); (0x0F86, 0x0F87, 230); (0x0FC6, 0x0FC6, 220); (0x1037, 0x1037, 7);
  (0x1039, 0x103A, 9); (0x108D, 0x108D, 220); (0x135D, 0x135F, 230); (0x1714, 0x1715, 9); (0x1734, 0x1734, 9);
  (0x17D2, 0x17D2, 9); (0x17DD, 0x17DD, 230); (0x18A9, 0x18A9, 228); (0x1939, 0x1939, 222); (0x193A, 0x193A, 230);
  (0x193B, 0x193B, 220); (0x1A17, 0x1A17, 230); (0x1A18, 0x1A18, 220); (0x1A60, 0x1A60, 9); (0x1A75, 0x1A7C, 230);
  (0x1A7F, 0x1A7F, 220); (0x1AB0, 0x1AB4, 230); (0x1AB5, 0x1ABA, 220); (0x1ABB, 0x1ABC, 230); (0x1ABD, 0x1ABD, 220);
  (0x1ABF, 0x1AC0, 220); (0x1AC1, 0x1AC2, 230); (0x1AC3, 0x1AC4, 220); (0x1AC5, 0x1AC9, 230); (0x1ACA, 0x1ACA, 220);
  (0x1ACB, 0x1ACE, 230); (0x1B34, 0x1B34, 7); (0x1B44, 0x1B44, 9); (0x1B6B, 0x1B6B, 230); (0x1B6C, 0x1B6C, 220);
  (0x1B6D, 0x1B73, 230); (0x1BAA, 0x1BAB, 9); (0x1BE6, 0x1BE6, 7); (0x1BF2, 0x1BF3, 9); (0x1C37, 0x1C37, 7);
  (0x1CD0, 0x1CD2, 230); (0x1CD4, 0x1CD4, 1); (0x1CD5, 0x1CD9, 220); (0x1CDA, 0x1CDB, 230); (0x1CDC, 0x1CDF, 220);
  (0x1CE0, 0x1CE0, 230); (0x1CE2, 0x1CE8, 1); (0x1CED, 0x1CED, 220); (0x1CF4, 0x1CF4, 230); (0x1CF8, 0x1CF9, 230);
  (0x1DC0, 0x1DC1, 230); (0x1DC2, 0x1DC2, 220); (0x1DC3, 0x1DC9, 230); (0x1DCA, 0x1DCA, 220); (0x1DCB, 0x1DCC, 230);
  (0x1DCD, 0x1DCD, 234); (0x1DCE, 0x1DCE, 214); (0x1DCF, 0x1DCF, 220); (0x1DD0, 0x1DD0, 202); (0x1DD1, 0x1DF5, 230);
  (0x1DF6, 0x1DF6, 232); (0x1DF7, 0x1DF8, 228); (0x1DF9, 0x1DF9, 220); (0x1DFA, 0x1DFA, 218); (0x1DFB, 0x1DFB, 230);
  (0x1DFC, 0x1DFC, 233); (0x1DFD, 0x1DFD, 220); (0x1DFE, 0x1DFE, 230); (0x1DFF, 0x1DFF, 220); (0x20D0, 0x20D1, 230);
  (0x20D2, 0x20D3, 1); (0x20D4, 0x20D7, 230); (0x20D8, 0x20DA, 1); (0x20DB, 0x20DC, 230); (0x20E1, 0x20E1, 230);
  (0x20E5, 0x20E6, 1); (0x20E7, 0x20E7, 230); (0x20E8, 0x20E8, 220); (0x20E9, 0x20E9, 230); (0x20EA, 0x20EB, 1);
  (0x20EC, 0x20EF, 220); (0x20F0, 0x20F0, 230); (0x2CEF, 0x2CF1, 230); (0x2D7F, 0x2D7F, 9); (0x2DE0, 0x2DFF, 230);
  (0x302A, 0x302A, 218); (0x302B, 0x302B, 228); (0x302C, 0x302C, 232); (0x302D, 0x302D, 222); (0x302E, 0x302F, 224);
  (0x3099, 0x309A, 8); (0xA66F, 0xA66F, 230); (0xA674, 0xA67D, 230); (0xA69E, 0xA69F, 230); (0xA6F0, 0xA6F1, 230);
  (0xA806, 0xA806, 9); (0xA82C, 0xA82C, 9); (0xA8C4, 0xA8C4, 9); (0xA8E0, 0xA8F1, 230); (0xA92B, 0xA92D, 220);
  (0xA953, 0xA953, 9); (0xA9B3, 0xA9B3, 7); (0xA9C0, 0xA9C0, 9); (0xAAB0, 0xAAB0, 230); (0xAAB2, 0xAAB3, 230);
  (0xAAB4, 0xAAB4, 220); (0xAAB7, 0xAAB8, 230); (0xAABE, 0xAABF, 230); (0xAAC1, 0xAAC1, 230); (0xAAF6, 0xAAF6, 9);
  (0xABED, 0xABED, 9); (0xFB1E, 0xFB1E, 26); (0xFE20, 0xFE26, 230); (0xFE27, 0xFE2D, 220); (0xFE2E, 0xFE2F, 230);
  (0x101FD, 0x101FD, 220); (0x102E0, 0x102E0, 220); (0x10376, 0x1037A, 230); (0x10A0D, 0x10A0D, 220); (0x10A0F, 0x10A0F, 230);
  (0x10A38, 0x10A38, 230); (0x10A39, 0x10A39, 1); (0x10A3A, 0x10A3A, 220); (0x10A3F, 0x10A3F, 9); (0x10AE5, 0x10AE5, 230);
  (0x10AE6, 0x10AE6, 220); (0x10D24, 0x10D27, 230); (0x10EAB, 0x10EAC, 230); (0x10F46, 0x10F47, 220); (0x10F48, 0x10F4A, 230);
  (0x10F4B, 0x10F4B, 220); (0x10F4C, 0x10F4C, 230); (0x10F4D, 0x10F50, 220); (0x10F82, 0x10F82, 230); (0x10F83, 0x10F83, 220);
  (0x10F84, 0x10F84, 230); (0x10F85, 0x10F85, 220); (0x11046, 0x11046, 9); (0x11070, 0x11070, 9); (0x1107F, 0x1107F, 9);
  (0x110B9, 0x110B9, 9); (0x110BA, 0x110BA, 7); (0x11100, 0x11102, 230); (0x11133, 0x11134, 9); (0x11173, 0x11173, 7);
  (0x111C0, 0x111C0, 9); (0x111CA, 0x111CA, 7); (0x11235, 0x11235, 9); (0x11236, 0x11236, 7); (0x112E9, 0x112E9, 7);
  (0x112EA, 0x112EA, 9); (0x1133B, 0x1133C, 7); (0x1134D, 0x1134D, 9); (0x11366, 0x1136C, 230); (0x11370, 0x11374, 230);
  (0x11442, 0x11442, 9); (0x11446, 0x11446, 7); (0x1145E, 0x1145E, 230); (0x114C2, 0x114C2, 9); (0x114C3, 0x114C3, 7);
  (0x115BF, 0x115BF, 9); (0x115C0, 0x115C0, 7); (0x1163F, 0x1163F, 9); (0x116B6, 0x116B6, 9); (0x116B7, 0x116B7, 7);
  (0x1172B, 0x1172B, 9); (0x11839, 0x11839, 9); (0x1183A, 0x1183A, 7); (0x1193D, 0x1193E, 9); (0x11943, 0x11943, 7);
  (0x119E0, 0x119E0, 9); (0x11A34, 0x11A34, 9); (0x11A47, 0x11A47, 9); (0x11A99, 0x11A99, 9); (0x11C3F, 0x11C3F, 9);
  (0x11D42, 0x11D42, 7); (0x11D44, 0x11D45, 9); (0x11D97, 0x11D97, 9); (0x16AF0, 0x16AF4, 1); (0x16B30, 0x16B36, 230);
  (0x16FF0, 0x16FF1, 6); (0x1BC9E, 0x1BC9E, 1); (0x1D165, 0x1D166, 216); (0x1D167, 0x1D169, 1); (0x1D16D, 0x1D16D, 226);
  (0x1D16E, 0x1D172, 216); (0x1D17B, 0x1D182, 220); (0x1D185, 0x1D189, 230); (0x1D18A, 0x1D18B, 220); (0x1D1AA, 0x1D1AD, 230);
  (0x1D242, 0x1D244, 230); (0x1E000, 0x1E006, 230); (0x1E008, 0x1E018, 230); (0x1E01B, 0x1E021, 230); (0x1E023, 0x1E024, 230);
  (0x1E026, 0x1E02A, 230); (0x1E130, 0x1E136, 230); (0x1E2AE, 0x1E2AE, 230); (0x1E2EC, 0x1E2EF, 230); (0x1E8D0, 0x1E8D6, 220);
  (0x1E944, 0x1E949, 230); (0x1E94A, 0x1E94A, 7)
].

Definition lowercase_mapping : list (N * list N) := [
  (0x0041, [0x0061]); (0x0042, [0x0062]); (0x0043, [0x0063]); (0x0044, [0x0064]); (0x0045, [0x0065]);
  (0x0046, [0x0066]); (0x0047, [0x0067]); (0x0048, [0x0068]); (0x0049, [0x0069]); (0x004A, [0x006A]);
  (0x004B, [0x006B]); (0x004C, [0x006C]); (0x004D, [0x006D]); (0x004E, [0x006E]); (0x004F, [0x006F]);
  (0x0050, [0x0070]); (0x0051, [0x0071]); (0x0052, [0x0072]); (0x0053, [0x0073]); (0x0054, [0x0074]);
  (0x0055, [0x0075]); (0x0056, [0x0076]); (0x0057, [0x0077]); (0x0058, [0x0078]); (0x0059, [0x0079]);
  (0x005A, [0x007A]); (0x00C0, [0x00E0]); (0x00C1, [0x00E1]); (0x00C2, [0x00E2]); (0x00C3, [0x00E3]);
  (0x00C4, [0x00E4]); (0x00C5, [0x00E5]); (0x00C6, [0x00E6]); (0x00C7, [0x00E7]); (0x00C8, [0x00E8]);
  (0x00C9, [0x00E9]); (0x00CA, [0x00EA]); (0x00CB, [0x00EB]); (0x00CC, [0x00EC]); (0x00CD, [0x00ED]);
  (0x00CE, [0x00EE]); (0x00CF, [0x00EF]); (0x00D0, [0x00F0]); (0x00D1, [0x00F1]); (0x00D2, [0x00F2]);
  (0x00D3, [0x00F3]); (0x00D4, [0x00F4]); (0x00D5, [0x00F5]); (0x00D6, [0x00F6]); (0x00D8, [0x00F8]);
  (0x00D9, [0x00F9]); (0x00DA, [0x00FA]); (0x00DB, [0x00FB]); (0x00DC, [0x00FC]); (0x00DD, [0x00FD]);
  (0x00DE, [0x00FE]); (0x0100, [0x0101]); (0x0102, [0x0103]); (0x0104, [0x0105]); (0x0106, [0x0107]);
  (0x0108, [0x0109]); (0x010A, [0x010B]); (0x010C, [0x010D]); (0x010E, [0x010F]); (0x0110, [0x0111]);
  (0x0112, [0x0113]); (0x0114, [0x0115]); (0x0116, [0x0117]); (0x0118, [0x0119]); (0x011A, [0x011B]);
  (0x011C, [0x011D]); (0x011E, [0x011F]); (0x0120, [0x0121]); (0x0122, [0x0123]); (0x0124, [0x0125]);
  (0x0126, [0x0127]); (0x0128, [0x0129]); (0x012A, [0x012B]); (0x012C, [0x012D]); (0x012E, [0x012F]);
  (0x0130, [0x0069; 0x0307]); (0x0132, [0x0133]); (0x0134, [0x0135]); (0x0136, [0x0137]); (0x0139, [0x013A]);
  (0x013B, [0x013C]); (0x013D, [0x013E]); (0x013F, [0x0140]); (0x0141, [0x0142]); (0x0143, [0x0144]);
  (0x0145, [0x0146]); (0x0147, [0x0148]); (0x014A, [0x014B]); (0x014C, [0x014D]); (0x014E, [0x014F]);
  (0x0150, [0x0151]); (0x0152, [0x0153]); (0x0154, [0x0155]); (0x0156, [0x0157]); (0x0158, [0x0159]);
  (0x015A, [0x015B]); (0x015C, [0x015D]); (0x015E, [0x015F]); (0x0160, [0x0161]); (0x0162, [0x0163]);
  (0x0164, [0x0165]); (0x0166, [0x0167]); (0x0168, [0x0169]); (0x016A, [0x016B]); (0x016C, [0x016D]);
  (0x016E, [0x016F]); (0x0170, [0x0171]); (0x0172, [0x0173]); (0x0174, [0x0175]); (0x0176, [0x0177]);
  (0x0178, [0x00FF]); (0x0179, [0x017A]); (0x017B, [0x017C]); (0x017D, [0x017E]); (0x0181, [0x0253]);
  (0x0182, [0x0183]); (0x0184, [0x0185]); (0x0186, [0x0254]); (0x0187, [0x0188]); (0x0189, [0x0256]);
  (0x018A, [0x0257]); (0x018B, [0x018C]); (0x018E, [0x01DD]); (0x018F, [0x0259]); (0x0190, [0x025B]);
  (0x0191, [0x0192]); (0x0193, [0x0260]); (0x0194, [0x0263]); (0x0196, [0x0269]); (0x0197, [0x0268]);
  (0x0198, [0x0199]); (0x019C, [0x026F]); (0x019D, [0x0272]); (0x019F, [0x0275]); (0x01A0, [0x01A1]);
  (0x01A2, [0x01A3]); (0x01A4, [0x01A5]); (0x01A6, [0x0280]); (0x01A7, [0x01A8]); (0x01A9, [0x0283]);
  (0x01AC, [0x01AD]); (0x01AE, [0x0288]); (0x01AF, [0x01B0]); (0x01B1, [0x028A]); (0x01B2, [0x028B]);
  (0x01B3, [0x01B4]); (0x01B5, [0x01B6]); (0x01B7, [0x0292]); (0x01B8, [0x01B9]); (0x01BC, [0x01BD]);
  (0x01C4, [0x01C6]); (0x01C5, [0x01C6]); (0x01C7, [0x01C9]); (0x01C8, [0x01C9]); (0x01CA, [0x01CC]);
  (0x01CB, [0x01CC]); (0x01CD, [0x01CE]); (0x01CF, [0x01D0]); (0x01D1, [0x01D2]); (0x01D3, [0x01D4]);
  (0x01D5, [0x01D6]); (0x01D7, [0x01D8]); (0x01D9, [0x01DA]); (0x01DB, [0x01DC]); (0x01DE, [0x01DF]);
  (0x01E0, [0x01E1]); (0x01E2, [0x01E3]); (0x01E4, [0x01E5]); (0x01E6, [0x01E7]); (0x01E8, [0x01E9]);
  (0x01EA, [0x01EB]); (0x01EC, [0x01ED]); (0x01EE, [0x01EF]); (0x01F1, [0x01F3]); (0x01F2, [0x01F3]);
  (0x01F4, [0x01F5]); (0x01F6, [0x0195]); (0x01F7, [0x01BF]); (0x01F8, [0x01F9]); (0x01FA, [0x01FB]);
  (0x01FC, [0x01FD]); (0x01FE, [0x01FF]); (0x0200, [0x0201]); (0x0202, [0x0203]); (0x0204, [0x0205]);
  (0x0206, [0x0207]); (0x0208, [0x0209]); (0x020A, [0x020B]); (0x020C, [0x020D]); (0x020E, [0x020F]);
  (0x0210, [0x0211]); (0x0212, [0x0213]); (0x0214, [0x0215]); (0x0216, [0x0217]); (0x0218, [0x0219]);
  (0x021A, [0x021B]); (0x021C, [0x021D]); (0x021E, [0x021F]); (0x0220, [0x019E]); (0x0222, [0x0223]);
  (0x0224, [0x0225]); (0x0226, [0x0227]); (0x0228, [0x0229]); (0x022A, [0x022B]); (0x022C, [0x022D]);
  (0x022E, [0x022F]); (0x0230, [0x0231]); (0x0232, [0x0233]); (0x023A, [0x2C65]); (0x023B, [0x023C]);
  (0x023D, [0x019A]); (0x023E, [0x2C66]); (0x0241, [0x0242]); (0x0243, [0x0180]); (0x0244, [0x0289]);
  (0x0245, [0x028C]); (0x0246, [0x0247]); (0x0248, [0x0249]); (0x024A, [0x024B]); (0x024C, [0x024D]);
  (0x024E, [0x024F]); (0x0370, [0x0371]); (0x0372, [0x0373]); (0x0376, [0x0377]); (0x037F, [0x03F3]);
  (0x0386, [0x03AC]); (0x0388, [0x03AD]); (0x0389, [0x03AE]); (0x038A, [0x03AF]); (0x038C, [0x03CC]);
  (0x038E, [0x03CD]); (0x038F, [0x03CE]); (0x0391, [0x03B1]); (0x0392, [0x03B2]); (0x0393, [0x03B3]);
  (0x0394, [0x03B4]); (0x0395, [0x03B5]); (0x0396, [0x03B6]); (0x0397, [0x03B7]); (0x0398, [0x03B8]);
  (0x0399, [0x03B9]); (0x039A, [0x03BA]); (0x039B, [0x03BB]); (0x039C, [0x03BC]); (0x039D, [0x03BD]);
  (0x039E, [0x03BE]); (0x039F, [0x03BF]); (0x03A0, [0x03C0]); (0x03A1, [0x03C1]); (0x03A3, [0x03C3]);
  (0x03A4, [0x03C4]); (0x03A5, [0x03C5]); (0x03A6, [0x03C6]); (0x03A7, [0x03C7]); (0x03A8, [0x03C8]);
  (0x03A9, [0x03C9]); (0x03AA, [0x03CA]); (0x03AB, [0x03CB]); (0x03CF, [0x03D7]); (0x03D8, [0x03D9]);
  (0x03DA, [0x03DB]); (0x03DC, [0x03DD]); (0x03DE, [0x03DF]); (0x03E0, [0x03E1]); (0x03E2, [0x03E3]);
  (0x03E4, [0x03E5]); (0x03E6, [0x03E7]); (0x03E8, [0x03E9]); (0x03EA, [0x03EB]); (0x03EC, [0x03ED]);
  (0x03EE, [0x03EF]); (0x03F4, [0x03B8]); (0x03F7, [0x03F8]); (0x03F9, [0x03F2]); (0x03FA, [0x03FB]);
  (0x03FD, [0x037B]); (0x03FE, [0x037C]); (0x03FF, [0x037D]); (0x0400, [0x0450]); (0x0401, [0x0451]);
  (0x0402, [0x0452]); (0x0403, [0x0453]); (0x0404, [0x0454]); (0x0405, [0x0455]); (0x0406, [0x0456]);
  (0x0407, [0x0457]); (0x0408, [0x0458]); (0x0409, [0x0459]); (0x040A, [0x045A]); (0x040B, [0x045B]);
  (0x040C, [0x045C]); (0x040D, [0x045D]); (0x040E, [0x045E]); (0x040F, [0x045F]); (0x0410, [0x0430]);
  (0x0411, [0x0431]); (0x0412, [0x0432]); (0x0413, [0x0433]); (0x0414, [0x0434]); (0x0415, [0x0435]);
  (0x0416, [0x0436]); (0x0417, [0x0437]); (0x0418, [0x0438]); (0x0419, [0x0439]); (0x041A, [0x043A]);
  (0x041B, [0x043B]); (0x041C, [0x043C]); (0x041D, [0x043D]); (0x041E, [0x043E]); (0x041F, [0x043F]);
  (0x0420, [0x0440]); (0x0421, [0x0441]); (0x0422, [0x0442]); (0x0423, [0x0443]); (0x0424, [0x0444]);
  (0x0425, [0x0445]); (0x0426, [0x0446]); (0x0427, [0x0447]); (0x0428, [0x0448]); (0x0429, [0x0449]);
  (0x042A, [0x044A]); (0x042B, [0x044B]); (0x042C, [0x044C]); (0x042D, [0x044D]); (0x042E, [0x044E]);
  (0x042F, [0x044F]); (0x0460, [0x0461]); (0x0462, [0x0463]); (0x0464, [0x0465]); (0x0466, [0x0467]);
  (0x0468, [0x0469]); (0x046A, [0x046B]); (0x046C, [0x046D]); (0x046E, [0x046F]); (0x0470, [0x0471]);
  (0x0472, [0x0473]); (0x0474, [0x0475]); (0x0476, [0x0477]); (0x0478, [0x0479]); (0x047A, [0x047B]);
  (0x047C, [0x047D]); (0x047E, [0x047F]); (0x0480, [0x0481]); (0x048A, [0x048B]); (0x048C, [0x048D]);
  (0x048E, [0x048F]); (0x0490, [0x0491]); (0x0492, [0x0493]); (0x0494, [0x0495]); (0x0496, [0x0497]);
  (0x0498, [0x0499]); (0x049A, [0x049B]); (0x049C, [0x049D]); (0x049E, [0x049F]); (0x04A0, [0x04A1]);
  (0x04A2, [0x04A3]); (0x04A4, [0x04A5]); (0x04A6, [0x04A7]); (0x04A8, [0x04A9]); (0x04AA, [0x04AB]);
  (0x04AC, [0x04AD]); (0x04AE, [0x04AF]); (0x04B0, [0x04B1]); (0x04B2, [0x04B3]); (0x04B4, [0x04B5]);
  (0x04B6, [0x04B7]); (0x04B8, [0x04B9]); (0x04BA, [0x04BB]); (0x04BC, [0x04BD]); (0x04BE, [0x04BF]);
  (0x04C0, [0x04CF]); (0x04C1, [0x04C2]); (0x04C3, [0x04C4]); (0x04C5, [0x04C6]); (0x04C7, [0x04C8]);
  (0x04C9, [0x04CA]); (0x04CB, [0x04CC]); (0x04CD, [0x04CE]); (0x04D0, [0x04D1]); (0x04D2, [0x04D3]);
  (0x04D4, [0x04D5]); (0x04D6, [0x04D7]); (0x04D8, [0x04D9]); (0x04DA, [0x04DB]); (0x04DC, [0x04DD]);
  (0x04DE, [0x04DF]); (0x04E0, [0x04E1]); (0x04E2, [0x04E3]); (0x04E4, [0x04E5]); (0x04E6, [0x04E7]);
  (0x04E8, [0x04E9]); (0x04EA, [0x04EB]); (0x04EC, [0x04ED]); (0x04EE, [0x04EF]); (0x04F0, [0x04F1]);
  (0x04F2, [0x04F3]); (0x04F4, [0x04F5]); (0x04F6, [0x04F7]); (0x04F8, [0x04F9]); (0x04FA, [0x04FB]);
  (0x04FC, [0x04FD]); (0x04FE, [0x04FF]); (0x0500, [0x0501]); (0x0502, [0x0503]); (0x0504, [0x0505]);
  (0x0506, [0x0507]); (0x0508, [0x0509]); (0x050A, [0x050B]); (0x050C, [0x050D]); (0x050E, [0x050F]);
  (0x0510, [0x0511]); (0x0512, [0x0513]); (0x0514, [0x0515]); (0x0516, [0x0517]); (0x0518, [0x0519]);
  (0x051A, [0x051B]); (0x051C, [0x051D]); (0x051E, [0x051F]); (0x0520, [0x0521]); (0x0522, [0x0523]);
  (0x0524, [0x0525]); (0x0526, [0x0527]); (0x0528, [0x0529]); (0x052A, [0x052B]); (0x052C, [0x052D]);
  (0x052E, [0x052F]); (0x0531, [0x0561]); (0x0532, [0x0562]); (0x0533, [0x0563]); (0x0534, [0x0564]);
  (0x0535, [0x0565]); (0x0536, [0x0566]); (0x0537, [0x0567]); (0x0538, [0x0568]); (0x0539, [0x0569]);
  (0x053A, [0x056A]); (0x053B, [0x056B]); (0x053C, [0x056C]); (0x053D, [0x056D]); (0x053E, [0x056E]);
  (0x053F, [0x056F]); (0x0540, [0x0570]); (0x0541, [0x0571]); (0x0542, [0x0572]); (0x0543, [0x0573]);
  (0x0544, [0x0574]); (0x0545, [0x0575]); (0x0546, [0x0576]); (0x0547, [0x0577]); (0x0548, [0x0578]);
  (0x0549, [0x0579]); (0x054A, [0x057A]); (0x054B, [0x057B]); (0x054C, [0x057C]); (0x054D, [0x057D]);
  (0x054E, [0x057E]); (0x054F, [0x057F]); (0x0550, [0x0580]); (0x0551, [0x0581]); (0x0552, [0x0582]);
  (0x0553, [0x0583]); (0x0554, [0x0584]); (0x0555, [0x0585]); (0x0556, [0x0586]); (0x10A0, [0x2D00]);
  (0x10A1, [0x2D01]); (0x10A2, [0x2D02]); (0x10A3, [0x2D03]); (0x10A4, [0x2D04]); (0x10A5, [0x2D05]);
  (0x10A6, [0x2D06]); (0x10A7, [0x2D07]); (0x10A8, [0x2D08]); (0x10A9, [0x2D09]); (0x10AA, [0x2D0A]);
  (0x10AB, [0x2D0B]); (0x10AC, [0x2D0C]); (0x10AD, [0x2D0D]); (0x10AE, [0x2D0E]); (0x10AF, [0x2D0F]);
  (0x10B0, [0x2D10]); (0x10B1, [0x2D11]); (0x10B2, [0x2D12]); (0x10B3, [0x2D13]); (0x10B4, [0x2D14]);
  (0x10B5, [0x2D15]); (0x10B6, [0x2D16]); (0x10B7, [0x2D17]); (0x10B8, [0x2D18]); (0x10B9, [0x2D19]);
  (0x10BA, [0x2D1A]); (0x10BB, [0x2D1B]); (0x10BC, [0x2D1C]); (0x10BD, [0x2D1D]); (0x10BE, [0x2D1E]);
  (0x10BF, [0x2D1F]); (0x10C0, [0x2D20]); (0x10C1, [0x2D21]); (0x10C2, [0x2D22]); (0x10C3, [0x2D23]);
  (0x10C4, [0x2D24]); (0x10C5, [0x2D25]); (0x10C7, [0x2D27]); (0x10CD, [0x2D2D]); (0x13A0, [0xAB70]);
  (0x13A1, [0xAB71]); (0x13A2, [0xAB72]); (0x13A3, [0xAB73]); (0x13A4, [0xAB74]); (0x13A5, [0xAB75]);
  (0x13A6, [0xAB76]); (0x13A7, [0xAB77]); (0x13A8, [0xAB78]); (0x13A9, [0xAB79]); (0x13AA, [0xAB7A]);
  (0x13AB, [0xAB7B]); (0x13AC, [0xAB7C]); (0x13AD, [0xAB7D]); (0x13AE, [0xAB7E]); (0x13AF, [0xAB7F]);
  (0x13B0, [0xAB80]); (0x13B1, [0xAB81]); (0x13B2, [0xAB82]); (0x13B3, [0xAB83]); (0x13B4, [0xAB84]);
  (0x13B5, [0xAB85]); (0x13B6, [0xAB86]); (0x13B7, [0xAB87]); (0x13B8, [0xAB88]); (0x13B9, [0xAB89]);
  (0x13BA, [0xAB8A]); (0x13BB, [0xAB8B]); (0x13BC, [0xAB8C]); (0x13BD, [0xAB8D]); (0x13BE, [0xAB8E]);
  (0x13BF, [0xAB8F]); (0x13C0, [0xAB90]); (0x13C1, [0xAB91]); (0x13C2, [0xAB92]); (0x13C3, [0xAB93]);
  (0x13C4, [0xAB94]); (0x13C5, [0xAB95]); (0x13C6, [0xAB96]); (0x13C7, [0xAB97]); (0x13C8, [0xAB98]);
  (0x13C9, [0xAB99]); (0x13CA, [0xAB9A]); (0x13CB, [0xAB9B]); (0x13CC, [0xAB9C]); (0x13CD, [0xAB9D]);
  (0x13CE, [0xAB9E]); (0x13CF, [0xAB9F]); (0x13D0, [0xABA0]); (0x13D1, [0xABA1]); (0x13D2, [0xABA2]);
  (0x13D3, [0xABA3]); (0x13D4, [0xABA4]); (0x13D5, [0xABA5]); (0x13D6, [0xABA6]); (0x13D7, [0xABA7]);
  (0x13D8, [0xABA8]); (0x13D9, [0xABA9]); (0x13DA, [0xABAA]); (0x13DB, [0xABAB]); (0x13DC, [0xABAC]);
  (0x13DD, [0xABAD]); (0x13DE, [0xABAE]); (0x13DF, [0xABAF]); (0x13E0, [0xABB0]); (0x13E1, [0xABB1]);
  (0x13E2, [0xABB2]); (0x13E3, [0xABB3]); (0x13E4, [0xABB4]); (0x13E5, [0xABB5]); (0x13E6, [0xABB6]);
  (0x13E7, [0xABB7]); (0x13E8, [0xABB8]); (0x13E9, [0xABB9]); (0x13EA, [0xABBA]); (0x13EB, [0xABBB]);
  (0x13EC, [0xABBC]); (0x13ED, [0xABBD]); (0x13EE, [0xABBE]); (0x13EF, [0xABBF]); (0x13F0, [0x13F8]);
  (0x13F1, [0x13F9]); (0x13F2, [0x13FA]); (0x13F3, [0x13FB]); (0x13F4, [0x13FC]); (0x13F5, [0x13FD]);
  (0x1C90, [0x10D0]); (0x1C91, [0x10D1]); (0x1C92, [0x10D2]); (0x1C93, [0x10D3]); (0x1C94, [0x10D4]);
  (0x1C95, [0x10D5]); (0x1C96, [0x10D6]); (0x1C97, [0x10D7]); (0x1C98, [0x10D8]); (0x1C99, [0x10D9]);
  (0x1C9A, [0x10DA]); (0x1C9B, [0x10DB]); (0x1C9C, [0x10DC]); (0x1C9D, [0x10DD]); (0x1C9E, [0x10DE]);
  (0x1C9F, [0x10DF]); (0x1CA0, [0x10E0]); (0x1CA1, [0x10E1]); (0x1CA2, [0x10E2]); (0x1CA3, [0x10E3]);
  (0x1CA4, [0x10E4]); (0x1CA5, [0x10E5]); (0x1CA6, [0x10E6]); (0x1CA7, [0x10E7]); (0x1CA8, [0x10E8]);
  (0x1CA9, [0x10E9]); (0x1CAA, [0x10EA]); (0x1CAB, [0x10EB]); (0x1CAC, [0x10EC]); (0x1CAD, [0x10ED]);
  (0x1CAE, [0x10EE]); (0x1CAF, [0x10EF]); (0x1CB0, [0x10F0]); (0x1CB1, [0x10F1]); (0x1CB2, [0x10F2]);
  (0x1CB3, [0x10F3]); (0x1CB4, [0x10F4]); (0x1CB5, [0x10F5]); (0x1CB6, [0x10F6]); (0x1CB7, [0x10F7]);
  (0x1CB8, [0x10F8]); (0x1CB9, [0x10F9]); (0x1CBA, [0x10FA]); (0x1CBD, [0x10FD]); (0x1CBE, [0x10FE]);
  (0x1CBF, [0x10FF]); (0x1E00, [0x1E01]); (0x1E02, [0x1E03]); (0x1E04, [0x1E05]); (0x1E06, [0x1E07]);
  (0x1E08, [0x1E09]); (0x1E0A, [0x1E0B]); (0x1E0C, [0x1E0D]); (0x1E0E, [0x1E0F]); (0x1E10, [0x1E11]);
  (0x1E12, [0x1E13]); (0x1E14, [0x1E15]); (0x1E16, [0x1E17]); (0x1E18, [0x1E19]); (0x1E1A, [0x1E1B]);
  (0x1E1C, [0x1E1D]); (0x1E1E, [0x1E1F]); (0x1E20, [0x1E21]); (0x1E22, [0x1E23]); (0x1E24, [0x1E25]);
  (0x1E26, [0x1E27]); (0x1E28, [0x1E29]); (0x1E2A, [0x1E2B]); (0x1E2C, [0x1E2D]); (0x1E2E, [0x1E2F]);
  (0x1E30, [0x1E31]); (0x1E32, [0x1E33]); (0x1E34, [0x1E35]); (0x1E36, [0x1E37]); (0x1E38, [0x1E39]);
  (0x1E3A, [0x1E3B]); (0x1E3C, [0x1E3D]); (0x1E3E, [0x1E3F]); (0x1E40, [0x1E41]); (0x1E42, [0x1E43]);
  (0x1E44, [0x1E45]); (0x1E46, [0x1E47]); (0x1E48, [0x1E49]); (0x1E4A, [0x1E4B]); (0x1E4C, [0x1E4D]);
  (0x1E4E, [0x1E4F]); (0x1E50, [0x1E51]); (0x1E52, [0x1E53]); (0x1E54, [0x1E55]); (0x1E56, [0x1E57]);
  (0x1E58, [0x1E59]); (0x1E5A, [0x1E5B]); (0x1E5C, [0x1E5D]); (0x1E5E, [0x1E5F]); (0x1E60, [0x1E61]);
  (0x1E62, [0x1E63]); (0x1E64, [0x1E65]); (0x1E66, [0x1E67]); (0x1E68, [0x1E69]); (0x1E6A, [0x1E6B]);
  (0x1E6C, [0x1E6D]); (0x1E6E, [0x1E6F]); (0x1E70, [0x1E71]); (0x1E72, [0x1E73]); (0x1E74, [0x1E75]);
  (0x1E76, [0x1E77]); (0x1E78, [0x1E79]); (0x1E7A, [0x1E7B]); (0x1E7C, [0x1E7D]); (0x1E7E, [0x1E7F]);
  (0x1E80, [0x1E81]); (0x1E82, [0x1E83]); (0x1E84, [0x1E85]); (0x1E86, [0x1E87]); (0x1E88, [0x1E89]);
  (0x1E8A, [0x1E8B]); (0x1E8C, [0x1E8D]); (0x1E8E, [0x1E8F]); (0x1E90, [0x1E91]); (0x1E92, [0x1E93]);
  (0x1E94, [0x1E95]); (0x1E9E, [0x00DF]); (0x1EA0, [0x1EA1]); (0x1EA2, [0x1EA3]); (0x1EA4, [0x1EA5]);
  (0x1EA6, [0x1EA7]); (0x1EA8, [0x1EA9]); (0x1EAA, [0x1EAB]); (0x1EAC, [0x1EAD]); (0x1EAE, [0x1EAF]);
  (0x1EB0, [0x1EB1]); (0x1EB2, [0x1EB3]); (0x1EB4, [0x1EB5]); (0x1EB6, [0x1EB7]); (0x1EB8, [0x1EB9]);
  (0x1EBA, [0x1EBB]); (0x1EBC, [0x1EBD]); (0x1EBE, [0x1EBF]); (0x1EC0, [0x1EC1]); (0x1EC2, [0x1EC3]);
  (0x1EC4, [0x1EC5]); (0x1EC6, [0x1EC7]); (0x1EC8, [0x1EC9]); (0x1ECA, [0x1ECB]); (0x1ECC, [0x1ECD]);
  (0x1ECE, [0x1ECF]); (0x1ED0, [0x1ED1]); (0x1ED2, [0x1ED3]); (0x1ED4, [0x1ED5]); (0x1ED6, [0x1ED7]);
  (0x1ED8, [0x1ED9]); (0x1EDA, [0x1EDB]); (0x1EDC, [0x1EDD]); (0x1EDE, [0x1EDF]); (0x1EE0, [0x1EE1]);
  (0x1EE2, [0x1EE3]); (0x1EE4, [0x1EE5]); (0x1EE6, [0x1EE7]); (0x1EE8, [0x1EE9]); (0x1EEA, [0x1EEB]);
  (0x1EEC, [0x1EED]); (0x1EEE, [0x1EEF]); (0x1EF0, [0x1EF1]); (0x1EF2, [0x1EF3]); (0x1EF4, [0x1EF5]);
  (0x1EF6, [0x1EF7]); (0x1EF8, [0x1EF9]); (0x1EFA, [0x1EFB]); (0x1EFC, [0x1EFD]); (0x1EFE, [0x1EFF]);
  (0x1F08, [0x1F00]); (0x1F09, [0x1F01]); (0x1F0A, [0x1F02]); (0x1F0B, [0x1F03]); (0x1F0C, [0x1F04]);
  (0x1F0D, [0x1F05]); (0x1F0E, [0x1F06]); (0x1F0F, [0x1F07]); (0x1F18, [0x1F10]); (0x1F19, [0x1F11]);
  (0x1F1A, [0x1F12]); (0x1F1B, [0x1F13]); (0x1F1C, [0x1F14]); (0x1F1D, [0x1F15]); (0x1F28, [0x1F20]);
  (0x1F29, [0x1F21]); (0x1F2A, [0x1F22]); (0x1F2B, [0x1F23]); (0x1F2C, [0x1F24]); (0x1F2D, [0x1F25]);
  (0x1F2E, [0x1F26]); (0x1F2F, [0x1F27]); (0x1F38, [0x1F30]); (0x1F39, [0x1F31]); (0x1F3A, [0x1F32]);
  (0x1F3B, [0x1F33]); (0x1F3C, [0x1F34]); (0x1F3D, [0x1F35]); (0x1F3E, [0x1F36]); (0x1F3F, [0x1F37]);
  (0x1F48, [0x1F40]); (0x1F49, [0x1F41]); (0x1F4A, [0x1F42]); (0x1F4B, [0x1F43]); (0x1F4C, [0x1F44]);
  (0x1F4D, [0x1F45]); (0x1F59, [0x1F51]); (0x1F5B, [0x1F53]); (0x1F5D, [0x1F55]); (0x1F5F, [0x1F57]);
  (0x1F68, [0x1F60]); (0x1F69, [0x1F61]); (0x1F6A, [0x1F62]); (0x1F6B, [0x1F63]); (0x1F6C, [0x1F64]);
  (0x1F6D, [0x1F65]); (0x1F6E, [0x1F66]); (0x1F6F, [0x1F67]); (0x1F88, [0x1F80]); (0x1F89, [0x1F81]);
  (0x1F8A, [0x1F82]); (0x1F8B, [0x1F83]); (0x1F8C, [0x1F84]); (0x1F8D, [0x1F85]); (0x1F8E, [0x1F86]);
  (0x1F8F, [0x1F87]); (0x1F98, [0x1F90]); (0x1F99, [0x1F91]); (0x1F9A, [0x1F92]); (0x1F9B, [0x1F93]);
  (0x1F9C, [0x1F94]); (0x1F9D, [0x1F95]); (0x1F9E, [0x1F96]); (0x1F9F, [0x1F97]); (0x1FA8, [0x1FA0]);
  (0x1FA9, [0x1FA1]); (0x1FAA, [0x1FA2]); (0x1FAB, [0x1FA3]); (0x1FAC, [0x1FA4]); (0x1FAD, [0x1FA5]);
  (0x1FAE, [0x1FA6]); (0x1FAF, [0x1FA7]); (0x1FB8, [0x1FB0]); (0x1FB9, [0x1FB1]); (0x1FBA, [0x1F70]);
  (0x1FBB, [0x1F71]); (0x1FBC, [0x1FB3]); (0x1FC8, [0x1F72]); (0x1FC9, [0x1F73]); (0x1FCA, [0x1F74]);
  (0x1FCB, [0x1F75]); (0x1FCC, [0x1FC3]); (0x1FD8, [0x1FD0]); (0x1FD9, [0x1FD1]); (0x1FDA, [0x1F76]);
  (0x1FDB, [0x1F77]); (0x1FE8, [0x1FE0]); (0x1FE9, [0x1FE1]); (0x1FEA, [0x1F7A]); (0x1FEB, [0x1F7B]);
  (0x1FEC, [0x1FE5]); (0x1FF8, [0x1F78]); (0x1FF9, [0x1F79]); (0x1FFA, [0x1F7C]); (0x1FFB, [0x1F7D]);
  (0x1FFC, [0x1FF3]); (0x2126, [0x03C9]); (0x212A, [0x006B]); (0x212B, [0x00E5]); (0x2132, [0x214E]);
  (0x2160, [0x2170]); (0x2161, [0x2171]); (0x2162, [0x2172]); (0x2163, [0x2173]); (0x2164, [0x2174]);
  (0x2165, [0x2175]); (0x2166, [0x2176]); (0x2167, [0x2177]); (0x2168, [0x2178]); (0x2169, [0x2179]);
  (0x216A, [0x217A]); (0x216B, [0x217B]); (0x216C, [0x217C]); (0x216D, [0x217D]); (0x216E, [0x217E]);
  (0x216F, [0x217F]); (0x2183, [0x2184]); (0x24B6, [0x24D0]); (0x24B7, [0x24D1]); (0x24B8, [0x24D2]);
  (0x24B9, [0x24D3]); (0x24BA, [0x24D4]); (0x24BB, [0x24D5]); (0x24BC, [0x24D6]); (0x24BD, [0x24D7]);
  (0x24BE, [0x24D8]); (0x24BF, [0x24D9]); (0x24C0, [0x24DA]); (0x24C1, [0x24DB]); (0x24C2, [0x24DC]);
  (0x24C3, [0x24DD]); (0x24C4, [0x24DE]); (0x24C5, [0x24DF]); (0x24C6, [0x24E0]); (0x24C7, [0x24E1]);
  (0x24C8, [0x24E2]); (0x24C9, [0x24E3]); (0x24CA, [0x24E4]); (0x24CB, [0x24E5]); (0x24CC, [0x24E6]);
  (0x24CD, [0x24E7]); (0x24CE, [0x24E8]); (0x24CF, [0x24E9]); (0x2C00, [0x2C30]); (0x2C01, [0x2C31]);
  (0x2C02, [0x2C32]); (0x2C03, [0x2C33]); (0x2C04, [0x2C34]); (0x2C05, [0x2C35]); (0x2C06, [0x2C36]);
  (0x2C07, [0x2C37]); (0x2C08, [0x2C38]); (0x2C09, [0x2C39]); (0x2C0A, [0x2C3A]); (0x2C0B, [0x2C3B]);
  (0x2C0C, [0x2C3C]); (0x2C0D, [0x2C3D]); (0x2C0E, [0x2C3E]); (0x2C0F, [0x2C3F]); (0x2C10, [0x2C40]);
  (0x2C11, [0x2C41]); (0x2C12, [0x2C42]); (0x2C13, [0x2C43]); (0x2C14, [0x2C44]); (0x2C15, [0x2C45]);
  (0x2C16, [0x2C46]); (0x2C17, [0x2C47]); (0x2C18, [0x2C48]); (0x2C19, [0x2C49]); (0x2C1A, [0x2C4A]);
  (0x2C1B, [0x2C4B]); (0x2C1C, [0x2C4C]); (0x2C1D, [0x2C4D]); (0x2C1E, [0x2C4E]); (0x2C1F, [0x2C4F]);
  (0x2C20, [0x2C50]); (0x2C21, [0x2C51]); (0x2C22, [0x2C52]); (0x2C23, [0x2C53]); (0x2C24, [0x2C54]);
  (0x2C25, [0x2C55]); (0x2C26, [0x2C56]); (0x2C27, [0x2C57]); (0x2C28, [0x2C58]); (0x2C29, [0x2C59]);
  (0x2C2A, [0x2C5A]); (0x2C2B, [0x2C5B]); (0x2C2C, [0x2C5C]); (0x2C2D, [0x2C5D]); (0x2C2E, [0x2C5E]);
  (0x2C2F, [0x2C5F]); (0x2C60, [0x2C61]); (0x2C62, [0x026B]); (0x2C63, [0x1D7D]); (0x2C64, [0x027D]);
  (0x2C67, [0x2C68]); (0x2C69, [0x2C6A]); (0x2C6B, [0x2C6C]); (0x2C6D, [0x0251]); (0x2C6E, [0x0271]);
  (0x2C6F, [0x0250]); (0x2C70, [0x0252]); (0x2C72, [0x2C73]); (0x2C75, [0x2C76]); (0x2C7E, [0x023F]);
  (0x2C7F, [0x0240]); (0x2C80, [0x2C81]); (0x2C82, [0x2C83]); (0x2C84, [0x2C85]); (0x2C86, [0x2C87]);
  (0x2C88, [0x2C89]); (0x2C8A, [0x2C8B]); (0x2C8C, [0x2C8D]); (0x2C8E, [0x2C8F]); (0x2C90, [0x2C91]);
  (0x2C92, [0x2C93]); (0x2C94, [0x2C95]); (0x2C96, [0x2C97]); (0x2C98, [0x2C99]); (0x2C9A, [0x2C9B]);
  (0x2C9C, [0x2C9D]); (0x2C9E, [0x2C9F]); (0x2CA0, [0x2CA1]); (0x2CA2, [0x2CA3]); (0x2CA4, [0x2CA5]);
  (0x2CA6, [0x2CA7]); (0x2CA8, [0x2CA9]); (0x2CAA, [0x2CAB]); (0x2CAC, [0x2CAD]); (0x2CAE, [0x2CAF]);
  (0x2CB0, [0x2CB1]); (0x2CB2, [0x2CB3]); (0x2CB4, [0x2CB5]); (0x2CB6, [0x2CB7]); (0x2CB8, [0x2CB9]);
  (0x2CBA, [0x2CBB]); (0x2CBC, [0x2CBD]); (0x2CBE, [0x2CBF]); (0x2CC0, [0x2CC1]); (0x2CC2, [0x2CC3]);
  (0x2CC4, [0x2CC5]); (0x2CC6, [0x2CC7]); (0x2CC8, [0x2CC9]); (0x2CCA, [0x2CCB]); (0x2CCC, [0x2CCD]);
  (0x2CCE, [0x2CCF]); (0x2CD0, [0x2CD1]); (0x2CD2, [0x2CD3]); (0x2CD4, [0x2CD5]); (0x2CD6, [0x2CD7]);
  (0x2CD8, [0x2CD9]); (0x2CDA, [0x2CDB]); (0x2CDC, [0x2CDD]); (0x2CDE, [0x2CDF]); (0x2CE0, [0x2CE1]);
  (0x2CE2, [0x2CE3]); (0x2CEB, [0x2CEC]); (0x2CED, [0x2CEE]); (0x2CF2, [0x2CF3]); (0xA640, [0xA641]);
  (0xA642, [0xA643]); (0xA644, [0xA645]); (0xA646, [0xA647]); (0xA648, [0xA649]); (0xA64A, [0xA64B]);
  (0xA64C, [0xA64D]); (0xA64E, [0xA64F]); (0xA650, [0xA651]); (0xA652, [0xA653]); (0xA654, [0xA655]);
  (0xA656, [0xA657]); (0xA658, [0xA659]); (0xA65A, [0xA65B]); (0xA65C, [0xA65D]); (0xA65E, [0xA65F]);
  (0xA660, [0xA661]); (0xA662, [0xA663]); (0xA664, [0xA665]); (0xA666, [0xA667]); (0xA668, [0xA669]);
  (0xA66A, [0xA66B]); (0xA66C, [0xA66D]); (0xA680, [0xA681]); (0xA682, [0xA683]); (0xA684, [0xA685]);
  (0xA686, [0xA687]); (0xA688, [0xA689]); (0xA68A, [0xA68B]); (0xA68C, [0xA68D]); (0xA68E, [0xA68F]);
  (0xA690, [0xA691]); (0xA692, [0xA693]); (0xA694, [0xA695]); (0xA696, [0xA697]); (0xA698, [0xA699]);
  (0xA69A, [0xA69B]); (0xA722, [0xA723]); (0xA724, [0xA725]); (0xA726, [0xA727]); (0xA728, [0xA729]);
  (0xA72A, [0xA72B]); (0xA72C, [0xA72D]); (0xA72E, [0xA72F]); (0xA732, [0xA733]); (0xA734, [0xA735]);
  (0xA736, [0xA737]); (0xA738, [0xA739]); (0xA73A, [0xA73B]); (0xA73C, [0xA73D]); (0xA73E, [0xA73F]);
  (0xA740, [0xA741]); (0xA742, [0xA743]); (0xA744, [0xA745]); (0xA746, [0xA747]); (0xA748, [0xA749]);
  (0xA74A, [0xA74B]); (0xA74C, [0xA74D]); (0xA74E, [0xA74F]); (0xA750, [0xA751]); (0xA752, [0xA753]);
  (0xA754, [0xA755]); (0xA756, [0xA757]); (0xA758, [0xA759]); (0xA75A, [0xA75B]); (0xA75C, [0xA75D]);
  (0xA75E, [0xA75F]); (0xA760, [0xA761]); (0xA762, [0xA763]); (0xA764, [0xA765]); (0xA766, [0xA767]);
  (0xA768, [0xA769]); (0xA76A, [0xA76B]); (0xA76C, [0xA76D]); (0xA76E, [0xA76F]); (0xA779, [0xA77A]);
  (0xA77B, [0xA77C]); (0xA77D, [0x1D79]); (0xA77E, [0xA77F]); (0xA780, [0xA781]); (0xA782, [0xA783]);
  (0xA784, [0xA785]); (0xA786, [0xA787]); (0xA78B, [0xA78C]); (0xA78D, [0x0265]); (0xA790, [0xA791]);
  (0xA792, [0xA793]); (0xA796, [0xA797]); (0xA798, [0xA799]); (0xA79A, [0xA79B]); (0xA79C, [0xA79D]);
  (0xA79E, [0xA79F]); (0xA7A0, [0xA7A1]); (0xA7A2, [0xA7A3]); (0xA7A4, [0xA7A5]); (0xA7A6, [0xA7A7]);
  (0xA7A8, [0xA7A9]); (0xA7AA, [0x0266]); (0xA7AB, [0x025C]); (0xA7AC, [0x0261]); (0xA7AD, [0x026C]);
  (0xA7AE, [0x026A]); (0xA7B0, [0x029E]); (0xA7B1, [0x0287]); (0xA7B2, [0x029D]); (0xA7B3, [0xAB53]);
  (0xA7B4, [0xA7B5]); (0xA7B6, [0xA7B7]); (0xA7B8, [0xA7B9]); (0xA7BA, [0xA7BB]); (0xA7BC, [0xA7BD]);
  (0xA7BE, [0xA7BF]); (0xA7C0, [0xA7C1]); (0xA7C2, [0xA7C3]); (0xA7C4, [0xA794]); (0xA7C5, [0x0282]);
  (0xA7C6, [0x1D8E]); (0xA7C7, [0xA7C8]); (0xA7C9, [0xA7CA]); (0xA7D0, [0xA7D1]); (0xA7D6, [0xA7D7]);
  (0xA7D8, [0xA7D9]); (0xA7F5, [0xA7F6]); (0xFF21, [0xFF41]); (0xFF22, [0xFF42]); (0xFF23, [0xFF43]);
  (0xFF24, [0xFF44]); (0xFF25, [0xFF45]); (0xFF26, [0xFF46]); (0xFF27, [0xFF47]); (0xFF28, [0xFF48]);
  (0xFF29, [0xFF49]); (0xFF2A, [0xFF4A]); (0xFF2B, [0xFF4B]); (0xFF2C, [0xFF4C]); (0xFF2D, [0xFF4D]);
  (0xFF2E, [0xFF4E]); (0xFF2F, [0xFF4F]); (0xFF30, [0xFF50]); (0xFF31, [0xFF51]); (0xFF32, [0xFF52]);
  (0xFF33, [0xFF53]); (0xFF34, [0xFF54]); (0xFF35, [0xFF55]); (0xFF36, [0xFF56]); (0xFF37, [0xFF57]);
  (0xFF38, [0xFF58]); (0xFF39, [0xFF59]); (0xFF3A, [0xFF5A]); (0x10400, [0x10428]); (0x10401, [0x10429]);
  (0x10402, [0x1042A]); (0x10403, [0x1042B]); (0x10404, [0x1042C]); (0x10405, [0x1042D]); (0x10406, [0x1042E]);
  (0x10407, [0x1042F]); (0x10408, [0x10430]); (0x10409, [0x10431]); (0x1040A, [0x10432]); (0x1040B, [0x10433]);
  (0x1040C, [0x10434]); (0x1040D, [0x10435]); (0x1040E, [0x10436]); (0x1040F, [0x10437]); (0x10410, [0x10438]);
  (0x10411, [0x10439]); (0x10412, [0x1043A]); (0x10413, [0x1043B]); (0x10414, [0x1043C]); (0x10415, [0x1043D]);
  (0x10416, [0x1043E]); (0x10417, [0x1043F]); (0x10418, [0x10440]); (0x10419, [0x10441]); (0x1041A, [0x10442]);
  (0x1041B, [0x10443]); (0x1041C, [0x10444]); (0x1041D, [0x10445]); (0x1041E, [0x10446]); (0x1041F, [0x10447]);
  (0x10420, [0x10448]); (0x10421, [0x10449]); (0x10422, [0x1044A]); (0x10423, [0x1044B]); (0x10424, [0x1044C]);
  (0x10425, [0x1044D]); (0x10426, [0x1044E]); (0x10427, [0x1044F]); (0x104B0, [0x104D8]); (0x104B1, [0x104D9]);
  (0x104B2, [0x104DA]); (0x104B3, [0x104DB]); (0x104B4, [0x104DC]); (0x104B5, [0x104DD]); (0x104B6, [0x104DE]);
  (0x104B7, [0x104DF]); (0x104B8, [0x104E0]); (0x104B9, [0x104E1]); (0x104BA, [0x104E2]); (0x104BB, [0x104E3]);
  (0x104BC, [0x104E4]); (0x104BD, [0x104E5]); (0x104BE, [0x104E6]); (0x104BF, [0x104E7]); (0x104C0, [0x104E8]);
  (0x104C1, [0x104E9]); (0x104C2, [0x104EA]); (0x104C3, [0x104EB]); (0x104C4, [0x104EC]); (0x104C5, [0x104ED]);
  (0x104C6, [0x104EE]); (0x104C7, [0x104EF]); (0x104C8, [0x104F0]); (0x104C9, [0x104F1]); (0x104CA, [0x104F2]);
  (0x104CB, [0x104F3]); (0x104CC, [0x104F4]); (0x104CD, [0x104F5]); (0x104CE, [0x104F6]); (0x104CF, [0x104F7]);
  (0x104D0, [0x104F8]); (0x104D1, [0x104F9]); (0x104D2, [0x104FA]); (0x104D3, [0x104FB]); (0x10570, [0x10597]);
  (0x10571, [0x10598]); (0x10572, [0x10599]); (0x10573, [0x1059A]); (0x10574, [0x1059B]); (0x10575, [0x1059C]);
  (0x10576, [0x1059D]); (0x10577, [0x1059E]); (0x10578, [0x1059F]); (0x10579, [0x105A0]); (0x1057A, [0x105A1]);
  (0x1057C, [0x105A3]); (0x1057D, [0x105A4]); (0x1057E, [0x105A5]); (0x1057F, [0x105A6]); (0x10580, [0x105A7]);
  (0x10581, [0x105A8]); (0x10582, [0x105A9]); (0x10583, [0x105AA]); (0x10584, [0x105AB]); (0x10585, [0x105AC]);
  (0x10586, [0x105AD]); (0x10587, [0x105AE]); (0x10588, [0x105AF]); (0x10589, [0x105B0]); (0x1058A, [0x105B1]);
  (0x1058C, [0x105B3]); (0x1058D, [0x105B4]); (0x1058E, [0x105B5]); (0x1058F, [0x105B6]); (0x10590, [0x105B7]);
  (0x10591, [0x105B8]); (0x10592, [0x105B9]); (0x10594, [0x105BB]); (0x10595, [0x105BC]); (0x10C80, [0x10CC0]);
  (0x10C81, [0x10CC1]); (0x10C82, [0x10CC2]); (0x10C83, [0x10CC3]); (0x10C84, [0x10CC4]); (0x10C85, [0x10CC5]);
  (0x10C86, [0x10CC6]); (0x10C87, [0x10CC7]); (0x10C88, [0x10CC8]); (0x10C89, [0x10CC9]); (0x10C8A, [0x10CCA]);
  (0x10C8B, [0x10CCB]); (0x10C8C, [0x10CCC]); (0x10C8D, [0x10CCD]); (0x10C8E, [0x10CCE]); (0x10C8F, [0x10CCF]);
  (0x10C90, [0x10CD0]); (0x10C91, [0x10CD1]); (0x10C92, [0x10CD2]); (0x10C93, [0x10CD3]); (0x10C94, [0x10CD4]);
  (0x10C95, [0x10CD5]); (0x10C96, [0x10CD6]); (0x10C97, [0x10CD7]); (0x10C98, [0x10CD8]); (0x10C99, [0x10CD9]);
  (0x10C9A, [0x10CDA]); (0x10C9B, [0x10CDB]); (0x10C9C, [0x10CDC]); (0x10C9D, [0x10CDD]); (0x10C9E, [0x10CDE]);
  (0x10C9F, [0x10CDF]); (0x10CA0, [0x10CE0]); (0x10CA1, [0x10CE1]); (0x10CA2, [0x10CE2]); (0x10CA3, [0x10CE3]);
  (0x10CA4, [0x10CE4]); (0x10CA5, [0x10CE5]); (0x10CA6, [0x10CE6]); (0x10CA7, [0x10CE7]); (0x10CA8, [0x10CE8]);
  (0x10CA9, [0x10CE9]); (0x10CAA, [0x10CEA]); (0x10CAB, [0x10CEB]); (0x10CAC, [0x10CEC]); (0x10CAD, [0x10CED]);
  (0x10CAE, [0x10CEE]); (0x10CAF, [0x10CEF]); (0x10CB0, [0x10CF0]); (0x10CB1, [0x10CF1]); (0x10CB2, [0x10CF2]);
  (0x118A0, [0x118C0]); (0x118A1, [0x118C1]); (0x118A2, [0x118C2]); (0x118A3, [0x118C3]); (0x118A4, [0x118C4]);
  (0x118A5, [0x118C5]); (0x118A6, [0x118C6]); (0x118A7, [0x118C7]); (0x118A8, [0x118C8]); (0x118A9, [0x118C9]);
  (0x118AA, [0x118CA]); (0x118AB, [0x118CB]); (0x118AC, [0x118CC]); (0x118AD, [0x118CD]); (0x118AE, [0x118CE]);
  (0x118AF, [0x118CF]); (0x118B0, [0x118D0]); (0x118B1, [0x118D1]); (0x118B2, [0x118D2]); (0x118B3, [0x118D3]);
  (0x118B4, [0x118D4]); (0x118B5, [0x118D5]); (0x118B6, [0x118D6]); (0x118B7, [0x118D7]); (0x118B8, [0x118D8]);
  (0x118B9, [0x118D9]); (0x118BA, [0x118DA]); (0x118BB, [0x118DB]); (0x118BC, [0x118DC]); (0x118BD, [0x118DD]);
  (0x118BE, [0x118DE]); (0x118BF, [0x118DF]); (0x16E40, [0x16E60]); (0x16E41, [0x16E61]); (0x16E42, [0x16E62]);
  (0x16E43, [0x16E63]); (0x16E44, [0x16E64]); (0x16E45, [0x16E65]); (0x16E46, [0x16E66]); (0x16E47, [0x16E67]);
  (0x16E48, [0x16E68]); (0x16E49, [0x16E69]); (0x16E4A, [0x16E6A]); (0x16E4B, [0x16E6B]); (0x16E4C, [0x16E6C]);
  (0x16E4D, [0x16E6D]); (0x16E4E, [0x16E6E]); (0x16E4F, [0x16E6F]); (0x16E50, [0x16E70]); (0x16E51, [0x16E71]);
  (0x16E52, [0x16E72]); (0x16E53, [0x16E73]); (0x16E54, [0x16E74]); (0x16E55, [0x16E75]); (0x16E56, [0x16E76]);
  (0x16E57, [0x16E77]); (0x16E58, [0x16E78]); (0x16E59, [0x16E79]); (0x16E5A, [0x16E7A]); (0x16E5B, [0x16E7B]);
  (0x16E5C, [0x16E7C]); (0x16E5D, [0x16E7D]); (0x16E5E, [0x16E7E]); (0x16E5F, [0x16E7F]); (0x1E900, [0x1E922]);
  (0x1E901, [0x1E923]); (0x1E902, [0x1E924]); (0x1E903, [0x1E925]); (0x1E904, [0x1E926]); (0x1E905, [0x1E927]);
  (0x1E906, [0x1E928]); (0x1E907, [0x1E929]); (0x1E908, [0x1E92A]); (0x1E909, [0x1E92B]); (0x1E90A, [0x1E92C]);
  (0x1E90B, [0x1E92D]); (0x1E90C, [0x1E92E]); (0x1E90D, [0x1E92F]); (0x1E90E, [0x1E930]); (0x1E90F, [0x1E931]);
  (0x1E910, [0x1E932]); (0x1E911, [0x1E933]); (0x1E912, [0x1E934]); (0x1E913, [0x1E935]); (0x1E914, [0x1E936]);
  (0x1E915, [0x1E937]); (0x1E916, [0x1E938]); (0x1E917, [0x1E939]); (0x1E918, [0x1E93A]); (0x1E919, [0x1E93B]);
  (0x1E91A, [0x1E93C]); (0x1E91B, [0x1E93D]); (0x1E91C, [0x1E93E]); (0x1E91D, [0x1E93F]); (0x1E91E, [0x1E940]);
  (0x1E91F, [0x1E941]); (0x1E920, [0x1E942]); (0x1E921, [0x1E943])
].

Definition case_ignorable : list (N * N) := [
  (0x0027, 0x0027); (0x002E, 0x002E); (0x003A, 0x003A); (0x005E, 0x005E); (0x0060, 0x0060); (0x00A8, 0x00A8);
  (0x00AD, 0x00AD); (0x00AF, 0x00AF); (0x00B4, 0x00B4); (0x00B7, 0x00B8); (0x02B0, 0x036F); (0x0374, 0x0375);
  (0x037A, 0x037A); (0x0384, 0x0385); (0x0387, 0x0387); (0x0483, 0x0489); (0x0559, 0x0559); (0x055F, 0x055F);
  (0x0591, 0x05BD); (0x05BF, 0x05BF); (0x05C1, 0x05C2); (0x05C4, 0x05C5); (0x05C7, 0x05C7); (0x05F4, 0x05F4);
  (0x0600, 0x0605); (0x0610, 0x061A); (0x061C, 0x061C); (0x0640, 0x0640); (0x064B, 0x065F); (0x0670, 0x0670);
  (0x06D6, 0x06DD); (0x06DF, 0x06E8); (0x06EA, 0x06ED); (0x070F, 0x070F); (0x0711, 0x0711); (0x0730, 0x074A);
  (0x07A6, 0x07B0); (0x07EB, 0x07F5); (0x07FA, 0x07FA); (0x07FD, 0x07FD); (0x0816, 0x082D); (0x0859, 0x085B);
  (0x0888, 0x0888); (0x0890, 0x0891); (0x0898, 0x089F); (0x08C9, 0x0902); (0x093A, 0x093A); (0x093C, 0x093C);
  (0x0941, 0x0948); (0x094D, 0x094D); (0x0951, 0x0957); (0x0962, 0x0963); (0x0971, 0x0971); (0x0981, 0x0981);
  (0x09BC, 0x09BC); (0x09C1, 0x09C4); (0x09CD, 0x09CD); (0x09E2, 0x09E3); (0x09FE, 0x09FE); (0x0A01, 0x0A02);
  (0x0A3C, 0x0A3C); (0x0A41, 0x0A42); (0x0A47, 0x0A48); (0x0A4B, 0x0A4D); (0x0A51, 0x0A51); (0x0A70, 0x0A71);
  (0x0A75, 0x0A75); (0x0A81, 0x0A82); (0x0ABC, 0x0ABC); (0x0AC1, 0x0AC5); (0x0AC7, 0x0AC8); (0x0ACD, 0x0ACD);
  (0x0AE2, 0x0AE3); (0x0AFA, 0x0AFF); (0x0B01, 0x0B01); (0x0B3C, 0x0B3C); (0x0B3F, 0x0B3F); (0x0B41, 0x0B44);
  (0x0B4D, 0x0B4D); (0x0B55, 0x0B56); (0x0B62, 0x0B63); (0x0B82, 0x0B82); (0x0BC0, 0x0BC0); (0x0BCD, 0x0BCD);
  (0x0C00, 0x0C00); (0x0C04, 0x0C04); (0x0C3C, 0x0C3C); (0x0C3E, 0x0C40); (0x0C46, 0x0C48); (0x0C4A, 0x0C4D);
  (0x0C55, 0x0C56); (0x0C62, 0x0C63); (0x0C81, 0x0C81); (0x0CBC, 0x0CBC); (0x0CBF, 0x0CBF); (0x0CC6, 0x0CC6);
  (0x0CCC, 0x0CCD); (0x0CE2, 0x0CE3); (0x0D00, 0x0D01); (0x0D3B, 0x0D3C); (0x0D41, 0x0D44); (0x0D4D, 0x0D4D);
  (0x0D62, 0x0D63); (0x0D81, 0x0D81); (0x0DCA, 0x0DCA); (0x0DD2, 0x0DD4); (0x0DD6, 0x0DD6); (0x0E31, 0x0E31);
  (0x0E34, 0x0E3A); (0x0E46, 0x0E4E); (0x0EB1, 0x0EB1); (0x0EB4, 0x0EBC); (0x0EC6, 0x0EC6); (0x0EC8, 0x0ECD);
  (0x0F18, 0x0F19); (0x0F35, 0x0F35); (0x0F37, 0x0F37); (0x0F39, 0x0F39); (0x0F71, 0x0F7E); (0x0F80, 0x0F84);
  (0x0F86, 0x0F87); (0x0F8D, 0x0F97); (0x0F99, 0x0FBC); (0x0FC6, 0x0FC6); (0x102D, 0x1030); (0x1032, 0x1037);
  (0x1039, 0x103A); (0x103D, 0x103E); (0x1058, 0x1059); (0x105E, 0x1060); (0x1071, 0x1074); (0x1082, 0x1082);
  (0x1085, 0x1086); (0x108D, 0x108D); (0x109D, 0x109D); (0x10FC, 0x10FC); (0x135D, 0x135F); (0x1712, 0x1714);
  (0x1732, 0x1733); (0x1752, 0x1753); (0x1772, 0x1773); (0x17B4, 0x17B5); (0x17B7, 0x17BD); (0x17C6, 0x17C6);
  (0x17C9, 0x17D3); (0x17D7, 0x17D7); (0x17DD, 0x17DD); (0x180B, 0x180F); (0x1843, 0x1843); (0x1885, 0x1886);
  (0x18A9, 0x18A9); (0x1920, 0x1922); (0x1927, 0x1928); (0x1932, 0x1932); (0x1939, 0x193B); (0x1A17, 0x1A18);
  (0x1A1B, 0x1A1B); (0x1A56, 0x1A56); (0x1A58, 0x1A5E); (0x1A60, 0x1A60); (0x1A62, 0x1A62); (0x1A65, 0x1A6C);
  (0x1A73, 0x1A7C); (0x1A7F, 0x1A7F); (0x1AA7, 0x1AA7); (0x1AB0, 0x1ACE); (0x1B00, 0x1B03); (0x1B34, 0x1B34);
  (0x1B36, 0x1B3A); (0x1B3C, 0x1B3C); (0x1B42, 0x1B42); (0x1B6B, 0x1B73); (0x1B80, 0x1B81); (0x1BA2, 0x1BA5);
  (0x1BA8, 0x1BA9); (0x1BAB, 0x1BAD); (0x1BE6, 0x1BE6); (0x1BE8, 0x1BE9); (0x1BED, 0x1BED); (0x1BEF, 0x1BF1);
  (0x1C2C, 0x1C33); (0x1C36, 0x1C37); (0x1C78, 0x1C7D); (0x1CD0, 0x1CD2); (0x1CD4, 0x1CE0); (0x1CE2, 0x1CE8);
  (0x1CED, 0x1CED); (0x1CF4, 0x1CF4); (0x1CF8, 0x1CF9); (0x1D2C, 0x1D6A); (0x1D78, 0x1D78); (0x1D9B, 0x1DFF);
  (0x1FBD, 0x1FBD); (0x1FBF, 0x1FC1); (0x1FCD, 0x1FCF); (0x1FDD, 0x1FDF); (0x1FED, 0x1FEF); (0x1FFD, 0x1FFE);
  (0x200B, 0x200F); (0x2018, 0x2019); (0x2024, 0x2024); (0x2027, 0x2027); (0x202A, 0x202E); (0x2060, 0x2064);
  (0x2066, 0x206F); (0x2071, 0x2071); (0x207F, 0x207F); (0x2090, 0x209C); (0x20D0, 0x20F0); (0x2C7C, 0x2C7D);
  (0x2CEF, 0x2CF1); (0x2D6F, 0x2D6F); (0x2D7F, 0x2D7F); (0x2DE0, 0x2DFF); (0x2E2F, 0x2E2F); (0x3005, 0x3005);
  (0x302A, 0x302D); (0x3031, 0x3035); (0x303B, 0x303B); (0x3099, 0x309E); (0x30FC, 0x30FE); (0xA015, 0xA015);
  (0xA4F8, 0xA4FD); (0xA60C, 0xA60C); (0xA66F, 0xA672); (0xA674, 0xA67D); (0xA67F, 0xA67F); (0xA69C, 0xA69F);
  (0xA6F0, 0xA6F1); (0xA700, 0xA721); (0xA770, 0xA770); (0xA788, 0xA78A); (0xA7F2, 0xA7F4); (0xA7F8, 0xA7F9);
  (0xA802, 0xA802); (0xA806, 0xA806); (0xA80B, 0xA80B); (0xA825, 0xA826); (0xA82C, 0xA82C); (0xA8C4, 0xA8C5);
  (0xA8E0, 0xA8F1); (0xA8FF, 0xA8FF); (0xA926, 0xA92D); (0xA947, 0xA951); (0xA980, 0xA982); (0xA9B3, 0xA9B3);
  (0xA9B6, 0xA9B9); (0xA9BC, 0xA9BD); (0xA9CF, 0xA9CF); (0xA9E5, 0xA9E6); (0xAA29, 0xAA2E); (0xAA31, 0xAA32);
  (0xAA35, 0xAA36); (0xAA43, 0xAA43); (0xAA4C, 0xAA4C); (0xAA70, 0xAA70); (0xAA7C, 0xAA7C); (0xAAB0, 0xAAB0);
  (0xAAB2, 0xAAB4); (0xAAB7, 0xAAB8); (0xAABE, 0xAABF); (0xAAC1, 0xAAC1); (0xAADD, 0xAADD); (0xAAEC, 0xAAED);
  (0xAAF3, 0xAAF4); (0xAAF6, 0xAAF6); (0xAB5B, 0xAB5F); (0xAB69, 0xAB6B); (0xABE5, 0xABE5); (0xABE8, 0xABE8);
  (0xABED, 0xABED); (0xFB1E, 0xFB1E); (0xFBB2, 0xFBC2); (0xFE00, 0xFE0F); (0xFE13, 0xFE13); (0xFE20, 0xFE2F);
  (0xFE52, 0xFE52); (0xFE55, 0xFE55); (0xFEFF, 0xFEFF); (0xFF07, 0xFF07); (0xFF0E, 0xFF0E); (0xFF1A, 0xFF1A);
  (0xFF3E, 0xFF3E); (0xFF40, 0xFF40); (0xFF70, 0xFF70); (0xFF9E, 0xFF9F); (0xFFE3, 0xFFE3); (0xFFF9, 0xFFFB);
  (0x101FD, 0x101FD); (0x102E0, 0x102E0); (0x10376, 0x1037A); (0x10780, 0x10785); (0x10787, 0x107B0); (0x107B2, 0x107BA);
  (0x10A01, 0x10A03); (0x10A05, 0x10A06); (0x10A0C, 0x10A0F); (0x10A38, 0x10A3A); (0x10A3F, 0x10A3F); (0x10AE5, 0x10AE6);
  (0x10D24, 0x10D27); (0x10EAB, 0x10EAC); (0x10F46, 0x10F50); (0x10F82, 0x10F85); (0x11001, 0x11001); (0x11038, 0x11046);
  (0x11070, 0x11070); (0x11073, 0x11074); (0x1107F, 0x11081); (0x110B3, 0x110B6); (0x110B9, 0x110BA); (0x110BD, 0x110BD);
  (0x110C2, 0x110C2); (0x110CD, 0x110CD); (0x11100, 0x11102); (0x11127, 0x1112B); (0x1112D, 0x11134); (0x11173, 0x11173);
  (0x11180, 0x11181); (0x111B6, 0x111BE); (0x111C9, 0x111CC); (0x111CF, 0x111CF); (0x1122F, 0x11231); (0x11234, 0x11234);
  (0x11236, 0x11237); (0x1123E, 0x1123E); (0x112DF, 0x112DF); (0x112E3, 0x112EA); (0x11300, 0x11301); (0x1133B, 0x1133C);
  (0x11340, 0x11340); (0x11366, 0x1136C); (0x11370, 0x11374); (0x11438, 0x1143F); (0x11442, 0x11444); (0x11446, 0x11446);
  (0x1145E, 0x1145E); (0x114B3, 0x114B8); (0x114BA, 0x114BA); (0x114BF, 0x114C0); (0x114C2, 0x114C3); (0x115B2, 0x115B5);
  (0x115BC, 0x115BD); (0x115BF, 0x115C0); (0x115DC, 0x115DD); (0x11633, 0x1163A); (0x1163D, 0x1163D); (0x1163F, 0x11640);
  (0x116AB, 0x116AB); (0x116AD, 0x116AD); (0x116B0, 0x116B5); (0x116B7, 0x116B7); (0x1171D, 0x1171F); (0x11722, 0x11725);
  (0x11727, 0x1172B); (0x1182F, 0x11837); (0x11839, 0x1183A); (0x1193B, 0x1193C); (0x1193E, 0x1193E); (0x11943, 0x11943);
  (0x119D4, 0x119D7); (0x119DA, 0x119DB); (0x119E0, 0x119E0); (0x11A01, 0x11A0A); (0x11A33, 0x11A38); (0x11A3B, 0x11A3E);
  (0x11A47, 0x11A47); (0x11A51, 0x11A56); (0x11A59, 0x11A5B); (0x11A8A, 0x11A96); (0x11A98, 0x11A99); (0x11C30, 0x11C36);
  (0x11C38, 0x11C3D); (0x11C3F, 0x11C3F); (0x11C92, 0x11CA7); (0x11CAA, 0x11CB0); (0x11CB2, 0x11CB3); (0x11CB5, 0x11CB6);
  (0x11D31, 0x11D36); (0x11D3A, 0x11D3A); (0x11D3C, 0x11D3D); (0x11D3F, 0x11D45); (0x11D47, 0x11D47); (0x11D90, 0x11D91);
  (0x11D95, 0x11D95); (0x11D97, 0x11D97); (0x11EF3, 0x11EF4); (0x13430, 0x13438); (0x16AF0, 0x16AF4); (0x16B30, 0x16B36);
  (0x16B40, 0x16B43); (0x16F4F, 0x16F4F); (0x16F8F, 0x16F9F); (0x16FE0, 0x16FE1); (0x16FE3, 0x16FE4); (0x1AFF0, 0x1AFF3);
  (0x1AFF5, 0x1AFFB); (0x1AFFD, 0x1AFFE); (0x1BC9D, 0x1BC9E); (0x1BCA0, 0x1BCA3); (0x1CF00, 0x1CF2D); (0x1CF30, 0x1CF46);
  (0x1D167, 0x1D169); (0x1D173, 0x1D182); (0x1D185, 0x1D18B); (0x1D1AA, 0x1D1AD); (0x1D242, 0x1D244); (0x1DA00, 0x1DA36);
  (0x1DA3B, 0x1DA6C); (0x1DA75, 0x1DA75); (0x1DA84, 0x1DA84); (0x1DA9B, 0x1DA9F); (0x1DAA1, 0x1DAAF); (0x1E000, 0x1E006);
  (0x1E008, 0x1E018); (0x1E01B, 0x1E021); (0x1E023, 0x1E024); (0x1E026, 0x1E02A); (0x1E130, 0x1E13D); (0x1E2AE, 0x1E2AE);
  (0x1E2EC, 0x1E2EF); (0x1E8D0, 0x1E8D6); (0x1E944, 0x1E94B); (0x1F3FB, 0x1F3FF); (0xE0001, 0xE0001); (0xE0020, 0xE007F);
  (0xE0100, 0xE01EF)
].

Definition cased : list (N * N) := [
  (0x0041, 0x005A); (0x0061, 0x007A); (0x00AA, 0x00AA); (0x00B5, 0x00B5); (0x00BA, 0x00BA); (0x00C0, 0x00D6);
  (0x00D8, 0x00F6); (0x00F8, 0x01BA); (0x01BC, 0x01BF); (0x01C4, 0x0293); (0x0295, 0x02B8); (0x02C0, 0x02C1);
  (0x02E0, 0x02E4); (0x0345, 0x0345); (0x0370, 0x0373); (0x0376, 0x0377); (0x037A, 0x037D); (0x037F, 0x037F);
  (0x0386, 0x0386); (0x0388, 0x038A); (0x038C, 0x038C); (0x038E, 0x03A1); (0x03A3, 0x03F5); (0x03F7, 0x0481);
  (0x048A, 0x052F); (0x0531, 0x0556); (0x0560, 0x0588); (0x10A0, 0x10C5); (0x10C7, 0x10C7); (0x10CD, 0x10CD);
  (0x10D0, 0x10FA); (0x10FD, 0x10FF); (0x13A0, 0x13F5); (0x13F8, 0x13FD); (0x1C80, 0x1C88); (0x1C90, 0x1CBA);
  (0x1CBD, 0x1CBF); (0x1D00, 0x1DBF); (0x1E00, 0x1F15); (0x1F18, 0x1F1D); (0x1F20, 0x1F45); (0x1F48, 0x1F4D);
  (0x1F50, 0x1F57); (0x1F59, 0x1F59); (0x1F5B, 0x1F5B); (0x1F5D, 0x1F5D); (0x1F5F, 0x1F7D); (0x1F80, 0x1FB4);
  (0x1FB6, 0x1FBC); (0x1FBE, 0x1FBE); (0x1FC2, 0x1FC4); (0x1FC6, 0x1FCC); (0x1FD0, 0x1FD3); (0x1FD6, 0x1FDB);
  (0x1FE0, 0x1FEC); (0x1FF2, 0x1FF4); (0x1FF6, 0x1FFC); (0x2071, 0x2071); (0x207F, 0x207F); (0x2090, 0x209C);
  (0x2102, 0x2102); (0x2107, 0x2107); (0x210A, 0x2113); (0x2115, 0x2115); (0x2119, 0x211D); (0x2124, 0x2124);
  (0x2126, 0x2126); (0x2128, 0x2128); (0x212A, 0x212D); (0x212F, 0x2134); (0x2139, 0x2139); (0x213C, 0x213F);
  (0x2145, 0x2149); (0x214E, 0x214E); (0x2160, 0x217F); (0x2183, 0x2184); (0x24B6, 0x24E9); (0x2C00, 0x2CE4);
  (0x2CEB, 0x2CEE); (0x2CF2, 0x2CF3); (0x2D00, 0x2D25); (0x2D27, 0x2D27); (0x2D2D, 0x2D2D); (0xA640, 0xA66D);
  (0xA680, 0xA69D); (0xA722, 0xA787); (0xA78B, 0xA78E); (0xA790, 0xA7CA); (0xA7D0, 0xA7D1); (0xA7D3, 0xA7D3);
  (0xA7D5, 0xA7D9); (0xA7F5, 0xA7F6); (0xA7F8, 0xA7FA); (0xAB30, 0xAB5A); (0xAB5C, 0xAB68); (0xAB70, 0xABBF);
  (0xFB00, 0xFB06); (0xFB13, 0xFB17); (0xFF21, 0xFF3A); (0xFF41, 0xFF5A); (0x10400, 0x1044F); (0x104B0, 0x104D3);
  (0x104D8, 0x104FB); (0x10570, 0x1057A); (0x1057C, 0x1058A); (0x1058C, 0x10592); (0x10594, 0x10595); (0x10597, 0x105A1);
  (0x105A3, 0x105B1); (0x105B3, 0x105B9); (0x105BB, 0x105BC); (0x10780, 0x10780); (0x10783, 0x10785); (0x10787, 0x107B0);
  (0x107B2, 0x107BA); (0x10C80, 0x10CB2); (0x10CC0, 0x10CF2); (0x118A0, 0x118DF); (0x16E40, 0x16E7F); (0x1D400, 0x1D454);
  (0x1D456, 0x1D49C); (0x1D49E, 0x1D49F); (0x1D4A2, 0x1D4A2); (0x1D4A5, 0x1D4A6); (0x1D4A9, 0x1D4AC); (0x1D4AE, 0x1D4B9);
  (0x1D4BB, 0x1D4BB); (0x1D4BD, 0x1D4C3); (0x1D4C5, 0x1D505); (0x1D507, 0x1D50A); (0x1D50D, 0x1D514); (0x1D516, 0x1D51C);
  (0x1D51E, 0x1D539); (0x1D53B, 0x1D53E); (0x1D540, 0x1D544); (0x1D546, 0x1D546); (0x1D54A, 0x1D550); (0x1D552, 0x1D6A5);
  (0x1D6A8, 0x1D6C0); (0x1D6C2, 0x1D6DA); (0x1D6DC, 0x1D6FA); (0x1D6FC, 0x1D714); (0x1D716, 0x1D734); (0x1D736, 0x1D74E);
  (0x1D750, 0x1D76E); (0x1D770, 0x1D788); (0x1D78A, 0x1D7A8); (0x1D7AA, 0x1D7C2); (0x1D7C4, 0x1D7CB); (0x1DF00, 0x1DF09);
  (0x1DF0B, 0x1DF1E); (0x1E900, 0x1E943); (0x1F130, 0x1F149); (0x1F150, 0x1F169); (0x1F170, 0x1F189)
].

End UCD.

(** ** The string built-ins the source calls *)

Module Builtins.

Import Utf16.

Fixpoint assoc {A : Type} (c : N) (t : list (N * A)) : option A :=
  match t with
  | [] => None
  | (k, v) :: rest => if c =? k then Some v else assoc c rest
  end.

Fixpoint in_ranges (c : N) (t : list (N * N)) : bool :=
  match t with
  | [] => false
  | (lo, hi) :: rest => ((lo <=? c) && (c <=? hi)) || in_ranges c rest
  end.

Fixpoint class_in (c : N) (t : list (N * N * N)) : N :=
  match t with
  | [] => 0
  | (lo, hi, k) :: rest => if (lo <=? c) && (c <=? hi) then k else class_in c rest
  end.

(** *** [s.normalize('NFD')] *)

Definition is_hangul_syllable (c : N) : bool := (0xAC00 <=? c) && (c <=? 0xD7A3).

Definition hangul_decomposition (c : N) : list N :=
  let s := c - 0xAC00 in
  let l := 0x1100 + s / 588 in
  let v := 0x1161 + (s mod 588) / 28 in
  let t := 0x11A7 + s mod 28 in
  if t =? 0x11A7 then [l; v] else [l; v; t].

Definition decompose (c : N) : list N :=
  if is_hangul_syllable c then hangul_decomposition c
  else match assoc c UCD.canonical_decomposition with
       | Some d => d
       | None => [c]
       end.

Definition ccc (c : N) : N := class_in c UCD.combining_class.

(** Canonical ordering: a mark moves to the right of the marks of a strictly
    smaller, non-zero class that follow it; a starter (class 0) blocks. *)
Fixpoint insert_mark (c : N) (l : list N) : list N :=
  match l with
  | [] => [c]
  | x :: rest =>
      if (0 <? ccc x) && (ccc x <? ccc c) then x :: insert_mark c rest
      else c :: l
  end.

Fixpoint canonical_order (l : list N) : list N :=
  match l with
  | [] => []
  | c :: rest => insert_mark c (canonical_order rest)
  end.

Definition normalize_NFD (s : jsstring) : jsstring :=
  from_code_points (canonical_order (flat_map decompose (code_points s))).

(** *** [s.replace(/[\u0300-\u036f]/g, '')]

    The pattern has no [u] flag: it is matched against code units. *)

Definition is_combining_diacritic (u : N) : bool := (0x0300 <=? u) && (u <=? 0x036F).

Definition remove_diacritics (s : jsstring) : jsstring :=
  filter (fun u => negb (is_combining_diacritic u)) s.

(** *** [s.toLowerCase()]

    The full lowercase mapping of each code point; capital sigma becomes
    final sigma when a cased letter precedes it and none follows, case-ignorable
    code points being skipped on both sides. *)

Definition lower_mapping (c : N) : list N :=
  match assoc c UCD.lowercase_mapping with
  | Some l => l
  | None => [c]
  end.

Fixpoint next_is_cased (l : list N) : bool :=
  match l with
  | [] => false
  | c :: rest =>
      if in_ranges c UCD.case_ignorable then next_is_cased rest
      else in_ranges c UCD.cased
  end.

Definition final_sigma (before after : list N) : bool :=
  next_is_cased before && negb (next_is_cased after).

Definition lower_code_point (before after : list N) (c : N) : list N :=
  if c =? 0x03A3
  then [if final_sigma before after then 0x03C2 else 0x03C3]
  else lower_mapping c.

(** [before] holds the code points already passed, the nearest first. *)
Fixpoint lower_from (before l : list N) : list N :=
  match l with
  | [] => []
  | c :: rest => lower_code_point before rest c ++ lower_from (c :: before) rest
  end.

Definition toLowerCase (s : jsstring) : jsstring :=
  from_code_points (lower_from [] (code_points s)).

(** *** [\s] and [s.trim()] : WhiteSpace and LineTerminator code units *)

Definition is_white_space (u : N) : bool :=
  ((0x0009 <=? u) && (u <=? 0x000D)) || (u =? 0x0020) || (u =? 0x00A0)
  || (u =? 0x1680) || ((0x2000 <=? u) && (u <=? 0x200A))
  || (u =? 0x2028) || (u =? 0x2029) || (u =? 0x202F) || (u =? 0x205F)
  || (u =? 0x3000) || (u =? 0xFEFF).

Fixpoint trim_start (s : jsstring) : jsstring :=
  match s with
  | [] => []
  | u :: rest => if is_white_space u then trim_start rest else s
  end.

Definition trim (s : jsstring) : jsstring :=
  rev (trim_start (rev (trim_start s))).

End Builtins.

(** ** js/index.js : [normalize] *)

(** [const normalize = (str) =>
      str.normalize('NFD').replace(/[\u0300-\u036f]/g, '').toLowerCase();] *)
Definition normalize (s : jsstring) : jsstring :=
  Builtins.toLowerCase (Builtins.remove_diacritics (Builtins.normalize_NFD s)).

(** ** Data model *)

(** [population] is a number or a string in the dataset. *)
Inductive population_value :=
| PopulationNumber (n : N)
| PopulationString (s : jsstring).

Record Country := {
  name : jsstring;
  population : population_value;
  region : jsstring;
  capital : jsstring;
  flag : jsstring
}.

(** What a lookup hands back: a record of the dataset, [undefined] or [null]. *)
Inductive js_value :=
| JsObject (country : Country)
| JsUndefined
| JsNull.

Definition truthy (v : js_value) : bool :=
  match v with
  | JsObject _ => true
  | JsUndefined | JsNull => false
  end.

(** [a || b] *)
Definition js_or (a b : js_value) : js_value := if truthy a then a else b.

(** ** Completions: a call returns normally or throws *)

Inductive js_error := Error (message : string).

Inductive Completion (A : Type) :=
| Normal (a : A)
| Throw (e : js_error).
Arguments Normal {A} a.
Arguments Throw {A} e.

Definition bindC {A B : Type} (c : Completion A) (k : A -> Completion B) : Completion B :=
  match c with
  | Normal a => k a
  | Throw e => Throw e
  end.

(** [array.find(callback)]: the first element the callback accepts, or
    [undefined]; an exception of the callback leaves the call. *)
Fixpoint array_find (callback : Country -> Completion bool) (array : list Country)
  : Completion js_value :=
  match array with
  | [] => Normal JsUndefined
  | x :: rest =>
      bindC (callback x) (fun hit => if hit then Normal (JsObject x) else array_find callback rest)
  end.

(** [array.filter(callback)]: the accepted elements, in array order, in a new array. *)
Fixpoint array_filter (callback : Country -> Completion bool) (array : list Country)
  : Completion (list Country) :=
  match array with
  | [] => Normal []
  | x :: rest =>
      bindC (callback x) (fun keep =>
      bindC (array_filter callback rest) (fun kept =>
      Normal (if keep then x :: kept else kept)))
  end.

(** ** js/details.js and js/common.js : [findCountryByName] *)

Module Details.
(** [return countries.find((country) => country.name === name);] *)
Definition findCountryByName (countries : list Country) (n : jsstring) : Completion js_value :=
  array_find (fun country => Normal (strict_eq (name country) n)) countries.
End Details.

Module Common.
(** [return countries.find((country) => country.name === name) || null;] *)
Definition findCountryByName (countries : list Country) (n : jsstring) : Completion js_value :=
  bindC (array_find (fun country => Normal (strict_eq (name country) n)) countries)
        (fun found => Normal (js_or found JsNull)).
End Common.

(** ** js/index.js : the filter of [updateGrid] *)

(** The callback handed to [countries.filter] (lines 103-111). *)
Definition filter_callback (filterValue : jsstring) (isRegionFilter : bool)
           (country : Country) : Completion bool :=
  if isRegionFilter
  then Normal (strict_eq filterValue (str "all")
               || strict_eq (normalize (region country)) (normalize filterValue))
  else Normal (startsWith (normalize (name country)) (normalize filterValue)).

Definition filteredCountries (countries : list Country) (filterValue : jsstring)
           (isRegionFilter : bool) : Completion (list Country) :=
  array_filter (filter_callback filterValue isRegionFilter) countries.


(** ** UTF-8, as [encodeURIComponent] and [URLSearchParams] use it *)

Module Utf8.

(** The bytes of a code point. *)
Definition encode_code_point (c : N) : list N :=
  if c <? 0x80 then [c]
  else if c <? 0x800 then [0xC0 + c / 0x40; 0x80 + c mod 0x40]
  else if c <? 0x10000 then
    [0xE0 + c / 0x1000; 0x80 + (c / 0x40) mod 0x40; 0x80 + c mod 0x40]
  else
    [0xF0 + c / 0x40000; 0x80 + (c / 0x1000) mod 0x40;
     0x80 + (c / 0x40) mod 0x40; 0x80 + c mod 0x40].

Definition encode (l : list N) : list N := flat_map encode_code_point l.

(** The decoder of the Encoding Standard, errors replaced by U+FFFD. *)
Record decoder := {
  code_point : N;
  bytes_seen : N;
  bytes_needed : N;
  lower_boundary : N;
  upper_boundary : N
}.

Definition initial : decoder :=
  {| code_point := 0; bytes_seen := 0; bytes_needed := 0;
     lower_boundary := 0x80; upper_boundary := 0xBF |}.

(** A byte read while no sequence is open.  The masks [byte & 0x1F],
    [byte & 0xF] and [byte & 0x7] of the standard are subtractions on the
    ranges that guard them. *)
Definition first_byte (b : N) : list N * decoder :=
  if b <=? 0x7F then ([b], initial)
  else if (0xC2 <=? b) && (b <=? 0xDF) then
    ([], {| code_point := b - 0xC0; bytes_seen := 0; bytes_needed := 1;
            lower_boundary := 0x80; upper_boundary := 0xBF |})
  else if (0xE0 <=? b) && (b <=? 0xEF) then
    ([], {| code_point := b - 0xE0; bytes_seen := 0; bytes_needed := 2;
            lower_boundary := (if b =? 0xE0 then 0xA0 else 0x80);
            upper_boundary := (if b =? 0xED then 0x9F else 0xBF) |})
  else if (0xF0 <=? b) && (b <=? 0xF4) then
    ([], {| code_point := b - 0xF0; bytes_seen := 0; bytes_needed := 3;
            lower_boundary := (if b =? 0xF0 then 0x90 else 0x80);
            upper_boundary := (if b =? 0xF4 then 0x8F else 0xBF) |})
  else ([0xFFFD], initial).

(** A byte outside the boundaries closes the open sequence with an error
    and is read again as a first byte; a byte inside them adds six bits,
    [(code_point << 6) | (byte & 0x3F)]. *)
Definition next_byte (d : decoder) (b : N) : list N * decoder :=
  if bytes_needed d =? 0 then first_byte b
  else if negb ((lower_boundary d <=? b) && (b <=? upper_boundary d)) then
    let (out, d') := first_byte b in (0xFFFD :: out, d')
  else
    let c := code_point d * 0x40 + (b - 0x80) in
    if bytes_seen d + 1 =? bytes_needed d then ([c], initial)
    else ([], {| code_point := c; bytes_seen := bytes_seen d + 1;
                 bytes_needed := bytes_needed d;
                 lower_boundary := 0x80; upper_boundary := 0xBF |}).

Fixpoint decode_from (d : decoder) (bytes : list N) : list N :=
  match bytes with
  | [] => if bytes_needed d =? 0 then [] else [0xFFFD]
  | b :: rest => let (out, d') := next_byte d b in out ++ decode_from d' rest
  end.

Definition decode (bytes : list N) : list N := decode_from initial bytes.

End Utf8.

(** ** [encodeURIComponent], [URLSearchParams] and the query of a URL *)

Module Url.

(** A string as a sequence of scalar values: an unpaired surrogate is
    replaced by U+FFFD. *)
Definition scalar_values (s : jsstring) : list N :=
  map (fun c => if Utf16.is_surrogate c then 0xFFFD else c) (Utf16.code_points s).

(** The units [encodeURIComponent] keeps: A-Z a-z 0-9 - _ . ! ~ * ' ( ) *)
Definition is_unreserved (u : N) : bool :=
  ((0x41 <=? u) && (u <=? 0x5A)) || ((0x61 <=? u) && (u <=? 0x7A))
  || ((0x30 <=? u) && (u <=? 0x39))
  || (u =? 0x2D) || (u =? 0x5F) || (u =? 0x2E) || (u =? 0x21) || (u =? 0x7E)
  || (u =? 0x2A) || (u =? 0x27) || (u =? 0x28) || (u =? 0x29).

Definition hex_digit (n : N) : N := if n <? 10 then 0x30 + n else 0x41 + (n - 10).

Definition percent_encode_byte (b : N) : jsstring :=
  [0x25; hex_digit (b / 16); hex_digit (b mod 16)].

Definition percent_encode_code_point (c : N) : jsstring :=
  flat_map percent_encode_byte (Utf8.encode_code_point c).

(** [encodeURIComponent(s)]; [None]: a URIError is thrown, on an unpaired
    surrogate. *)
Fixpoint encodeURIComponent (s : jsstring) : option jsstring :=
  match s with
  | [] => Some []
  | u :: rest =>
      if is_unreserved u then option_map (cons u) (encodeURIComponent rest)
      else if Utf16.is_high_surrogate u then
        match rest with
        | [] => None
        | lo :: rest' =>
            if Utf16.is_low_surrogate lo
            then option_map (app (percent_encode_code_point (Utf16.pair_code_point u lo)))
                            (encodeURIComponent rest')
            else None
        end
      else if Utf16.is_low_surrogate u then None
      else option_map (app (percent_encode_code_point u)) (encodeURIComponent rest)
  end.

(** js/common.js, [createCountryElement], the link of a grid card:
    [`details.html?name=${encodeURIComponent(country.name)}`] *)
Definition card_href (country : Country) : option jsstring :=
  option_map (app (str "details.html?name=")) (encodeURIComponent (name country)).

(** The query state of the URL parser, for the schemes http, https and file:
    the code points of the special-query percent-encode set are written as
    percent-encoded UTF-8. *)
Definition in_special_query_set (c : N) : bool :=
  (c <=? 0x1F) || (0x7E <? c) || (c =? 0x20) || (c =? 0x22) || (c =? 0x23)
  || (c =? 0x3C) || (c =? 0x3E) || (c =? 0x27).

Definition special_query_encode (query : jsstring) : jsstring :=
  flat_map (fun c => if in_special_query_set c then percent_encode_code_point c
                     else Utf16.code_units c)
           (scalar_values query).

(** *** [new URLSearchParams(init)] *)

Definition hex_value (u : N) : option N :=
  if (0x30 <=? u) && (u <=? 0x39) then Some (u - 0x30)
  else if (0x41 <=? u) && (u <=? 0x46) then Some (u - 0x41 + 10)
  else if (0x61 <=? u) && (u <=? 0x66) then Some (u - 0x61 + 10)
  else None.

Fixpoint percent_decode (input : list N) : list N :=
  match input with
  | [] => []
  | b :: rest =>
      if b =? 0x25 then
        match rest with
        | h1 :: h2 :: rest' =>
            match hex_value h1, hex_value h2 with
            | Some x, Some y => (16 * x + y) :: percent_decode rest'
            | _, _ => b :: percent_decode rest
            end
        | _ => b :: percent_decode rest
        end
      else b :: percent_decode rest
  end.

Fixpoint split_on (separator : N) (input : list N) : list (list N) :=
  match input with
  | [] => [[]]
  | b :: rest =>
      if b =? separator then [] :: split_on separator rest
      else match split_on separator rest with
           | first :: others => (b :: first) :: others
           | [] => [[b]]
           end
  end.

(** The bytes before the first separator and, when there is one, the bytes
    after it. *)
Fixpoint split_first (separator : N) (input : list N) : list N * option (list N) :=
  match input with
  | [] => ([], None)
  | b :: rest =>
      if b =? separator then ([], Some rest)
      else let (before, after) := split_first separator rest in (b :: before, after)
  end.

Definition plus_to_space (b : N) : N := if b =? 0x2B then 0x20 else b.

Definition decode_component (bytes : list N) : jsstring :=
  Utf16.from_code_points (Utf8.decode (percent_decode (map plus_to_space bytes))).

Definition parse_pair (bytes : list N) : jsstring * jsstring :=
  let (n, v) := split_first 0x3D bytes in
  (decode_component n,
   decode_component (match v with Some value => value | None => [] end)).

Definition is_nil (bytes : list N) : bool :=
  match bytes with [] => true | _ :: _ => false end.

(** The application/x-www-form-urlencoded parser. *)
Definition parse_urlencoded (input : list N) : list (jsstring * jsstring) :=
  map parse_pair (filter (fun bytes => negb (is_nil bytes)) (split_on 0x26 input)).

Definition URLSearchParams (init : jsstring) : list (jsstring * jsstring) :=
  parse_urlencoded
    (Utf8.encode (match scalar_values init with
                  | 0x3F :: rest => rest
                  | other => other
                  end)).

(** [params.get(name)]: the value of the first pair of that name, or
    [null] ([None]). *)
Fixpoint get (params : list (jsstring * jsstring)) (n : jsstring) : option jsstring :=
  match params with
  | [] => None
  | (k, v) :: rest =>
      if strict_eq k (Utf16.from_code_points (scalar_values n)) then Some v
      else get rest n
  end.

End Url.

(** js/common.js : [getQueryParameter]; [search] is [window.location.search]. *)
Definition getQueryParameter (param : jsstring) (search : jsstring) : option jsstring :=
  Url.get (Url.URLSearchParams search) param.

(** [text] is a percent-encoding of [bytes] that the urlencoded parser reads
    back: unreserved units stand for themselves, [%XY] for one byte. *)
Inductive PercentEncodes : jsstring -> list N -> Prop :=
| PercentEncodes_nil : PercentEncodes [] []
| PercentEncodes_literal u text bytes :
    Url.is_unreserved u = true ->
    PercentEncodes text bytes -> PercentEncodes (u :: text) (u :: bytes)
| PercentEncodes_escape b text bytes :
    b < 256 ->
    PercentEncodes text bytes ->
    PercentEncodes (Url.percent_encode_byte b ++ text) (b :: bytes).
(** ** The page: grid, console, toast and search box *)

(** The element [createCountryElement(country, {isGrid})] builds: a link card
    of the grid or the section of the detail view, showing [country]. *)
Inductive Element := CountryElement (country : Country) (isGrid : bool).

(** The URIError of [encodeURIComponent]; the text of its message is the
    engine's. *)
Definition uri_error : js_error := Error "URI malformed".

(** js/common.js : [createCountryElement].  A grid card is a link whose
    [href] is built with [encodeURIComponent(country.name)], which throws on
    a name with an unpaired surrogate; the section of the detail view has no
    link. *)
Definition createCountryElement (country : Country) (isGrid : bool)
  : Completion Element :=
  if isGrid then
    match Url.card_href country with
    | Some href => Normal (CountryElement country isGrid)
    | None => Throw uri_error
    end
  else Normal (CountryElement country isGrid).

Inductive log_entry := ConsoleError (label : string) (error : js_error).

Record Page := {
  grid : list Element;          (* children of [.countries-grid] *)
  console : list log_entry;     (* [console.error] calls, oldest first *)
  toasts : list string;         (* [showToast] calls, oldest first *)
  search_value : jsstring       (* [value] of [.search-input] *)
}.

(** State and exceptions, threaded through the handlers. *)
Definition M (A : Type) : Type := Page -> Completion A * Page.

Definition ret {A : Type} (a : A) : M A := fun p => (Normal a, p).
Definition throw {A : Type} (e : js_error) : M A := fun p => (Throw e, p).
Definition lift {A : Type} (c : Completion A) : M A := fun p => (c, p).

Definition bind {A B : Type} (m : M A) (k : A -> M B) : M B :=
  fun p =>
    match m p with
    | (Normal a, p') => k a p'
    | (Throw e, p') => (Throw e, p')
    end.

Definition try_catch {A : Type} (body : M A) (handler : js_error -> M A) : M A :=
  fun p =>
    match body p with
    | (Normal a, p') => (Normal a, p')
    | (Throw e, p') => handler e p'
    end.

Notation "x <- m ;; k" := (bind m (fun x => k))
  (at level 61, m at next level, right associativity).
Notation "m ;; k" := (bind m (fun _ => k))
  (at level 61, right associativity).

Definition console_error (label : string) (error : js_error) : M unit :=
  fun p => (Normal tt,
            {| grid := grid p; console := console p ++ [ConsoleError label error];
               toasts := toasts p; search_value := search_value p |}).

Definition set_grid (g : list Element) : M unit :=
  fun p => (Normal tt,
            {| grid := g; console := console p; toasts := toasts p;
               search_value := search_value p |}).

Definition append_child (e : Element) : M unit :=
  fun p => (Normal tt,
            {| grid := grid p ++ [e]; console := console p; toasts := toasts p;
               search_value := search_value p |}).

Definition get_search_value : M jsstring := fun p => (Normal (search_value p), p).

Definition set_search_value (v : jsstring) : M unit :=
  fun p => (Normal tt,
            {| grid := grid p; console := console p; toasts := toasts p;
               search_value := v |}).

(** [showToast(message)]: the toast is given the message and made visible
    (the timers that hide it again are not part of the model). *)
Definition showToast (message : string) : M unit :=
  fun p => (Normal tt,
            {| grid := grid p; console := console p; toasts := toasts p ++ [message];
               search_value := search_value p |}).

(** What the network answers to [fetch(jsonFilePath)].  A body that parses is
    an array of country records, as [CountriesData.json] is. *)
Inductive json_outcome :=
| JsonRejected (e : js_error)
| JsonArray (countries : list Country).

Inductive fetch_outcome :=
| FetchRejected (e : js_error)
| Response (ok : bool) (statusText : string) (body : json_outcome).

(** js/common.js : [fetchData] *)
Definition fetchData (net : fetch_outcome) : M (list Country) :=
  try_catch
    (match net with
     | FetchRejected e => throw e
     | Response ok statusText body =>
         if negb ok then throw (Error ("Failed to fetch JSON: " ++ statusText))
         else match body with
              | JsonRejected e => throw e
              | JsonArray countries => ret countries
              end
     end)
    (fun error => console_error "Error fetching data:" error ;; throw error).

(** js/index.js : [buildCountriesGrid] *)
Fixpoint forEach (f : Country -> M unit) (countries : list Country) : M unit :=
  match countries with
  | [] => ret tt
  | country :: rest => f country ;; forEach f rest
  end.

Definition buildCountriesGrid (countries : list Country) (isGrid : bool) : M unit :=
  set_grid [] ;;
  forEach (fun country =>
             countryElement <- lift (createCountryElement country isGrid) ;;
             append_child countryElement)
          countries.

(** js/index.js : [updateGrid] *)
Definition updateGrid (filterValue : jsstring) (isRegionFilter : bool)
           (net : fetch_outcome) : M unit :=
  try_catch
    (countries <- fetchData net ;;
     filtered <- lift (filteredCountries countries filterValue isRegionFilter) ;;
     buildCountriesGrid filtered true)
    (fun error => console_error "Error updating grid:" error).

(** js/index.js : the [input] listener of the search box *)

(** [/[^a-zA-Z\s]/] accepts every code unit that is no English letter and no
    white space. *)
Definition is_letter_or_space (u : N) : bool :=
  ((0x41 <=? u) && (u <=? 0x5A)) || ((0x61 <=? u) && (u <=? 0x7A))
  || Builtins.is_white_space u.

(** [originalValue.replace(/[^a-zA-Z\s]/g, '')] *)
Definition strip_invalid (originalValue : jsstring) : jsstring :=
  filter is_letter_or_space originalValue.

Definition search_input_listener (net : fetch_outcome) : M unit :=
  originalValue <- get_search_value ;;
  let filteredValue := strip_invalid originalValue in
  (if negb (strict_eq originalValue filteredValue)
   then showToast "Please type in English only."
   else ret tt) ;;
  set_search_value filteredValue ;;
  let dataOfCountryInput := Builtins.trim filteredValue in
  updateGrid dataOfCountryInput false net.

(** ** Notions the statements use *)

(** [sub] keeps some elements of [l], in the order of [l]. *)
Inductive Subsequence {A : Type} : list A -> list A -> Prop :=
| Subsequence_nil : Subsequence [] []
| Subsequence_keep x sub l : Subsequence sub l -> Subsequence (x :: sub) (x :: l)
| Subsequence_drop x sub l : Subsequence sub l -> Subsequence sub (x :: l).

(** The fetch of the dataset fails: the request is rejected, the response is
    not OK, or its body is no JSON. *)
Definition fetch_fails (net : fetch_outcome) : bool :=
  match net with
  | FetchRejected _ => true
  | Response ok _ body =>
      negb ok || match body with JsonRejected _ => true | JsonArray _ => false end
  end.

(** The error [fetchData] rejects with when the fetch fails. *)
Definition fetch_error (net : fetch_outcome) : js_error :=
  match net with
  | FetchRejected e => e
  | Response ok statusText body =>
      if negb ok then Error ("Failed to fetch JSON: " ++ statusText)
      else match body with JsonRejected e => e | JsonArray _ => Error EmptyString end
  end.

(** The two records of the end-to-end example; the fields the example leaves
    open are parameters. *)
Definition Mexico (p : population_value) (c f : jsstring) : Country :=
  {| name := str "M" ++ [0x00E9] ++ str "xico"; population := p;
     region := str "Americas"; capital := c; flag := f |}.

Definition Monaco (p : population_value) (c f : jsstring) : Country :=
  {| name := str "Monaco"; population := p;
     region := str "Europe"; capital := c; flag := f |}.

(** Two records that share a name. *)
Definition Congo_Kinshasa : Country :=
  {| name := str "Congo"; population := PopulationNumber 89561404;
     region := str "Africa"; capital := str "Kinshasa"; flag := str "cd.svg" |}.

Definition Congo_Brazzaville : Country :=
  {| name := str "Congo"; population := PopulationNumber 5518092;
     region := str "Africa"; capital := str "Brazzaville"; flag := str "cg.svg" |}.

(** A page before any handler ran. *)
Definition empty_page (typed : jsstring) : Page :=
  {| grid := []; console := []; toasts := []; search_value := typed |}.

(** *** Strings that [normalize] leaves alone *)

Definition COMBINING_GRAPHEME_JOINER : N := 0x034F.

(** A Unicode scalar value: a code point that is no surrogate. *)
Definition is_scalar (c : N) : bool := (c <? 0x110000) && negb (Utf16.is_surrogate c).

(** Decomposition maps the code point to itself. *)
Definition is_decomposed (c : N) : bool := strict_eq (Builtins.decompose c) [c].

(** Every step of [normalize] maps the code point to itself. *)
Definition is_fixed (c : N) : bool :=
  is_decomposed c && negb (Builtins.is_combining_diacritic c)
  && negb (c =? 0x03A3) && strict_eq (Builtins.lower_mapping c) [c].

(** [b] may follow [a]: the pair is not reorderable. *)
Definition in_order (a b : N) : bool :=
  negb ((0 <? Builtins.ccc b) && (Builtins.ccc b <? Builtins.ccc a)).

Definition ordered_after (a : N) (l : list N) : bool :=
  match l with
  | [] => true
  | b :: _ => in_order a b
  end.

Fixpoint canonically_ordered (l : list N) : bool :=
  match l with
  | [] => true
  | a :: rest => ordered_after a rest && canonically_ordered rest
  end.

(** A string of 16-bit units whose code points are fixed by every step and
    are in canonical order. *)
Definition normalized (s : jsstring) : bool :=
  forallb Utf16.is_code_unit s
  && forallb is_fixed (Utf16.code_points s)
  && canonically_ordered (Utf16.code_points s).

(** The code points [lo], [lo + 1], ..., [lo + len - 1]. *)
Definition N_range (lo : N) (len : nat) : list N :=
  map (fun i => lo + N.of_nat i) (seq 0 len).

(** What the decomposition step hands on: decomposed scalar values other
    than the grapheme joiner. *)
Definition decomposition_output (c : N) : bool :=
  is_decomposed c && is_scalar c && negb (c =? COMBINING_GRAPHEME_JOINER).

(** What the lowercase step hands on. *)
Definition lowercase_output (c : N) : bool := is_fixed c && is_scalar c.

(** The lowercase mapping of a decomposed scalar value that is no diacritic
    is one fixed scalar value of the same combining class. *)
Definition lowercase_entry_ok (entry : N * list N) : bool :=
  let (k, d) := entry in
  negb (is_decomposed k && is_scalar k && negb (Builtins.is_combining_diacritic k))
  || match d with
     | [c] => lowercase_output c && (Builtins.ccc c =? Builtins.ccc k)
     | _ => false
     end.

(** A name on which [normalize] is not idempotent: a, U+20D0 (class 230),
    the grapheme joiner, U+0591 (class 220). *)
Definition joiner_name : jsstring := [0x0061; 0x20D0; 0x034F; 0x0591].

Definition joiner_record : Country :=
  {| name := joiner_name; population := PopulationNumber 0;
     region := str "Europe"; capital := []; flag := [] |}.

(** A name with unpaired surrogates: the halves of U+1D15E (which
    decomposes into U+1D157 U+1D165) around an acute accent. *)
Definition unpaired_name : jsstring := [0xD834; 0x0301; 0xDD5E].

Definition unpaired_record : Country :=
  {| name := unpaired_name; population := PopulationNumber 0;
     region := str "Europe"; capital := []; flag := [] |}.

(** [createCountryElement(country, {isGrid})] returns: the element has no link
    or its link can be built. *)
Definition can_build (isGrid : bool) (country : Country) : bool :=
  negb isGrid || match Url.card_href country with
                 | Some _ => true
                 | None => false
                 end.

(** The class [A-Za-z\s] spelled out: an English letter, or one of the white
    space and line terminator code units that [\s] stands for (U+0009..U+000D,
    U+0020, U+00A0, U+1680, U+2000..U+200A, U+2028, U+2029, U+202F, U+205F,
    U+3000, U+FEFF). *)
Definition english_letter_or_white_space (u : N) : Prop :=
  (0x41 <= u <= 0x5A) \/ (0x61 <= u <= 0x7A)
  \/ (0x0009 <= u <= 0x000D) \/ u = 0x0020 \/ u = 0x00A0 \/ u = 0x1680
  \/ (0x2000 <= u <= 0x200A) \/ u = 0x2028 \/ u = 0x2029 \/ u = 0x202F
  \/ u = 0x205F \/ u = 0x3000 \/ u = 0xFEFF.

(** ** js/index.js : the first load of the grid and the region dropdown *)

(** [fetchData(jsonFilePath).then(countries => buildCountriesGrid(...))
      .catch(error => console.error('Error initializing grid:', error))] *)
Definition initializeGrid (net : fetch_outcome) : M unit :=
  try_catch
    (countries <- fetchData net ;;
     buildCountriesGrid countries true)
    (fun error => console_error "Error initializing grid:" error).

(** [element.classList]: an ordered set of class names. *)
Module ClassList.

Definition contains (token : string) (classes : list string) : bool :=
  existsb (String.eqb token) classes.

Definition add (token : string) (classes : list string) : list string :=
  if contains token classes then classes else classes ++ [token].

Definition remove (token : string) (classes : list string) : list string :=
  filter (fun t => negb (String.eqb token t)) classes.

(** [toggle] answers whether the token is in the set afterwards. *)
Definition toggle (token : string) (classes : list string) : bool * list string :=
  if contains token classes then (false, remove token classes)
  else (true, classes ++ [token]).

End ClassList.

(** The index page: the page of [updateGrid] and the class list of
    [.filters .dropdown-wrapper]. *)
Record IndexPage := {
  page : Page;
  dropdown_classes : list string
}.

(** [dropdownHeader] click: [dropdownWrapper.classList.toggle('open')] *)
Definition dropdown_header_click (d : IndexPage) : IndexPage :=
  {| page := page d;
     dropdown_classes := snd (ClassList.toggle "open" (dropdown_classes d)) |}.

(** [!value] for a value that is a string or [undefined] ([None]). *)
Definition falsy (value : option jsstring) : bool :=
  match value with
  | None => true
  | Some [] => true
  | Some (_ :: _) => false
  end.

(** [dropdownBody] click; [selectedRegion] is [target.dataset.region],
    [undefined] on an element without [data-region]. *)
Definition dropdown_body_click (selectedRegion : option jsstring) (net : fetch_outcome)
           (d : IndexPage) : Completion unit * IndexPage :=
  if falsy selectedRegion then (Normal tt, d)
  else
    match updateGrid (match selectedRegion with Some r => r | None => [] end)
                     true net (page d) with
    | (Normal _, p') =>
        (Normal tt, {| page := p';
                       dropdown_classes := ClassList.remove "open" (dropdown_classes d) |})
    | (Throw e, p') =>
        (Throw e, {| page := p'; dropdown_classes := dropdown_classes d |})
    end.

(** The criterion the search listener hands to [updateGrid] for a typed
    text: [originalValue.replace(/[^a-zA-Z\s]/g, '').trim()]. *)
Definition forwarded_criterion (originalValue : jsstring) : jsstring :=
  Builtins.trim (strip_invalid originalValue).

(** *** Units that [normalize] maps one by one *)

Definition ascii_lower (u : N) : N :=
  if (0x41 <=? u) && (u <=? 0x5A) then u + 0x20 else u.

Definition ascii_upper (u : N) : N :=
  if (0x61 <=? u) && (u <=? 0x7A) then u - 0x20 else u.

(** What decomposition makes of a unit that decomposes into one code point. *)
Definition base_unit (u : N) : N :=
  match Builtins.decompose u with
  | [d] => d
  | _ => u
  end.

Definition fold_unit (u : N) : N :=
  match Builtins.lower_mapping (base_unit u) with
  | [e] => e
  | _ => base_unit u
  end.

(** A 16-bit unit that is no surrogate. *)
Definition is_bmp_scalar (u : N) : bool :=
  Utf16.is_code_unit u && negb (Utf16.is_surrogate u).

(** A unit that is no surrogate and decomposes into one starter, kept by the
    pattern, whose lowercase is one such unit again. *)
Definition is_plain (u : N) : bool :=
  is_bmp_scalar u
  && strict_eq (Builtins.decompose u) [base_unit u]
  && (Builtins.ccc (base_unit u) =? 0)
  && negb (Builtins.is_combining_diacritic (base_unit u))
  && negb (base_unit u =? 0x03A3)
  && is_bmp_scalar (base_unit u)
  && strict_eq (Builtins.lower_mapping (base_unit u)) [fold_unit u]
  && is_bmp_scalar (fold_unit u).

(** The code units of [\s]. *)
Definition white_space_units : list N :=
  N_range 0x0009 5 ++ [0x0020; 0x00A0; 0x1680] ++ N_range 0x2000 11
  ++ [0x2028; 0x2029; 0x202F; 0x205F; 0x3000; 0xFEFF].

(** Every name of the dataset is well-formed UTF-16; [createCountryElement]
    builds the link of a grid card with [encodeURIComponent], which accepts
    such names only. *)
Definition names_well_formed (countries : list Country) : bool :=
  forallb (fun c => Utf16.well_formed (name c)) countries.

(** A unit that is neither a combining diacritic U+0300..U+036F nor an
    ASCII capital letter. *)
Definition is_folded (u : N) : bool :=
  negb (Builtins.is_combining_diacritic u) && negb ((0x41 <=? u) && (u <=? 0x5A)).

(** U+0130 apart, no lowercase mapping holds a diacritic or a capital. *)
Definition lowercase_entry_folded (entry : N * list N) : bool :=
  (fst entry =? 0x0130) || forallb is_folded (snd entry).

(** ** js/details.js and js/common.js : the detail page *)

(** A [console.error] call of the detail page: with a label and an error,
    or with one message. *)
Inductive console_call :=
| ErrorCall (entry : log_entry)
| ErrorText (message : string).

Record DetailsPage := {
  section_children : list Element;   (* children of the details section *)
  loader_display : option string;    (* [style.display] of [.loader]; [None]: no loader *)
  details_console : list console_call
}.

(** The text of a string inside a message: its code points in UTF-8. *)
Fixpoint bytes_to_string (bytes : list N) : string :=
  match bytes with
  | [] => EmptyString
  | b :: rest => String (ascii_of_N b) (bytes_to_string rest)
  end.

Definition text_of (s : jsstring) : string :=
  bytes_to_string (Utf8.encode (Utf16.code_points s)).

Definition double_quote : string := String (ascii_of_N 34) EmptyString.

(** [`Country with name "${countryName}" not found!`] *)
Definition not_found_message (countryName : jsstring) : string :=
  ("Country with name " ++ double_quote ++ text_of countryName ++ double_quote
   ++ " not found!")%string.

Definition D (A : Type) : Type := DetailsPage -> Completion A * DetailsPage.

Definition retD {A : Type} (a : A) : D A := fun d => (Normal a, d).
Definition throwD {A : Type} (e : js_error) : D A := fun d => (Throw e, d).
Definition liftD {A : Type} (c : Completion A) : D A := fun d => (c, d).

Definition bindD {A B : Type} (m : D A) (k : A -> D B) : D B :=
  fun d =>
    match m d with
    | (Normal a, d') => k a d'
    | (Throw e, d') => (Throw e, d')
    end.

(** [try { body } catch (e) { handler } finally { finalizer }], and the
    chain [.then(body).catch(handler).finally(finalizer)]. *)
Definition try_catch_finally {A : Type} (body : D A) (handler : js_error -> D A)
           (finalizer : D unit) : D A :=
  fun d =>
    let (c, d1) := match body d with
                   | (Normal a, d') => (Normal a, d')
                   | (Throw e, d') => handler e d'
                   end in
    match finalizer d1 with
    | (Normal _, d2) => (c, d2)
    | (Throw e, d2) => (Throw e, d2)
    end.

Definition log_call (call : console_call) : D unit :=
  fun d => (Normal tt,
            {| section_children := section_children d;
               loader_display := loader_display d;
               details_console := details_console d ++ [call] |}).

(** [fetchData] on the detail page: its console calls go to this console. *)
Definition fetchData_details (net : fetch_outcome) : D (list Country) :=
  fun d =>
    let (c, p) := fetchData net {| grid := []; console := []; toasts := [];
                                   search_value := [] |} in
    (c, {| section_children := section_children d;
           loader_display := loader_display d;
           details_console := details_console d ++ map ErrorCall (console p) |}).

(** [if (loader) loader.style.display = 'none';] *)
Definition hideLoader : D unit :=
  fun d => (Normal tt,
            {| section_children := section_children d;
               loader_display := match loader_display d with
                                 | Some _ => Some "none"%string
                                 | None => None
                                 end;
               details_console := details_console d |}).

(** [while (parentContainer.firstChild) parentContainer.removeChild(...)] *)
Fixpoint remove_children (children : list Element) : list Element :=
  match children with
  | [] => []
  | firstChild :: rest => remove_children rest
  end.

(** js/common.js : [clearAllChildrenFromParent]; [None]: no container. *)
Definition clearAllChildrenFromParent (parentContainer : option (list Element))
  : option (list Element) :=
  match parentContainer with
  | None => None
  | Some children => Some (remove_children children)
  end.

(** js/common.js : [clearElementContent], [element.innerHTML = ''] *)
Definition clearElementContent (element : option (list Element)) : option (list Element) :=
  match element with
  | None => None
  | Some _ => Some []
  end.

Definition set_section (children : option (list Element)) : D unit :=
  fun d => (Normal tt,
            {| section_children := match children with
                                   | Some l => l
                                   | None => section_children d
                                   end;
               loader_display := loader_display d;
               details_console := details_console d |}).

Definition appendChild (e : Element) : D unit :=
  fun d => (Normal tt,
            {| section_children := section_children d ++ [e];
               loader_display := loader_display d;
               details_console := details_console d |}).

Definition name_of (countryName : option jsstring) : jsstring :=
  match countryName with Some n => n | None => [] end.

(** js/details.js : the [DOMContentLoaded] listener. *)
Definition details_loaded (search : jsstring) (net : fetch_outcome) : D unit :=
  let countryName := getQueryParameter (str "name") search in
  if falsy countryName then
    bindD hideLoader (fun _ => log_call (ErrorText "No country name in URL"))
  else
    try_catch_finally
      (bindD (fetchData_details net) (fun countries =>
       bindD (liftD (Details.findCountryByName countries (name_of countryName)))
             (fun country =>
       match country with
       | JsObject found =>
           bindD (fun d => set_section (clearAllChildrenFromParent
                                          (Some (section_children d))) d)
                 (fun _ =>
           bindD (liftD (createCountryElement found false)) appendChild)
       | JsUndefined | JsNull =>
           throwD (Error (not_found_message (name_of countryName)))
       end)))
      (fun error => log_call (ErrorCall (ConsoleError "Error fetching country details:" error)))
      hideLoader.

(** [error.message || 'Error fetching country details'] *)
Definition message_or_default (error : js_error) : string :=
  match error with
  | Error EmptyString => "Error fetching country details"
  | Error message => message
  end.

(** js/common.js : the [DOMContentLoaded] listener of the detail page. *)
Definition details_loaded_common (search : jsstring) (net : fetch_outcome) : D unit :=
  let countryName := getQueryParameter (str "name") search in
  if falsy countryName then
    bindD hideLoader (fun _ => log_call (ErrorText "No country name in URL"))
  else
    try_catch_finally
      (bindD (fetchData_details net) (fun countries =>
       bindD (liftD (Common.findCountryByName countries (name_of countryName)))
             (fun country =>
       match country with
       | JsObject found =>
           bindD (fun d => set_section (clearElementContent
                                          (Some (section_children d))) d)
                 (fun _ =>
           bindD (liftD (createCountryElement found false)) appendChild)
       | JsUndefined | JsNull =>
           throwD (Error (not_found_message (name_of countryName)))
       end)))
      (fun error => log_call (ErrorText (message_or_default error)))
      hideLoader.

(** ** js/common.js : the theme toggle *)

Record ThemePage := {
  body_classes : list string;              (* [document.body.classList] *)
  theme_text : string;                     (* [textContent] of [.theme-text] *)
  localStorage : list (string * string)
}.

Module Storage.

Fixpoint getItem (key : string) (storage : list (string * string)) : option string :=
  match storage with
  | [] => None
  | (k, v) :: rest => if String.eqb key k then Some v else getItem key rest
  end.

Fixpoint setItem (key value : string) (storage : list (string * string))
  : list (string * string) :=
  match storage with
  | [] => [(key, value)]
  | (k, v) :: rest =>
      if String.eqb key k then (k, value) :: rest
      else (k, v) :: setItem key value rest
  end.

End Storage.

(** The [DOMContentLoaded] listener: the saved theme is applied. *)
Definition theme_loaded (t : ThemePage) : ThemePage :=
  match Storage.getItem "theme" (localStorage t) with
  | Some saved =>
      if String.eqb saved "dark"
      then {| body_classes := ClassList.add "dark-theme" (body_classes t);
              theme_text := "Light Mode"; localStorage := localStorage t |}
      else {| body_classes := body_classes t; theme_text := "Dark Mode";
              localStorage := localStorage t |}
  | None => {| body_classes := body_classes t; theme_text := "Dark Mode";
               localStorage := localStorage t |}
  end.

(** The click listener of [.theme-toggle]. *)
Definition theme_toggle_click (t : ThemePage) : ThemePage :=
  let (isDark, classes) := ClassList.toggle "dark-theme" (body_classes t) in
  {| body_classes := classes;
     theme_text := (if isDark then "Light Mode" else "Dark Mode");
     localStorage := Storage.setItem "theme" (if isDark then "dark" else "light")
                                     (localStorage t) |}.

Fixpoint clicks (n : nat) (t : ThemePage) : ThemePage :=
  match n with
  | O => t
  | S m => theme_toggle_click (clicks m t)
  end.

Definition is_dark (t : ThemePage) : bool :=
  ClassList.contains "dark-theme" (body_classes t).

(** The loader after [hideLoader]. *)
Definition hidden (display : option string) : option string :=
  match display with
  | Some _ => Some "none"%string
  | None => None
  end.

(** The detail page with given section and console, the loader hidden. *)
Definition finished (d : DetailsPage) (children : list Element)
           (calls : list console_call) : DetailsPage :=
  {| section_children := children;
     loader_display := hidden (loader_display d);
     details_console := details_console d ++ calls |}.

(** * Properties *)

(** ** Strings *)

Lemma strict_eq_spec (a b : jsstring) : strict_eq a b = true <-> a = b.
Proof.
  revert b; induction a as [|x a IH]; intros [|y b]; simpl; split; intro H;
    try reflexivity; try discriminate.
  - apply andb_true_iff in H as [Hx Hab].
    apply N.eqb_eq in Hx. apply IH in Hab. congruence.
  - injection H as -> ->. rewrite N.eqb_refl. simpl. now apply IH.
Qed.

Lemma strict_eq_refl (a : jsstring) : strict_eq a a = true.
Proof. now apply strict_eq_spec. Qed.

Lemma strict_eq_false (a b : jsstring) : strict_eq a b = false <-> a <> b.
Proof.
  split.
  - intros H ->. rewrite strict_eq_refl in H. discriminate.
  - intro H. destruct (strict_eq a b) eqn:E; [|reflexivity].
    apply strict_eq_spec in E. contradiction.
Qed.

Lemma startsWith_spec (s p : jsstring) :
  startsWith s p = true <-> exists rest, s = p ++ rest.
Proof.
  revert s; induction p as [|y p IH]; intros s; simpl.
  - split; [now exists s | reflexivity].
  - destruct s as [|x s].
    + split; [discriminate | intros [rest H]; discriminate].
    + rewrite andb_true_iff, N.eqb_eq, IH. split.
      * intros [-> [rest ->]]. now exists rest.
      * intros [rest H]. injection H as -> ->. split; [reflexivity | now exists rest].
Qed.

Lemma startsWith_firstn (s : jsstring) (k : nat) : startsWith s (firstn k s) = true.
Proof.
  apply startsWith_spec. exists (skipn k s). symmetry. apply firstn_skipn.
Qed.

Lemma normalize_empty : normalize [] = [].
Proof. reflexivity. Qed.

(** ** [Array.prototype.filter] and [find] with callbacks that return *)

Lemma array_filter_pure (f : Country -> bool) (l : list Country) :
  array_filter (fun x => Normal (f x)) l = Normal (filter f l).
Proof.
  induction l as [|x l IH]; simpl; [reflexivity|].
  rewrite IH. simpl. now destruct (f x).
Qed.

Lemma array_find_pure (f : Country -> bool) (l : list Country) :
  array_find (fun x => Normal (f x)) l =
  Normal (match find f l with Some x => JsObject x | None => JsUndefined end).
Proof.
  induction l as [|x l IH]; simpl; [reflexivity|].
  destruct (f x); [reflexivity | exact IH].
Qed.

Lemma filter_Subsequence {A : Type} (f : A -> bool) (l : list A) :
  Subsequence (filter f l) l.
Proof.
  induction l as [|x l IH]; simpl; [constructor|].
  destruct (f x); now constructor.
Qed.

Lemma filter_all {A : Type} (f : A -> bool) (l : list A) :
  (forall x, In x l -> f x = true) -> filter f l = l.
Proof.
  induction l as [|x l IH]; simpl; intro H; [reflexivity|].
  rewrite (H x) by now left. f_equal. apply IH. intros y Hy. apply H. now right.
Qed.

Lemma filter_id_iff {A : Type} (f : A -> bool) (l : list A) :
  filter f l = l <-> forallb f l = true.
Proof.
  split.
  - intro H. apply forallb_forall. intros x Hx.
    rewrite <- H in Hx. now apply filter_In in Hx.
  - intro H. apply filter_all. now apply forallb_forall.
Qed.

Lemma filter_callback_region (v : jsstring) (c : Country) :
  filter_callback v true c =
  Normal (strict_eq v (str "all") || strict_eq (normalize (region c)) (normalize v)).
Proof. reflexivity. Qed.

Lemma filteredCountries_region (records : list Country) (v : jsstring) :
  filteredCountries records v true =
  Normal (filter (fun c => strict_eq v (str "all")
                           || strict_eq (normalize (region c)) (normalize v)) records).
Proof. unfold filteredCountries. apply (array_filter_pure _ records). Qed.

Lemma filteredCountries_search (records : list Country) (v : jsstring) :
  filteredCountries records v false =
  Normal (filter (fun c => startsWith (normalize (name c)) (normalize v)) records).
Proof. unfold filteredCountries. apply (array_filter_pure _ records). Qed.

(** C1. Region mode: the criterion [all] returns every record of the list;
    any other criterion returns exactly the records whose normalized region
    equals the normalized criterion, in the order of the list. *)
Theorem region_filter_correct :
  forall (records : list Country) (criterion : jsstring),
  exists result,
    filteredCountries records criterion true = Normal result
    /\ Subsequence result records
    /\ (criterion = str "all" -> result = records)
    /\ (criterion <> str "all" ->
        result = filter (fun r => strict_eq (normalize (region r)) (normalize criterion)) records
        /\ forall r, In r result <->
                     In r records /\ normalize (region r) = normalize criterion).
Proof.
  intros records criterion. eexists. split; [apply filteredCountries_region|].
  split; [apply filter_Subsequence|]. split.
  - intros ->. apply filter_all. intros x _. reflexivity.
  - intro Hne. apply strict_eq_false in Hne. rewrite Hne. simpl. split; [reflexivity|].
    intro r. rewrite filter_In, strict_eq_spec. reflexivity.
Qed.

(** C2. Search mode: the filter returns exactly the records whose normalized
    name starts with the normalized criterion, in the order of the list; for
    the empty criterion it returns every record. *)
Theorem search_filter_correct :
  forall (records : list Country) (criterion : jsstring),
  exists result,
    filteredCountries records criterion false = Normal result
    /\ Subsequence result records
    /\ result = filter (fun r => startsWith (normalize (name r)) (normalize criterion)) records
    /\ (forall r, In r result <->
                  In r records /\ exists rest, normalize (name r) = normalize criterion ++ rest)
    /\ filteredCountries records [] false = Normal records.
Proof.
  intros records criterion. eexists. split; [apply filteredCountries_search|].
  split; [apply filter_Subsequence|]. split; [reflexivity|]. split.
  - intro r. rewrite filter_In, startsWith_spec. reflexivity.
  - rewrite filteredCountries_search. f_equal. apply filter_all. intros x _.
    rewrite normalize_empty. reflexivity.
Qed.

(** C3. End-to-end example on the dataset of Mexico (name written with
    U+00E9) and Monaco: search [me] returns the Mexico record only, region
    [europe] the Monaco record only, region [all] both in dataset order. *)
Theorem end_to_end_example :
  forall (p1 p2 : population_value) (c1 f1 c2 f2 : jsstring),
    let dataset := [Mexico p1 c1 f1; Monaco p2 c2 f2] in
    filteredCountries dataset (str "me") false = Normal [Mexico p1 c1 f1]
    /\ filteredCountries dataset (str "europe") true = Normal [Monaco p2 c2 f2]
    /\ filteredCountries dataset (str "all") true = Normal dataset.
Proof.
  intros. subst dataset. rewrite filteredCountries_search, !filteredCountries_region.
  repeat split.
Qed.

(** ** Lookup *)

Lemma find_first_match (records : list Country) (n : jsstring) (r : Country) :
  find (fun c => strict_eq (name c) n) records = Some r <->
  exists before after,
    records = before ++ r :: after /\ name r = n
    /\ Forall (fun c => name c <> n) before.
Proof.
  induction records as [|x records IH]; simpl.
  - split; [discriminate|]. intros (before & after & H & _). now destruct before.
  - destruct (strict_eq (name x) n) eqn:E.
    + apply strict_eq_spec in E. split.
      * intros [= ->]. exists [], records. repeat split; auto.
      * intros (before & after & H & Hn & Hb). destruct before as [|y before].
        -- simpl in H. now injection H as ->.
        -- simpl in H. injection H as -> _. inversion Hb; subst. contradiction.
    + apply strict_eq_false in E. rewrite IH. split.
      * intros (before & after & -> & Hn & Hb). exists (x :: before), after.
        repeat split; auto.
      * intros (before & after & H & Hn & Hb). destruct before as [|y before].
        -- simpl in H. injection H as -> _. contradiction.
        -- simpl in H. injection H as -> ->. inversion Hb; subst.
           now exists before, after.
Qed.

Lemma find_none (records : list Country) (n : jsstring) :
  (forall r, In r records -> name r <> n) ->
  find (fun c => strict_eq (name c) n) records = None.
Proof.
  intro H. destruct (find _ records) as [r|] eqn:E; [|reflexivity].
  apply find_some in E as [Hin Heq]. apply strict_eq_spec in Heq.
  now apply H in Hin.
Qed.

Lemma unique_name_first (records : list Country) (r : Country) :
  NoDup (map name records) -> In r records ->
  exists before after,
    records = before ++ r :: after /\ Forall (fun c => name c <> name r) before.
Proof.
  intros Hnd Hin. apply in_split in Hin as (before & after & ->).
  exists before, after. split; [reflexivity|].
  rewrite map_app in Hnd. simpl in Hnd. apply NoDup_remove_2 in Hnd.
  apply Forall_forall. intros c Hc Heq. apply Hnd. apply in_or_app. left.
  rewrite <- Heq. now apply in_map.
Qed.

(** C4 (as amended). [findCountryByName] compares the [name] field with the
    name by exact string equality and returns the first record that matches:
    it returns [r] exactly when [r] is in the list under that name and no
    earlier record has the name; so it returns [r] on [r.name] for every
    record [r] of a list whose names are unique. *)
Theorem findCountryByName_first_match :
  forall (records : list Country),
    (forall n r,
        Details.findCountryByName records n = Normal (JsObject r) <->
        exists before after,
          records = before ++ r :: after /\ name r = n
          /\ Forall (fun c => name c <> n) before)
    /\ (NoDup (map name records) ->
        forall r, In r records ->
                  Details.findCountryByName records (name r) = Normal (JsObject r)).
Proof.
  intro records.
  assert (Hiff : forall n r,
             Details.findCountryByName records n = Normal (JsObject r) <->
             exists before after,
               records = before ++ r :: after /\ name r = n
               /\ Forall (fun c => name c <> n) before).
  { intros n r. unfold Details.findCountryByName.
    rewrite (array_find_pure (fun c => strict_eq (name c) n)).
    rewrite <- find_first_match.
    destruct (find _ records); split; intro H; congruence. }
  split; [exact Hiff|].
  intros Hnd r Hin. apply Hiff.
  destruct (unique_name_first records r Hnd Hin) as (before & after & H1 & H2).
  now exists before, after.
Qed.

(** C4 does not hold for every record of every list: of two records with one
    name, the lookup
    of the second record's name returns the first record. *)
Lemma findCountryByName_duplicate_name :
  ~ (forall (records : list Country) (r : Country),
        In r records ->
        Details.findCountryByName records (name r) = Normal (JsObject r)).
Proof.
  intro H.
  specialize (H [Congo_Kinshasa; Congo_Brazzaville] Congo_Brazzaville).
  assert (Hin : In Congo_Brazzaville [Congo_Kinshasa; Congo_Brazzaville])
    by (right; left; reflexivity).
  apply H in Hin. vm_compute in Hin. discriminate Hin.
Qed.

(** The comparison is on the raw strings: a name that only normalizes to the
    record's name is not found. *)
Lemma findCountryByName_not_normalized (p : population_value) (c f : jsstring) :
  normalize (name (Mexico p c f)) = normalize (str "mexico")
  /\ Details.findCountryByName [Mexico p c f] (str "mexico") = Normal JsUndefined.
Proof. split; reflexivity. Qed.

(** C7. A name that matches no record makes both variants of
    [findCountryByName] return normally, with the sentinel [undefined]
    (js/details.js) or [null] (js/common.js): nothing is thrown. *)
Theorem findCountryByName_not_found :
  forall (records : list Country) (n : jsstring),
    (forall r, In r records -> name r <> n) ->
    Details.findCountryByName records n = Normal JsUndefined
    /\ Common.findCountryByName records n = Normal JsNull.
Proof.
  intros records n H.
  unfold Details.findCountryByName, Common.findCountryByName.
  rewrite (array_find_pure (fun c => strict_eq (name c) n)).
  rewrite (find_none records n H). split; reflexivity.
Qed.

Lemma findCountryByName_not_found_witness :
  Details.findCountryByName
    [Mexico (PopulationNumber 0) [] []; Monaco (PopulationNumber 0) [] []]
    (str "Nonexistent") = Normal JsUndefined
  /\ Common.findCountryByName
    [Mexico (PopulationNumber 0) [] []; Monaco (PopulationNumber 0) [] []]
    (str "Nonexistent") = Normal JsNull.
Proof.
  apply (findCountryByName_not_found
           [Mexico (PopulationNumber 0) [] []; Monaco (PopulationNumber 0) [] []]
           (str "Nonexistent")).
  intros r [<- | [<- | []]]; vm_compute; discriminate.
Defined.

(** ** The region criterion [all] *)

(** C9. The bypass compares the raw criterion with the string [all]: any
    other criterion, [All] or [ all ] included, keeps the records by
    normalized region equality, which is not every record. *)
Theorem all_bypass_is_exact :
  forall (records : list Country) (criterion : jsstring),
    criterion <> str "all" ->
    filteredCountries records criterion true =
    Normal (filter (fun r => strict_eq (normalize (region r)) (normalize criterion)) records).
Proof.
  intros records criterion Hne. rewrite filteredCountries_region.
  apply strict_eq_false in Hne. rewrite Hne. reflexivity.
Qed.

Lemma all_bypass_is_exact_witness :
  filteredCountries
    [Mexico (PopulationNumber 0) [] []; Monaco (PopulationNumber 0) [] []]
    (str "All") true = Normal [].
Proof.
  rewrite (all_bypass_is_exact
             [Mexico (PopulationNumber 0) [] []; Monaco (PopulationNumber 0) [] []]
             (str "All")).
  - reflexivity.
  - discriminate.
Defined.

(** ** The page handlers *)

Lemma createCountryElement_builds (c : Country) (b : bool) :
  can_build b c = true -> createCountryElement c b = Normal (CountryElement c b).
Proof.
  unfold can_build, createCountryElement. destruct b; cbn [negb orb]; [|reflexivity].
  now destruct (Url.card_href c).
Qed.

Lemma createCountryElement_throws (c : Country) :
  Url.card_href c = None -> createCountryElement c true = Throw uri_error.
Proof. intro H. unfold createCountryElement. now rewrite H. Qed.

(** The cards are appended one by one while they can be built. *)
Lemma forEach_build_all (l : list Country) (b : bool) (p : Page) :
  forallb (can_build b) l = true ->
  forEach (fun country =>
             countryElement <- lift (createCountryElement country b) ;;
             append_child countryElement) l p =
  (Normal tt, {| grid := grid p ++ map (fun c => CountryElement c b) l;
                 console := console p; toasts := toasts p;
                 search_value := search_value p |}).
Proof.
  revert p; induction l as [|x l IH]; intros p H.
  - cbn [forEach map]. unfold ret. rewrite app_nil_r. now destruct p.
  - cbn [forallb] in H. apply andb_true_iff in H as [Hx Hl].
    cbn [forEach]. unfold bind at 1. unfold bind at 1, lift.
    rewrite (createCountryElement_builds x b Hx). unfold append_child at 1.
    rewrite (IH _ Hl). cbn [grid console toasts search_value map].
    now rewrite <- app_assoc.
Qed.

(** The first card that cannot be built stops the loop. *)
Lemma forEach_build_stops (good rest : list Country) (bad : Country) (p : Page) :
  forallb (can_build true) good = true -> Url.card_href bad = None ->
  forEach (fun country =>
             countryElement <- lift (createCountryElement country true) ;;
             append_child countryElement) (good ++ bad :: rest) p =
  (Throw uri_error,
   {| grid := grid p ++ map (fun c => CountryElement c true) good;
      console := console p; toasts := toasts p;
      search_value := search_value p |}).
Proof.
  revert p; induction good as [|x good IH]; intros p H Hbad.
  - cbn [app forEach map]. unfold bind at 1. unfold bind at 1, lift.
    rewrite (createCountryElement_throws bad Hbad). rewrite app_nil_r. now destruct p.
  - cbn [forallb] in H. apply andb_true_iff in H as [Hx Hl].
    cbn [app forEach]. unfold bind at 1. unfold bind at 1, lift.
    rewrite (createCountryElement_builds x true Hx). unfold append_child at 1.
    rewrite (IH _ Hl Hbad). cbn [grid console toasts search_value map].
    now rewrite <- app_assoc.
Qed.

(** Whatever the records, the loop touches the grid only and throws nothing
    but the URIError. *)
Lemma forEach_build_frame (l : list Country) (b : bool) (p : Page) :
  let r := forEach (fun country =>
                      countryElement <- lift (createCountryElement country b) ;;
                      append_child countryElement) l p in
  (fst r = Normal tt \/ fst r = Throw uri_error)
  /\ console (snd r) = console p /\ toasts (snd r) = toasts p
  /\ search_value (snd r) = search_value p.
Proof.
  revert p; induction l as [|x l IH]; intros p.
  - cbn. auto.
  - cbn [forEach]. unfold bind at 1. unfold bind at 1, lift.
    unfold createCountryElement.
    destruct b; [destruct (Url.card_href x)|]; cbn [fst snd];
      try (unfold append_child at 1;
           match goal with
           | |- context [forEach ?f l ?q] => destruct (IH q) as (H1 & H2 & H3 & H4)
           end; cbn [console toasts search_value] in *; now auto).
    auto.
Qed.

Lemma buildCountriesGrid_spec (l : list Country) (b : bool) (p : Page) :
  forallb (can_build b) l = true ->
  buildCountriesGrid l b p =
  (Normal tt, {| grid := map (fun c => CountryElement c b) l; console := console p;
                 toasts := toasts p; search_value := search_value p |}).
Proof.
  intro H. unfold buildCountriesGrid. unfold bind at 1. unfold set_grid.
  now rewrite (forEach_build_all l b _ H).
Qed.

Lemma buildCountriesGrid_stops (good rest : list Country) (bad : Country) (p : Page) :
  forallb (can_build true) good = true -> Url.card_href bad = None ->
  buildCountriesGrid (good ++ bad :: rest) true p =
  (Throw uri_error,
   {| grid := map (fun c => CountryElement c true) good; console := console p;
      toasts := toasts p; search_value := search_value p |}).
Proof.
  intros H Hbad. unfold buildCountriesGrid. unfold bind at 1. unfold set_grid.
  now rewrite (forEach_build_stops good rest bad _ H Hbad).
Qed.

Lemma buildCountriesGrid_frame (l : list Country) (b : bool) (p : Page) :
  (fst (buildCountriesGrid l b p) = Normal tt
   \/ fst (buildCountriesGrid l b p) = Throw uri_error)
  /\ console (snd (buildCountriesGrid l b p)) = console p
  /\ toasts (snd (buildCountriesGrid l b p)) = toasts p
  /\ search_value (snd (buildCountriesGrid l b p)) = search_value p.
Proof.
  unfold buildCountriesGrid. unfold bind at 1. unfold set_grid.
  apply (forEach_build_frame l b
           {| grid := []; console := console p; toasts := toasts p;
              search_value := search_value p |}).
Qed.

(** [fetchData] logs and rethrows whatever makes the fetch fail. *)
Lemma fetchData_failure (net : fetch_outcome) (p : Page) :
  fetch_fails net = true ->
  fetchData net p =
  (Throw (fetch_error net),
   {| grid := grid p;
      console := console p ++ [ConsoleError "Error fetching data:" (fetch_error net)];
      toasts := toasts p; search_value := search_value p |}).
Proof.
  intro Hfail. unfold fetchData, try_catch, bind, console_error, throw.
  destruct net as [e | ok st body]; simpl; [reflexivity|].
  destruct ok; simpl; [|reflexivity].
  destruct body as [e | cs]; simpl in *; [reflexivity | discriminate].
Qed.

Lemma fetchData_success (st : string) (countries : list Country) (p : Page) :
  fetchData (Response true st (JsonArray countries)) p = (Normal countries, p).
Proof. reflexivity. Qed.

Lemma fetch_succeeds (net : fetch_outcome) :
  fetch_fails net = false -> exists st countries, net = Response true st (JsonArray countries).
Proof.
  destruct net as [e | ok st body]; [discriminate|].
  destruct ok; [|discriminate]. destruct body as [e | cs]; [discriminate|].
  intros _. now exists st, cs.
Qed.

Lemma filteredCountries_returns (countries : list Country) (v : jsstring) (b : bool) :
  exists filtered, filteredCountries countries v b = Normal filtered.
Proof.
  destruct b; eexists; [apply filteredCountries_region | apply filteredCountries_search].
Qed.

(** A fetch that succeeds: the filtered records are handed to
    [buildCountriesGrid], and what it throws is logged. *)
Lemma updateGrid_run (v : jsstring) (b : bool) (st : string)
      (countries filtered : list Country) (p : Page) :
  filteredCountries countries v b = Normal filtered ->
  updateGrid v b (Response true st (JsonArray countries)) p =
  match buildCountriesGrid filtered true p with
  | (Normal a, p') => (Normal a, p')
  | (Throw e, p') => console_error "Error updating grid:" e p'
  end.
Proof.
  intro H. unfold updateGrid, try_catch, bind, lift. rewrite fetchData_success.
  cbv beta iota. rewrite H.
  now destruct (buildCountriesGrid filtered true p) as [[a|e] p'].
Qed.

(** The grid is rebuilt from the filtered records when every card can be built. *)
Lemma updateGrid_success (v : jsstring) (b : bool) (st : string)
      (countries filtered : list Country) (p : Page) :
  filteredCountries countries v b = Normal filtered ->
  forallb (can_build true) filtered = true ->
  updateGrid v b (Response true st (JsonArray countries)) p =
  (Normal tt, {| grid := map (fun c => CountryElement c true) filtered;
                 console := console p; toasts := toasts p;
                 search_value := search_value p |}).
Proof.
  intros H Hb. rewrite (updateGrid_run v b st countries filtered p H).
  now rewrite buildCountriesGrid_spec.
Qed.

(** [updateGrid] never touches the toast or the search box. *)
Lemma updateGrid_keeps_input (v : jsstring) (b : bool) (net : fetch_outcome) (p : Page) :
  toasts (snd (updateGrid v b net p)) = toasts p
  /\ search_value (snd (updateGrid v b net p)) = search_value p.
Proof.
  destruct (fetch_fails net) eqn:E.
  - unfold updateGrid, try_catch, bind. rewrite fetchData_failure by exact E.
    split; reflexivity.
  - apply fetch_succeeds in E as (st & cs & ->).
    destruct (filteredCountries_returns cs v b) as [filtered H].
    rewrite (updateGrid_run v b st cs filtered p H).
    destruct (buildCountriesGrid_frame filtered true p) as (_ & H2 & H3 & H4).
    destruct (buildCountriesGrid filtered true p) as [[a|e] p'];
      cbn [fst snd console_error toasts search_value] in *; now split.
Qed.

(** C10. When the fetch of the dataset fails, [updateGrid] returns normally,
    leaves the grid (and the toast and the search box) as they were, and
    only logs the error: once in [fetchData], once in its own handler. *)
Theorem updateGrid_fetch_failure :
  forall (filterValue : jsstring) (isRegionFilter : bool) (net : fetch_outcome) (p : Page),
    fetch_fails net = true ->
    updateGrid filterValue isRegionFilter net p =
    (Normal tt,
     {| grid := grid p;
        console := console p ++ [ConsoleError "Error fetching data:" (fetch_error net);
                                 ConsoleError "Error updating grid:" (fetch_error net)];
        toasts := toasts p;
        search_value := search_value p |}).
Proof.
  intros v b net p Hfail.
  unfold updateGrid, try_catch, bind.
  rewrite (fetchData_failure net p Hfail).
  unfold console_error. simpl.
  now rewrite <- app_assoc.
Qed.

Lemma updateGrid_fetch_failure_witness :
  grid (snd (updateGrid (str "europe") true (Response false "Not Found" (JsonArray []))
                        {| grid := [CountryElement Congo_Kinshasa true];
                           console := []; toasts := []; search_value := [] |}))
  = [CountryElement Congo_Kinshasa true].
Proof.
  rewrite (updateGrid_fetch_failure (str "europe") true
             (Response false "Not Found" (JsonArray []))
             {| grid := [CountryElement Congo_Kinshasa true];
                console := []; toasts := []; search_value := [] |}).
  - reflexivity.
  - reflexivity.
Defined.

(** ** The search box *)

Lemma In_trim_start (x : N) (s : jsstring) : In x (Builtins.trim_start s) -> In x s.
Proof.
  induction s as [|u s IH]; simpl; [tauto|].
  destruct (Builtins.is_white_space u); simpl; tauto.
Qed.

Lemma In_trim (x : N) (s : jsstring) : In x (Builtins.trim s) -> In x s.
Proof.
  unfold Builtins.trim. intro H.
  apply In_trim_start. apply in_rev. apply In_trim_start. now apply in_rev.
Qed.

Lemma filter_shorter_iff {A : Type} (f : A -> bool) (l : list A) :
  forallb f l = false <-> (length (filter f l) < length l)%nat.
Proof.
  split.
  - intro H. destruct (Nat.eq_dec (length (filter f l)) (length l)) as [E|E].
    + assert (Hid : filter f l = l).
      { clear H. induction l as [|x l IH]; [reflexivity|]. simpl in *.
        destruct (f x); simpl in E.
        - f_equal. apply IH. lia.
        - pose proof (filter_length_le f l). lia. }
      apply filter_id_iff in Hid. congruence.
    + pose proof (filter_length_le f l). lia.
  - intro H. destruct (forallb f l) eqn:E; [|reflexivity].
    apply filter_id_iff in E. rewrite E in H. lia.
Qed.

Lemma is_letter_or_space_spec (u : N) :
  is_letter_or_space u = true <-> english_letter_or_white_space u.
Proof.
  unfold is_letter_or_space, Builtins.is_white_space, english_letter_or_white_space.
  rewrite !orb_true_iff, !andb_true_iff, !N.leb_le, !N.eqb_eq. tauto.
Qed.

Lemma count_occ_filter (f : N -> bool) (l : list N) (u : N) :
  count_occ N.eq_dec (filter f l) u = if f u then count_occ N.eq_dec l u else O.
Proof.
  induction l as [|x l IH]; cbn [filter count_occ]; [now destruct (f u)|].
  destruct (f x) eqn:Ex; cbn [count_occ]; destruct (N.eq_dec x u) as [->|Hne].
  - rewrite IH, Ex. reflexivity.
  - exact IH.
  - rewrite IH, Ex. reflexivity.
  - exact IH.
Qed.

Lemma Subsequence_trans {A : Type} (a b c : list A) :
  Subsequence a b -> Subsequence b c -> Subsequence a c.
Proof.
  intros Hab Hbc. revert a Hab.
  induction Hbc as [| x b c _ IH | x b c _ IH]; intros a Hab.
  - exact Hab.
  - inversion Hab; subst; constructor; now apply IH.
  - constructor. now apply IH.
Qed.

Lemma trim_start_Subsequence (s : jsstring) : Subsequence (Builtins.trim_start s) s.
Proof.
  induction s as [|u s IH]; cbn [Builtins.trim_start]; [constructor|].
  destruct (Builtins.is_white_space u); [now constructor|].
  constructor. clear IH. induction s; now constructor.
Qed.

Lemma Subsequence_rev {A : Type} (a b : list A) :
  Subsequence a b -> Subsequence (rev a) (rev b).
Proof.
  assert (Hsnoc : forall (x : A) (s t : list A),
             Subsequence s t -> Subsequence (s ++ [x]) (t ++ [x])).
  { intros x s t H. induction H; cbn [app]; repeat constructor; assumption. }
  assert (Hskip : forall (x : A) (s t : list A),
             Subsequence s t -> Subsequence s (t ++ [x])).
  { intros x s t H. induction H; cbn [app]; repeat constructor; assumption. }
  induction 1; cbn [rev]; [constructor | now apply Hsnoc | now apply Hskip].
Qed.

Lemma trim_Subsequence (s : jsstring) : Subsequence (Builtins.trim s) s.
Proof.
  unfold Builtins.trim.
  apply (Subsequence_trans _ (Builtins.trim_start s)); [|apply trim_start_Subsequence].
  rewrite <- (rev_involutive (Builtins.trim_start s)) at 2.
  apply Subsequence_rev. apply trim_start_Subsequence.
Qed.

(** C8. The search listener leaves in the box the typed text without its
    units outside [A-Za-z\s] (every English letter and white space unit
    kept, in order, every other unit dropped) and forwards that text,
    trimmed, to [updateGrid]: the forwarded string holds no unit outside
    the class.  The toast is shown exactly when a unit was dropped. *)
Theorem search_input_sanitized :
  forall (net : fetch_outcome) (p : Page),
    let originalValue := search_value p in
    let after := snd (search_input_listener net p) in
    let box := search_value after in
    let forwarded := Builtins.trim box in
    Subsequence box originalValue
    /\ Forall english_letter_or_white_space box
    /\ (forall u, english_letter_or_white_space u ->
                  count_occ N.eq_dec box u = count_occ N.eq_dec originalValue u)
    /\ Forall english_letter_or_white_space forwarded
    /\ Subsequence forwarded originalValue
    /\ search_input_listener net p
       = updateGrid forwarded false net
           {| grid := grid p; console := console p; toasts := toasts after;
              search_value := box |}
    /\ ((exists u, In u originalValue /\ ~ english_letter_or_white_space u) ->
        toasts after = toasts p ++ ["Please type in English only."%string])
    /\ ((forall u, In u originalValue -> english_letter_or_white_space u) ->
        toasts after = toasts p)
    /\ ((length box < length originalValue)%nat <->
        exists u, In u originalValue /\ ~ english_letter_or_white_space u).
Proof.
  intros net p originalValue after box forwarded.
  assert (Hrun : search_input_listener net p =
                 updateGrid (Builtins.trim (strip_invalid originalValue)) false net
                   {| grid := grid p; console := console p;
                      toasts := (if forallb is_letter_or_space originalValue then toasts p
                                 else toasts p ++ ["Please type in English only."%string]);
                      search_value := strip_invalid originalValue |}).
  { unfold search_input_listener, bind, get_search_value. fold originalValue.
    destruct (forallb is_letter_or_space originalValue) eqn:E.
    - assert (Hid : strip_invalid originalValue = originalValue)
        by now apply filter_id_iff.
      rewrite Hid, strict_eq_refl. reflexivity.
    - assert (Hne : strict_eq originalValue (strip_invalid originalValue) = false).
      { apply strict_eq_false. intro Heq. symmetry in Heq.
        apply filter_id_iff in Heq. congruence. }
      rewrite Hne. reflexivity. }
  assert (Hbox : box = strip_invalid originalValue).
  { unfold box, after. rewrite Hrun.
    now rewrite (proj2 (updateGrid_keeps_input _ _ _ _)). }
  assert (Htoast : toasts after
                   = if forallb is_letter_or_space originalValue then toasts p
                     else toasts p ++ ["Please type in English only."%string]).
  { unfold after. rewrite Hrun. now rewrite (proj1 (updateGrid_keeps_input _ _ _ _)). }
  assert (Hall : forallb is_letter_or_space originalValue = true <->
                 forall u, In u originalValue -> english_letter_or_white_space u).
  { rewrite forallb_forall. split; intros H u Hu; apply is_letter_or_space_spec;
      now apply H. }
  assert (Hsome : forallb is_letter_or_space originalValue = false <->
                  exists u, In u originalValue /\ ~ english_letter_or_white_space u).
  { split.
    - intro H. assert (Hex : existsb (fun u => negb (is_letter_or_space u)) originalValue
                             = true).
      { clear -H. induction originalValue as [|x l IH]; [discriminate|].
        cbn [forallb existsb] in *. destruct (is_letter_or_space x); cbn [negb andb orb] in *;
          [now apply IH | reflexivity]. }
      apply existsb_exists in Hex as (u & Hu & Hn). exists u. split; [exact Hu|].
      intro Hc. apply is_letter_or_space_spec in Hc. rewrite Hc in Hn. discriminate.
    - intros (u & Hu & Hn). destruct (forallb is_letter_or_space originalValue) eqn:E;
        [|reflexivity].
      exfalso. apply Hn. now apply Hall. }
  assert (Hclass : Forall english_letter_or_white_space box).
  { rewrite Hbox. apply Forall_forall. intros u Hu. apply is_letter_or_space_spec.
    now apply filter_In in Hu. }
  split; [rewrite Hbox; apply filter_Subsequence|].
  split; [exact Hclass|].
  split.
  { intros u Hu. rewrite Hbox. unfold strip_invalid. rewrite count_occ_filter.
    apply is_letter_or_space_spec in Hu. now rewrite Hu. }
  split.
  { apply Forall_forall. intros u Hu. apply In_trim in Hu.
    rewrite Forall_forall in Hclass. now apply Hclass. }
  split.
  { apply (Subsequence_trans _ box); [apply trim_Subsequence|].
    rewrite Hbox. apply filter_Subsequence. }
  split.
  { unfold forwarded. rewrite Hbox, Htoast. exact Hrun. }
  split.
  { intro H. apply Hsome in H. now rewrite Htoast, H. }
  split.
  { intro H. apply Hall in H. now rewrite Htoast, H. }
  rewrite <- Hsome, Hbox. symmetry. apply filter_shorter_iff.
Qed.

(** ** UTF-16 *)

Ltac div_mod_facts a b :=
  let q := fresh "q" in
  let r := fresh "r" in
  pose proof (N.div_mod' a b);
  pose proof (N.mod_lt a b ltac:(lia));
  set (q := a / b) in *; set (r := a mod b) in *; clearbody q r.

Ltac bool_to_prop :=
  repeat match goal with
         | H : (_ && _) = true |- _ => apply andb_true_iff in H; destruct H
         | H : (_ || _) = false |- _ => apply orb_false_iff in H; destruct H
         | H : negb _ = true |- _ => apply negb_true_iff in H
         | H : negb _ = false |- _ => apply negb_false_iff in H
         | H : (_ <=? _) = true |- _ => apply N.leb_le in H
         | H : (_ <=? _) = false |- _ => apply N.leb_gt in H
         | H : (_ <? _) = true |- _ => apply N.ltb_lt in H
         | H : (_ <? _) = false |- _ => apply N.ltb_ge in H
         | H : (_ =? _) = true |- _ => apply N.eqb_eq in H
         | H : (_ =? _) = false |- _ => apply N.eqb_neq in H
         end.

Section Utf16Facts.
Import Utf16.

Lemma code_points_pair (hi lo : N) (rest : jsstring) :
  is_high_surrogate hi && is_low_surrogate lo = true ->
  code_points (hi :: lo :: rest) = pair_code_point hi lo :: code_points rest.
Proof. intro H. simpl. now rewrite H. Qed.

Lemma code_points_single (u v : N) (rest : jsstring) :
  is_high_surrogate u && is_low_surrogate v = false ->
  code_points (u :: v :: rest) = u :: code_points (v :: rest).
Proof. intro H. cbn [code_points]. now rewrite H. Qed.

Lemma code_points_not_high (u : N) (rest : jsstring) :
  is_high_surrogate u = false -> code_points (u :: rest) = u :: code_points rest.
Proof.
  intro H. destruct rest as [|v rest]; [reflexivity|].
  apply code_points_single. now rewrite H.
Qed.

(** Induction along the way [code_points] reads a string. *)
Lemma code_points_ind (P : jsstring -> Prop) :
  P [] ->
  (forall u, P [u]) ->
  (forall hi lo rest,
      is_high_surrogate hi && is_low_surrogate lo = true -> P rest -> P (hi :: lo :: rest)) ->
  (forall u v rest,
      is_high_surrogate u && is_low_surrogate v = false -> P (v :: rest) -> P (u :: v :: rest)) ->
  forall s, P s.
Proof.
  intros Hnil Hone Hpair Hsingle.
  assert (H : forall n s, (length s <= n)%nat -> P s).
  { induction n as [|n IH]; intros s Hlen.
    - destruct s; [exact Hnil | simpl in Hlen; lia].
    - destruct s as [|u [|v rest]]; [exact Hnil | apply Hone |].
      destruct (is_high_surrogate u && is_low_surrogate v) eqn:E.
      + apply Hpair; [exact E|]. apply IH. simpl in Hlen. lia.
      + apply Hsingle; [exact E|]. apply IH. simpl in *. lia. }
  intro s. now apply (H (length s)).
Qed.

Lemma code_units_pair (hi lo : N) :
  is_high_surrogate hi && is_low_surrogate lo = true ->
  code_units (pair_code_point hi lo) = [hi; lo].
Proof.
  unfold is_high_surrogate, is_low_surrogate, code_units, pair_code_point. intro H.
  bool_to_prop.
  div_mod_facts (0x10000 + (hi - 0xD800) * 0x400 + (lo - 0xDC00) - 0x10000) 0x400.
  destruct (N.ltb_spec (0x10000 + (hi - 0xD800) * 0x400 + (lo - 0xDC00)) 0x10000); [lia|].
  f_equal; [|f_equal]; lia.
Qed.

Lemma code_units_unit (u : N) : is_code_unit u = true -> code_units u = [u].
Proof. unfold is_code_unit, code_units. now intros ->. Qed.

(** Reading the code points and writing them back gives the string. *)
Lemma from_code_points_code_points (s : jsstring) :
  forallb is_code_unit s = true -> from_code_points (code_points s) = s.
Proof.
  induction s as [| u | hi lo rest Hp IH | u v rest Hs IH] using code_points_ind;
    intro H.
  - reflexivity.
  - simpl in H. apply andb_true_iff in H as [Hu _].
    cbn [code_points from_code_points flat_map].
    rewrite code_units_unit by exact Hu. reflexivity.
  - rewrite code_points_pair by exact Hp. simpl in H.
    apply andb_true_iff in H as [_ H]. apply andb_true_iff in H as [_ H].
    cbn [from_code_points flat_map]. rewrite code_units_pair by exact Hp.
    fold (from_code_points (code_points rest)). now rewrite IH.
  - rewrite code_points_single by exact Hs.
    change (forallb is_code_unit (u :: v :: rest))
      with (is_code_unit u && forallb is_code_unit (v :: rest)) in H.
    apply andb_true_iff in H as [Hu H].
    cbn [from_code_points flat_map]. rewrite code_units_unit by exact Hu.
    fold (from_code_points (code_points (v :: rest))). now rewrite IH.
Qed.

Lemma scalar_not_high (c : N) : is_scalar c = true -> is_high_surrogate c = false.
Proof.
  unfold is_scalar, is_surrogate, is_high_surrogate. intro H. bool_to_prop.
  destruct (N.leb_spec 0xD800 c); simpl; [|reflexivity].
  apply N.leb_gt. destruct (N.leb_spec c 0xDFFF); simpl in *; [discriminate | lia].
Qed.

(** Writing scalar values and reading them back gives the scalar values. *)
Lemma code_points_from_code_points (l : list N) :
  forallb is_scalar l = true -> code_points (from_code_points l) = l.
Proof.
  induction l as [|c l IH]; intro H; [reflexivity|].
  simpl in H. apply andb_true_iff in H as [Hc Hl].
  cbn [from_code_points flat_map]. fold (from_code_points l).
  unfold code_units. destruct (N.ltb_spec c 0x10000) as [Hlt|Hge].
  - cbn [app]. rewrite code_points_not_high by now apply scalar_not_high.
    now rewrite IH.
  - unfold is_scalar in Hc. bool_to_prop.
    div_mod_facts (c - 0x10000) 0x400.
    cbn [app]. rewrite code_points_pair.
    + rewrite IH by exact Hl.
      replace (pair_code_point (0xD800 + q) (0xDC00 + r)) with c; [reflexivity|].
      unfold pair_code_point. lia.
    + unfold is_high_surrogate, is_low_surrogate.
      apply andb_true_iff; split; apply andb_true_iff; split; apply N.leb_le; lia.
Qed.

Lemma from_code_points_units (l : list N) :
  forallb is_scalar l = true -> forallb is_code_unit (from_code_points l) = true.
Proof.
  induction l as [|c l IH]; intro H; [reflexivity|].
  simpl in H. apply andb_true_iff in H as [Hc Hl].
  cbn [from_code_points flat_map]. fold (from_code_points l).
  rewrite forallb_app, IH by exact Hl. rewrite andb_true_r.
  unfold code_units, is_scalar in *. bool_to_prop.
  destruct (N.ltb_spec c 0x10000) as [Hlt|Hge]; cbn [forallb]; unfold is_code_unit.
  - rewrite andb_true_r. now apply N.ltb_lt.
  - div_mod_facts (c - 0x10000) 0x400.
    rewrite andb_true_r. apply andb_true_iff; split; apply N.ltb_lt; lia.
Qed.

(** A code point of a string is one of its units or a supplementary one. *)
Lemma code_point_origin (s : jsstring) (c : N) :
  In c (code_points s) -> In c s \/ 0x10000 <= c.
Proof.
  induction s as [| u | hi lo rest Hp IH | u v rest Hs IH] using code_points_ind.
  - simpl. tauto.
  - simpl. tauto.
  - rewrite code_points_pair by exact Hp. intros [<- | H].
    + right. unfold pair_code_point. lia.
    + destruct (IH H); [left; now do 2 right | now right].
  - rewrite code_points_single by exact Hs. intros [<- | H].
    + left. now left.
    + destruct (IH H); [left; now right | now right].
Qed.

Lemma code_point_bound (s : jsstring) :
  forallb is_code_unit s = true ->
  forallb (fun c => c <? 0x110000) (code_points s) = true.
Proof.
  induction s as [| u | hi lo rest Hp IH | u v rest Hs IH] using code_points_ind;
    intro H.
  - reflexivity.
  - simpl in *. unfold is_code_unit in H. bool_to_prop.
    rewrite andb_true_r. apply N.ltb_lt. lia.
  - rewrite code_points_pair by exact Hp. simpl in H.
    apply andb_true_iff in H as [_ H]. apply andb_true_iff in H as [_ H].
    simpl. rewrite IH by exact H. rewrite andb_true_r.
    unfold is_high_surrogate, is_low_surrogate, pair_code_point in *.
    bool_to_prop. apply N.ltb_lt. lia.
  - rewrite code_points_single by exact Hs.
    change (forallb is_code_unit (u :: v :: rest))
      with (is_code_unit u && forallb is_code_unit (v :: rest)) in H.
    apply andb_true_iff in H as [Hu H].
    cbn [forallb]. rewrite IH by exact H. rewrite andb_true_r.
    unfold is_code_unit in Hu. bool_to_prop. apply N.ltb_lt. lia.
Qed.

(** The code points of a well-formed string are scalar values. *)
Lemma well_formed_scalar (s : jsstring) :
  well_formed s = true -> forallb is_scalar (code_points s) = true.
Proof.
  unfold well_formed. intro H. apply andb_true_iff in H as [Hu Hs].
  apply code_point_bound in Hu.
  apply forallb_forall. intros c Hc.
  rewrite forallb_forall in Hu, Hs. unfold is_scalar.
  now rewrite (Hu c Hc), (Hs c Hc).
Qed.

(** The code points of a prefix are a prefix of the code points, followed
    by a high surrogate when the cut falls inside a pair. *)
Lemma code_points_firstn (s : jsstring) (k : nat) :
  exists j,
    code_points (firstn k s) = firstn j (code_points s)
    \/ exists hi, is_high_surrogate hi = true
                  /\ code_points (firstn k s) = firstn j (code_points s) ++ [hi].
Proof.
  revert k.
  induction s as [| u | hi lo rest Hp IH | u v rest Hs IH] using code_points_ind;
    intro k.
  - exists 0%nat. left. now destruct k.
  - destruct k as [|k].
    + exists 0%nat. now left.
    + exists 1%nat. left. simpl. now destruct k.
  - rewrite code_points_pair by exact Hp.
    destruct k as [|[|k]].
    + exists 0%nat. now left.
    + exists 0%nat. right. exists hi. split; [|reflexivity].
      now apply andb_true_iff in Hp.
    + destruct (IH k) as [j [H | (h & Hh & H)]]; exists (S j).
      * left. cbn [firstn]. rewrite code_points_pair by exact Hp. now rewrite H.
      * right. exists h. split; [exact Hh|].
        cbn [firstn]. rewrite code_points_pair by exact Hp. now rewrite H.
  - rewrite code_points_single by exact Hs.
    destruct k as [|[|k]].
    + exists 0%nat. now left.
    + exists 1%nat. now left.
    + destruct (IH (S k)) as [j [H | (h & Hh & H)]]; exists (S j).
      * left. change (firstn (S (S k)) (u :: v :: rest))
          with (u :: v :: firstn k rest).
        rewrite code_points_single by exact Hs.
        change (v :: firstn k rest) with (firstn (S k) (v :: rest)).
        now rewrite H.
      * right. exists h. split; [exact Hh|].
        change (firstn (S (S k)) (u :: v :: rest))
          with (u :: v :: firstn k rest).
        rewrite code_points_single by exact Hs.
        change (v :: firstn k rest) with (firstn (S k) (v :: rest)).
        now rewrite H.
Qed.

End Utf16Facts.

(** ** The tables *)

Arguments Builtins.ccc : simpl never.
Arguments Builtins.decompose : simpl never.
Arguments Builtins.lower_mapping : simpl never.
Arguments Builtins.lower_code_point : simpl never.
Arguments Builtins.next_is_cased : simpl never.
Arguments is_scalar : simpl never.
Arguments is_decomposed : simpl never.
Arguments is_fixed : simpl never.
Arguments in_order : simpl never.
Arguments decomposition_output : simpl never.
Arguments lowercase_output : simpl never.

Section TableFacts.
Import Utf16 Builtins.

Lemma assoc_In {A : Type} (c : N) (t : list (N * A)) (v : A) :
  assoc c t = Some v -> In (c, v) t.
Proof.
  induction t as [|[k w] t IH]; simpl; [discriminate|].
  destruct (N.eqb_spec c k) as [->|Hne].
  - intros [= ->]. now left.
  - intro H. right. now apply IH.
Qed.

Lemma N_range_In (lo : N) (len : nat) (c : N) :
  lo <= c -> c < lo + N.of_nat len -> In c (N_range lo len).
Proof.
  intros Hlo Hhi. unfold N_range. apply in_map_iff.
  exists (N.to_nat (c - lo)). split; [lia|]. apply in_seq. lia.
Qed.

Lemma forallb_range (P : N -> bool) (lo : N) (len : nat) :
  forallb P (N_range lo len) = true ->
  forall c, lo <= c -> c < lo + N.of_nat len -> P c = true.
Proof.
  intros H c Hlo Hhi. rewrite forallb_forall in H. apply H. now apply N_range_In.
Qed.

(** Every code point a table entry decomposes into is itself decomposed. *)
Lemma decomposition_table_closed :
  forallb (fun entry => forallb decomposition_output (snd entry))
          UCD.canonical_decomposition = true.
Proof. vm_compute. reflexivity. Qed.

(** So are the leading, vowel and trailing jamo of the Hangul syllables. *)
Lemma jamo_decomposed :
  forallb decomposition_output (N_range 0x1100 19) = true
  /\ forallb decomposition_output (N_range 0x1161 21) = true
  /\ forallb decomposition_output (N_range 0x11A8 27) = true.
Proof. repeat split; vm_compute; reflexivity. Qed.

(** The grapheme joiner is the one starter among U+0300..U+036F. *)
Lemma diacritic_classes :
  forallb (fun c => (c =? COMBINING_GRAPHEME_JOINER) || (0 <? ccc c))
          (N_range 0x0300 112) = true.
Proof. vm_compute. reflexivity. Qed.

Lemma lowercase_table_ok : forallb lowercase_entry_ok UCD.lowercase_mapping = true.
Proof. vm_compute. reflexivity. Qed.

Lemma sigma_lowercase :
  lowercase_output 0x03C3 = true /\ lowercase_output 0x03C2 = true
  /\ ccc 0x03C3 = ccc 0x03A3 /\ ccc 0x03C2 = ccc 0x03A3.
Proof. repeat split; vm_compute; reflexivity. Qed.

(** No table knows the high surrogates. *)
Lemma high_surrogates_fixed :
  forallb (fun c => is_fixed c && (ccc c =? 0)) (N_range 0xD800 1024) = true.
Proof. vm_compute. reflexivity. Qed.

End TableFacts.

(** ** Decomposition *)

Section DecompositionFacts.
Import Utf16 Builtins.

Lemma is_decomposed_spec (c : N) : is_decomposed c = true <-> decompose c = [c].
Proof. unfold is_decomposed. apply strict_eq_spec. Qed.

Lemma decompose_unlisted (c : N) :
  is_hangul_syllable c = false -> assoc c UCD.canonical_decomposition = None ->
  decompose c = [c].
Proof. intros Hh Ha. unfold decompose. now rewrite Hh, Ha. Qed.

Lemma hangul_decomposition_output (c : N) :
  is_hangul_syllable c = true ->
  forallb decomposition_output (hangul_decomposition c) = true.
Proof.
  unfold is_hangul_syllable, hangul_decomposition. intro H. bool_to_prop.
  cbv zeta. set (s := c - 0xAC00). assert (Hs : s < 11172) by (unfold s; lia).
  clearbody s.
  div_mod_facts s 28. div_mod_facts s 588. div_mod_facts r0 28.
  destruct jamo_decomposed as (HL & HV & HT).
  assert (Hl : decomposition_output (0x1100 + q0) = true)
    by (apply (forallb_range _ _ _ HL); lia).
  assert (Hv : decomposition_output (0x1161 + q1) = true)
    by (apply (forallb_range _ _ _ HV); lia).
  destruct (N.eqb_spec (0x11A7 + r) 0x11A7) as [E|E]; cbn [forallb].
  - now rewrite Hl, Hv.
  - rewrite Hl, Hv. rewrite (forallb_range _ _ _ HT) by lia. reflexivity.
Qed.

(** What a scalar value other than the joiner decomposes into. *)
Lemma decompose_output (c : N) :
  is_scalar c = true -> c <> COMBINING_GRAPHEME_JOINER ->
  forallb decomposition_output (decompose c) = true.
Proof.
  intros Hs Hj. unfold decompose.
  destruct (is_hangul_syllable c) eqn:Eh; [now apply hangul_decomposition_output|].
  destruct (assoc c UCD.canonical_decomposition) as [d|] eqn:Ea.
  - apply assoc_In in Ea. pose proof decomposition_table_closed as T.
    rewrite forallb_forall in T. exact (T _ Ea).
  - cbn [forallb]. rewrite andb_true_r. unfold decomposition_output.
    apply N.eqb_neq in Hj. rewrite Hs, Hj.
    rewrite (proj2 (is_decomposed_spec c)) by now apply decompose_unlisted.
    reflexivity.
Qed.

Lemma flat_map_decompose_output (l : list N) :
  forallb is_scalar l = true -> ~ In COMBINING_GRAPHEME_JOINER l ->
  forallb decomposition_output (flat_map decompose l) = true.
Proof.
  induction l as [|c l IH]; intros Hs Hj; [reflexivity|].
  cbn [forallb] in Hs. apply andb_true_iff in Hs as [Hc Hl].
  cbn [flat_map]. rewrite forallb_app. apply andb_true_iff. split.
  - apply decompose_output; [exact Hc|]. intros ->. apply Hj. now left.
  - apply IH; [exact Hl|]. intro H. apply Hj. now right.
Qed.

Lemma flat_map_decompose_fixed (l : list N) :
  forallb is_decomposed l = true -> flat_map decompose l = l.
Proof.
  induction l as [|c l IH]; intro H; [reflexivity|].
  cbn [forallb] in H. apply andb_true_iff in H as [Hc Hl].
  cbn [flat_map]. apply is_decomposed_spec in Hc. rewrite Hc, IH by exact Hl.
  reflexivity.
Qed.

End DecompositionFacts.

(** ** Canonical ordering *)

Section OrderingFacts.
Import Utf16 Builtins.

Lemma insert_mark_In (c x : N) (l : list N) :
  In x (insert_mark c l) <-> x = c \/ In x l.
Proof.
  induction l as [|y l IH]; cbn [insert_mark].
  - simpl. intuition congruence.
  - destruct ((0 <? ccc y) && (ccc y <? ccc c)).
    + cbn [In]. rewrite IH. intuition congruence.
    + cbn [In]. intuition congruence.
Qed.

Lemma canonical_order_In (x : N) (l : list N) : In x (canonical_order l) <-> In x l.
Proof.
  induction l as [|c l IH]; cbn [canonical_order]; [reflexivity|].
  rewrite insert_mark_In, IH. cbn [In]. intuition congruence.
Qed.

Lemma canonical_order_forallb (P : N -> bool) (l : list N) :
  forallb P l = true -> forallb P (canonical_order l) = true.
Proof.
  rewrite !forallb_forall. intros H x Hx. apply H. now apply canonical_order_In.
Qed.

Lemma ordered_after_insert (a c : N) (l : list N) :
  in_order a c = true -> ordered_after a l = true ->
  ordered_after a (insert_mark c l) = true.
Proof.
  intros Hc Hl. destruct l as [|x l]; cbn [insert_mark ordered_after]; [exact Hc|].
  destruct ((0 <? ccc x) && (ccc x <? ccc c)); cbn [ordered_after]; assumption.
Qed.

Lemma insert_mark_ordered (c : N) (l : list N) :
  canonically_ordered l = true -> canonically_ordered (insert_mark c l) = true.
Proof.
  induction l as [|x l IH]; intro H; [reflexivity|].
  cbn [canonically_ordered] in H. apply andb_true_iff in H as [Hx Hl].
  cbn [insert_mark]. destruct ((0 <? ccc x) && (ccc x <? ccc c)) eqn:E.
  - cbn [canonically_ordered]. rewrite IH by exact Hl. rewrite andb_true_r.
    apply ordered_after_insert; [|exact Hx].
    unfold in_order. bool_to_prop.
    replace (ccc c <? ccc x) with false by (symmetry; apply N.ltb_ge; lia).
    now rewrite andb_false_r.
  - cbn [canonically_ordered ordered_after]. unfold in_order. rewrite E, Hx, Hl.
    reflexivity.
Qed.

Lemma canonical_order_ordered (l : list N) :
  canonically_ordered (canonical_order l) = true.
Proof.
  induction l as [|c l IH]; [reflexivity|].
  cbn [canonical_order]. now apply insert_mark_ordered.
Qed.

(** Canonical ordering leaves an ordered sequence as it is. *)
Lemma canonical_order_fixed (l : list N) :
  canonically_ordered l = true -> canonical_order l = l.
Proof.
  induction l as [|a l IH]; intro H; [reflexivity|].
  cbn [canonically_ordered] in H. apply andb_true_iff in H as [Ha Hl].
  cbn [canonical_order]. rewrite IH by exact Hl.
  destruct l as [|x l]; [reflexivity|].
  cbn [insert_mark]. cbn [ordered_after] in Ha. unfold in_order in Ha.
  apply negb_true_iff in Ha. now rewrite Ha.
Qed.

Lemma in_order_skip_mark (a b c : N) :
  0 < ccc b -> in_order a b = true -> in_order b c = true -> in_order a c = true.
Proof.
  unfold in_order. intros Hb Hab Hbc.
  destruct (N.ltb_spec 0 (ccc b)) as [_|]; [|lia].
  destruct (N.ltb_spec (ccc b) (ccc a)); [discriminate|].
  destruct (N.ltb_spec 0 (ccc c)); [|reflexivity].
  destruct (N.ltb_spec (ccc c) (ccc b)); [discriminate|].
  destruct (N.ltb_spec (ccc c) (ccc a)); [lia | reflexivity].
Qed.

(** Dropping marks, never a starter, keeps the order canonical. *)
Lemma ordered_after_filter (keep : N -> bool) (a : N) (l : list N) :
  (forall x, In x l -> keep x = false -> 0 < ccc x) ->
  canonically_ordered l = true -> ordered_after a l = true ->
  ordered_after a (filter keep l) = true.
Proof.
  induction l as [|b l IH]; intros Hmarks Hl Ha; [reflexivity|].
  cbn [canonically_ordered] in Hl. apply andb_true_iff in Hl as [Hb Hl].
  cbn [filter]. destruct (keep b) eqn:Ek; [exact Ha|].
  apply IH; [intros x Hx; apply Hmarks; now right | exact Hl |].
  destruct l as [|c l]; [reflexivity|].
  cbn [ordered_after] in *. apply (in_order_skip_mark a b c); try assumption.
  apply Hmarks; [now left | exact Ek].
Qed.

Lemma canonically_ordered_filter (keep : N -> bool) (l : list N) :
  (forall x, In x l -> keep x = false -> 0 < ccc x) ->
  canonically_ordered l = true -> canonically_ordered (filter keep l) = true.
Proof.
  induction l as [|a l IH]; intros Hmarks Hl; [reflexivity|].
  cbn [canonically_ordered] in Hl. apply andb_true_iff in Hl as [Ha Hl].
  assert (Hrest : forall x, In x l -> keep x = false -> 0 < ccc x)
    by (intros x Hx; apply Hmarks; now right).
  cbn [filter]. destruct (keep a); [|now apply IH].
  cbn [canonically_ordered]. rewrite IH by assumption. rewrite andb_true_r.
  now apply ordered_after_filter.
Qed.

(** The order is a matter of the combining classes alone. *)
Lemma canonically_ordered_classes (l l' : list N) :
  map ccc l' = map ccc l -> canonically_ordered l' = canonically_ordered l.
Proof.
  revert l'. induction l as [|a l IH]; intros [|a' l'] H; try discriminate;
    [reflexivity|].
  cbn [map] in H. injection H as Ha Hl.
  cbn [canonically_ordered]. rewrite (IH l' Hl). f_equal.
  destruct l as [|b l], l' as [|b' l']; try discriminate; [reflexivity|].
  cbn [map] in Hl. injection Hl as Hb _.
  cbn [ordered_after]. unfold in_order. now rewrite Ha, Hb.
Qed.

Lemma canonically_ordered_firstn (l : list N) (j : nat) :
  canonically_ordered l = true -> canonically_ordered (firstn j l) = true.
Proof.
  revert j. induction l as [|a l IH]; intros [|j] H; try reflexivity.
  cbn [canonically_ordered] in H. apply andb_true_iff in H as [Ha Hl].
  cbn [firstn canonically_ordered]. rewrite IH by exact Hl. rewrite andb_true_r.
  destruct l as [|b l]; [now destruct j|]. destruct j; [reflexivity | exact Ha].
Qed.

Lemma canonically_ordered_snoc_starter (l : list N) (x : N) :
  ccc x = 0 -> canonically_ordered l = true -> canonically_ordered (l ++ [x]) = true.
Proof.
  intro Hx. induction l as [|a l IH]; intro H; [reflexivity|].
  cbn [canonically_ordered] in H. apply andb_true_iff in H as [Ha Hl].
  cbn [app canonically_ordered]. rewrite IH by exact Hl. rewrite andb_true_r.
  destruct l as [|b l]; [|exact Ha].
  cbn [app ordered_after]. unfold in_order. rewrite Hx. reflexivity.
Qed.

End OrderingFacts.

(** ** Removing the diacritics *)

Section RemovalFacts.
Import Utf16 Builtins.

Lemma remove_diacritics_code_units (c : N) :
  remove_diacritics (code_units c) =
  if is_combining_diacritic c then [] else code_units c.
Proof.
  unfold remove_diacritics, code_units.
  destruct (N.ltb_spec c 0x10000) as [Hlt|Hge]; cbn [filter].
  - now destruct (is_combining_diacritic c).
  - div_mod_facts (c - 0x10000) 0x400. unfold is_combining_diacritic.
    replace (c <=? 0x036F) with false by (symmetry; apply N.leb_gt; lia).
    replace (0xD800 + q <=? 0x036F) with false by (symmetry; apply N.leb_gt; lia).
    replace (0xDC00 + r <=? 0x036F) with false by (symmetry; apply N.leb_gt; lia).
    now rewrite !andb_false_r.
Qed.

(** The pattern is matched on code units, yet it drops whole code points. *)
Lemma remove_diacritics_from_code_points (l : list N) :
  remove_diacritics (from_code_points l) =
  from_code_points (filter (fun c => negb (is_combining_diacritic c)) l).
Proof.
  induction l as [|c l IH]; [reflexivity|].
  cbn [from_code_points flat_map filter]. fold (from_code_points l).
  unfold remove_diacritics in *. rewrite filter_app, IH.
  fold (remove_diacritics (code_units c)). rewrite remove_diacritics_code_units.
  destruct (is_combining_diacritic c); reflexivity.
Qed.

Lemma diacritic_is_mark (c : N) :
  is_combining_diacritic c = true -> c <> COMBINING_GRAPHEME_JOINER -> 0 < ccc c.
Proof.
  unfold is_combining_diacritic. intros H Hj. bool_to_prop.
  pose proof (forallb_range _ _ _ diacritic_classes c) as T.
  cbv beta in T. apply orb_true_iff in T as [T|T]; [ | | lia | lia].
  - now apply N.eqb_eq in T.
  - now apply N.ltb_lt in T.
Qed.

End RemovalFacts.

(** ** Lowercasing *)

Section LowercaseFacts.
Import Utf16 Builtins.

Lemma is_fixed_spec (c : N) :
  is_fixed c = true <->
  is_decomposed c = true /\ is_combining_diacritic c = false
  /\ c <> 0x03A3 /\ lower_mapping c = [c].
Proof.
  unfold is_fixed. rewrite !andb_true_iff, !negb_true_iff, N.eqb_neq, strict_eq_spec.
  tauto.
Qed.

Lemma lower_code_point_fixed (before after : list N) (c : N) :
  is_fixed c = true -> lower_code_point before after c = [c].
Proof.
  intro H. apply is_fixed_spec in H as (_ & _ & Hs & Hl).
  unfold lower_code_point. apply N.eqb_neq in Hs. now rewrite Hs.
Qed.

Lemma lower_from_fixed (l before : list N) :
  forallb is_fixed l = true -> lower_from before l = l.
Proof.
  revert before. induction l as [|c l IH]; intros before H; [reflexivity|].
  cbn [forallb] in H. apply andb_true_iff in H as [Hc Hl].
  cbn [lower_from]. rewrite lower_code_point_fixed by exact Hc.
  now rewrite IH.
Qed.

(** A decomposed scalar value that is no diacritic becomes one fixed scalar
    value of the same combining class. *)
Lemma lower_code_point_output (before after : list N) (c : N) :
  is_decomposed c = true -> is_scalar c = true -> is_combining_diacritic c = false ->
  exists c', lower_code_point before after c = [c']
             /\ lowercase_output c' = true /\ ccc c' = ccc c.
Proof.
  intros Hd Hs Hm. unfold lower_code_point.
  destruct sigma_lowercase as (S1 & S2 & S3 & S4).
  destruct (N.eqb_spec c 0x03A3) as [->|Hne].
  - destruct (final_sigma before after); eexists; (split; [reflexivity|]); now split.
  - unfold lower_mapping.
    destruct (assoc c UCD.lowercase_mapping) as [d|] eqn:Ea.
    + apply assoc_In in Ea. pose proof lowercase_table_ok as T.
      rewrite forallb_forall in T. specialize (T _ Ea).
      unfold lowercase_entry_ok in T. rewrite Hd, Hs, Hm in T.
      cbn [negb andb orb] in T.
      destruct d as [|c' [|]]; try discriminate T.
      apply andb_true_iff in T as [T1 T2]. apply N.eqb_eq in T2.
      exists c'. split; [reflexivity|]. split; assumption.
    + exists c. split; [reflexivity|]. split; [|reflexivity].
      unfold lowercase_output. rewrite Hs, andb_true_r.
      apply is_fixed_spec. repeat split; try assumption.
      unfold lower_mapping. now rewrite Ea.
Qed.

Lemma lower_from_output (l before : list N) :
  forallb decomposition_output l = true ->
  forallb (fun c => negb (is_combining_diacritic c)) l = true ->
  forallb lowercase_output (lower_from before l) = true
  /\ map ccc (lower_from before l) = map ccc l.
Proof.
  revert before. induction l as [|c l IH]; intros before Hd Hm; [now split|].
  cbn [forallb] in Hd, Hm.
  apply andb_true_iff in Hd as [Hc Hd]. apply andb_true_iff in Hm as [Hcm Hm].
  unfold decomposition_output in Hc.
  apply andb_true_iff in Hc as [Hc _]. apply andb_true_iff in Hc as [Hc1 Hc2].
  apply negb_true_iff in Hcm.
  destruct (lower_code_point_output before l c Hc1 Hc2 Hcm) as (c' & E & Ho & Hk).
  destruct (IH (c :: before) Hd Hm) as [IH1 IH2].
  cbn [lower_from]. rewrite E. cbn [app forallb map].
  now rewrite Ho, IH1, Hk, IH2.
Qed.

End LowercaseFacts.

(** ** Normalized strings *)

Section NormalizedFacts.
Import Utf16 Builtins.

Lemma forallb_weaken {A : Type} (P Q : A -> bool) (l : list A) :
  (forall x, P x = true -> Q x = true) -> forallb P l = true -> forallb Q l = true.
Proof.
  intros H Hl. rewrite forallb_forall in *. intros x Hx. apply H. now apply Hl.
Qed.

Lemma forallb_filter {A : Type} (P keep : A -> bool) (l : list A) :
  forallb P l = true -> forallb P (filter keep l) = true.
Proof.
  rewrite !forallb_forall. intros H x Hx. apply H. now apply filter_In in Hx.
Qed.

Lemma forallb_firstn {A : Type} (P : A -> bool) (l : list A) (j : nat) :
  forallb P l = true -> forallb P (firstn j l) = true.
Proof.
  rewrite !forallb_forall. intros H x Hx. apply H.
  rewrite <- (firstn_skipn j l). apply in_or_app. now left.
Qed.

Lemma normalized_spec (s : jsstring) :
  normalized s = true <->
  forallb is_code_unit s = true
  /\ forallb is_fixed (code_points s) = true
  /\ canonically_ordered (code_points s) = true.
Proof. unfold normalized. rewrite !andb_true_iff. tauto. Qed.

(** [normalize] returns a normalized string as it is. *)
Lemma normalize_normalized (s : jsstring) : normalized s = true -> normalize s = s.
Proof.
  intro H. apply normalized_spec in H as (Hu & Hf & Ho).
  assert (Hd : forallb is_decomposed (code_points s) = true).
  { revert Hf. apply forallb_weaken. intros c Hc. now apply is_fixed_spec in Hc. }
  assert (Hm : forallb (fun c => negb (is_combining_diacritic c)) (code_points s) = true).
  { revert Hf. apply forallb_weaken. intros c Hc.
    apply is_fixed_spec in Hc as (_ & Hc & _). now rewrite Hc. }
  unfold normalize, normalize_NFD.
  rewrite flat_map_decompose_fixed by exact Hd.
  rewrite canonical_order_fixed by exact Ho.
  rewrite remove_diacritics_from_code_points.
  rewrite (proj2 (filter_id_iff _ _) Hm).
  rewrite from_code_points_code_points by exact Hu.
  unfold toLowerCase. rewrite lower_from_fixed by exact Hf.
  now apply from_code_points_code_points.
Qed.

(** On a well-formed string without grapheme joiner, [normalize] returns a
    normalized string. *)
Lemma normalize_gives_normalized (s : jsstring) :
  well_formed s = true -> ~ In COMBINING_GRAPHEME_JOINER s ->
  normalized (normalize s) = true.
Proof.
  intros Hwf Hj.
  assert (Hs : forallb is_scalar (code_points s) = true) by now apply well_formed_scalar.
  assert (Hj' : ~ In COMBINING_GRAPHEME_JOINER (code_points s)).
  { intro H. apply code_point_origin in H as [H|H]; [contradiction|].
    unfold COMBINING_GRAPHEME_JOINER in H. lia. }
  pose proof (flat_map_decompose_output _ Hs Hj') as H1.
  apply canonical_order_forallb in H1.
  pose proof (canonical_order_ordered (flat_map decompose (code_points s))) as O1.
  unfold normalize, normalize_NFD.
  set (l2 := canonical_order (flat_map decompose (code_points s))) in *.
  rewrite remove_diacritics_from_code_points.
  set (keep := fun c => negb (is_combining_diacritic c)).
  set (l3 := filter keep l2).
  assert (H3 : forallb decomposition_output l3 = true) by now apply forallb_filter.
  assert (M3 : forallb keep l3 = true).
  { apply forallb_forall. intros x Hx. now apply filter_In in Hx. }
  assert (O3 : canonically_ordered l3 = true).
  { apply canonically_ordered_filter; [|exact O1].
    intros x Hx Hk. unfold keep in Hk. apply negb_false_iff in Hk.
    apply diacritic_is_mark; [exact Hk|].
    rewrite forallb_forall in H1. specialize (H1 x Hx).
    unfold decomposition_output in H1. apply andb_true_iff in H1 as [_ H1].
    apply negb_true_iff in H1. now apply N.eqb_neq in H1. }
  assert (S3 : forallb is_scalar l3 = true).
  { revert H3. apply forallb_weaken. intros c Hc. unfold decomposition_output in Hc.
    apply andb_true_iff in Hc as [Hc _]. now apply andb_true_iff in Hc. }
  unfold toLowerCase. rewrite code_points_from_code_points by exact S3.
  destruct (lower_from_output l3 [] H3 M3) as [H4 K4].
  set (l4 := lower_from [] l3) in *.
  assert (S4 : forallb is_scalar l4 = true).
  { revert H4. apply forallb_weaken. intros c Hc. unfold lowercase_output in Hc.
    now apply andb_true_iff in Hc. }
  apply normalized_spec. rewrite code_points_from_code_points by exact S4.
  split; [now apply from_code_points_units|]. split.
  - revert H4. apply forallb_weaken. intros c Hc. unfold lowercase_output in Hc.
    now apply andb_true_iff in Hc.
  - now rewrite (canonically_ordered_classes l3 l4 K4).
Qed.

Lemma high_surrogate_fixed (hi : N) :
  is_high_surrogate hi = true -> is_fixed hi = true /\ ccc hi = 0.
Proof.
  unfold is_high_surrogate. intro H. bool_to_prop.
  pose proof (forallb_range _ _ _ high_surrogates_fixed hi) as T. cbv beta in T.
  apply andb_true_iff in T as [T1 T2]; [|lia|lia].
  apply N.eqb_eq in T2. now split.
Qed.

(** Every prefix of a normalized string is normalized. *)
Lemma normalized_firstn (s : jsstring) (k : nat) :
  normalized s = true -> normalized (firstn k s) = true.
Proof.
  intro H. apply normalized_spec in H as (Hu & Hf & Ho).
  apply normalized_spec. split; [now apply forallb_firstn|].
  destruct (code_points_firstn s k) as [j [E | (hi & Hhi & E)]]; rewrite E.
  - split; [now apply forallb_firstn | now apply canonically_ordered_firstn].
  - apply high_surrogate_fixed in Hhi as [Hhf Hhc]. split.
    + rewrite forallb_app. cbn [forallb]. rewrite Hhf.
      now rewrite forallb_firstn by exact Hf.
    + apply canonically_ordered_snoc_starter; [exact Hhc|].
      now apply canonically_ordered_firstn.
Qed.

End NormalizedFacts.

(** ** Idempotence and prefixes *)

(** C6 (as amended). On every well-formed UTF-16 string that holds no
    U+034F, [normalize] is idempotent. *)
Theorem normalize_idempotent :
  forall s : jsstring,
    Utf16.well_formed s = true -> ~ In COMBINING_GRAPHEME_JOINER s ->
    normalize (normalize s) = normalize s.
Proof.
  intros s Hwf Hj. apply normalize_normalized.
  now apply normalize_gives_normalized.
Qed.

Lemma normalize_idempotent_witness :
  normalize (normalize (name (Mexico (PopulationNumber 0) [] [])))
  = normalize (name (Mexico (PopulationNumber 0) [] [])).
Proof.
  apply (normalize_idempotent (name (Mexico (PopulationNumber 0) [] []))).
  - vm_compute. reflexivity.
  - vm_compute. intuition discriminate.
Defined.

(** C6 does not hold for every string: dropping the grapheme joiner between a
    mark of class 230 and one of class 220 leaves a string that the next
    decomposition reorders. *)
Lemma normalize_not_idempotent :
  ~ (forall s : jsstring, normalize (normalize s) = normalize s).
Proof.
  intro H. specialize (H joiner_name). vm_compute in H. discriminate H.
Qed.

(** C5 (as amended). For every record whose name is well-formed UTF-16 and
    holds no U+034F, the search for the first [k] units of the normalized
    name, on the list of that record alone, returns the record. *)
Theorem prefix_search_contains :
  forall (r : Country) (k : nat),
    Utf16.well_formed (name r) = true -> ~ In COMBINING_GRAPHEME_JOINER (name r) ->
    (k <= length (normalize (name r)))%nat ->
    exists result,
      filteredCountries [r] (firstn k (normalize (name r))) false = Normal result
      /\ In r result.
Proof.
  intros r k Hwf Hj _. exists [r]. split; [|now left].
  rewrite filteredCountries_search. cbn [filter].
  rewrite (normalize_normalized (firstn k (normalize (name r)))).
  - now rewrite startsWith_firstn.
  - apply normalized_firstn. now apply normalize_gives_normalized.
Qed.

Lemma prefix_search_contains_witness :
  exists result,
    filteredCountries [Mexico (PopulationNumber 0) [] []]
      (firstn 3 (normalize (name (Mexico (PopulationNumber 0) [] [])))) false
    = Normal result
    /\ In (Mexico (PopulationNumber 0) [] []) result.
Proof.
  apply (prefix_search_contains (Mexico (PopulationNumber 0) [] []) 3).
  - vm_compute. reflexivity.
  - vm_compute. intuition discriminate.
  - vm_compute. lia.
Defined.

(** C5 does not hold for every record: the whole normalized name of the record
    is not found again, since normalizing it a second time reorders it. *)
Lemma prefix_search_misses :
  ~ (forall (r : Country) (k : nat),
        (k <= length (normalize (name r)))%nat ->
        exists result,
          filteredCountries [r] (firstn k (normalize (name r))) false = Normal result
          /\ In r result).
Proof.
  intro H. destruct (H joiner_record 3%nat) as (result & E & Hin).
  - vm_compute. lia.
  - vm_compute in E. injection E as <-. destruct Hin.
Qed.

(** Both conditions are needed: without a grapheme joiner, a string with
    unpaired surrogates can still change under a second [normalize], once
    the accent between the two halves of a pair is gone. *)
Lemma normalize_unpaired_surrogates :
  ~ In COMBINING_GRAPHEME_JOINER unpaired_name
  /\ normalize unpaired_name = [0xD834; 0xDD5E]
  /\ normalize (normalize unpaired_name) = [0xD834; 0xDD57; 0xD834; 0xDD65]
  /\ filteredCountries [unpaired_record] (firstn 2 (normalize (name unpaired_record))) false
     = Normal [].
Proof.
  split; [vm_compute; intuition discriminate|]. repeat split.
Qed.

(** The end-to-end example with the name of Mexico spelled e, U+0301. *)
Lemma end_to_end_example_decomposed (p : population_value) (c f : jsstring) :
  let mexico := {| name := str "Me" ++ [0x0301] ++ str "xico"; population := p;
                   region := str "Americas"; capital := c; flag := f |} in
  filteredCountries [mexico; Monaco p c f] (str "me") false = Normal [mexico].
Proof. intro mexico. subst mexico. rewrite filteredCountries_search. reflexivity. Qed.

(** * Further properties of the code *)

(** ** [normalize] on plain text *)

Arguments base_unit : simpl never.
Arguments fold_unit : simpl never.
Arguments is_plain : simpl never.

Section PlainFacts.
Import Utf16 Builtins.

Lemma is_plain_spec (u : N) :
  is_plain u = true ->
  is_bmp_scalar u = true /\ decompose u = [base_unit u] /\ ccc (base_unit u) = 0
  /\ is_combining_diacritic (base_unit u) = false /\ base_unit u <> 0x03A3
  /\ is_bmp_scalar (base_unit u) = true /\ lower_mapping (base_unit u) = [fold_unit u]
  /\ is_bmp_scalar (fold_unit u) = true.
Proof.
  unfold is_plain. rewrite !andb_true_iff, !negb_true_iff, !strict_eq_spec.
  rewrite N.eqb_eq, N.eqb_neq. tauto.
Qed.

Lemma bmp_scalar_not_high (u : N) : is_bmp_scalar u = true -> is_high_surrogate u = false.
Proof.
  unfold is_bmp_scalar, is_surrogate, is_high_surrogate. intro H.
  apply andb_true_iff in H as [_ H]. apply negb_true_iff in H.
  destruct (N.leb_spec 0xD800 u); cbn [andb]; [|reflexivity].
  cbn [andb] in H. bool_to_prop. apply N.leb_gt. lia.
Qed.

(** Without surrogates, code units and code points are the same. *)
Lemma code_points_bmp (s : jsstring) :
  Forall (fun u => is_bmp_scalar u = true) s -> code_points s = s.
Proof.
  induction 1 as [|u s Hu Hs IH]; [reflexivity|].
  rewrite code_points_not_high, IH; [reflexivity|]. now apply bmp_scalar_not_high.
Qed.

Lemma from_code_points_bmp (l : list N) :
  Forall (fun u => is_bmp_scalar u = true) l -> from_code_points l = l.
Proof.
  induction 1 as [|u l Hu Hl IH]; [reflexivity|].
  cbn [from_code_points flat_map]. fold (from_code_points l). rewrite IH.
  apply andb_true_iff in Hu as [Hu _]. now rewrite code_units_unit.
Qed.

Lemma starters_ordered (l : list N) :
  Forall (fun c => ccc c = 0) l -> canonically_ordered l = true.
Proof.
  induction 1 as [|c l Hc Hl IH]; [reflexivity|].
  cbn [canonically_ordered]. rewrite IH, andb_true_r.
  destruct l as [|b l]; [reflexivity|]. cbn [ordered_after]. unfold in_order.
  inversion Hl as [|? ? Hb _]; subst. now rewrite Hb.
Qed.

Lemma lower_from_plain (l before : list N) :
  Forall (fun u => is_plain u = true) l ->
  lower_from before (map base_unit l) = map fold_unit l.
Proof.
  intro H. revert before. induction H as [|u l Hu Hl IH]; intros before; [reflexivity|].
  apply is_plain_spec in Hu as (_ & _ & _ & _ & Hs & _ & Hm & _).
  cbn [map lower_from]. rewrite IH. unfold lower_code_point.
  apply N.eqb_neq in Hs. now rewrite Hs, Hm.
Qed.

(** On plain units [normalize] works unit by unit. *)
Lemma normalize_plain (s : jsstring) :
  forallb is_plain s = true -> normalize s = map fold_unit s.
Proof.
  intro H. rewrite forallb_forall in H. apply Forall_forall in H.
  assert (H1 : Forall (fun u => is_bmp_scalar u = true) s).
  { revert H. apply Forall_impl. intros u Hu. now apply is_plain_spec in Hu. }
  assert (H2 : flat_map decompose s = map base_unit s).
  { clear H1. induction H as [|u s Hu Hs IH]; [reflexivity|].
    apply is_plain_spec in Hu as (_ & Hd & _). cbn [flat_map map]. now rewrite Hd, IH. }
  assert (H3 : Forall (fun c => ccc c = 0) (map base_unit s)).
  { apply Forall_map. revert H. apply Forall_impl. intros u Hu.
    now apply is_plain_spec in Hu. }
  assert (H4 : Forall (fun u => is_bmp_scalar u = true) (map base_unit s)).
  { apply Forall_map. revert H. apply Forall_impl. intros u Hu.
    now apply is_plain_spec in Hu. }
  assert (H5 : forallb (fun c => negb (is_combining_diacritic c)) (map base_unit s) = true).
  { apply forallb_forall. intros c Hc. apply in_map_iff in Hc as (u & <- & Hu).
    rewrite Forall_forall in H. apply H in Hu.
    apply is_plain_spec in Hu as (_ & _ & _ & Hu & _). now rewrite Hu. }
  assert (H6 : Forall (fun u => is_bmp_scalar u = true) (map fold_unit s)).
  { apply Forall_map. revert H. apply Forall_impl. intros u Hu.
    now apply is_plain_spec in Hu. }
  unfold normalize, normalize_NFD.
  rewrite code_points_bmp by exact H1.
  rewrite H2, canonical_order_fixed by now apply starters_ordered.
  rewrite from_code_points_bmp by exact H4.
  unfold remove_diacritics. rewrite (proj2 (filter_id_iff _ _) H5).
  unfold toLowerCase. rewrite code_points_bmp by exact H4.
  rewrite lower_from_plain by exact H.
  now apply from_code_points_bmp.
Qed.

Lemma ascii_units_plain :
  forallb (fun u => is_plain u && (fold_unit u =? ascii_lower u)) (N_range 0 128) = true.
Proof. vm_compute. reflexivity. Qed.

Lemma white_space_units_plain : forallb is_plain white_space_units = true.
Proof. vm_compute. reflexivity. Qed.

Lemma ascii_plain (u : N) :
  u < 0x80 -> is_plain u = true /\ fold_unit u = ascii_lower u.
Proof.
  intro Hu. pose proof (forallb_range _ _ _ ascii_units_plain u) as T. cbv beta in T.
  apply andb_true_iff in T as [T1 T2]; [|lia|lia].
  apply N.eqb_eq in T2. now split.
Qed.

Lemma is_white_space_units (u : N) :
  is_white_space u = true -> In u white_space_units.
Proof.
  unfold is_white_space, white_space_units. intro H.
  repeat (apply orb_true_iff in H as [H|H]); bool_to_prop; subst;
    repeat (apply in_or_app; first [ left; apply N_range_In; lia
                                   | left; cbn [In]; tauto
                                   | right ]);
    try (apply N_range_In; lia); cbn [In]; tauto.
Qed.

Lemma letter_or_space_plain (u : N) : is_letter_or_space u = true -> is_plain u = true.
Proof.
  unfold is_letter_or_space. intro H.
  apply orb_true_iff in H as [H|H]; [apply orb_true_iff in H as [H|H]|].
  - bool_to_prop. apply ascii_plain. lia.
  - bool_to_prop. apply ascii_plain. lia.
  - pose proof white_space_units_plain as T. rewrite forallb_forall in T.
    apply T. now apply is_white_space_units.
Qed.

End PlainFacts.

Section SearchFacts.
Import Utf16 Builtins.

Lemma ascii_forallb_plain (s : jsstring) :
  forallb (fun u => u <? 0x80) s = true -> forallb is_plain s = true.
Proof.
  apply forallb_weaken. intros u Hu. apply N.ltb_lt in Hu. now apply ascii_plain.
Qed.

Lemma normalize_ascii_lower (s : jsstring) :
  forallb (fun u => u <? 0x80) s = true -> normalize s = map ascii_lower s.
Proof.
  intro H. rewrite normalize_plain by now apply ascii_forallb_plain.
  apply map_ext_in. intros u Hu. rewrite forallb_forall in H.
  apply ascii_plain. apply N.ltb_lt. now apply H.
Qed.

Lemma ascii_lower_upper (u : N) : ascii_lower (ascii_upper u) = ascii_lower u.
Proof.
  unfold ascii_lower, ascii_upper.
  destruct (N.leb_spec 0x61 u), (N.leb_spec u 0x7A); cbn [andb];
    repeat match goal with
           | |- context [N.leb ?a ?b] => destruct (N.leb_spec a b); cbn [andb]
           end; lia.
Qed.

Lemma ascii_upper_bound (u : N) : u < 0x80 -> ascii_upper u < 0x80.
Proof.
  unfold ascii_upper. intro H.
  destruct ((0x61 <=? u) && (u <=? 0x7A)); lia.
Qed.

Lemma ascii_upper_no_small_letter (u : N) : ascii_upper u <> 0x61.
Proof.
  unfold ascii_upper.
  destruct (N.leb_spec 0x61 u), (N.leb_spec u 0x7A); cbn [andb]; lia.
Qed.

Lemma normalize_ascii_upper (s : jsstring) :
  forallb (fun u => u <? 0x80) s = true ->
  normalize (map ascii_upper s) = normalize s.
Proof.
  intro H. rewrite !normalize_ascii_lower; [| exact H |].
  - rewrite map_map. apply map_ext. apply ascii_lower_upper.
  - rewrite forallb_forall in *. intros u Hu. apply in_map_iff in Hu as (v & <- & Hv).
    apply N.ltb_lt. apply ascii_upper_bound. apply N.ltb_lt. now apply H.
Qed.

End SearchFacts.

(** X1. On a string of ASCII units [normalize] is ASCII lowercasing: the
    letters A-Z become a-z and every other unit stays. *)
Theorem normalize_ascii :
  forall s : jsstring,
    forallb (fun u => u <? 0x80) s = true ->
    normalize s = map ascii_lower s.
Proof.
  intros s H. rewrite normalize_plain.
  - apply map_ext_in. intros u Hu. rewrite forallb_forall in H.
    apply ascii_plain. apply N.ltb_lt. now apply H.
  - revert H. apply forallb_weaken. intros u Hu. apply N.ltb_lt in Hu.
    now apply ascii_plain.
Qed.

Lemma normalize_ascii_witness :
  normalize (str "Costa Rica") = map ascii_lower (str "Costa Rica").
Proof.
  apply (normalize_ascii (str "Costa Rica")). vm_compute. reflexivity.
Defined.

(** X2. Both filters ignore the case of an ASCII criterion: the criterion in
    capitals selects the same records, in search mode always and in region
    mode for every criterion but the keyword [all]. *)
Theorem filter_ignores_ascii_case :
  forall (records : list Country) (criterion : jsstring),
    forallb (fun u => u <? 0x80) criterion = true ->
    filteredCountries records (map ascii_upper criterion) false
    = filteredCountries records criterion false
    /\ (criterion <> str "all" ->
        filteredCountries records (map ascii_upper criterion) true
        = filteredCountries records criterion true).
Proof.
  intros records criterion H. split.
  - rewrite !filteredCountries_search. now rewrite normalize_ascii_upper.
  - intro Hne. rewrite !filteredCountries_region.
    rewrite normalize_ascii_upper by exact H.
    apply strict_eq_false in Hne. rewrite Hne.
    replace (strict_eq (map ascii_upper criterion) (str "all")) with false; [reflexivity|].
    symmetry. apply strict_eq_false. intro E.
    destruct criterion as [|u rest]; [discriminate|].
    cbn [map str] in E. injection E as E _.
    now apply ascii_upper_no_small_letter in E.
Qed.

Lemma filter_ignores_ascii_case_witness :
  filteredCountries [Mexico (PopulationNumber 0) [] []; Monaco (PopulationNumber 0) [] []]
    (map ascii_upper (str "mo")) false
  = filteredCountries [Mexico (PopulationNumber 0) [] []; Monaco (PopulationNumber 0) [] []]
    (str "mo") false.
Proof.
  apply (filter_ignores_ascii_case
           [Mexico (PopulationNumber 0) [] []; Monaco (PopulationNumber 0) [] []]
           (str "mo")).
  vm_compute. reflexivity.
Defined.

(** ** The criterion of the search box *)

Section CriterionFacts.
Import Utf16 Builtins.

Lemma trim_start_app (x y : jsstring) :
  trim_start (x ++ y) =
  if forallb is_white_space x then trim_start y else trim_start x ++ y.
Proof.
  induction x as [|u x IH]; [reflexivity|].
  cbn [app trim_start forallb]. destruct (is_white_space u); [exact IH | reflexivity].
Qed.

Lemma trim_start_suffix (s : jsstring) :
  exists dropped, s = dropped ++ trim_start s /\ forallb is_white_space dropped = true.
Proof.
  induction s as [|u s (d & IH1 & IH2)]; [now exists []|].
  cbn [trim_start]. destruct (is_white_space u) eqn:E.
  - exists (u :: d). cbn [app forallb]. rewrite E, IH2. split; [now f_equal | reflexivity].
  - now exists [].
Qed.

Lemma forallb_rev {A : Type} (P : A -> bool) (l : list A) :
  forallb P (rev l) = forallb P l.
Proof.
  induction l as [|x l IH]; [reflexivity|].
  cbn [rev forallb]. rewrite forallb_app, IH. cbn [forallb].
  rewrite andb_true_r. apply andb_comm.
Qed.

Lemma trim_start_all_space (s : jsstring) :
  forallb is_white_space s = true -> trim_start s = [].
Proof.
  induction s as [|u s IH]; [reflexivity|].
  cbn [forallb trim_start]. intro H. apply andb_true_iff in H as [Hu Hs].
  rewrite Hu. now apply IH.
Qed.

Lemma trim_all_space (s : jsstring) : forallb is_white_space s = true -> trim s = [].
Proof. intro H. unfold trim. rewrite (trim_start_all_space s H). reflexivity. Qed.

(** Typing on extends the trimmed text. *)
Lemma trim_app_prefix (x y : jsstring) : exists rest, trim (x ++ y) = trim x ++ rest.
Proof.
  unfold trim. rewrite trim_start_app.
  destruct (forallb is_white_space x) eqn:Ex.
  - rewrite (trim_start_all_space x Ex). cbn [rev trim_start app]. eexists. reflexivity.
  - rewrite rev_app_distr, trim_start_app, forallb_rev.
    destruct (forallb is_white_space y) eqn:Ey.
    + exists []. now rewrite app_nil_r.
    + rewrite rev_app_distr, rev_involutive.
      destruct (trim_start_suffix (rev (trim_start x))) as (d & Hd & _).
      exists (rev d ++ rev (trim_start (rev y))).
      rewrite app_assoc. f_equal.
      rewrite <- rev_app_distr, <- Hd. now rewrite rev_involutive.
Qed.

Lemma strip_invalid_app (x y : jsstring) :
  strip_invalid (x ++ y) = strip_invalid x ++ strip_invalid y.
Proof. apply filter_app. Qed.

Lemma forwarded_criterion_valid (typed : jsstring) :
  forallb is_letter_or_space (forwarded_criterion typed) = true.
Proof.
  apply forallb_forall. intros u Hu. apply In_trim in Hu.
  now apply filter_In in Hu.
Qed.

Lemma forwarded_criterion_app (typed more : jsstring) :
  exists rest, forwarded_criterion (typed ++ more) = forwarded_criterion typed ++ rest.
Proof. unfold forwarded_criterion. rewrite strip_invalid_app. apply trim_app_prefix. Qed.

Lemma startsWith_app (s a b : jsstring) :
  startsWith s (a ++ b) = true -> startsWith s a = true.
Proof.
  rewrite !startsWith_spec. intros (rest & ->). exists (b ++ rest). now rewrite app_assoc.
Qed.

Lemma filter_narrower {A : Type} (f g : A -> bool) (l : list A) :
  (forall x, f x = true -> g x = true) -> Subsequence (filter f l) (filter g l).
Proof.
  intro H. induction l as [|x l IH]; cbn [filter]; [constructor|].
  destruct (f x) eqn:Ef.
  - rewrite (H x Ef). now constructor.
  - destruct (g x); [now constructor | exact IH].
Qed.

(** The run of the search listener, step by step. *)
Lemma search_input_listener_run (net : fetch_outcome) (p : Page) :
  search_input_listener net p =
  updateGrid (forwarded_criterion (search_value p)) false net
    {| grid := grid p; console := console p;
       toasts := (if forallb is_letter_or_space (search_value p) then toasts p
                  else toasts p ++ ["Please type in English only."%string]);
       search_value := strip_invalid (search_value p) |}.
Proof.
  unfold search_input_listener, bind, get_search_value, forwarded_criterion.
  destruct (forallb is_letter_or_space (search_value p)) eqn:E.
  - assert (Hid : strip_invalid (search_value p) = search_value p)
      by now apply filter_id_iff.
    rewrite Hid, strict_eq_refl. reflexivity.
  - assert (Hne : strict_eq (search_value p) (strip_invalid (search_value p)) = false).
    { apply strict_eq_false. intro Heq. symmetry in Heq.
      apply filter_id_iff in Heq. congruence. }
    rewrite Hne. reflexivity.
Qed.

End CriterionFacts.

(** X3. Typing more into the search box never brings a country back: the
    records found for the longer text are among those found for the text
    typed so far, in the same order. *)
Theorem typing_on_narrows :
  forall (records : list Country) (typed more : jsstring),
  exists found found_after,
    filteredCountries records (forwarded_criterion typed) false = Normal found
    /\ filteredCountries records (forwarded_criterion (typed ++ more)) false
       = Normal found_after
    /\ Subsequence found_after found.
Proof.
  intros records typed more.
  destruct (forwarded_criterion_app typed more) as [rest Hrest].
  do 2 eexists. split; [apply filteredCountries_search|].
  split; [apply filteredCountries_search|].
  apply filter_narrower. intros r Hr.
  assert (Hall : forallb is_plain (forwarded_criterion (typed ++ more)) = true).
  { generalize (forwarded_criterion_valid (typed ++ more)).
    apply forallb_weaken, letter_or_space_plain. }
  assert (Hone : forallb is_plain (forwarded_criterion typed) = true).
  { generalize (forwarded_criterion_valid typed).
    apply forallb_weaken, letter_or_space_plain. }
  rewrite (normalize_plain _ Hall) in Hr.
  rewrite (normalize_plain _ Hone).
  rewrite Hrest, map_app in Hr. now apply startsWith_app in Hr.
Qed.

(** X4. The listener is silent on its own output: run again on the text it
    left in the box, it shows no toast, leaves the text and forwards the
    same criterion. *)
Theorem search_input_listener_again :
  forall (net net' : fetch_outcome) (p : Page),
    let p1 := snd (search_input_listener net p) in
    let p2 := snd (search_input_listener net' p1) in
    toasts p2 = toasts p1
    /\ search_value p2 = search_value p1
    /\ forwarded_criterion (search_value p1) = forwarded_criterion (search_value p).
Proof.
  intros net net' p p1 p2.
  assert (H1 : search_value p1 = strip_invalid (search_value p)).
  { unfold p1. rewrite search_input_listener_run.
    now rewrite (proj2 (updateGrid_keeps_input _ _ _ _)). }
  assert (Hv : forallb is_letter_or_space (search_value p1) = true).
  { rewrite H1. apply forallb_forall. intros u Hu. now apply filter_In in Hu. }
  assert (Hid : strip_invalid (search_value p1) = search_value p1)
    by now apply filter_id_iff.
  unfold p2. rewrite search_input_listener_run. rewrite Hv.
  rewrite (proj1 (updateGrid_keeps_input _ _ _ _)).
  rewrite (proj2 (updateGrid_keeps_input _ _ _ _)). cbn [toasts search_value].
  repeat split; [exact Hid|].
  unfold forwarded_criterion. now rewrite Hid, H1.
Qed.

(** ** What [normalize] never returns *)

Arguments is_folded : simpl never.

Section FoldedFacts.
Import Utf16 Builtins.

Lemma lowercase_table_folded :
  forallb lowercase_entry_folded UCD.lowercase_mapping = true.
Proof. vm_compute. reflexivity. Qed.

Lemma capitals_listed :
  forallb (fun c => match assoc c UCD.lowercase_mapping with
                    | Some _ => true
                    | None => false
                    end) (N_range 0x41 26) = true.
Proof. vm_compute. reflexivity. Qed.

Lemma dotted_capital_i_decomposes :
  is_decomposed 0x0130 = false /\ is_folded 0x03C3 = true /\ is_folded 0x03C2 = true.
Proof. repeat split; vm_compute; reflexivity. Qed.

Lemma is_folded_high (u : N) : 0xD800 <= u -> is_folded u = true.
Proof.
  intro H. unfold is_folded, is_combining_diacritic.
  replace (u <=? 0x036F) with false by (symmetry; apply N.leb_gt; lia).
  replace (u <=? 0x5A) with false by (symmetry; apply N.leb_gt; lia).
  now rewrite !andb_false_r.
Qed.

(** Whatever the code point, its decomposition is decomposed. *)
Lemma decompose_decomposed (c : N) : forallb is_decomposed (decompose c) = true.
Proof.
  unfold decompose. destruct (is_hangul_syllable c) eqn:Eh.
  - generalize (hangul_decomposition_output c Eh). apply forallb_weaken.
    intros x Hx. unfold decomposition_output in Hx.
    apply andb_true_iff in Hx as [Hx _]. now apply andb_true_iff in Hx.
  - destruct (assoc c UCD.canonical_decomposition) as [d|] eqn:Ea.
    + apply assoc_In in Ea. pose proof decomposition_table_closed as T.
      rewrite forallb_forall in T. generalize (T _ Ea). apply forallb_weaken.
      intros x Hx. unfold decomposition_output in Hx.
      apply andb_true_iff in Hx as [Hx _]. now apply andb_true_iff in Hx.
    + cbn [forallb]. rewrite andb_true_r. apply is_decomposed_spec.
      now apply decompose_unlisted.
Qed.

Lemma flat_map_decompose_decomposed (l : list N) :
  forallb is_decomposed (flat_map decompose l) = true.
Proof.
  induction l as [|c l IH]; [reflexivity|].
  cbn [flat_map]. now rewrite forallb_app, decompose_decomposed, IH.
Qed.

(** A unit written for a code point is the code point or a surrogate. *)
Lemma code_unit_origin (l : list N) (u : N) :
  In u (from_code_points l) -> In u l \/ 0xD800 <= u.
Proof.
  induction l as [|c l IH]; [intros []|].
  cbn [from_code_points flat_map]. fold (from_code_points l). intro H.
  apply in_app_or in H as [H|H].
  - unfold code_units in H. destruct (N.ltb_spec c 0x10000).
    + destruct H as [<- | []]. left. now left.
    + right. div_mod_facts (c - 0x10000) 0x400. destruct H as [<- | [<- | []]]; lia.
  - destruct (IH H); [left; now right | now right].
Qed.

Lemma lower_code_point_folded (before after : list N) (c : N) :
  (is_decomposed c = true /\ is_combining_diacritic c = false) \/ 0xD800 <= c ->
  forallb is_folded (lower_code_point before after c) = true.
Proof.
  intro Hc. destruct dotted_capital_i_decomposes as (Hi & S1 & S2).
  unfold lower_code_point. destruct (N.eqb_spec c 0x03A3) as [->|Hs].
  - destruct (final_sigma before after); cbn [forallb]; now rewrite ?S1, ?S2.
  - unfold lower_mapping. destruct (assoc c UCD.lowercase_mapping) as [d|] eqn:Ea.
    + apply assoc_In in Ea. pose proof lowercase_table_folded as T.
      rewrite forallb_forall in T. specialize (T _ Ea).
      unfold lowercase_entry_folded in T. cbn [fst snd] in T.
      apply orb_true_iff in T as [T|T]; [|exact T].
      apply N.eqb_eq in T. subst c. destruct Hc as [[Hd _]|Hc]; [congruence | lia].
    + cbn [forallb]. rewrite andb_true_r.
      destruct Hc as [[_ Hm]|Hc]; [|now apply is_folded_high].
      unfold is_folded. rewrite Hm. cbn [negb andb].
      destruct (N.leb_spec 0x41 c); [|reflexivity].
      destruct (N.leb_spec c 0x5A); [|reflexivity].
      pose proof (forallb_range _ _ _ capitals_listed c) as T. cbv beta in T.
      rewrite Ea in T. discriminate T; lia.
Qed.

Lemma lower_from_folded (l before : list N) :
  Forall (fun c => (is_decomposed c = true /\ is_combining_diacritic c = false)
                   \/ 0xD800 <= c) l ->
  forallb is_folded (lower_from before l) = true.
Proof.
  intro H. revert before. induction H as [|c l Hc Hl IH]; intros before; [reflexivity|].
  cbn [lower_from]. rewrite forallb_app, IH.
  now rewrite lower_code_point_folded.
Qed.

Lemma normalize_folded (s : jsstring) : forallb is_folded (normalize s) = true.
Proof.
  unfold normalize, normalize_NFD.
  set (l2 := canonical_order (flat_map decompose (code_points s))).
  assert (H2 : forallb is_decomposed l2 = true).
  { apply canonical_order_forallb. apply flat_map_decompose_decomposed. }
  rewrite remove_diacritics_from_code_points.
  set (keep := fun c => negb (is_combining_diacritic c)).
  set (l3 := filter keep l2).
  unfold toLowerCase.
  apply forallb_forall. intros u Hu.
  apply code_unit_origin in Hu as [Hu | Hu]; [|now apply is_folded_high].
  revert u Hu. apply forallb_forall. apply lower_from_folded.
  apply Forall_forall. intros c Hc.
  apply code_point_origin in Hc as [Hc | Hc]; [|right; lia].
  apply code_unit_origin in Hc as [Hc | Hc]; [|now right].
  left. apply filter_In in Hc as [Hc Hk]. split.
  - rewrite forallb_forall in H2. now apply H2.
  - unfold keep in Hk. now apply negb_true_iff in Hk.
Qed.

End FoldedFacts.

(** X6. Whatever the string, [normalize] returns no combining diacritic
    U+0300..U+036F and no ASCII capital letter: the keys the filter
    compares are free of both. *)
Theorem normalize_leaves_no_mark_no_capital :
  forall (s : jsstring) (u : N),
    In u (normalize s) ->
    ~ (0x0300 <= u <= 0x036F) /\ ~ (0x41 <= u <= 0x5A).
Proof.
  intros s u Hu. pose proof (normalize_folded s) as H.
  rewrite forallb_forall in H. specialize (H u Hu).
  unfold is_folded, Builtins.is_combining_diacritic in H.
  apply andb_true_iff in H as [H1 H2].
  apply negb_true_iff in H1, H2. split; intros [Ha Hb].
  - apply N.leb_le in Ha, Hb. rewrite Ha, Hb in H1. discriminate.
  - apply N.leb_le in Ha, Hb. rewrite Ha, Hb in H2. discriminate.
Qed.

Lemma normalize_leaves_no_mark_no_capital_witness :
  ~ (0x0300 <= 0x6D <= 0x036F) /\ ~ (0x41 <= 0x6D <= 0x5A).
Proof.
  apply (normalize_leaves_no_mark_no_capital
           (name (Mexico (PopulationNumber 0) [] [])) 0x6D).
  vm_compute. tauto.
Defined.

(** ** The index page: first load, region dropdown *)

Section ClassListFacts.

Lemma contains_spec (token : string) (classes : list string) :
  ClassList.contains token classes = true <-> In token classes.
Proof.
  unfold ClassList.contains. rewrite existsb_exists. split.
  - intros (t & Ht & E). apply String.eqb_eq in E. now subst.
  - intro H. exists token. split; [exact H | apply String.eqb_refl].
Qed.

Lemma contains_remove (token other : string) (classes : list string) :
  ClassList.contains other (ClassList.remove token classes) =
  negb (String.eqb token other) && ClassList.contains other classes.
Proof.
  unfold ClassList.remove.
  destruct (ClassList.contains other (filter _ classes)) eqn:E.
  - apply contains_spec in E. apply filter_In in E as [Hin Hne].
    rewrite Hne. symmetry. now apply contains_spec.
  - symmetry. destruct (String.eqb token other) eqn:Et; [reflexivity|].
    cbn [negb andb]. destruct (ClassList.contains other classes) eqn:Ec; [|reflexivity].
    apply contains_spec in Ec.
    assert (Hin : In other (filter (fun t => negb (String.eqb token t)) classes)).
    { apply filter_In. split; [exact Ec|]. now rewrite Et. }
    apply contains_spec in Hin. unfold ClassList.contains in *. congruence.
Qed.

Lemma contains_snoc (token other : string) (classes : list string) :
  ClassList.contains other (classes ++ [token]) =
  ClassList.contains other classes || String.eqb other token.
Proof.
  unfold ClassList.contains. rewrite existsb_app. cbn [existsb]. now rewrite orb_false_r.
Qed.

(** [toggle] flips the token and keeps every other one. *)
Lemma contains_toggle (token other : string) (classes : list string) :
  ClassList.contains other (snd (ClassList.toggle token classes)) =
  if String.eqb token other then negb (ClassList.contains token classes)
  else ClassList.contains other classes.
Proof.
  unfold ClassList.toggle. destruct (ClassList.contains token classes) eqn:E; cbn [snd].
  - rewrite contains_remove. destruct (String.eqb token other); reflexivity.
  - rewrite contains_snoc. rewrite (String.eqb_sym other token).
    destruct (String.eqb token other) eqn:Et.
    + apply String.eqb_eq in Et. subst. apply orb_true_r.
    + apply orb_false_r.
Qed.

End ClassListFacts.

Lemma updateGrid_returns (v : jsstring) (b : bool) (net : fetch_outcome) (p : Page) :
  fst (updateGrid v b net p) = Normal tt.
Proof.
  destruct (fetch_fails net) eqn:E.
  - unfold updateGrid, try_catch, bind. rewrite fetchData_failure by exact E. reflexivity.
  - apply fetch_succeeds in E as (st & cs & ->).
    destruct (filteredCountries_returns cs v b) as [filtered H].
    rewrite (updateGrid_run v b st cs filtered p H).
    destruct (buildCountriesGrid_frame filtered true p) as ([H1|H1] & _).
    + destruct (buildCountriesGrid filtered true p) as [[[]|e] p'];
        cbn [fst] in *; [reflexivity | discriminate].
    + destruct (buildCountriesGrid filtered true p) as [[a|e] p'];
        cbn [fst] in *; [discriminate | reflexivity].
Qed.

(** X9. A click in the dropdown body: with a region, the grid is updated for
    it and the dropdown is closed, whether the fetch fails or not; on an
    element without region nothing happens, the dropdown stays as it is. *)
Theorem dropdown_body_click_spec :
  forall (selectedRegion : option jsstring) (net : fetch_outcome) (d : IndexPage),
    (falsy selectedRegion = true -> dropdown_body_click selectedRegion net d = (Normal tt, d))
    /\ (forall region, selectedRegion = Some region -> region <> [] ->
        let d' := snd (dropdown_body_click selectedRegion net d) in
        fst (dropdown_body_click selectedRegion net d) = Normal tt
        /\ page d' = snd (updateGrid region true net (page d))
        /\ ClassList.contains "open" (dropdown_classes d') = false
        /\ forall other, other <> "open"%string ->
                         ClassList.contains other (dropdown_classes d')
                         = ClassList.contains other (dropdown_classes d)).
Proof.
  intros selectedRegion net d. split.
  - intro H. unfold dropdown_body_click. now rewrite H.
  - intros region -> Hne d'. subst d'. unfold dropdown_body_click.
    destruct region as [|u region]; [contradiction|]. cbn [falsy].
    pose proof (updateGrid_returns (u :: region) true net (page d)) as Hret.
    destruct (updateGrid (u :: region) true net (page d)) as [c p'].
    cbn [fst] in Hret. subst c. cbn [fst snd page dropdown_classes].
    repeat split.
    + rewrite contains_remove. now rewrite String.eqb_refl.
    + intros other Ho. rewrite contains_remove.
      destruct (String.eqb_spec "open" other); [congruence | reflexivity].
Qed.

(** X10. A click on the dropdown header flips the class [open] and keeps
    every other class; two clicks leave every class as it was. *)
Theorem dropdown_header_click_twice :
  forall (d : IndexPage) (token : string),
    ClassList.contains "open" (dropdown_classes (dropdown_header_click d))
    = negb (ClassList.contains "open" (dropdown_classes d))
    /\ ClassList.contains token
         (dropdown_classes (dropdown_header_click (dropdown_header_click d)))
       = ClassList.contains token (dropdown_classes d)
    /\ page (dropdown_header_click d) = page d.
Proof.
  intros d token. unfold dropdown_header_click. cbn [dropdown_classes page].
  rewrite !contains_toggle. rewrite String.eqb_refl.
  repeat split. destruct (String.eqb "open" token) eqn:E; [|reflexivity].
  apply String.eqb_eq in E. subst token. apply negb_involutive.
Qed.

(** ** UTF-8 *)

Ltac decide_comparisons :=
  repeat match goal with
         | |- context [N.leb ?a ?b] =>
             first [ replace (N.leb a b) with true by (symmetry; apply N.leb_le; lia)
                   | replace (N.leb a b) with false by (symmetry; apply N.leb_gt; lia) ]
         | |- context [N.ltb ?a ?b] =>
             first [ replace (N.ltb a b) with true by (symmetry; apply N.ltb_lt; lia)
                   | replace (N.ltb a b) with false by (symmetry; apply N.ltb_ge; lia) ]
         | |- context [N.eqb ?a ?b] =>
             first [ replace (N.eqb a b) with true by (symmetry; apply N.eqb_eq; lia)
                   | replace (N.eqb a b) with false by (symmetry; apply N.eqb_neq; lia) ]
         end.

Section Utf8Facts.
Import Utf16 Utf8.

Lemma is_scalar_spec (c : N) :
  is_scalar c = true <-> c < 0x110000 /\ (c < 0xD800 \/ 0xDFFF < c).
Proof.
  unfold is_scalar, is_surrogate.
  rewrite andb_true_iff, negb_true_iff, N.ltb_lt, andb_false_iff, !N.leb_gt. lia.
Qed.

Lemma encode_code_point_bytes (c : N) :
  c < 0x110000 -> Forall (fun b => b < 256) (encode_code_point c).
Proof.
  intro H. unfold encode_code_point.
  div_mod_facts c 0x40. div_mod_facts q 0x40. div_mod_facts c 0x1000.
  div_mod_facts q1 0x40. div_mod_facts c 0x40000.
  destruct (N.ltb_spec c 0x80); [repeat constructor; lia|].
  destruct (N.ltb_spec c 0x800); [repeat constructor; lia|].
  destruct (N.ltb_spec c 0x10000); repeat constructor; lia.
Qed.

Lemma decode_from_cons (d : decoder) (b : N) (rest : list N) :
  decode_from d (b :: rest) = fst (next_byte d b) ++ decode_from (snd (next_byte d b)) rest.
Proof. cbn [decode_from]. now destruct (next_byte d b). Qed.

Lemma next_byte_ascii (b : N) : b < 0x80 -> next_byte initial b = ([b], initial).
Proof.
  intro H. unfold next_byte, first_byte, initial. cbn [bytes_needed].
  decide_comparisons. reflexivity.
Qed.

Lemma next_byte_lead2 (b : N) :
  0xC2 <= b <= 0xDF ->
  next_byte initial b =
  ([], {| code_point := b - 0xC0; bytes_seen := 0; bytes_needed := 1;
          lower_boundary := 0x80; upper_boundary := 0xBF |}).
Proof.
  intro H. unfold next_byte, first_byte, initial. cbn [bytes_needed].
  decide_comparisons. reflexivity.
Qed.

Lemma next_byte_lead3 (b : N) :
  0xE0 <= b <= 0xEF ->
  next_byte initial b =
  ([], {| code_point := b - 0xE0; bytes_seen := 0; bytes_needed := 2;
          lower_boundary := (if b =? 0xE0 then 0xA0 else 0x80);
          upper_boundary := (if b =? 0xED then 0x9F else 0xBF) |}).
Proof.
  intro H. unfold next_byte, first_byte, initial. cbn [bytes_needed].
  replace (0 =? 0) with true by reflexivity.
  replace (b <=? 0x7F) with false by (symmetry; apply N.leb_gt; lia).
  replace (b <=? 0xDF) with false by (symmetry; apply N.leb_gt; lia).
  replace (0xE0 <=? b) with true by (symmetry; apply N.leb_le; lia).
  replace (b <=? 0xEF) with true by (symmetry; apply N.leb_le; lia).
  now rewrite andb_false_r.
Qed.

Lemma next_byte_lead4 (b : N) :
  0xF0 <= b <= 0xF4 ->
  next_byte initial b =
  ([], {| code_point := b - 0xF0; bytes_seen := 0; bytes_needed := 3;
          lower_boundary := (if b =? 0xF0 then 0x90 else 0x80);
          upper_boundary := (if b =? 0xF4 then 0x8F else 0xBF) |}).
Proof.
  intro H. unfold next_byte, first_byte, initial. cbn [bytes_needed].
  replace (0 =? 0) with true by reflexivity.
  replace (b <=? 0x7F) with false by (symmetry; apply N.leb_gt; lia).
  replace (b <=? 0xDF) with false by (symmetry; apply N.leb_gt; lia).
  replace (b <=? 0xEF) with false by (symmetry; apply N.leb_gt; lia).
  replace (0xF0 <=? b) with true by (symmetry; apply N.leb_le; lia).
  replace (b <=? 0xF4) with true by (symmetry; apply N.leb_le; lia).
  now rewrite !andb_false_r.
Qed.

Lemma next_byte_last (c seen needed lo hi b : N) :
  needed <> 0 -> lo <= b <= hi -> seen + 1 = needed ->
  next_byte {| code_point := c; bytes_seen := seen; bytes_needed := needed;
               lower_boundary := lo; upper_boundary := hi |} b
  = ([c * 0x40 + (b - 0x80)], initial).
Proof.
  intros Hn Hb Hs. unfold next_byte.
  cbn [bytes_needed bytes_seen code_point lower_boundary upper_boundary].
  decide_comparisons. reflexivity.
Qed.

Lemma next_byte_more (c seen needed lo hi b : N) :
  needed <> 0 -> lo <= b <= hi -> seen + 1 <> needed ->
  next_byte {| code_point := c; bytes_seen := seen; bytes_needed := needed;
               lower_boundary := lo; upper_boundary := hi |} b
  = ([], {| code_point := c * 0x40 + (b - 0x80); bytes_seen := seen + 1;
            bytes_needed := needed; lower_boundary := 0x80; upper_boundary := 0xBF |}).
Proof.
  intros Hn Hb Hs. unfold next_byte.
  cbn [bytes_needed bytes_seen code_point lower_boundary upper_boundary].
  decide_comparisons. reflexivity.
Qed.

(** The decoder reads the bytes of a scalar value back as that value. *)
Lemma decode_encode_code_point (c : N) (rest : list N) :
  is_scalar c = true ->
  decode_from initial (encode_code_point c ++ rest) = c :: decode_from initial rest.
Proof.
  intro H. apply is_scalar_spec in H as [Hmax Hsur]. unfold encode_code_point.
  div_mod_facts c 0x40. div_mod_facts q 0x40. div_mod_facts c 0x1000.
  div_mod_facts q1 0x40. div_mod_facts c 0x40000.
  destruct (N.ltb_spec c 0x80); [|destruct (N.ltb_spec c 0x800);
                                  [|destruct (N.ltb_spec c 0x10000)]]; cbn [app].
  - rewrite decode_from_cons, next_byte_ascii by lia. reflexivity.
  - rewrite decode_from_cons, next_byte_lead2 by lia. cbn [fst snd app].
    rewrite decode_from_cons, next_byte_last by lia. cbn [fst snd app].
    f_equal. lia.
  - rewrite decode_from_cons, next_byte_lead3 by lia. cbn [fst snd app].
    rewrite decode_from_cons, next_byte_more;
      [| lia
       | destruct (N.eqb_spec (0xE0 + q1) 0xE0), (N.eqb_spec (0xE0 + q1) 0xED); lia
       | lia].
    cbn [fst snd app].
    rewrite decode_from_cons, next_byte_last by lia. cbn [fst snd app].
    f_equal. lia.
  - rewrite decode_from_cons, next_byte_lead4 by lia. cbn [fst snd app].
    rewrite decode_from_cons, next_byte_more;
      [| lia
       | destruct (N.eqb_spec (0xF0 + q3) 0xF0), (N.eqb_spec (0xF0 + q3) 0xF4); lia
       | lia].
    cbn [fst snd app].
    rewrite decode_from_cons, next_byte_more by lia. cbn [fst snd app].
    rewrite decode_from_cons, next_byte_last by lia. cbn [fst snd app].
    f_equal. lia.
Qed.

(** Decoding undoes encoding, on scalar values. *)
Lemma decode_encode (l : list N) : forallb is_scalar l = true -> decode (encode l) = l.
Proof.
  unfold decode. induction l as [|c l IH]; intro H; [reflexivity|].
  cbn [forallb] in H. apply andb_true_iff in H as [Hc Hl].
  cbn [encode flat_map]. fold (encode l).
  rewrite decode_encode_code_point by exact Hc. now rewrite IH.
Qed.

End Utf8Facts.

(** ** Percent-encoding and the query of a link *)

Section UrlFacts.
Import Utf16 Utf8 Url.

Lemma hex_digits_read_back :
  forallb (fun n => match hex_value (hex_digit n) with
                    | Some m => (m =? n) && is_unreserved (hex_digit n)
                                && negb (hex_digit n =? 0x27)
                    | None => false
                    end) (N_range 0 16) = true.
Proof. vm_compute. reflexivity. Qed.

Lemma hex_digit_spec (n : N) :
  n < 16 ->
  hex_value (hex_digit n) = Some n /\ is_unreserved (hex_digit n) = true
  /\ hex_digit n <> 0x27.
Proof.
  intro H. pose proof (forallb_range _ _ _ hex_digits_read_back n) as T. cbv beta in T.
  destruct (hex_value (hex_digit n)) as [m|]; [|discriminate T; lia].
  apply andb_true_iff in T as [T T3]; [|lia|lia]. apply andb_true_iff in T as [T1 T2].
  apply N.eqb_eq in T1. apply negb_true_iff in T3. apply N.eqb_neq in T3.
  subst. now repeat split.
Qed.

Lemma unreserved_facts :
  forallb (fun u => negb (is_unreserved u)
                    || (negb (u =? 0x25) && negb (u =? 0x2B) && negb (u =? 0x26)
                        && ((u =? 0x27) || negb (in_special_query_set u))))
          (N_range 0 128) = true.
Proof. vm_compute. reflexivity. Qed.

Lemma unreserved_ascii (u : N) : is_unreserved u = true -> u < 0x80.
Proof.
  unfold is_unreserved. intro H.
  repeat (apply orb_true_iff in H as [H|H]); bool_to_prop; lia.
Qed.

Lemma unreserved_spec (u : N) :
  is_unreserved u = true ->
  u < 0x80 /\ u <> 0x25 /\ u <> 0x2B /\ u <> 0x26
  /\ (u <> 0x27 -> in_special_query_set u = false).
Proof.
  intro H. pose proof (unreserved_ascii u H) as Hu.
  pose proof (forallb_range _ _ _ unreserved_facts u) as T. cbv beta in T.
  rewrite H in T. cbn [negb orb] in T.
  apply andb_true_iff in T as [T T4]; [|lia|lia].
  apply andb_true_iff in T as [T T3]. apply andb_true_iff in T as [T1 T2].
  apply negb_true_iff in T1, T2, T3. apply N.eqb_neq in T1, T2, T3.
  repeat split; try assumption. intro Hq. apply N.eqb_neq in Hq.
  rewrite Hq in T4. cbn [orb] in T4. now apply negb_true_iff in T4.
Qed.

Lemma percent_decode_literal (u : N) (rest : list N) :
  u <> 0x25 -> percent_decode (u :: rest) = u :: percent_decode rest.
Proof. intro H. cbn [percent_decode]. apply N.eqb_neq in H. now rewrite H. Qed.

Lemma percent_decode_escape (b : N) (rest : list N) :
  b < 256 -> percent_decode (percent_encode_byte b ++ rest) = b :: percent_decode rest.
Proof.
  intro H. unfold percent_encode_byte. div_mod_facts b 16.
  destruct (hex_digit_spec q) as (Hq & _); [lia|].
  destruct (hex_digit_spec r) as (Hr & _); [lia|].
  cbn [app percent_decode]. rewrite N.eqb_refl, Hq, Hr. f_equal. lia.
Qed.

Lemma plus_to_space_other (u : N) : u <> 0x2B -> plus_to_space u = u.
Proof. intro H. unfold plus_to_space. apply N.eqb_neq in H. now rewrite H. Qed.

Lemma percent_encode_byte_units (b : N) :
  b < 256 ->
  Forall (fun u => u < 0x80 /\ u <> 0x2B /\ u <> 0x26 /\ u <> 0x27
                   /\ in_special_query_set u = false)
         (percent_encode_byte b).
Proof.
  intro H. unfold percent_encode_byte. div_mod_facts b 16.
  destruct (hex_digit_spec q) as (_ & Hq1 & Hq2); [lia|].
  destruct (hex_digit_spec r) as (_ & Hr1 & Hr2); [lia|].
  destruct (unreserved_spec _ Hq1) as (? & ? & ? & ? & Hq3).
  destruct (unreserved_spec _ Hr1) as (? & ? & ? & ? & Hr3).
  repeat constructor; try lia; auto.
Qed.

(** The units of an encoded text: ASCII, none of [+], [&]. *)
Lemma PercentEncodes_units (text bytes : list N) :
  PercentEncodes text bytes ->
  Forall (fun u => u < 0x80 /\ u <> 0x2B /\ u <> 0x26) text.
Proof.
  induction 1 as [| u text bytes Hu _ IH | b text bytes Hb _ IH].
  - constructor.
  - constructor; [|exact IH]. apply unreserved_spec in Hu. tauto.
  - apply Forall_app. split; [|exact IH].
    generalize (percent_encode_byte_units b Hb). apply Forall_impl. tauto.
Qed.

(** The urlencoded parser reads the encoded bytes back. *)
Lemma PercentEncodes_decode (text bytes : list N) :
  PercentEncodes text bytes -> percent_decode (map plus_to_space text) = bytes.
Proof.
  induction 1 as [| u text bytes Hu _ IH | b text bytes Hb _ IH].
  - reflexivity.
  - apply unreserved_spec in Hu as (_ & H1 & H2 & _).
    cbn [map]. rewrite plus_to_space_other by exact H2.
    rewrite percent_decode_literal by exact H1. now rewrite IH.
  - rewrite map_app.
    assert (Hid : map plus_to_space (percent_encode_byte b) = percent_encode_byte b).
    { pose proof (percent_encode_byte_units b Hb) as Hf.
      rewrite <- (map_id (percent_encode_byte b)) at 2.
      apply map_ext_in. intros u Hu. rewrite Forall_forall in Hf.
      apply plus_to_space_other. now apply Hf in Hu. }
    rewrite Hid, percent_decode_escape by exact Hb. now rewrite IH.
Qed.

Lemma PercentEncodes_bytes (escaped text bytes : list N) :
  Forall (fun b => b < 256) escaped -> PercentEncodes text bytes ->
  PercentEncodes (flat_map percent_encode_byte escaped ++ text) (escaped ++ bytes).
Proof.
  induction 1 as [|b escaped Hb _ IH]; intro H; [exact H|].
  cbn [flat_map app]. rewrite <- app_assoc. constructor; [exact Hb | now apply IH].
Qed.

Lemma encode_code_point_ascii (u : N) : u < 0x80 -> encode_code_point u = [u].
Proof.
  intro H. unfold encode_code_point.
  now replace (u <? 0x80) with true by (symmetry; apply N.ltb_lt; lia).
Qed.

Lemma unreserved_not_surrogate (u : N) :
  is_unreserved u = true -> is_high_surrogate u = false /\ is_surrogate u = false.
Proof.
  intro H. apply unreserved_ascii in H. unfold is_high_surrogate, is_surrogate.
  replace (0xD800 <=? u) with false by (symmetry; apply N.leb_gt; lia). now split.
Qed.

Lemma well_formed_cons (u : N) (rest : jsstring) :
  is_high_surrogate u = false -> well_formed (u :: rest) = true ->
  is_code_unit u = true /\ is_surrogate u = false /\ well_formed rest = true.
Proof.
  intros Hh H. unfold well_formed in *. rewrite code_points_not_high in H by exact Hh.
  cbn [forallb] in H. apply andb_true_iff in H as [H1 H2].
  apply andb_true_iff in H1 as [Hu H1]. apply andb_true_iff in H2 as [Hs H2].
  apply negb_true_iff in Hs. now rewrite H1, H2.
Qed.

Lemma well_formed_pair (hi lo : N) (rest : jsstring) :
  is_high_surrogate hi && is_low_surrogate lo = true ->
  well_formed (hi :: lo :: rest) = true -> well_formed rest = true.
Proof.
  intros Hp H. unfold well_formed in *. rewrite code_points_pair in H by exact Hp.
  cbn [forallb] in H. apply andb_true_iff in H as [H1 H2].
  apply andb_true_iff in H1 as [_ H1]. apply andb_true_iff in H1 as [_ H1].
  apply andb_true_iff in H2 as [_ H2]. now rewrite H1, H2.
Qed.

Lemma pair_code_point_bound (hi lo : N) :
  is_high_surrogate hi && is_low_surrogate lo = true -> pair_code_point hi lo < 0x110000.
Proof.
  unfold is_high_surrogate, is_low_surrogate, pair_code_point. intro H.
  bool_to_prop. lia.
Qed.

Lemma surrogate_halves (u : N) :
  is_surrogate u = false -> is_high_surrogate u = false /\ is_low_surrogate u = false.
Proof.
  unfold is_surrogate, is_high_surrogate, is_low_surrogate. intro H.
  destruct (N.leb_spec 0xD800 u), (N.leb_spec u 0xDFFF); cbn [andb] in *;
    try discriminate; split;
    repeat match goal with
           | |- context [N.leb ?a ?b] => destruct (N.leb_spec a b); cbn [andb]
           end; try reflexivity; lia.
Qed.

(** On a well-formed string [encodeURIComponent] returns, with a text that
    percent-encodes the UTF-8 bytes of the string. *)
Lemma encodeURIComponent_well_formed (s : jsstring) :
  well_formed s = true ->
  exists text, encodeURIComponent s = Some text
               /\ PercentEncodes text (encode (code_points s)).
Proof.
  assert (Hone : forall u rest text,
             is_high_surrogate u = false -> is_low_surrogate u = false ->
             is_code_unit u = true ->
             encodeURIComponent rest = Some text ->
             PercentEncodes text (encode (code_points rest)) ->
             exists text', encodeURIComponent (u :: rest) = Some text'
                           /\ PercentEncodes text' (encode (code_points (u :: rest)))).
  { intros u rest text Hh Hl Hu E P.
    rewrite code_points_not_high by exact Hh.
    cbn [encodeURIComponent encode flat_map]. fold (encode (code_points rest)).
    rewrite E, Hh, Hl. destruct (is_unreserved u) eqn:Eu; cbn [option_map].
    - eexists. split; [reflexivity|].
      rewrite encode_code_point_ascii by now apply unreserved_ascii.
      now constructor.
    - eexists. split; [reflexivity|]. unfold percent_encode_code_point.
      apply PercentEncodes_bytes; [|exact P]. apply encode_code_point_bytes.
      unfold is_code_unit in Hu. apply N.ltb_lt in Hu. lia. }
  induction s as [| u | hi lo rest Hp IH | u v rest Hs IH] using code_points_ind;
    intro H.
  - exists []. split; [reflexivity | constructor].
  - assert (Hh : is_high_surrogate u = false).
    { unfold well_formed in H. cbn [code_points forallb] in H.
      apply andb_true_iff in H as [_ H]. rewrite andb_true_r in H.
      apply negb_true_iff in H. now apply surrogate_halves in H. }
    destruct (well_formed_cons u [] Hh H) as (Hu & Hsur & _).
    apply surrogate_halves in Hsur as [_ Hl].
    apply (Hone u [] []); try assumption; [reflexivity | constructor].
  - destruct (IH (well_formed_pair hi lo rest Hp H)) as (text & E & P).
    rewrite code_points_pair by exact Hp.
    pose proof Hp as Hp'. apply andb_true_iff in Hp' as [Hhi Hlo].
    assert (Hun : is_unreserved hi = false).
    { destruct (is_unreserved hi) eqn:Eu; [|reflexivity].
      apply unreserved_not_surrogate in Eu as [Eu _]. congruence. }
    cbn [encodeURIComponent encode flat_map]. fold (encode (code_points rest)).
    rewrite Hun, Hhi, Hlo, E. cbn [option_map].
    eexists. split; [reflexivity|]. unfold percent_encode_code_point.
    apply PercentEncodes_bytes; [|exact P]. apply encode_code_point_bytes.
    now apply pair_code_point_bound.
  - assert (Hh : is_high_surrogate u = false).
    { unfold well_formed in H. rewrite code_points_single in H by exact Hs.
      cbn [forallb] in H. apply andb_true_iff in H as [_ H].
      apply andb_true_iff in H as [H _]. apply negb_true_iff in H.
      now apply surrogate_halves in H. }
    destruct (well_formed_cons u (v :: rest) Hh H) as (Hu & Hsur & Hwf).
    apply surrogate_halves in Hsur as [_ Hl].
    destruct (IH Hwf) as (text & E & P).
    now apply (Hone u (v :: rest) text).
Qed.

End UrlFacts.

Section QueryFacts.
Import Utf16 Utf8 Url.

Lemma ascii_bmp_scalar (u : N) : u < 0x80 -> is_bmp_scalar u = true.
Proof.
  intro H. unfold is_bmp_scalar, is_code_unit, is_surrogate.
  replace (u <? 0x10000) with true by (symmetry; apply N.ltb_lt; lia).
  now replace (0xD800 <=? u) with false by (symmetry; apply N.leb_gt; lia).
Qed.

Lemma scalar_values_ascii (l : list N) :
  Forall (fun u => u < 0x80) l -> scalar_values l = l.
Proof.
  intro H. unfold scalar_values. rewrite code_points_bmp.
  - rewrite <- (map_id l) at 2. apply map_ext_in. intros u Hu.
    rewrite Forall_forall in H. apply H in Hu. apply ascii_bmp_scalar in Hu.
    apply andb_true_iff in Hu as [_ Hu]. apply negb_true_iff in Hu. now rewrite Hu.
  - revert H. apply Forall_impl. apply ascii_bmp_scalar.
Qed.

Lemma encode_ascii (l : list N) : Forall (fun u => u < 0x80) l -> encode l = l.
Proof.
  induction 1 as [|u l Hu _ IH]; [reflexivity|].
  cbn [encode flat_map]. fold (encode l).
  now rewrite encode_code_point_ascii, IH.
Qed.

Lemma split_on_absent (separator : N) (l : list N) :
  ~ In separator l -> split_on separator l = [l].
Proof.
  induction l as [|b l IH]; intro H; [reflexivity|].
  cbn [split_on]. destruct (N.eqb_spec b separator) as [->|Hne].
  - exfalso. apply H. now left.
  - rewrite IH; [reflexivity|]. intro Hin. apply H. now right.
Qed.

Lemma special_query_encode_ascii (text : jsstring) :
  Forall (fun u => u < 0x80) text ->
  special_query_encode text =
  flat_map (fun u => if in_special_query_set u then percent_encode_byte u else [u]) text.
Proof.
  intro H. unfold special_query_encode. rewrite scalar_values_ascii by exact H.
  induction H as [|u text Hu _ IH]; [reflexivity|].
  cbn [flat_map]. rewrite IH. f_equal.
  unfold percent_encode_code_point, code_units.
  rewrite encode_code_point_ascii by exact Hu. cbn [flat_map]. rewrite app_nil_r.
  now replace (u <? 0x10000) with true by (symmetry; apply N.ltb_lt; lia).
Qed.

(** The query state keeps the text readable: it only escapes the apostrophe. *)
Lemma PercentEncodes_special_query (text bytes : list N) :
  PercentEncodes text bytes -> PercentEncodes (special_query_encode text) bytes.
Proof.
  intro H. rewrite special_query_encode_ascii.
  2:{ generalize (PercentEncodes_units _ _ H). apply Forall_impl. tauto. }
  induction H as [| u text bytes Hu _ IH | b text bytes Hb _ IH].
  - constructor.
  - cbn [flat_map]. destruct (N.eq_dec u 0x27) as [->|Hq].
    + change (in_special_query_set 0x27) with true. cbv iota.
      constructor; [lia | exact IH].
    + apply unreserved_spec in Hu as Hu'. destruct Hu' as (_ & _ & _ & _ & Hs).
      rewrite (Hs Hq). cbn [app]. now constructor.
  - rewrite flat_map_app.
    assert (Hid : flat_map (fun u => if in_special_query_set u
                                     then percent_encode_byte u else [u])
                           (percent_encode_byte b) = percent_encode_byte b).
    { pose proof (percent_encode_byte_units b Hb) as Hf.
      induction Hf as [|u l Hu _ IHl]; [reflexivity|].
      cbn [flat_map]. destruct Hu as (_ & _ & _ & _ & Hu). now rewrite Hu, IHl. }
    rewrite Hid. now constructor.
Qed.

Lemma name_literals :
  split_on 0x26 [] = [[]]
  /\ decode_component [0x6E; 0x61; 0x6D; 0x65] = str "name"
  /\ strict_eq (str "name") (from_code_points (scalar_values (str "name"))) = true
  /\ str "name=" = [0x6E; 0x61; 0x6D; 0x65; 0x3D]
  /\ str "details.html?name=" = str "details.html?" ++ str "name=".
Proof. repeat split. Qed.

(** The parameter [name] of a search [?name=text] is what the text encodes. *)
Lemma getQueryParameter_name (text bytes : list N) :
  PercentEncodes text bytes ->
  getQueryParameter (str "name") (0x3F :: str "name=" ++ text)
  = Some (from_code_points (decode bytes)).
Proof.
  intro H. destruct name_literals as (_ & L2 & L3 & L4 & _).
  pose proof (PercentEncodes_units _ _ H) as Hu.
  assert (Hascii : Forall (fun u => u < 0x80) (0x3F :: str "name=" ++ text)).
  { constructor; [lia|]. apply Forall_app. split.
    - rewrite L4. repeat constructor; lia.
    - revert Hu. apply Forall_impl. tauto. }
  unfold getQueryParameter, URLSearchParams.
  rewrite scalar_values_ascii by exact Hascii.
  inversion Hascii as [|? ? _ Hrest]; subst.
  rewrite encode_ascii by exact Hrest.
  unfold parse_urlencoded. rewrite split_on_absent.
  2:{ intro Hin. apply in_app_or in Hin as [Hin|Hin].
      - rewrite L4 in Hin. cbn [In] in Hin. intuition lia.
      - rewrite Forall_forall in Hu. apply Hu in Hin. lia. }
  rewrite L4. cbn [app filter is_nil negb map].
  assert (Hsplit : split_first 0x3D (0x6E :: 0x61 :: 0x6D :: 0x65 :: 0x3D :: text)
                   = ([0x6E; 0x61; 0x6D; 0x65], Some text)) by reflexivity.
  unfold parse_pair. rewrite Hsplit, L2. cbn [get]. rewrite L3.
  unfold decode_component. now rewrite (PercentEncodes_decode _ _ H).
Qed.

Lemma special_query_encode_name (text : jsstring) :
  Forall (fun u => u < 0x80) text ->
  special_query_encode (str "name=" ++ text) = str "name=" ++ special_query_encode text.
Proof.
  intro H. destruct name_literals as (_ & _ & _ & L4 & _).
  rewrite !special_query_encode_ascii; [| exact H |].
  - rewrite flat_map_app. f_equal.
  - apply Forall_app. split; [|exact H]. rewrite L4. repeat constructor; lia.
Qed.

Lemma encodeURIComponent_throws (s : jsstring) :
  encodeURIComponent s = None <-> existsb is_surrogate (code_points s) = true.
Proof.
  assert (Hmap : forall (f : jsstring -> jsstring) (o : option jsstring),
             option_map f o = None <-> o = None).
  { intros f [x|]; cbn; split; congruence. }
  assert (Hsur : forall u, is_surrogate u = is_high_surrogate u || is_low_surrogate u).
  { intro u. unfold is_surrogate, is_high_surrogate, is_low_surrogate.
    destruct (N.leb_spec 0xD800 u), (N.leb_spec u 0xDBFF), (N.leb_spec 0xDC00 u),
      (N.leb_spec u 0xDFFF); cbn [andb orb]; try reflexivity; lia. }
  assert (Hun : forall u, is_unreserved u = true -> is_surrogate u = false).
  { intros u Hu. now apply unreserved_not_surrogate in Hu. }
  induction s as [| u | hi lo rest Hp IH | u v rest Hs IH] using code_points_ind.
  - cbn. split; discriminate.
  - cbn [encodeURIComponent code_points existsb]. rewrite orb_false_r.
    destruct (is_unreserved u) eqn:Eu.
    + rewrite (Hun u Eu). cbn. split; discriminate.
    + rewrite Hsur. destruct (is_high_surrogate u); [cbn; tauto|].
      destruct (is_low_surrogate u); cbn; [tauto | split; discriminate].
  - rewrite code_points_pair by exact Hp. cbn [existsb].
    pose proof Hp as Hp'. apply andb_true_iff in Hp' as [Hhi Hlo].
    assert (Hnot : is_unreserved hi = false).
    { destruct (is_unreserved hi) eqn:Eu; [|reflexivity].
      apply unreserved_not_surrogate in Eu as [Eu _]. congruence. }
    cbn [encodeURIComponent]. rewrite Hnot, Hhi, Hlo, Hmap, IH.
    replace (is_surrogate (pair_code_point hi lo)) with false; [reflexivity|].
    symmetry. unfold is_surrogate, pair_code_point.
    replace (0x10000 + (hi - 0xD800) * 0x400 + (lo - 0xDC00) <=? 0xDFFF) with false
      by (symmetry; apply N.leb_gt; lia).
    apply andb_false_r.
  - rewrite code_points_single by exact Hs.
    change (existsb is_surrogate (u :: code_points (v :: rest)))
      with (is_surrogate u || existsb is_surrogate (code_points (v :: rest))).
    cbn [encodeURIComponent]. destruct (is_unreserved u) eqn:Eu.
    + rewrite (Hun u Eu), Hmap. exact IH.
    + rewrite Hsur. destruct (is_high_surrogate u) eqn:Eh.
      * cbn [orb]. cbn [andb] in Hs. rewrite Hs. tauto.
      * destruct (is_low_surrogate u); cbn [orb]; [tauto|].
        rewrite Hmap. exact IH.
Qed.

End QueryFacts.

(** X11. The link of a grid card leads back to its country: for a
    well-formed name the link is [details.html?name=...] and
    [getQueryParameter('name')] reads the very name out of its query, as
    written and as the URL parser of an http, https or file page stores it
    (the apostrophe escaped). *)
Theorem card_link_round_trip :
  forall country : Country,
    Utf16.well_formed (name country) = true ->
    exists query,
      Url.card_href country = Some (str "details.html?" ++ query)
      /\ getQueryParameter (str "name") (0x3F :: query) = Some (name country)
      /\ getQueryParameter (str "name") (0x3F :: Url.special_query_encode query)
         = Some (name country).
Proof.
  intros country Hwf.
  destruct (encodeURIComponent_well_formed _ Hwf) as (text & E & P).
  destruct name_literals as (_ & _ & _ & _ & L5).
  assert (Hback : Utf16.from_code_points
                    (Utf8.decode (Utf8.encode (Utf16.code_points (name country))))
                  = name country).
  { rewrite decode_encode by now apply well_formed_scalar.
    apply from_code_points_code_points. unfold Utf16.well_formed in Hwf.
    now apply andb_true_iff in Hwf. }
  exists (str "name=" ++ text). split; [|split].
  - unfold Url.card_href. rewrite E. cbn [option_map]. now rewrite L5, <- app_assoc.
  - rewrite (getQueryParameter_name text _ P). now rewrite Hback.
  - rewrite special_query_encode_name.
    + rewrite (getQueryParameter_name _ _ (PercentEncodes_special_query _ _ P)).
      now rewrite Hback.
    + generalize (PercentEncodes_units _ _ P). apply Forall_impl. tauto.
Qed.

Lemma card_link_round_trip_witness :
  exists query,
    Url.card_href (Mexico (PopulationNumber 0) [] []) = Some (str "details.html?" ++ query)
    /\ getQueryParameter (str "name") (0x3F :: query)
       = Some (name (Mexico (PopulationNumber 0) [] []))
    /\ getQueryParameter (str "name") (0x3F :: Url.special_query_encode query)
       = Some (name (Mexico (PopulationNumber 0) [] [])).
Proof.
  apply (card_link_round_trip (Mexico (PopulationNumber 0) [] [])).
  vm_compute. reflexivity.
Defined.

(** X12. The link of a grid card cannot be built exactly for the names that
    hold an unpaired surrogate: there [encodeURIComponent] throws its
    URIError, on every other name it returns. *)
Theorem card_href_fails_on_unpaired_surrogate :
  forall country : Country,
    Url.card_href country = None
    <-> existsb Utf16.is_surrogate (Utf16.code_points (name country)) = true.
Proof.
  intro country. unfold Url.card_href. split; intro H.
  - apply encodeURIComponent_throws.
    destruct (Url.encodeURIComponent (name country)); [discriminate H | reflexivity].
  - apply encodeURIComponent_throws in H. now rewrite H.
Qed.

(** ** The detail page *)

Section DetailsFacts.

Lemma falsy_false (v : option jsstring) :
  falsy v = false -> exists n, v = Some n /\ n <> [].
Proof.
  destruct v as [[|u n]|]; try discriminate. intros _. exists (u :: n).
  split; [reflexivity | discriminate].
Qed.

Lemma remove_children_nil (children : list Element) : remove_children children = [].
Proof. induction children as [|c l IH]; [reflexivity | exact IH]. Qed.

Lemma fetchData_details_failure (net : fetch_outcome) (d : DetailsPage) :
  fetch_fails net = true ->
  fetchData_details net d =
  (Throw (fetch_error net),
   {| section_children := section_children d; loader_display := loader_display d;
      details_console := details_console d
                         ++ [ErrorCall (ConsoleError "Error fetching data:"
                                                     (fetch_error net))] |}).
Proof.
  intro H. unfold fetchData_details. now rewrite fetchData_failure.
Qed.

Lemma fetchData_details_success (st : string) (countries : list Country)
      (d : DetailsPage) :
  fetchData_details (Response true st (JsonArray countries)) d = (Normal countries, d).
Proof.
  unfold fetchData_details. rewrite fetchData_success. cbn [console map].
  rewrite app_nil_r. now destruct d.
Qed.

Lemma details_loaded_no_name (search : jsstring) (net : fetch_outcome) (d : DetailsPage) :
  falsy (getQueryParameter (str "name") search) = true ->
  details_loaded search net d
  = (Normal tt, finished d (section_children d) [ErrorText "No country name in URL"])
  /\ details_loaded_common search net d
     = (Normal tt, finished d (section_children d) [ErrorText "No country name in URL"]).
Proof.
  intro H. unfold details_loaded, details_loaded_common. rewrite H. split; reflexivity.
Qed.

Lemma details_loaded_fetch_fails (search n : jsstring) (net : fetch_outcome)
      (d : DetailsPage) :
  getQueryParameter (str "name") search = Some n -> n <> [] ->
  fetch_fails net = true ->
  details_loaded search net d
  = (Normal tt,
     finished d (section_children d)
       [ErrorCall (ConsoleError "Error fetching data:" (fetch_error net));
        ErrorCall (ConsoleError "Error fetching country details:" (fetch_error net))])
  /\ details_loaded_common search net d
     = (Normal tt,
        finished d (section_children d)
          [ErrorCall (ConsoleError "Error fetching data:" (fetch_error net));
           ErrorText (message_or_default (fetch_error net))]).
Proof.
  intros Hq Hn Hf. unfold details_loaded, details_loaded_common. rewrite Hq.
  destruct n as [|u n]; [contradiction|]. cbn [falsy].
  unfold try_catch_finally, bindD. rewrite fetchData_details_failure by exact Hf.
  unfold log_call, hideLoader, finished, hidden.
  cbn [section_children loader_display details_console].
  rewrite <- !app_assoc. split; reflexivity.
Qed.

Lemma details_loaded_found (search n : jsstring) (st : string)
      (countries : list Country) (c : Country) (d : DetailsPage) :
  getQueryParameter (str "name") search = Some n -> n <> [] ->
  find (fun x => strict_eq (name x) n) countries = Some c ->
  details_loaded search (Response true st (JsonArray countries)) d
  = (Normal tt, finished d [CountryElement c false] [])
  /\ details_loaded_common search (Response true st (JsonArray countries)) d
     = (Normal tt, finished d [CountryElement c false] []).
Proof.
  intros Hq Hn Hfind. unfold details_loaded, details_loaded_common. rewrite Hq.
  destruct n as [|u n]; [contradiction|]. cbn [falsy name_of].
  unfold try_catch_finally, bindD. rewrite fetchData_details_success.
  unfold liftD, Details.findCountryByName, Common.findCountryByName.
  rewrite (array_find_pure (fun x => strict_eq (name x) (u :: n))), Hfind.
  cbn [bindC js_or truthy].
  unfold set_section, appendChild, hideLoader, finished, hidden, createCountryElement.
  cbn [clearAllChildrenFromParent clearElementContent
       section_children loader_display details_console].
  rewrite remove_children_nil, app_nil_r. split; reflexivity.
Qed.

Lemma details_loaded_not_found (search n : jsstring) (st : string)
      (countries : list Country) (d : DetailsPage) :
  getQueryParameter (str "name") search = Some n -> n <> [] ->
  find (fun x => strict_eq (name x) n) countries = None ->
  details_loaded search (Response true st (JsonArray countries)) d
  = (Normal tt,
     finished d (section_children d)
       [ErrorCall (ConsoleError "Error fetching country details:"
                                (Error (not_found_message n)))])
  /\ details_loaded_common search (Response true st (JsonArray countries)) d
     = (Normal tt,
        finished d (section_children d)
          [ErrorText (message_or_default (Error (not_found_message n)))]).
Proof.
  intros Hq Hn Hfind. unfold details_loaded, details_loaded_common. rewrite Hq.
  destruct n as [|u n]; [contradiction|]. cbn [falsy name_of].
  unfold try_catch_finally, bindD. rewrite fetchData_details_success.
  unfold liftD, Details.findCountryByName, Common.findCountryByName.
  rewrite (array_find_pure (fun x => strict_eq (name x) (u :: n))), Hfind.
  cbn [bindC js_or truthy]. split; reflexivity.
Qed.

End DetailsFacts.

Lemma not_found_message_not_empty (n : jsstring) :
  message_or_default (Error (not_found_message n)) = not_found_message n.
Proof. reflexivity. Qed.

(** X13. The detail page always comes to rest: whatever the URL and the
    answer of the fetch, both listeners (js/details.js and js/common.js)
    return normally, the loader (when there is one) ends hidden, and the
    section of each holds either what it held or the one detail element of
    a record of the dataset that bears the name of the URL. *)
Theorem details_always_finishes :
  forall (search : jsstring) (net : fetch_outcome) (d : DetailsPage),
    let r := details_loaded search net d in
    let r' := details_loaded_common search net d in
    fst r = Normal tt /\ fst r' = Normal tt
    /\ loader_display (snd r) = hidden (loader_display d)
    /\ loader_display (snd r') = hidden (loader_display d)
    /\ (section_children (snd r) = section_children d
        \/ exists c, section_children (snd r) = [CountryElement c false])
    /\ (section_children (snd r') = section_children d
        \/ exists c, section_children (snd r') = [CountryElement c false])
    /\ (forall c, (section_children (snd r) = [CountryElement c false]
                   \/ section_children (snd r') = [CountryElement c false]) ->
                  section_children d <> [CountryElement c false] ->
                  exists st countries,
                    net = Response true st (JsonArray countries)
                    /\ In c countries
                    /\ getQueryParameter (str "name") search = Some (name c)).
Proof.
  intros search net d r r'. subst r r'.
  destruct (falsy (getQueryParameter (str "name") search)) eqn:Ef.
  - destruct (details_loaded_no_name search net d Ef) as [-> ->].
    cbn [fst snd finished section_children loader_display].
    repeat split; try (now left). intros c [H|H] Hne; contradiction.
  - apply falsy_false in Ef as (n & Hq & Hn).
    destruct (fetch_fails net) eqn:E.
    + destruct (details_loaded_fetch_fails search n net d Hq Hn E) as [-> ->].
      cbn [fst snd finished section_children loader_display].
      repeat split; try (now left). intros c [H|H] Hne; contradiction.
    + apply fetch_succeeds in E as (st & cs & ->).
      destruct (find (fun x => strict_eq (name x) n) cs) as [c|] eqn:Efind.
      * destruct (details_loaded_found search n st cs c d Hq Hn Efind) as [-> ->].
        cbn [fst snd finished section_children loader_display].
        repeat split; try (right; now exists c).
        intros c' Hc' _.
        assert (Hcc : c' = c) by (destruct Hc' as [H|H]; now injection H).
        subst c'. apply find_some in Efind as [Hin Heq].
        apply strict_eq_spec in Heq. exists st, cs. rewrite Hq, Heq. now repeat split.
      * destruct (details_loaded_not_found search n st cs d Hq Hn Efind) as [-> ->].
        cbn [fst snd finished section_children loader_display].
        repeat split; try (now left). intros c [H|H] Hne; contradiction.
Qed.

(** X14. When the dataset arrives and holds the name of the URL, both
    listeners replace the content of the section by the detail element of
    the first record of that name, hide the loader and log nothing. *)
Theorem details_shows_first_match :
  forall (search n : jsstring) (st : string) (before after : list Country)
         (c : Country) (d : DetailsPage),
    getQueryParameter (str "name") search = Some n -> n <> [] ->
    name c = n -> Forall (fun x => name x <> n) before ->
    let net := Response true st (JsonArray (before ++ c :: after)) in
    snd (details_loaded search net d) = finished d [CountryElement c false] []
    /\ snd (details_loaded_common search net d)
       = finished d [CountryElement c false] [].
Proof.
  intros search n st before after c d Hq Hn Hc Hb net. subst net.
  assert (Hfind : find (fun x => strict_eq (name x) n) (before ++ c :: after) = Some c).
  { apply find_first_match. now exists before, after. }
  destruct (details_loaded_found search n st _ c d Hq Hn Hfind) as [-> ->].
  split; reflexivity.
Qed.

Lemma details_shows_first_match_witness :
  snd (details_loaded (str "?name=Congo")
         (Response true "OK" (JsonArray ([] ++ Congo_Kinshasa :: [Congo_Brazzaville])))
         {| section_children := []; loader_display := Some "block"%string;
            details_console := [] |})
  = finished {| section_children := []; loader_display := Some "block"%string;
                details_console := [] |}
             [CountryElement Congo_Kinshasa false] [].
Proof.
  apply (details_shows_first_match (str "?name=Congo") (str "Congo") "OK" []
           [Congo_Brazzaville] Congo_Kinshasa).
  - vm_compute. reflexivity.
  - discriminate.
  - reflexivity.
  - constructor.
Defined.

(** X15. When the dataset arrives without the name of the URL, both
    listeners leave the section as it is, hide the loader and log the
    not-found error, js/details.js as an error under its label,
    js/common.js as the text of the message. *)
Theorem details_not_found :
  forall (search n : jsstring) (st : string) (countries : list Country)
         (d : DetailsPage),
    getQueryParameter (str "name") search = Some n -> n <> [] ->
    (forall r, In r countries -> name r <> n) ->
    let net := Response true st (JsonArray countries) in
    details_loaded search net d
    = (Normal tt,
       finished d (section_children d)
         [ErrorCall (ConsoleError "Error fetching country details:"
                                  (Error (not_found_message n)))])
    /\ details_loaded_common search net d
       = (Normal tt, finished d (section_children d) [ErrorText (not_found_message n)]).
Proof.
  intros search n st countries d Hq Hn Hnone net. subst net.
  pose proof (find_none countries n Hnone) as Hfind.
  destruct (details_loaded_not_found search n st countries d Hq Hn Hfind) as [-> ->].
  split; reflexivity.
Qed.

Lemma details_not_found_witness :
  details_loaded (str "?name=Nonexistent")
    (Response true "OK" (JsonArray [Congo_Kinshasa]))
    {| section_children := []; loader_display := None; details_console := [] |}
  = (Normal tt,
     finished {| section_children := []; loader_display := None; details_console := [] |}
       []
       [ErrorCall (ConsoleError "Error fetching country details:"
                                (Error (not_found_message (str "Nonexistent"))))]).
Proof.
  apply (details_not_found (str "?name=Nonexistent") (str "Nonexistent") "OK"
           [Congo_Kinshasa]).
  - vm_compute. reflexivity.
  - discriminate.
  - intros r [<- | []]. vm_compute. discriminate.
Defined.

(** X16. Without a name in the URL (no parameter [name], or an empty one)
    nothing is fetched: whatever the network would answer, both listeners
    hide the loader, log [No country name in URL] and leave the section. *)
Theorem details_without_name :
  forall (search : jsstring) (net : fetch_outcome) (d : DetailsPage),
    falsy (getQueryParameter (str "name") search) = true ->
    details_loaded search net d
    = (Normal tt, finished d (section_children d) [ErrorText "No country name in URL"])
    /\ details_loaded_common search net d = details_loaded search net d.
Proof.
  intros search net d H.
  destruct (details_loaded_no_name search net d H) as [-> ->]. split; reflexivity.
Qed.

Lemma details_without_name_witness :
  details_loaded (str "?name=&region=Europe")
    (Response true "OK" (JsonArray [Congo_Kinshasa]))
    {| section_children := []; loader_display := Some "block"%string;
       details_console := [] |}
  = (Normal tt,
     finished {| section_children := []; loader_display := Some "block"%string;
                 details_console := [] |}
       [] [ErrorText "No country name in URL"]).
Proof.
  apply (details_without_name (str "?name=&region=Europe")).
  vm_compute. reflexivity.
Defined.

(** X17. When the fetch fails, both listeners leave the section, hide the
    loader and log twice: [fetchData] first, then the listener, with the
    same error (js/common.js logs its message, or a default text when the
    message is empty). *)
Theorem details_fetch_failure :
  forall (search n : jsstring) (net : fetch_outcome) (d : DetailsPage),
    getQueryParameter (str "name") search = Some n -> n <> [] ->
    fetch_fails net = true ->
    details_loaded search net d
    = (Normal tt,
       finished d (section_children d)
         [ErrorCall (ConsoleError "Error fetching data:" (fetch_error net));
          ErrorCall (ConsoleError "Error fetching country details:" (fetch_error net))])
    /\ details_loaded_common search net d
       = (Normal tt,
          finished d (section_children d)
            [ErrorCall (ConsoleError "Error fetching data:" (fetch_error net));
             ErrorText (match fetch_error net with
                        | Error EmptyString => "Error fetching country details"
                        | Error message => message
                        end)]).
Proof.
  intros search n net d Hq Hn Hf.
  destruct (details_loaded_fetch_fails search n net d Hq Hn Hf) as [-> ->].
  split; reflexivity.
Qed.

Lemma details_fetch_failure_witness :
  details_loaded (str "?name=Congo") (Response false "Not Found" (JsonArray []))
    {| section_children := []; loader_display := Some "block"%string;
       details_console := [] |}
  = (Normal tt,
     finished {| section_children := []; loader_display := Some "block"%string;
                 details_console := [] |}
       []
       [ErrorCall (ConsoleError "Error fetching data:"
                     (fetch_error (Response false "Not Found" (JsonArray []))));
        ErrorCall (ConsoleError "Error fetching country details:"
                     (fetch_error (Response false "Not Found" (JsonArray []))))]).
Proof.
  apply (details_fetch_failure (str "?name=Congo") (str "Congo")
           (Response false "Not Found" (JsonArray []))).
  - vm_compute. reflexivity.
  - discriminate.
  - reflexivity.
Defined.

(** X18. The two variants of the detail page differ in their console only:
    on every URL and every answer of the fetch they return alike and leave
    the same section and the same loader. *)
Theorem details_variants_agree :
  forall (search : jsstring) (net : fetch_outcome) (d : DetailsPage),
    fst (details_loaded_common search net d) = fst (details_loaded search net d)
    /\ section_children (snd (details_loaded_common search net d))
       = section_children (snd (details_loaded search net d))
    /\ loader_display (snd (details_loaded_common search net d))
       = loader_display (snd (details_loaded search net d)).
Proof.
  intros search net d.
  destruct (falsy (getQueryParameter (str "name") search)) eqn:Ef.
  - destruct (details_loaded_no_name search net d Ef) as [-> ->]. repeat split.
  - apply falsy_false in Ef as (n & Hq & Hn).
    destruct (fetch_fails net) eqn:E.
    + destruct (details_loaded_fetch_fails search n net d Hq Hn E) as [-> ->].
      repeat split.
    + apply fetch_succeeds in E as (st & cs & ->).
      destruct (find (fun x => strict_eq (name x) n) cs) as [c|] eqn:Efind.
      * destruct (details_loaded_found search n st cs c d Hq Hn Efind) as [-> ->].
        repeat split.
      * destruct (details_loaded_not_found search n st cs d Hq Hn Efind) as [-> ->].
        repeat split.
Qed.

(** X19. From the grid to the detail page: in a dataset of unique names,
    the link of the card of a country with a well-formed, non-empty name
    opens a detail page that shows exactly that country, with the query as
    written and as the URL parser stores it. *)
Theorem card_link_opens_country :
  forall (countries : list Country) (country : Country) (st : string) (d : DetailsPage),
    NoDup (map name countries) -> In country countries ->
    Utf16.well_formed (name country) = true -> name country <> [] ->
    exists query,
      Url.card_href country = Some (str "details.html?" ++ query)
      /\ snd (details_loaded (0x3F :: query) (Response true st (JsonArray countries)) d)
         = finished d [CountryElement country false] []
      /\ snd (details_loaded (0x3F :: Url.special_query_encode query)
                             (Response true st (JsonArray countries)) d)
         = finished d [CountryElement country false] [].
Proof.
  intros countries country st d Hnd Hin Hwf Hne.
  destruct (encodeURIComponent_well_formed _ Hwf) as (text & E & P).
  destruct name_literals as (_ & _ & _ & _ & L5).
  assert (Hback : Utf16.from_code_points
                    (Utf8.decode (Utf8.encode (Utf16.code_points (name country))))
                  = name country).
  { rewrite decode_encode by now apply well_formed_scalar.
    apply from_code_points_code_points. unfold Utf16.well_formed in Hwf.
    now apply andb_true_iff in Hwf. }
  assert (Hfind : find (fun x => strict_eq (name x) (name country)) countries
                  = Some country).
  { apply find_first_match.
    destruct (unique_name_first countries country Hnd Hin) as (b & a & H1 & H2).
    now exists b, a. }
  assert (Hq1 : getQueryParameter (str "name") (0x3F :: str "name=" ++ text)
                = Some (name country)).
  { rewrite (getQueryParameter_name text _ P). now rewrite Hback. }
  assert (Hq2 : getQueryParameter (str "name")
                  (0x3F :: Url.special_query_encode (str "name=" ++ text))
                = Some (name country)).
  { rewrite special_query_encode_name.
    - rewrite (getQueryParameter_name _ _ (PercentEncodes_special_query _ _ P)).
      now rewrite Hback.
    - generalize (PercentEncodes_units _ _ P). apply Forall_impl. tauto. }
  exists (str "name=" ++ text). split; [|split].
  - unfold Url.card_href. rewrite E. cbn [option_map]. now rewrite L5, <- app_assoc.
  - now rewrite (proj1 (details_loaded_found _ _ st countries country d Hq1 Hne Hfind)).
  - now rewrite (proj1 (details_loaded_found _ _ st countries country d Hq2 Hne Hfind)).
Qed.

Lemma card_link_opens_country_witness :
  exists query,
    Url.card_href (Mexico (PopulationNumber 0) [] [])
    = Some (str "details.html?" ++ query)
    /\ snd (details_loaded (0x3F :: query)
              (Response true "OK"
                 (JsonArray [Mexico (PopulationNumber 0) [] [];
                             Monaco (PopulationNumber 0) [] []]))
              {| section_children := []; loader_display := None; details_console := [] |})
       = finished {| section_children := []; loader_display := None;
                     details_console := [] |}
                  [CountryElement (Mexico (PopulationNumber 0) [] []) false] []
    /\ snd (details_loaded (0x3F :: Url.special_query_encode query)
              (Response true "OK"
                 (JsonArray [Mexico (PopulationNumber 0) [] [];
                             Monaco (PopulationNumber 0) [] []]))
              {| section_children := []; loader_display := None; details_console := [] |})
       = finished {| section_children := []; loader_display := None;
                     details_console := [] |}
                  [CountryElement (Mexico (PopulationNumber 0) [] []) false] [].
Proof.
  apply (card_link_opens_country
           [Mexico (PopulationNumber 0) [] []; Monaco (PopulationNumber 0) [] []]
           (Mexico (PopulationNumber 0) [] []) "OK").
  - repeat constructor; vm_compute; intuition discriminate.
  - now left.
  - vm_compute. reflexivity.
  - discriminate.
Defined.

(** ** The theme toggle *)

Section ThemeFacts.

Lemma getItem_setItem (key value : string) (storage : list (string * string)) :
  Storage.getItem key (Storage.setItem key value storage) = Some value.
Proof.
  induction storage as [|[k v] rest IH]; cbn [Storage.setItem Storage.getItem].
  - now rewrite String.eqb_refl.
  - destruct (String.eqb key k) eqn:E; cbn [Storage.getItem]; now rewrite E.
Qed.

Lemma getItem_setItem_other (key other value : string)
      (storage : list (string * string)) :
  other <> key ->
  Storage.getItem other (Storage.setItem key value storage)
  = Storage.getItem other storage.
Proof.
  intro H. apply String.eqb_neq in H.
  induction storage as [|[k v] rest IH]; cbn [Storage.setItem Storage.getItem].
  - now rewrite H.
  - destruct (String.eqb key k) eqn:E; cbn [Storage.getItem].
    + apply String.eqb_eq in E. subst k. now rewrite H.
    + now rewrite IH.
Qed.

Lemma contains_add (token other : string) (classes : list string) :
  ClassList.contains other (ClassList.add token classes)
  = ClassList.contains other classes || String.eqb other token.
Proof.
  unfold ClassList.add. destruct (ClassList.contains token classes) eqn:E.
  - destruct (String.eqb_spec other token) as [->|Hne].
    + now rewrite E.
    + now rewrite orb_false_r.
  - apply contains_snoc.
Qed.

Lemma toggle_answer (token : string) (classes : list string) :
  fst (ClassList.toggle token classes) = negb (ClassList.contains token classes).
Proof. unfold ClassList.toggle. now destruct (ClassList.contains token classes). Qed.

Lemma theme_toggle_click_run (t : ThemePage) :
  theme_toggle_click t =
  {| body_classes := snd (ClassList.toggle "dark-theme" (body_classes t));
     theme_text := (if negb (is_dark t) then "Light Mode" else "Dark Mode");
     localStorage := Storage.setItem "theme" (if negb (is_dark t) then "dark" else "light")
                                     (localStorage t) |}.
Proof.
  unfold theme_toggle_click, is_dark.
  rewrite <- (toggle_answer "dark-theme" (body_classes t)).
  now destruct (ClassList.toggle "dark-theme" (body_classes t)).
Qed.

Lemma is_dark_click (t : ThemePage) : is_dark (theme_toggle_click t) = negb (is_dark t).
Proof.
  rewrite theme_toggle_click_run. unfold is_dark. cbn [body_classes].
  rewrite contains_toggle. now rewrite String.eqb_refl.
Qed.

Lemma theme_text_click (t : ThemePage) :
  theme_text (theme_toggle_click t)
  = (if is_dark (theme_toggle_click t) then "Light Mode" else "Dark Mode")%string.
Proof. rewrite is_dark_click. now rewrite theme_toggle_click_run. Qed.

End ThemeFacts.

(** X20. A click on the theme toggle flips the class [dark-theme] of the
    body, keeps every other class and every other stored key, and sets both
    the button text and the stored [theme] to the new state; a second click
    brings every class back. *)
Theorem theme_toggle_click_spec :
  forall (t : ThemePage) (token key : string),
    let t1 := theme_toggle_click t in
    is_dark t1 = negb (is_dark t)
    /\ (token <> "dark-theme"%string ->
        ClassList.contains token (body_classes t1)
        = ClassList.contains token (body_classes t))
    /\ theme_text t1 = (if is_dark t1 then "Light Mode" else "Dark Mode")%string
    /\ Storage.getItem "theme" (localStorage t1)
       = Some (if is_dark t1 then "dark" else "light")%string
    /\ (key <> "theme"%string ->
        Storage.getItem key (localStorage t1) = Storage.getItem key (localStorage t))
    /\ ClassList.contains token (body_classes (theme_toggle_click t1))
       = ClassList.contains token (body_classes t).
Proof.
  intros t token key t1. subst t1.
  split; [apply is_dark_click|].
  split.
  { intro H. rewrite theme_toggle_click_run. cbn [body_classes].
    rewrite contains_toggle. apply not_eq_sym in H. apply String.eqb_neq in H.
    now rewrite H. }
  split; [apply theme_text_click|].
  split.
  { rewrite is_dark_click. rewrite theme_toggle_click_run. cbn [localStorage].
    apply getItem_setItem. }
  split.
  { intro H. rewrite theme_toggle_click_run. cbn [localStorage].
    now apply getItem_setItem_other. }
  rewrite !theme_toggle_click_run. cbn [body_classes]. rewrite !contains_toggle.
  destruct (String.eqb "dark-theme" token) eqn:E; [|reflexivity].
  apply String.eqb_eq in E. subst token. apply negb_involutive.
Qed.

(** X21. The theme survives a page change: on a page whose body starts
    without the class [dark-theme], loading with the storage a click left
    behind restores the theme and the button text of that click. *)
Theorem theme_persists :
  forall (t fresh : ThemePage),
    is_dark fresh = false ->
    let saved := theme_toggle_click t in
    let next := theme_loaded {| body_classes := body_classes fresh;
                                theme_text := theme_text fresh;
                                localStorage := localStorage saved |} in
    is_dark next = is_dark saved
    /\ theme_text next = theme_text saved
    /\ localStorage next = localStorage saved.
Proof.
  intros t fresh Hfresh saved next.
  assert (Hs : Storage.getItem "theme" (localStorage saved)
               = Some (if is_dark saved then "dark" else "light")%string).
  { unfold saved. rewrite is_dark_click, theme_toggle_click_run. cbn [localStorage].
    apply getItem_setItem. }
  assert (Ht : theme_text saved
               = (if is_dark saved then "Light Mode" else "Dark Mode")%string)
    by apply theme_text_click.
  subst next. unfold theme_loaded. cbn [localStorage body_classes]. rewrite Hs, Ht.
  unfold is_dark in Hfresh.
  destruct (is_dark saved).
  - rewrite String.eqb_refl. unfold is_dark. cbn [body_classes theme_text localStorage].
    rewrite contains_add, String.eqb_refl, orb_true_r. repeat split.
  - replace (String.eqb "light" "dark") with false by reflexivity.
    unfold is_dark. cbn [body_classes theme_text localStorage]. rewrite Hfresh.
    repeat split.
Qed.

Lemma theme_persists_witness :
  is_dark (theme_loaded
             {| body_classes := []; theme_text := EmptyString;
                localStorage :=
                  localStorage (theme_toggle_click
                                  {| body_classes := []; theme_text := "Dark Mode";
                                     localStorage := [] |}) |})
  = is_dark (theme_toggle_click {| body_classes := []; theme_text := "Dark Mode";
                                   localStorage := [] |}).
Proof.
  apply (theme_persists {| body_classes := []; theme_text := "Dark Mode";
                           localStorage := [] |}
                        {| body_classes := []; theme_text := EmptyString;
                           localStorage := [] |}).
  reflexivity.
Defined.

(** X22. After the page has loaded, on a body that started without the class
    [dark-theme], and after any number of clicks, the page is dark exactly
    when the saved theme was [dark] and the clicks are even in number, or it
    was not and they are odd; the button text names the other theme. *)
Theorem theme_after_clicks :
  forall (t : ThemePage) (n : nat),
    is_dark t = false ->
    let saved_dark := match Storage.getItem "theme" (localStorage t) with
                      | Some saved => String.eqb saved "dark"
                      | None => false
                      end in
    let t' := clicks n (theme_loaded t) in
    is_dark t' = xorb saved_dark (Nat.odd n)
    /\ theme_text t' = (if is_dark t' then "Light Mode" else "Dark Mode")%string.
Proof.
  intros t n Hfresh saved_dark t'. subst saved_dark t'.
  induction n as [|n [IH1 IH2]].
  - cbn [clicks Nat.odd]. rewrite xorb_false_r. unfold theme_loaded.
    destruct (Storage.getItem "theme" (localStorage t)) as [saved|].
    + destruct (String.eqb saved "dark").
      * unfold is_dark. cbn [body_classes theme_text].
        rewrite contains_add, String.eqb_refl, orb_true_r. now split.
      * unfold is_dark in *. cbn [body_classes theme_text]. rewrite Hfresh. now split.
    + unfold is_dark in *. cbn [body_classes theme_text]. rewrite Hfresh. now split.
  - cbn [clicks]. split; [|apply theme_text_click].
    rewrite is_dark_click, IH1. rewrite Nat.odd_succ, <- Nat.negb_odd.
    destruct (match Storage.getItem "theme" (localStorage t) with
              | Some saved => String.eqb saved "dark"
              | None => false
              end), (Nat.odd n); reflexivity.
Qed.

Lemma theme_after_clicks_witness :
  is_dark (clicks 3 (theme_loaded {| body_classes := ["page"%string];
                                     theme_text := EmptyString;
                                     localStorage := [("theme", "dark")%string] |}))
  = xorb true (Nat.odd 3).
Proof.
  apply (theme_after_clicks {| body_classes := ["page"%string];
                               theme_text := EmptyString;
                               localStorage := [("theme", "dark")%string] |} 3).
  reflexivity.
Defined.

(** ** [fetchData] *)

(** X23. [fetchData] swallows nothing: it throws exactly when the fetch
    fails (request rejected, response not OK, body not JSON), with the error
    of the failure, after one console call; otherwise it returns the dataset
    and the page is as it was. *)
Theorem fetchData_outcomes :
  forall (net : fetch_outcome) (p : Page),
    (fetch_fails net = true ->
     fetchData net p =
     (Throw (fetch_error net),
      {| grid := grid p;
         console := console p ++ [ConsoleError "Error fetching data:" (fetch_error net)];
         toasts := toasts p; search_value := search_value p |}))
    /\ (fetch_fails net = false ->
        exists st countries,
          net = Response true st (JsonArray countries)
          /\ fetchData net p = (Normal countries, p)).
Proof.
  intros net p. split.
  - intro Hfail. unfold fetchData, try_catch, bind, console_error, throw.
    destruct net as [e | ok st body]; cbn [fetch_error]; [reflexivity|].
    destruct ok; cbn [negb]; [|reflexivity].
    destruct body as [e | cs]; [reflexivity | discriminate Hfail].
  - intro Hok. destruct net as [e | ok st body]; [discriminate|].
    destruct ok; [|discriminate]. destruct body as [e | cs]; [discriminate|].
    exists st, cs. split; reflexivity.
Qed.

(** ** Clearing a container, and the white space around a typed text *)

(** X24. [clearAllChildrenFromParent] ends with an empty container whatever
    the number of children and does nothing when there is no container;
    [clearElementContent] of the second variant has the same effect. *)
Theorem clearAllChildrenFromParent_empties :
  forall parentContainer : option (list Element),
    clearAllChildrenFromParent parentContainer
    = match parentContainer with
      | Some _ => Some []
      | None => None
      end
    /\ clearElementContent parentContainer = clearAllChildrenFromParent parentContainer.
Proof.
  intros [children|]; [|split; reflexivity].
  unfold clearAllChildrenFromParent, clearElementContent.
  assert (H : remove_children children = []).
  { induction children as [|c l IH]; [reflexivity | exact IH]. }
  rewrite H. split; reflexivity.
Qed.

(** X25. White space around the typed text does not count: with white space
    before and after it, the listener forwards the criterion of the text
    alone. *)
Theorem surrounding_space_ignored :
  forall (before typed after : jsstring),
    forallb Builtins.is_white_space before = true ->
    forallb Builtins.is_white_space after = true ->
    forwarded_criterion (before ++ typed ++ after) = forwarded_criterion typed.
Proof.
  intros before typed after Hb Ha.
  assert (Hkeep : forall s, forallb Builtins.is_white_space s = true ->
                            strip_invalid s = s).
  { intros s Hs. apply filter_id_iff. revert Hs. apply forallb_weaken.
    intros u Hu. unfold is_letter_or_space. rewrite Hu. apply orb_true_r. }
  unfold forwarded_criterion.
  rewrite !strip_invalid_app, (Hkeep before Hb), (Hkeep after Ha).
  set (x := strip_invalid typed). unfold Builtins.trim.
  rewrite trim_start_app, Hb, trim_start_app.
  destruct (forallb Builtins.is_white_space x) eqn:Ex.
  - rewrite (trim_start_all_space after Ha), (trim_start_all_space x Ex). reflexivity.
  - rewrite rev_app_distr, trim_start_app, forallb_rev, Ha. reflexivity.
Qed.

Lemma surrounding_space_ignored_witness :
  forwarded_criterion (str " " ++ str "Costa Rica" ++ str "  ")
  = forwarded_criterion (str "Costa Rica").
Proof.
  apply (surrounding_space_ignored (str " ") (str "Costa Rica") (str "  "));
    vm_compute; reflexivity.
Defined.

(** ** The grid and the cards that cannot be built *)

Section GridFacts.

(** A card can be built from a well-formed name. *)
Lemma well_formed_can_build (c : Country) :
  Utf16.well_formed (name c) = true -> can_build true c = true.
Proof.
  intro H. destruct (encodeURIComponent_well_formed _ H) as (text & E & _).
  unfold can_build, Url.card_href. now rewrite E.
Qed.

Lemma names_well_formed_can_build (l : list Country) :
  names_well_formed l = true -> forallb (can_build true) l = true.
Proof.
  unfold names_well_formed. apply forallb_weaken. intros c. apply well_formed_can_build.
Qed.

(** No card can be built from a name with an unpaired surrogate. *)
Lemma unpaired_surrogate_no_href (c : Country) :
  existsb Utf16.is_surrogate (Utf16.code_points (name c)) = true ->
  Url.card_href c = None.
Proof.
  intro H. apply encodeURIComponent_throws in H. unfold Url.card_href. now rewrite H.
Qed.

(** The first load, when the dataset arrives: the records are handed to
    [buildCountriesGrid], and what it throws is logged. *)
Lemma initializeGrid_run (st : string) (countries : list Country) (p : Page) :
  initializeGrid (Response true st (JsonArray countries)) p =
  match buildCountriesGrid countries true p with
  | (Normal a, p') => (Normal a, p')
  | (Throw e, p') => console_error "Error initializing grid:" e p'
  end.
Proof.
  unfold initializeGrid, try_catch, bind. rewrite fetchData_success.
  now destruct (buildCountriesGrid countries true p) as [[a|e] p'].
Qed.

Lemma filteredCountries_all (countries : list Country) :
  filteredCountries countries (str "all") true = Normal countries.
Proof.
  rewrite filteredCountries_region. f_equal. apply filter_all. reflexivity.
Qed.

Lemma filteredCountries_Subsequence (countries filtered : list Country)
      (v : jsstring) (b : bool) :
  filteredCountries countries v b = Normal filtered -> Subsequence filtered countries.
Proof.
  destruct b; intro H.
  - rewrite filteredCountries_region in H. injection H as <-. apply filter_Subsequence.
  - rewrite filteredCountries_search in H. injection H as <-. apply filter_Subsequence.
Qed.

(** [updateGrid] when a card cannot be built: the cards before it stay in
    the grid and the error is logged. *)
Lemma updateGrid_stops (v : jsstring) (b : bool) (st : string)
      (countries good rest : list Country) (bad : Country) (p : Page) :
  filteredCountries countries v b = Normal (good ++ bad :: rest) ->
  forallb (can_build true) good = true -> Url.card_href bad = None ->
  updateGrid v b (Response true st (JsonArray countries)) p =
  (Normal tt, {| grid := map (fun c => CountryElement c true) good;
                 console := console p ++ [ConsoleError "Error updating grid:" uri_error];
                 toasts := toasts p; search_value := search_value p |}).
Proof.
  intros H Hgood Hbad. rewrite (updateGrid_run v b st countries _ p H).
  now rewrite (buildCountriesGrid_stops good rest bad p Hgood Hbad).
Qed.

End GridFacts.

(** X5. A text of white space only (the empty text included) is forwarded
    as the empty criterion: when the dataset arrives and every name in it
    is well-formed UTF-16 (so that the link of every card can be built),
    the grid shows a card for every country, in dataset order, no toast is
    shown and nothing is logged. *)
Theorem blank_search_shows_all :
  forall (st : string) (countries : list Country) (p : Page),
    forallb Builtins.is_white_space (search_value p) = true ->
    names_well_formed countries = true ->
    let p' := snd (search_input_listener (Response true st (JsonArray countries)) p) in
    grid p' = map (fun c => CountryElement c true) countries
    /\ toasts p' = toasts p
    /\ console p' = console p.
Proof.
  intros st countries p Hws Hwf p'.
  assert (Hvalid : forallb is_letter_or_space (search_value p) = true).
  { revert Hws. apply forallb_weaken. intros u Hu. unfold is_letter_or_space.
    rewrite Hu. apply orb_true_r. }
  assert (Hcrit : forwarded_criterion (search_value p) = []).
  { unfold forwarded_criterion, strip_invalid.
    rewrite (proj2 (filter_id_iff _ _) Hvalid). now apply trim_all_space. }
  unfold p'. rewrite search_input_listener_run, Hcrit, Hvalid.
  rewrite (updateGrid_success [] false st countries countries).
  - repeat split.
  - rewrite filteredCountries_search. f_equal. apply filter_all.
    intros x _. rewrite normalize_empty. reflexivity.
  - now apply names_well_formed_can_build.
Qed.

Lemma blank_search_shows_all_witness :
  grid (snd (search_input_listener
               (Response true "OK" (JsonArray [Congo_Kinshasa]))
               (empty_page (str "  "))))
  = [CountryElement Congo_Kinshasa true].
Proof.
  apply (blank_search_shows_all "OK" [Congo_Kinshasa] (empty_page (str "  "))).
  - vm_compute. reflexivity.
  - vm_compute. reflexivity.
Defined.

(** X7. When the dataset arrives, [updateGrid] returns normally and
    replaces whatever the grid held by the cards of the records the filter
    keeps, in dataset order, up to the first one whose card cannot be
    built: when every kept name is well-formed UTF-16 the grid holds one
    card per kept record and nothing is logged; when a kept name holds an
    unpaired surrogate, [encodeURIComponent] throws there, the grid holds
    the cards of the kept records before it only, and the error is logged
    under [Error updating grid:]. *)
Theorem updateGrid_shows_filtered :
  forall (filterValue : jsstring) (isRegionFilter : bool) (st : string)
         (countries : list Country) (p : Page),
    let run := updateGrid filterValue isRegionFilter
                          (Response true st (JsonArray countries)) p in
    exists filtered,
      filteredCountries countries filterValue isRegionFilter = Normal filtered
      /\ Subsequence filtered countries
      /\ fst run = Normal tt
      /\ (names_well_formed filtered = true ->
          run = (Normal tt,
                 {| grid := map (fun c => CountryElement c true) filtered;
                    console := console p; toasts := toasts p;
                    search_value := search_value p |}))
      /\ (forall (good rest : list Country) (bad : Country),
          filtered = good ++ bad :: rest ->
          names_well_formed good = true ->
          existsb Utf16.is_surrogate (Utf16.code_points (name bad)) = true ->
          run = (Normal tt,
                 {| grid := map (fun c => CountryElement c true) good;
                    console := console p
                               ++ [ConsoleError "Error updating grid:" uri_error];
                    toasts := toasts p; search_value := search_value p |})).
Proof.
  intros v b st countries p run. subst run.
  destruct (filteredCountries_returns countries v b) as [filtered H].
  exists filtered. split; [exact H|].
  split; [exact (filteredCountries_Subsequence _ _ _ _ H)|].
  split; [apply updateGrid_returns|]. split.
  - intro Hwf. apply (updateGrid_success v b st countries filtered p H).
    now apply names_well_formed_can_build.
  - intros good rest bad -> Hgood Hbad.
    apply (updateGrid_stops v b st countries good rest bad p H).
    + now apply names_well_formed_can_build.
    + now apply unpaired_surrogate_no_href.
Qed.

Lemma updateGrid_shows_filtered_witness :
  updateGrid (str "all") true
    (Response true "OK"
       (JsonArray [Congo_Kinshasa; unpaired_record; Congo_Brazzaville]))
    (empty_page [])
  = (Normal tt,
     {| grid := [CountryElement Congo_Kinshasa true];
        console := [ConsoleError "Error updating grid:" uri_error];
        toasts := []; search_value := [] |}).
Proof.
  destruct (updateGrid_shows_filtered (str "all") true "OK"
              [Congo_Kinshasa; unpaired_record; Congo_Brazzaville] (empty_page []))
    as (filtered & H & _ & _ & _ & Hstop).
  rewrite filteredCountries_all in H. injection H as <-.
  apply (Hstop [Congo_Kinshasa] [Congo_Brazzaville] unpaired_record).
  - reflexivity.
  - vm_compute. reflexivity.
  - vm_compute. reflexivity.
Defined.

(** X8. The first load and the region [all] agree, when the fetch fails and
    when it answers an array of records.  On failure [initializeGrid]
    returns normally, leaves the grid as it was, as [updateGrid('all', true)]
    does, and the console holds the error twice.  On an array it returns
    normally and leaves the grid that [updateGrid('all', true)] leaves: a
    card for every record when every name is well-formed UTF-16, and the
    cards before the first name with an unpaired surrogate otherwise, the
    error then logged under [Error initializing grid:]. *)
Theorem initializeGrid_as_all :
  forall (net : fetch_outcome) (p : Page),
    let first := initializeGrid net p in
    let all := updateGrid (str "all") true net p in
    (fetch_fails net = true ->
     fst first = Normal tt
     /\ grid (snd first) = grid p /\ grid (snd all) = grid p
     /\ console (snd first)
        = console p ++ [ConsoleError "Error fetching data:" (fetch_error net);
                        ConsoleError "Error initializing grid:" (fetch_error net)])
    /\ (forall (st : string) (countries : list Country),
        net = Response true st (JsonArray countries) ->
        fst first = Normal tt
        /\ grid (snd first) = grid (snd all)
        /\ (names_well_formed countries = true ->
            grid (snd first) = map (fun c => CountryElement c true) countries
            /\ console (snd first) = console p)
        /\ (forall (good rest : list Country) (bad : Country),
            countries = good ++ bad :: rest ->
            names_well_formed good = true ->
            existsb Utf16.is_surrogate (Utf16.code_points (name bad)) = true ->
            grid (snd first) = map (fun c => CountryElement c true) good
            /\ console (snd first)
               = console p ++ [ConsoleError "Error initializing grid:" uri_error])).
Proof.
  intros net p first all. subst first all. split.
  - intro E. unfold initializeGrid, updateGrid, try_catch, bind.
    rewrite fetchData_failure by exact E. unfold console_error. cbn [fst snd grid console].
    repeat split. now rewrite <- app_assoc.
  - intros st countries ->.
    rewrite (updateGrid_run (str "all") true st countries countries p
               (filteredCountries_all countries)).
    rewrite initializeGrid_run. split; [|split; [|split]].
    + destruct (buildCountriesGrid_frame countries true p) as ([H1|H1] & _);
        destruct (buildCountriesGrid countries true p) as [[[]|e] p'];
        cbn [fst] in *; try reflexivity; discriminate.
    + now destruct (buildCountriesGrid countries true p) as [[a|e] p'].
    + intro Hwf. apply names_well_formed_can_build in Hwf.
      rewrite (buildCountriesGrid_spec countries true p Hwf). split; reflexivity.
    + intros good rest bad -> Hgood Hbad.
      apply names_well_formed_can_build in Hgood.
      apply unpaired_surrogate_no_href in Hbad.
      rewrite (buildCountriesGrid_stops good rest bad p Hgood Hbad). split; reflexivity.
Qed.

Lemma initializeGrid_as_all_witness :
  grid (snd (initializeGrid
               (Response true "OK"
                  (JsonArray [Congo_Kinshasa; unpaired_record; Congo_Brazzaville]))
               (empty_page [])))
  = [CountryElement Congo_Kinshasa true]
  /\ console (snd (initializeGrid
                     (Response true "OK"
                        (JsonArray [Congo_Kinshasa; unpaired_record; Congo_Brazzaville]))
                     (empty_page [])))
     = [ConsoleError "Error initializing grid:" uri_error].
Proof.
  destruct (initializeGrid_as_all
              (Response true "OK"
                 (JsonArray [Congo_Kinshasa; unpaired_record; Congo_Brazzaville]))
              (empty_page [])) as [_ H].
  destruct (H "OK"%string [Congo_Kinshasa; unpaired_record; Congo_Brazzaville] eq_refl)
    as (_ & _ & _ & Hstop).
  apply (Hstop [Congo_Kinshasa] [Congo_Brazzaville] unpaired_record).
  - reflexivity.
  - vm_compute. reflexivity.
  - vm_compute. reflexivity.
Defined.
